(** * Monobuck: the capture-and-decision pipeline of [mono_core/RealtimeSTT]

    A shallow embedding of [state_machine.py], [vad.py] and the recording
    logic of [audio_recorder.py], and the properties of the specification
    that were checked against it.

    Layout: Python and NumPy primitives ([Py]); the event trace; the state
    machine ([StateMachine]); the two voice-activity gates ([Vad]); the
    recorder ([Recorder]); then the theorems. *)

From Stdlib Require Import String.
From Stdlib Require Import Strings.Byte.
From Stdlib Require Import ZArith List Bool Lia SpecFloat.
From Equations Require Import Equations.
Import ListNotations.

Set Implicit Arguments.
Open Scope string_scope.
Open Scope list_scope.
Open Scope Z_scope.

(* ===================================================================== *)
(** * Python and NumPy primitives *)
(* ===================================================================== *)

Module Py.

(** ** Floats

    A Python [float] is an IEEE 754 binary64 number, a NumPy [float32] a
    binary32 number.  Both are [spec_float] with the matching precision;
    every operation below is the correctly rounded one of [SpecFloat]. *)

Definition float := spec_float.
Definition float32 := spec_float.

(** [float(z)] for a Python [int] (round to nearest even; exact below
    2^53). *)
Definition float_of_int (z : Z) : float := binary_normalize 53 1024 z 0 false.

Definition fmul : float -> float -> float := SFmul 53 1024.
Definition fdiv : float -> float -> float := SFdiv 53 1024.
Definition fsub : float -> float -> float := SFsub 53 1024.
Definition flt (x y : float) : bool := SFltb x y.   (* x < y  *)
Definition fgt (x y : float) : bool := SFltb y x.   (* x > y  *)
Definition fge (x y : float) : bool := SFleb y x.   (* x >= y *)

(** The literal [n/d] written in decimal in the source ([0.01] is
    [decimal 1 100]): the double nearest to the quotient. *)
Definition decimal (n d : Z) : float := fdiv (float_of_int n) (float_of_int d).

Definition fzero : float := S754_zero false.
Definition fone : float := float_of_int 1.

(** Truth value of a number: [0], [0.0] and [-0.0] are false, everything
    else (NaN included) is true. *)
Definition truthy (x : float) : bool := negb (SFeqb x fzero).

(** The integer part of a finite float, towards zero. *)
Definition truncate (x : spec_float) : option Z :=
  match x with
  | S754_zero _ => Some 0
  | S754_finite s m e =>
      let a := match e with
               | Z0 => Zpos m
               | Zpos _ => Zpos m * 2 ^ e
               | Zneg p => Zpos m / 2 ^ Zpos p
               end in
      Some (if s then - a else a)
  | S754_infinity _ | S754_nan => None
  end.

(** [int(x)]: [None] is the [OverflowError] (infinity) or [ValueError]
    (NaN) that Python raises. *)
Definition int_of_float (x : float) : option Z := truncate x.

(** [round(x)] of a float, to the nearest integer, ties to the even one. *)
Definition round_half_even (x : float) : option Z :=
  match x with
  | S754_zero _ => Some 0
  | S754_finite s m e =>
      let a := match e with
               | Z0 => Zpos m
               | Zpos _ => Zpos m * 2 ^ e
               | Zneg p =>
                   let d := 2 ^ Zpos p in
                   let q := Zpos m / d in
                   let r := Zpos m mod d in
                   match Z.compare (2 * r) d with
                   | Lt => q
                   | Gt => q + 1
                   | Eq => if Z.even q then q else q + 1
                   end
               end in
      Some (if s then - a else a)
  | S754_infinity _ | S754_nan => None
  end.

(** ** Bytes and slices *)

Definition bytes := list byte.

Definition len {A} (l : list A) : Z := Z.of_nat (length l).

(** How Python places a slice bound inside a sequence of length [n]. *)
Definition clamp_index (n i : Z) : Z :=
  if i <? 0 then Z.max (i + n) 0 else Z.min i n.

(** [l[start:stop]]; [None] is an omitted bound. *)
Definition slice {A} (l : list A) (start stop : option Z) : list A :=
  let n := len l in
  let lo := match start with None => 0 | Some i => clamp_index n i end in
  let hi := match stop with None => n | Some j => clamp_index n j end in
  firstn (Z.to_nat (hi - lo)) (skipn (Z.to_nat lo) l).

(** [b''.join(frames)] *)
Definition join (frames : list bytes) : bytes := concat frames.

(** [range(start, stop, step)] for a positive step, and [range(n)]. *)
Definition range_step (start stop step : Z) : list Z :=
  if stop <=? start then []
  else map (fun k => start + Z.of_nat k * step)
           (seq 0 (Z.to_nat ((stop - start + step - 1) / step))).

Definition range (n : Z) : list Z := range_step 0 n 1.

(** ** int16 samples *)

Definition byte_val (b : byte) : Z := Z.of_N (Byte.to_N b).

Definition byte_of_Z (z : Z) : byte :=
  match Byte.of_N (Z.to_N (z mod 256)) with
  | Some b => b
  | None => x00
  end.

(** Wrap-around of an integer into the int16 range. *)
Definition wrap16 (z : Z) : Z :=
  let u := z mod 65536 in if u <? 32768 then u else u - 65536.

(** One little-endian int16. *)
Definition int16_of_bytes (lo hi : byte) : Z :=
  wrap16 (byte_val lo + 256 * byte_val hi).

Definition bytes_of_int16 (z : Z) : bytes :=
  let u := z mod 65536 in [byte_of_Z (u mod 256); byte_of_Z (u / 256)].

(** [np.frombuffer(b, dtype=np.int16)]: [None] is the [ValueError] raised
    when the buffer size is not a multiple of the element size. *)
Fixpoint frombuffer_int16 (b : bytes) : option (list Z) :=
  match b with
  | [] => Some []
  | [_] => None
  | lo :: hi :: rest =>
      match frombuffer_int16 rest with
      | Some l => Some (int16_of_bytes lo hi :: l)
      | None => None
      end
  end.

(** [a.tobytes()] of an int16 array. *)
Definition tobytes_int16 (a : list Z) : bytes := flat_map bytes_of_int16 a.

(** ** float32 arrays *)

Definition float32_of_int (z : Z) : float32 := binary_normalize 24 128 z 0 false.

(** [a.astype(np.float32)] of an int16 array (exact). *)
Definition astype_float32 (a : list Z) : list float32 := map float32_of_int a.

(** [a / c] and [a * c] of a float32 array and a Python scalar: the
    scalar is taken as a float32 and the operation is done in binary32. *)
Definition array_div (a : list float32) (c : Z) : list float32 :=
  map (fun x => SFdiv 24 128 x (float32_of_int c)) a.

Definition array_mul (a : list float32) (c : Z) : list float32 :=
  map (fun x => SFmul 24 128 x (float32_of_int c)) a.

(** [a.astype(np.int16)] of a float32 array: the C conversion, towards
    zero.  The result for a value that is not finite is left to the
    platform by NumPy; it is taken as 0 here. *)
Definition int16_of_float32 (x : float32) : Z :=
  match truncate x with
  | Some z => wrap16 z
  | None => 0
  end.

Definition astype_int16 (a : list float32) : list Z := map int16_of_float32 a.

Definition f32zero : float32 := S754_zero false.

(** [np.zeros(n, dtype=np.float32)]: [None] is the [ValueError] for a
    negative dimension. *)
Definition zeros (n : Z) : option (list float32) :=
  if n <? 0 then None else Some (repeat f32zero (Z.to_nat n)).

(** ** [collections.deque(maxlen=n)] *)

Record deque (A : Type) := mk_deque { dq_items : list A; dq_maxlen : nat }.

Definition dq_new {A} (maxlen : nat) : deque A := mk_deque [] maxlen.

(** [d.append(x)]: when the deque is full the leftmost item is dropped. *)
Definition dq_append {A} (x : A) (d : deque A) : deque A :=
  let l := dq_items d ++ [x] in
  mk_deque (skipn (length l - dq_maxlen d)%nat l) (dq_maxlen d).

Definition dq_clear {A} (d : deque A) : deque A := mk_deque [] (dq_maxlen d).

End Py.

Import Py.

(* ===================================================================== *)
(** * Observable effects *)
(* ===================================================================== *)

(** What the pipeline does to the outside world, in the order it does it:
    log records (the format string and its string arguments; numeric
    arguments are left out), user callbacks, requests to the transcription
    engine, and threads that are started.  A user callback is opaque: it is
    recorded when it is called and taken to return without touching the
    recorder. *)

Inductive LogLevel := DEBUG | INFO | WARNING | ERROR.

Inductive Callback :=
| CbRecordingStart | CbRecordingStop | CbTranscriptionStart
| CbVadDetectStart | CbVadDetectStop
| CbWakewordDetectionStart | CbWakewordDetectionEnd
| CbWakewordDetected | CbWakewordTimeout.

Inductive Event :=
| EvLog (level : LogLevel) (msg : string) (args : list string)
| EvCallback (cb : Callback)
| EvRecordedChunk (data : bytes)                   (* on_recorded_chunk(data) *)
| EvSend (audio : list float32) (language : string)   (* transcriber.send *)
| EvThreadStart (data : bytes)    (* Thread(target=_is_silero_speech, args=(data,)) *)
| EvPrint (msg : string).

(** Exceptions that the modelled code can raise. *)
Inductive PyExn :=
| ValueError | OverflowError | AttributeError | UnboundLocalError
| TranscriptionError (msg : string).

(* ===================================================================== *)
(** * state_machine.py *)
(* ===================================================================== *)

Module StateMachine.

Inductive RecorderState :=
| INACTIVE | LISTENING | WAKEWORD | RECORDING | TRANSCRIBING.

Definition value (s : RecorderState) : string :=
  match s with
  | INACTIVE => "inactive"
  | LISTENING => "listening"
  | WAKEWORD => "wakeword"
  | RECORDING => "recording"
  | TRANSCRIBING => "transcribing"
  end.

(** [RecorderState(v)], the lookup of a member by its value; [None] is
    the [ValueError] of the enumeration. *)
Definition of_value (v : string) : option RecorderState :=
  if String.eqb v "inactive" then Some INACTIVE
  else if String.eqb v "listening" then Some LISTENING
  else if String.eqb v "wakeword" then Some WAKEWORD
  else if String.eqb v "recording" then Some RECORDING
  else if String.eqb v "transcribing" then Some TRANSCRIBING
  else None.

(** Each field tells whether a callable is registered in that slot. *)
Record StateCallbacks := {
  on_vad_detect_start : bool;
  on_vad_detect_stop : bool;
  on_wakeword_detection_start : bool;
  on_wakeword_detection_end : bool;
  on_transcription_start : bool
}.

(** The terminal spinner ([halo.Halo]): its text, the interval a
    transition has set ([None] is the library's own) and whether it is
    running. *)
Record Halo := { halo_text : string; halo_interval : option Z; halo_running : bool }.

Definition halo_with_interval (ms : Z) (h : Halo) : Halo :=
  {| halo_text := halo_text h; halo_interval := Some ms; halo_running := halo_running h |}.

(** What [transition_state] expects of its [owner]. *)
Class Owner (O : Type) := {
  get_state : O -> option string;        (* getattr(owner, "state", None) *)
  set_state : string -> O -> O;          (* setattr(owner, "state", v)    *)
  get_halo : O -> option Halo;           (* getattr(owner, "halo", None)  *)
  set_halo : option Halo -> O -> O;
  _set_spinner : string -> O -> O        (* owner._set_spinner(text)      *)
}.

Definition fire (registered : bool) (cb : Callback) : list Event :=
  if registered then [EvCallback cb] else [].

Definition option_string_eqb (a : option string) (b : string) : bool :=
  match a with Some x => String.eqb x b | None => false end.

Section Transition.
Context {O : Type} `{Owner O}.

(** [halo._interval = ms], guarded by [spinner_enabled and halo].  The
    local [halo] was read before [_set_spinner] ran and is the object
    that [owner.halo] still refers to, so the assignment is seen
    through the owner. *)
Definition set_interval (spinner_enabled : bool) (halo : option Halo)
           (ms : Z) (owner : O) : O :=
  match halo with
  | Some _ =>
      if spinner_enabled then
        match get_halo owner with
        | Some h => set_halo (Some (halo_with_interval ms h)) owner
        | None => owner
        end
      else owner
  | None => owner
  end.

Definition transition_state (owner : O) (new_state : RecorderState)
           (callbacks : StateCallbacks) (spinner_enabled : bool)
           (wake_words : string) : O * list Event :=
  let old_state := get_state owner in
  if option_string_eqb old_state (value new_state) then (owner, [])
  else
    let owner := set_state (value new_state) owner in
    let log := [EvLog INFO "State changed from '%s' to '%s'"
                      [match old_state with Some s => s | None => "None" end;
                       value new_state]] in
    (* FROM-state callbacks *)
    let from_cb :=
      if option_string_eqb old_state (value LISTENING) then
        fire (on_vad_detect_stop callbacks) CbVadDetectStop
      else if option_string_eqb old_state (value WAKEWORD) then
        fire (on_wakeword_detection_end callbacks) CbWakewordDetectionEnd
      else [] in
    (* TO-state callbacks + spinner *)
    let halo := get_halo owner in
    match new_state with
    | LISTENING =>
        let owner := _set_spinner "speak now" owner in
        (set_interval spinner_enabled halo 250 owner,
         log ++ from_cb ++ fire (on_vad_detect_start callbacks) CbVadDetectStart)
    | WAKEWORD =>
        let owner := _set_spinner ("say " ++ wake_words)%string owner in
        (set_interval spinner_enabled halo 500 owner,
         log ++ from_cb
             ++ fire (on_wakeword_detection_start callbacks) CbWakewordDetectionStart)
    | TRANSCRIBING =>
        let owner := _set_spinner "transcribing" owner in
        (set_interval spinner_enabled halo 50 owner,
         log ++ from_cb ++ fire (on_transcription_start callbacks) CbTranscriptionStart)
    | RECORDING =>
        let owner := _set_spinner "recording" owner in
        (set_interval spinner_enabled halo 100 owner, log ++ from_cb)
    | INACTIVE =>
        (match halo with
         | Some _ => if spinner_enabled then set_halo None owner else owner
         | None => owner
         end,
         log ++ from_cb)
    end.
End Transition.

End StateMachine.

(* ===================================================================== *)
(** * vad.py *)
(* ===================================================================== *)

Module Vad.

Definition INT16_MAX_ABS_VALUE : Z := 32768.

(** The confirming model: called on a float32 chunk and a rate, it gives
    a speech probability; it keeps a state between calls. *)
Class SileroVadModel (M : Type) := {
  silero_call : M -> list float32 -> Z -> float * M;
  reset_states : M -> M
}.

(** The fast model: one decision per 10 ms frame; it too keeps a state. *)
Class WebRtcVadModel (M : Type) := {
  is_speech : M -> bytes -> Z -> bool * M
}.

Record VadConfig := { sample_rate : Z; silero_sensitivity : float }.

(** [int(16000 * 0.01)] *)
Definition frame_length : Z :=
  match int_of_float (fmul (float_of_int 16000) (decimal 1 100)) with
  | Some n => n
  | None => 0
  end.

Section Gates.
(** [scipy.signal.resample_poly(x, up, down)], an external routine. *)
Variable resample_poly : list Z -> Z -> Z -> list float.

Definition silero_is_speech {M} `{SileroVadModel M}
           (model : M) (chunk : bytes) (cfg : VadConfig) : option (bool * M) :=
  match frombuffer_int16 chunk with
  | None => None
  | Some pcm_data =>
      let pcm_data :=
        if negb (sample_rate cfg =? 16000) then
          astype_int16 (resample_poly pcm_data 16000 (sample_rate cfg))
        else pcm_data in
      let audio_chunk := array_div (astype_float32 pcm_data) INT16_MAX_ABS_VALUE in
      let (vad_prob, model) := silero_call model audio_chunk 16000 in
      Some (fgt vad_prob (fsub (float_of_int 1) (silero_sensitivity cfg)), model)
  end.

(** The chunk that the frame loop works on. *)
Definition to_16k (chunk : bytes) (sample_rate : Z) : option bytes :=
  if negb (sample_rate =? 16000) then
    match frombuffer_int16 chunk with
    | None => None
    | Some pcm_data =>
        Some (tobytes_int16 (astype_int16 (resample_poly pcm_data 16000 sample_rate)))
    end
  else Some chunk.

(** [int(len(chunk) / (2 * frame_length))].  The quotient is a float
    division in the source; for every length below 2^53 its integer
    part is that of the integer division written here. *)
Definition num_frames (chunk : bytes) : Z := len chunk / (2 * frame_length).

Definition frame_at (chunk : bytes) (i : Z) : bytes :=
  let start_byte := i * frame_length * 2 in
  let end_byte := start_byte + frame_length * 2 in
  slice chunk (Some start_byte) (Some end_byte).

(** The [for i in range(num_frames)] loop: [inl b] when the loop
    returned [b], [inr speech_frames] when it ran to its end. *)
Fixpoint frame_loop {M} `{WebRtcVadModel M} (chunk : bytes)
         (all_frames_must_be_true : bool) (indices : list Z)
         (model : M) (speech_frames : Z) : (bool + Z) * M :=
  match indices with
  | [] => (inr speech_frames, model)
  | i :: rest =>
      let frame := frame_at chunk i in
      let (flag, model) := is_speech model frame 16000 in
      if flag then
        let speech_frames := speech_frames + 1 in
        if negb all_frames_must_be_true then (inl true, model)
        else frame_loop chunk all_frames_must_be_true rest model speech_frames
      else frame_loop chunk all_frames_must_be_true rest model speech_frames
  end.

Definition webrtc_is_speech {M} `{WebRtcVadModel M}
           (model : M) (chunk : bytes) (sample_rate : Z)
           (all_frames_must_be_true : bool) : option (bool * M) :=
  match to_16k chunk sample_rate with
  | None => None
  | Some chunk =>
      let n := num_frames chunk in
      if n =? 0 then Some (false, model)
      else
        match frame_loop chunk all_frames_must_be_true (range n) model 0 with
        | (inl b, model) => Some (b, model)
        | (inr speech_frames, model) =>
            if all_frames_must_be_true then Some (speech_frames =? n, model)
            else Some (false, model)
        end
  end.
End Gates.

End Vad.


(* ===================================================================== *)
(** * wakeword.py: the detector interface *)
(* ===================================================================== *)

Module WakeWord.

(** [process(data)] gives the index of the wake word that fired, or a
    negative number; [None] is an exception raised by the engine. *)
Class IWakeWordDetector (D : Type) := {
  process : D -> bytes -> option Z * D
}.

End WakeWord.

(* ===================================================================== *)
(** * audio_recorder.py: [AudioToTextRecorder] *)
(* ===================================================================== *)

Module Recorder.

Definition INT16_MAX_ABS_VALUE : Z := 32768.

(** The constructor's parameters, read-only afterwards.  An [on_*] field
    tells whether a callback is registered. *)
Record Config := {
  language : string;
  wake_words : string;
  wake_word_activation_delay : float;
  wake_word_timeout : float;
  wake_word_buffer_duration : float;
  min_gap_between_recordings : float;
  min_length_of_recording : float;
  pre_recording_buffer_duration : float;
  post_speech_silence_duration : float;
  on_recording_start : bool;
  on_recording_stop : bool;
  on_wakeword_detected : bool;
  on_wakeword_timeout : bool;
  on_vad_detect_start : bool;
  on_vad_detect_stop : bool;
  on_wakeword_detection_start : bool;
  on_wakeword_detection_end : bool;
  on_recorded_chunk : bool;
  on_transcription_start : bool;
  model_path : string;
  handle_buffer_overflow : bool;
  allowed_latency_limit : Z;
  buffer_size : Z;
  sample_rate : Z;
  silero_sensitivity : float;
  silero_deactivity_detection : bool;
  spinner : bool;
  use_wake_words : bool;
  print_transcription_time : bool;
  early_transcription_on_silence : float
}.

(** ** The wake-word strip loop of [_recording_worker]

    [while wakeword_samples_to_remove > 0 and self.frames:] with its two
    branches.  The second branch ends with [samples_to_remove = 0], which
    binds a name that nothing reads: [wakeword_samples_to_remove] keeps its
    value and the loop goes on with the shortened first frame.  The loop
    ends because every round either drops a frame or shortens the first
    one. *)

Definition frames_measure (frames : list bytes) : nat :=
  (length (concat frames) + length frames)%nat.

Equations? strip_wakeword_loop (wakeword_samples_to_remove : Z) (frames : list bytes)
  : Z * list bytes by wf (frames_measure frames) lt :=
  strip_wakeword_loop n [] := (n, []);
  strip_wakeword_loop n (frame :: rest) with Z_lt_dec 0 n := {
    | right _ := (n, frame :: rest);
    | left _ with Z_le_dec (len frame / 2) n := {
        | left _ :=
            (* self.frames.pop(0) *)
            strip_wakeword_loop (n - len frame / 2) rest;
        | right _ :=
            (* self.frames[0] = frame[wakeword_samples_to_remove * 2:] *)
            strip_wakeword_loop n (slice frame (Some (n * 2)) None :: rest) } }.
Proof.
  - unfold frames_measure; cbn [concat length]; rewrite length_app; lia.
  - unfold frames_measure, slice, clamp_index, len in *.
    cbn [concat length]. rewrite !length_app, length_firstn, length_skipn.
    assert (2 * (Z.of_nat (length frame) / 2) <= Z.of_nat (length frame))
      by (apply Z.mul_div_le; lia).
    destruct (n * 2 <? 0) eqn:E; [apply Z.ltb_lt in E; lia|].
    lia.
Qed.

Section Recorder.

(** The engines behind the recorder: the fast gate, the confirming gate
    and the wake-word detector. *)
Context {WebRtc Silero Detector : Type}.
Context `{Vad.WebRtcVadModel WebRtc} `{Vad.SileroVadModel Silero}
        `{WakeWord.IWakeWordDetector Detector}.

(** External routines: [scipy.signal.resample_poly], the wall clock (the
    [n]-th call of [time.time()] returns [clock n]) and the text clean-up
    [_preprocess_output] (regular expressions over the engine's answer). *)
Variable resample_poly : list Z -> Z -> Z -> list float.
Variable clock : nat -> float.
Variable _preprocess_output : string -> string.

(** The attributes of the recorder that the modelled methods read or
    write.  [last_transcription_bytes_b64], a base64 rendering of
    [last_transcription_bytes], is left out. *)
Record Recorder := mkRecorder {
  cfg : Config;
  audio_queue : list bytes;
  recording_start_time : float;
  recording_stop_time : float;
  last_recording_start_time : float;
  last_recording_stop_time : float;
  wake_word_detect_time : float;
  silero_check_time : float;
  silero_working : bool;
  speech_end_silence_start : float;
  listen_start : float;
  halo : option StateMachine.Halo;
  state : string;
  wakeword_detected : bool;
  text_storage : list string;
  is_webrtc_speech_active : bool;
  is_silero_speech_active : bool;
  wakeword_detector : option Detector;
  audio : option (list float32);
  start_recording_event : bool;
  stop_recording_event : bool;
  backdate_stop_seconds : float;
  backdate_resume_seconds : float;
  last_transcription_bytes : option (list float32);
  transcribe_count : Z;
  audio_buffer : deque bytes;
  last_words_buffer : deque bytes;
  frames : list bytes;
  last_frames : list bytes;
  is_recording : bool;
  is_running : bool;
  start_recording_on_voice_activity : bool;
  stop_recording_on_voice_deactivity : bool;
  allowed_to_early_transcribe : bool;
  webrtc_vad_model : WebRtc;
  silero_vad_model : Silero;
  interrupt_stop_event : bool;
  was_interrupted : bool
}.

(** Field updates, one per attribute that the code assigns. *)
Definition set_audio_queue (v : list bytes) (r : Recorder) : Recorder :=
  mkRecorder (cfg r) v (recording_start_time r) (recording_stop_time r)
    (last_recording_start_time r) (last_recording_stop_time r)
    (wake_word_detect_time r) (silero_check_time r) (silero_working r)
    (speech_end_silence_start r) (listen_start r) (halo r) (state r)
    (wakeword_detected r) (text_storage r) (is_webrtc_speech_active r)
    (is_silero_speech_active r) (wakeword_detector r) (audio r)
    (start_recording_event r) (stop_recording_event r) (backdate_stop_seconds
    r) (backdate_resume_seconds r) (last_transcription_bytes r)
    (transcribe_count r) (audio_buffer r) (last_words_buffer r) (frames r)
    (last_frames r) (is_recording r) (is_running r)
    (start_recording_on_voice_activity r) (stop_recording_on_voice_deactivity
    r) (allowed_to_early_transcribe r) (webrtc_vad_model r) (silero_vad_model
    r) (interrupt_stop_event r) (was_interrupted r).
Definition set_recording_start_time (v : float) (r : Recorder) : Recorder :=
  mkRecorder (cfg r) (audio_queue r) v (recording_stop_time r)
    (last_recording_start_time r) (last_recording_stop_time r)
    (wake_word_detect_time r) (silero_check_time r) (silero_working r)
    (speech_end_silence_start r) (listen_start r) (halo r) (state r)
    (wakeword_detected r) (text_storage r) (is_webrtc_speech_active r)
    (is_silero_speech_active r) (wakeword_detector r) (audio r)
    (start_recording_event r) (stop_recording_event r) (backdate_stop_seconds
    r) (backdate_resume_seconds r) (last_transcription_bytes r)
    (transcribe_count r) (audio_buffer r) (last_words_buffer r) (frames r)
    (last_frames r) (is_recording r) (is_running r)
    (start_recording_on_voice_activity r) (stop_recording_on_voice_deactivity
    r) (allowed_to_early_transcribe r) (webrtc_vad_model r) (silero_vad_model
    r) (interrupt_stop_event r) (was_interrupted r).
Definition set_recording_stop_time (v : float) (r : Recorder) : Recorder :=
  mkRecorder (cfg r) (audio_queue r) (recording_start_time r) v
    (last_recording_start_time r) (last_recording_stop_time r)
    (wake_word_detect_time r) (silero_check_time r) (silero_working r)
    (speech_end_silence_start r) (listen_start r) (halo r) (state r)
    (wakeword_detected r) (text_storage r) (is_webrtc_speech_active r)
    (is_silero_speech_active r) (wakeword_detector r) (audio r)
    (start_recording_event r) (stop_recording_event r) (backdate_stop_seconds
    r) (backdate_resume_seconds r) (last_transcription_bytes r)
    (transcribe_count r) (audio_buffer r) (last_words_buffer r) (frames r)
    (last_frames r) (is_recording r) (is_running r)
    (start_recording_on_voice_activity r) (stop_recording_on_voice_deactivity
    r) (allowed_to_early_transcribe r) (webrtc_vad_model r) (silero_vad_model
    r) (interrupt_stop_event r) (was_interrupted r).
Definition set_last_recording_start_time (v : float) (r : Recorder) : Recorder :=
  mkRecorder (cfg r) (audio_queue r) (recording_start_time r)
    (recording_stop_time r) v (last_recording_stop_time r)
    (wake_word_detect_time r) (silero_check_time r) (silero_working r)
    (speech_end_silence_start r) (listen_start r) (halo r) (state r)
    (wakeword_detected r) (text_storage r) (is_webrtc_speech_active r)
    (is_silero_speech_active r) (wakeword_detector r) (audio r)
    (start_recording_event r) (stop_recording_event r) (backdate_stop_seconds
    r) (backdate_resume_seconds r) (last_transcription_bytes r)
    (transcribe_count r) (audio_buffer r) (last_words_buffer r) (frames r)
    (last_frames r) (is_recording r) (is_running r)
    (start_recording_on_voice_activity r) (stop_recording_on_voice_deactivity
    r) (allowed_to_early_transcribe r) (webrtc_vad_model r) (silero_vad_model
    r) (interrupt_stop_event r) (was_interrupted r).
Definition set_last_recording_stop_time (v : float) (r : Recorder) : Recorder :=
  mkRecorder (cfg r) (audio_queue r) (recording_start_time r)
    (recording_stop_time r) (last_recording_start_time r) v
    (wake_word_detect_time r) (silero_check_time r) (silero_working r)
    (speech_end_silence_start r) (listen_start r) (halo r) (state r)
    (wakeword_detected r) (text_storage r) (is_webrtc_speech_active r)
    (is_silero_speech_active r) (wakeword_detector r) (audio r)
    (start_recording_event r) (stop_recording_event r) (backdate_stop_seconds
    r) (backdate_resume_seconds r) (last_transcription_bytes r)
    (transcribe_count r) (audio_buffer r) (last_words_buffer r) (frames r)
    (last_frames r) (is_recording r) (is_running r)
    (start_recording_on_voice_activity r) (stop_recording_on_voice_deactivity
    r) (allowed_to_early_transcribe r) (webrtc_vad_model r) (silero_vad_model
    r) (interrupt_stop_event r) (was_interrupted r).
Definition set_wake_word_detect_time (v : float) (r : Recorder) : Recorder :=
  mkRecorder (cfg r) (audio_queue r) (recording_start_time r)
    (recording_stop_time r) (last_recording_start_time r)
    (last_recording_stop_time r) v (silero_check_time r) (silero_working r)
    (speech_end_silence_start r) (listen_start r) (halo r) (state r)
    (wakeword_detected r) (text_storage r) (is_webrtc_speech_active r)
    (is_silero_speech_active r) (wakeword_detector r) (audio r)
    (start_recording_event r) (stop_recording_event r) (backdate_stop_seconds
    r) (backdate_resume_seconds r) (last_transcription_bytes r)
    (transcribe_count r) (audio_buffer r) (last_words_buffer r) (frames r)
    (last_frames r) (is_recording r) (is_running r)
    (start_recording_on_voice_activity r) (stop_recording_on_voice_deactivity
    r) (allowed_to_early_transcribe r) (webrtc_vad_model r) (silero_vad_model
    r) (interrupt_stop_event r) (was_interrupted r).
Definition set_silero_check_time (v : float) (r : Recorder) : Recorder :=
  mkRecorder (cfg r) (audio_queue r) (recording_start_time r)
    (recording_stop_time r) (last_recording_start_time r)
    (last_recording_stop_time r) (wake_word_detect_time r) v (silero_working
    r) (speech_end_silence_start r) (listen_start r) (halo r) (state r)
    (wakeword_detected r) (text_storage r) (is_webrtc_speech_active r)
    (is_silero_speech_active r) (wakeword_detector r) (audio r)
    (start_recording_event r) (stop_recording_event r) (backdate_stop_seconds
    r) (backdate_resume_seconds r) (last_transcription_bytes r)
    (transcribe_count r) (audio_buffer r) (last_words_buffer r) (frames r)
    (last_frames r) (is_recording r) (is_running r)
    (start_recording_on_voice_activity r) (stop_recording_on_voice_deactivity
    r) (allowed_to_early_transcribe r) (webrtc_vad_model r) (silero_vad_model
    r) (interrupt_stop_event r) (was_interrupted r).
Definition set_silero_working (v : bool) (r : Recorder) : Recorder :=
  mkRecorder (cfg r) (audio_queue r) (recording_start_time r)
    (recording_stop_time r) (last_recording_start_time r)
    (last_recording_stop_time r) (wake_word_detect_time r) (silero_check_time
    r) v (speech_end_silence_start r) (listen_start r) (halo r) (state r)
    (wakeword_detected r) (text_storage r) (is_webrtc_speech_active r)
    (is_silero_speech_active r) (wakeword_detector r) (audio r)
    (start_recording_event r) (stop_recording_event r) (backdate_stop_seconds
    r) (backdate_resume_seconds r) (last_transcription_bytes r)
    (transcribe_count r) (audio_buffer r) (last_words_buffer r) (frames r)
    (last_frames r) (is_recording r) (is_running r)
    (start_recording_on_voice_activity r) (stop_recording_on_voice_deactivity
    r) (allowed_to_early_transcribe r) (webrtc_vad_model r) (silero_vad_model
    r) (interrupt_stop_event r) (was_interrupted r).
Definition set_speech_end_silence_start (v : float) (r : Recorder) : Recorder :=
  mkRecorder (cfg r) (audio_queue r) (recording_start_time r)
    (recording_stop_time r) (last_recording_start_time r)
    (last_recording_stop_time r) (wake_word_detect_time r) (silero_check_time
    r) (silero_working r) v (listen_start r) (halo r) (state r)
    (wakeword_detected r) (text_storage r) (is_webrtc_speech_active r)
    (is_silero_speech_active r) (wakeword_detector r) (audio r)
    (start_recording_event r) (stop_recording_event r) (backdate_stop_seconds
    r) (backdate_resume_seconds r) (last_transcription_bytes r)
    (transcribe_count r) (audio_buffer r) (last_words_buffer r) (frames r)
    (last_frames r) (is_recording r) (is_running r)
    (start_recording_on_voice_activity r) (stop_recording_on_voice_deactivity
    r) (allowed_to_early_transcribe r) (webrtc_vad_model r) (silero_vad_model
    r) (interrupt_stop_event r) (was_interrupted r).
Definition set_listen_start (v : float) (r : Recorder) : Recorder :=
  mkRecorder (cfg r) (audio_queue r) (recording_start_time r)
    (recording_stop_time r) (last_recording_start_time r)
    (last_recording_stop_time r) (wake_word_detect_time r) (silero_check_time
    r) (silero_working r) (speech_end_silence_start r) v (halo r) (state r)
    (wakeword_detected r) (text_storage r) (is_webrtc_speech_active r)
    (is_silero_speech_active r) (wakeword_detector r) (audio r)
    (start_recording_event r) (stop_recording_event r) (backdate_stop_seconds
    r) (backdate_resume_seconds r) (last_transcription_bytes r)
    (transcribe_count r) (audio_buffer r) (last_words_buffer r) (frames r)
    (last_frames r) (is_recording r) (is_running r)
    (start_recording_on_voice_activity r) (stop_recording_on_voice_deactivity
    r) (allowed_to_early_transcribe r) (webrtc_vad_model r) (silero_vad_model
    r) (interrupt_stop_event r) (was_interrupted r).
Definition set_halo (v : option StateMachine.Halo) (r : Recorder) : Recorder :=
  mkRecorder (cfg r) (audio_queue r) (recording_start_time r)
    (recording_stop_time r) (last_recording_start_time r)
    (last_recording_stop_time r) (wake_word_detect_time r) (silero_check_time
    r) (silero_working r) (speech_end_silence_start r) (listen_start r) v
    (state r) (wakeword_detected r) (text_storage r) (is_webrtc_speech_active
    r) (is_silero_speech_active r) (wakeword_detector r) (audio r)
    (start_recording_event r) (stop_recording_event r) (backdate_stop_seconds
    r) (backdate_resume_seconds r) (last_transcription_bytes r)
    (transcribe_count r) (audio_buffer r) (last_words_buffer r) (frames r)
    (last_frames r) (is_recording r) (is_running r)
    (start_recording_on_voice_activity r) (stop_recording_on_voice_deactivity
    r) (allowed_to_early_transcribe r) (webrtc_vad_model r) (silero_vad_model
    r) (interrupt_stop_event r) (was_interrupted r).
Definition set_state (v : string) (r : Recorder) : Recorder :=
  mkRecorder (cfg r) (audio_queue r) (recording_start_time r)
    (recording_stop_time r) (last_recording_start_time r)
    (last_recording_stop_time r) (wake_word_detect_time r) (silero_check_time
    r) (silero_working r) (speech_end_silence_start r) (listen_start r) (halo
    r) v (wakeword_detected r) (text_storage r) (is_webrtc_speech_active r)
    (is_silero_speech_active r) (wakeword_detector r) (audio r)
    (start_recording_event r) (stop_recording_event r) (backdate_stop_seconds
    r) (backdate_resume_seconds r) (last_transcription_bytes r)
    (transcribe_count r) (audio_buffer r) (last_words_buffer r) (frames r)
    (last_frames r) (is_recording r) (is_running r)
    (start_recording_on_voice_activity r) (stop_recording_on_voice_deactivity
    r) (allowed_to_early_transcribe r) (webrtc_vad_model r) (silero_vad_model
    r) (interrupt_stop_event r) (was_interrupted r).
Definition set_wakeword_detected (v : bool) (r : Recorder) : Recorder :=
  mkRecorder (cfg r) (audio_queue r) (recording_start_time r)
    (recording_stop_time r) (last_recording_start_time r)
    (last_recording_stop_time r) (wake_word_detect_time r) (silero_check_time
    r) (silero_working r) (speech_end_silence_start r) (listen_start r) (halo
    r) (state r) v (text_storage r) (is_webrtc_speech_active r)
    (is_silero_speech_active r) (wakeword_detector r) (audio r)
    (start_recording_event r) (stop_recording_event r) (backdate_stop_seconds
    r) (backdate_resume_seconds r) (last_transcription_bytes r)
    (transcribe_count r) (audio_buffer r) (last_words_buffer r) (frames r)
    (last_frames r) (is_recording r) (is_running r)
    (start_recording_on_voice_activity r) (stop_recording_on_voice_deactivity
    r) (allowed_to_early_transcribe r) (webrtc_vad_model r) (silero_vad_model
    r) (interrupt_stop_event r) (was_interrupted r).
Definition set_text_storage (v : list string) (r : Recorder) : Recorder :=
  mkRecorder (cfg r) (audio_queue r) (recording_start_time r)
    (recording_stop_time r) (last_recording_start_time r)
    (last_recording_stop_time r) (wake_word_detect_time r) (silero_check_time
    r) (silero_working r) (speech_end_silence_start r) (listen_start r) (halo
    r) (state r) (wakeword_detected r) v (is_webrtc_speech_active r)
    (is_silero_speech_active r) (wakeword_detector r) (audio r)
    (start_recording_event r) (stop_recording_event r) (backdate_stop_seconds
    r) (backdate_resume_seconds r) (last_transcription_bytes r)
    (transcribe_count r) (audio_buffer r) (last_words_buffer r) (frames r)
    (last_frames r) (is_recording r) (is_running r)
    (start_recording_on_voice_activity r) (stop_recording_on_voice_deactivity
    r) (allowed_to_early_transcribe r) (webrtc_vad_model r) (silero_vad_model
    r) (interrupt_stop_event r) (was_interrupted r).
Definition set_is_webrtc_speech_active (v : bool) (r : Recorder) : Recorder :=
  mkRecorder (cfg r) (audio_queue r) (recording_start_time r)
    (recording_stop_time r) (last_recording_start_time r)
    (last_recording_stop_time r) (wake_word_detect_time r) (silero_check_time
    r) (silero_working r) (speech_end_silence_start r) (listen_start r) (halo
    r) (state r) (wakeword_detected r) (text_storage r) v
    (is_silero_speech_active r) (wakeword_detector r) (audio r)
    (start_recording_event r) (stop_recording_event r) (backdate_stop_seconds
    r) (backdate_resume_seconds r) (last_transcription_bytes r)
    (transcribe_count r) (audio_buffer r) (last_words_buffer r) (frames r)
    (last_frames r) (is_recording r) (is_running r)
    (start_recording_on_voice_activity r) (stop_recording_on_voice_deactivity
    r) (allowed_to_early_transcribe r) (webrtc_vad_model r) (silero_vad_model
    r) (interrupt_stop_event r) (was_interrupted r).
Definition set_is_silero_speech_active (v : bool) (r : Recorder) : Recorder :=
  mkRecorder (cfg r) (audio_queue r) (recording_start_time r)
    (recording_stop_time r) (last_recording_start_time r)
    (last_recording_stop_time r) (wake_word_detect_time r) (silero_check_time
    r) (silero_working r) (speech_end_silence_start r) (listen_start r) (halo
    r) (state r) (wakeword_detected r) (text_storage r)
    (is_webrtc_speech_active r) v (wakeword_detector r) (audio r)
    (start_recording_event r) (stop_recording_event r) (backdate_stop_seconds
    r) (backdate_resume_seconds r) (last_transcription_bytes r)
    (transcribe_count r) (audio_buffer r) (last_words_buffer r) (frames r)
    (last_frames r) (is_recording r) (is_running r)
    (start_recording_on_voice_activity r) (stop_recording_on_voice_deactivity
    r) (allowed_to_early_transcribe r) (webrtc_vad_model r) (silero_vad_model
    r) (interrupt_stop_event r) (was_interrupted r).
Definition set_wakeword_detector (v : option Detector) (r : Recorder) : Recorder :=
  mkRecorder (cfg r) (audio_queue r) (recording_start_time r)
    (recording_stop_time r) (last_recording_start_time r)
    (last_recording_stop_time r) (wake_word_detect_time r) (silero_check_time
    r) (silero_working r) (speech_end_silence_start r) (listen_start r) (halo
    r) (state r) (wakeword_detected r) (text_storage r)
    (is_webrtc_speech_active r) (is_silero_speech_active r) v (audio r)
    (start_recording_event r) (stop_recording_event r) (backdate_stop_seconds
    r) (backdate_resume_seconds r) (last_transcription_bytes r)
    (transcribe_count r) (audio_buffer r) (last_words_buffer r) (frames r)
    (last_frames r) (is_recording r) (is_running r)
    (start_recording_on_voice_activity r) (stop_recording_on_voice_deactivity
    r) (allowed_to_early_transcribe r) (webrtc_vad_model r) (silero_vad_model
    r) (interrupt_stop_event r) (was_interrupted r).
Definition set_audio (v : option (list float32)) (r : Recorder) : Recorder :=
  mkRecorder (cfg r) (audio_queue r) (recording_start_time r)
    (recording_stop_time r) (last_recording_start_time r)
    (last_recording_stop_time r) (wake_word_detect_time r) (silero_check_time
    r) (silero_working r) (speech_end_silence_start r) (listen_start r) (halo
    r) (state r) (wakeword_detected r) (text_storage r)
    (is_webrtc_speech_active r) (is_silero_speech_active r) (wakeword_detector
    r) v (start_recording_event r) (stop_recording_event r)
    (backdate_stop_seconds r) (backdate_resume_seconds r)
    (last_transcription_bytes r) (transcribe_count r) (audio_buffer r)
    (last_words_buffer r) (frames r) (last_frames r) (is_recording r)
    (is_running r) (start_recording_on_voice_activity r)
    (stop_recording_on_voice_deactivity r) (allowed_to_early_transcribe r)
    (webrtc_vad_model r) (silero_vad_model r) (interrupt_stop_event r)
    (was_interrupted r).
Definition set_start_recording_event (v : bool) (r : Recorder) : Recorder :=
  mkRecorder (cfg r) (audio_queue r) (recording_start_time r)
    (recording_stop_time r) (last_recording_start_time r)
    (last_recording_stop_time r) (wake_word_detect_time r) (silero_check_time
    r) (silero_working r) (speech_end_silence_start r) (listen_start r) (halo
    r) (state r) (wakeword_detected r) (text_storage r)
    (is_webrtc_speech_active r) (is_silero_speech_active r) (wakeword_detector
    r) (audio r) v (stop_recording_event r) (backdate_stop_seconds r)
    (backdate_resume_seconds r) (last_transcription_bytes r) (transcribe_count
    r) (audio_buffer r) (last_words_buffer r) (frames r) (last_frames r)
    (is_recording r) (is_running r) (start_recording_on_voice_activity r)
    (stop_recording_on_voice_deactivity r) (allowed_to_early_transcribe r)
    (webrtc_vad_model r) (silero_vad_model r) (interrupt_stop_event r)
    (was_interrupted r).
Definition set_stop_recording_event (v : bool) (r : Recorder) : Recorder :=
  mkRecorder (cfg r) (audio_queue r) (recording_start_time r)
    (recording_stop_time r) (last_recording_start_time r)
    (last_recording_stop_time r) (wake_word_detect_time r) (silero_check_time
    r) (silero_working r) (speech_end_silence_start r) (listen_start r) (halo
    r) (state r) (wakeword_detected r) (text_storage r)
    (is_webrtc_speech_active r) (is_silero_speech_active r) (wakeword_detector
    r) (audio r) (start_recording_event r) v (backdate_stop_seconds r)
    (backdate_resume_seconds r) (last_transcription_bytes r) (transcribe_count
    r) (audio_buffer r) (last_words_buffer r) (frames r) (last_frames r)
    (is_recording r) (is_running r) (start_recording_on_voice_activity r)
    (stop_recording_on_voice_deactivity r) (allowed_to_early_transcribe r)
    (webrtc_vad_model r) (silero_vad_model r) (interrupt_stop_event r)
    (was_interrupted r).
Definition set_backdate_stop_seconds (v : float) (r : Recorder) : Recorder :=
  mkRecorder (cfg r) (audio_queue r) (recording_start_time r)
    (recording_stop_time r) (last_recording_start_time r)
    (last_recording_stop_time r) (wake_word_detect_time r) (silero_check_time
    r) (silero_working r) (speech_end_silence_start r) (listen_start r) (halo
    r) (state r) (wakeword_detected r) (text_storage r)
    (is_webrtc_speech_active r) (is_silero_speech_active r) (wakeword_detector
    r) (audio r) (start_recording_event r) (stop_recording_event r) v
    (backdate_resume_seconds r) (last_transcription_bytes r) (transcribe_count
    r) (audio_buffer r) (last_words_buffer r) (frames r) (last_frames r)
    (is_recording r) (is_running r) (start_recording_on_voice_activity r)
    (stop_recording_on_voice_deactivity r) (allowed_to_early_transcribe r)
    (webrtc_vad_model r) (silero_vad_model r) (interrupt_stop_event r)
    (was_interrupted r).
Definition set_backdate_resume_seconds (v : float) (r : Recorder) : Recorder :=
  mkRecorder (cfg r) (audio_queue r) (recording_start_time r)
    (recording_stop_time r) (last_recording_start_time r)
    (last_recording_stop_time r) (wake_word_detect_time r) (silero_check_time
    r) (silero_working r) (speech_end_silence_start r) (listen_start r) (halo
    r) (state r) (wakeword_detected r) (text_storage r)
    (is_webrtc_speech_active r) (is_silero_speech_active r) (wakeword_detector
    r) (audio r) (start_recording_event r) (stop_recording_event r)
    (backdate_stop_seconds r) v (last_transcription_bytes r) (transcribe_count
    r) (audio_buffer r) (last_words_buffer r) (frames r) (last_frames r)
    (is_recording r) (is_running r) (start_recording_on_voice_activity r)
    (stop_recording_on_voice_deactivity r) (allowed_to_early_transcribe r)
    (webrtc_vad_model r) (silero_vad_model r) (interrupt_stop_event r)
    (was_interrupted r).
Definition set_last_transcription_bytes (v : option (list float32)) (r : Recorder) : Recorder :=
  mkRecorder (cfg r) (audio_queue r) (recording_start_time r)
    (recording_stop_time r) (last_recording_start_time r)
    (last_recording_stop_time r) (wake_word_detect_time r) (silero_check_time
    r) (silero_working r) (speech_end_silence_start r) (listen_start r) (halo
    r) (state r) (wakeword_detected r) (text_storage r)
    (is_webrtc_speech_active r) (is_silero_speech_active r) (wakeword_detector
    r) (audio r) (start_recording_event r) (stop_recording_event r)
    (backdate_stop_seconds r) (backdate_resume_seconds r) v (transcribe_count
    r) (audio_buffer r) (last_words_buffer r) (frames r) (last_frames r)
    (is_recording r) (is_running r) (start_recording_on_voice_activity r)
    (stop_recording_on_voice_deactivity r) (allowed_to_early_transcribe r)
    (webrtc_vad_model r) (silero_vad_model r) (interrupt_stop_event r)
    (was_interrupted r).
Definition set_transcribe_count (v : Z) (r : Recorder) : Recorder :=
  mkRecorder (cfg r) (audio_queue r) (recording_start_time r)
    (recording_stop_time r) (last_recording_start_time r)
    (last_recording_stop_time r) (wake_word_detect_time r) (silero_check_time
    r) (silero_working r) (speech_end_silence_start r) (listen_start r) (halo
    r) (state r) (wakeword_detected r) (text_storage r)
    (is_webrtc_speech_active r) (is_silero_speech_active r) (wakeword_detector
    r) (audio r) (start_recording_event r) (stop_recording_event r)
    (backdate_stop_seconds r) (backdate_resume_seconds r)
    (last_transcription_bytes r) v (audio_buffer r) (last_words_buffer r)
    (frames r) (last_frames r) (is_recording r) (is_running r)
    (start_recording_on_voice_activity r) (stop_recording_on_voice_deactivity
    r) (allowed_to_early_transcribe r) (webrtc_vad_model r) (silero_vad_model
    r) (interrupt_stop_event r) (was_interrupted r).
Definition set_audio_buffer (v : deque bytes) (r : Recorder) : Recorder :=
  mkRecorder (cfg r) (audio_queue r) (recording_start_time r)
    (recording_stop_time r) (last_recording_start_time r)
    (last_recording_stop_time r) (wake_word_detect_time r) (silero_check_time
    r) (silero_working r) (speech_end_silence_start r) (listen_start r) (halo
    r) (state r) (wakeword_detected r) (text_storage r)
    (is_webrtc_speech_active r) (is_silero_speech_active r) (wakeword_detector
    r) (audio r) (start_recording_event r) (stop_recording_event r)
    (backdate_stop_seconds r) (backdate_resume_seconds r)
    (last_transcription_bytes r) (transcribe_count r) v (last_words_buffer r)
    (frames r) (last_frames r) (is_recording r) (is_running r)
    (start_recording_on_voice_activity r) (stop_recording_on_voice_deactivity
    r) (allowed_to_early_transcribe r) (webrtc_vad_model r) (silero_vad_model
    r) (interrupt_stop_event r) (was_interrupted r).
Definition set_last_words_buffer (v : deque bytes) (r : Recorder) : Recorder :=
  mkRecorder (cfg r) (audio_queue r) (recording_start_time r)
    (recording_stop_time r) (last_recording_start_time r)
    (last_recording_stop_time r) (wake_word_detect_time r) (silero_check_time
    r) (silero_working r) (speech_end_silence_start r) (listen_start r) (halo
    r) (state r) (wakeword_detected r) (text_storage r)
    (is_webrtc_speech_active r) (is_silero_speech_active r) (wakeword_detector
    r) (audio r) (start_recording_event r) (stop_recording_event r)
    (backdate_stop_seconds r) (backdate_resume_seconds r)
    (last_transcription_bytes r) (transcribe_count r) (audio_buffer r) v
    (frames r) (last_frames r) (is_recording r) (is_running r)
    (start_recording_on_voice_activity r) (stop_recording_on_voice_deactivity
    r) (allowed_to_early_transcribe r) (webrtc_vad_model r) (silero_vad_model
    r) (interrupt_stop_event r) (was_interrupted r).
Definition set_frames (v : list bytes) (r : Recorder) : Recorder :=
  mkRecorder (cfg r) (audio_queue r) (recording_start_time r)
    (recording_stop_time r) (last_recording_start_time r)
    (last_recording_stop_time r) (wake_word_detect_time r) (silero_check_time
    r) (silero_working r) (speech_end_silence_start r) (listen_start r) (halo
    r) (state r) (wakeword_detected r) (text_storage r)
    (is_webrtc_speech_active r) (is_silero_speech_active r) (wakeword_detector
    r) (audio r) (start_recording_event r) (stop_recording_event r)
    (backdate_stop_seconds r) (backdate_resume_seconds r)
    (last_transcription_bytes r) (transcribe_count r) (audio_buffer r)
    (last_words_buffer r) v (last_frames r) (is_recording r) (is_running r)
    (start_recording_on_voice_activity r) (stop_recording_on_voice_deactivity
    r) (allowed_to_early_transcribe r) (webrtc_vad_model r) (silero_vad_model
    r) (interrupt_stop_event r) (was_interrupted r).
Definition set_last_frames (v : list bytes) (r : Recorder) : Recorder :=
  mkRecorder (cfg r) (audio_queue r) (recording_start_time r)
    (recording_stop_time r) (last_recording_start_time r)
    (last_recording_stop_time r) (wake_word_detect_time r) (silero_check_time
    r) (silero_working r) (speech_end_silence_start r) (listen_start r) (halo
    r) (state r) (wakeword_detected r) (text_storage r)
    (is_webrtc_speech_active r) (is_silero_speech_active r) (wakeword_detector
    r) (audio r) (start_recording_event r) (stop_recording_event r)
    (backdate_stop_seconds r) (backdate_resume_seconds r)
    (last_transcription_bytes r) (transcribe_count r) (audio_buffer r)
    (last_words_buffer r) (frames r) v (is_recording r) (is_running r)
    (start_recording_on_voice_activity r) (stop_recording_on_voice_deactivity
    r) (allowed_to_early_transcribe r) (webrtc_vad_model r) (silero_vad_model
    r) (interrupt_stop_event r) (was_interrupted r).
Definition set_is_recording (v : bool) (r : Recorder) : Recorder :=
  mkRecorder (cfg r) (audio_queue r) (recording_start_time r)
    (recording_stop_time r) (last_recording_start_time r)
    (last_recording_stop_time r) (wake_word_detect_time r) (silero_check_time
    r) (silero_working r) (speech_end_silence_start r) (listen_start r) (halo
    r) (state r) (wakeword_detected r) (text_storage r)
    (is_webrtc_speech_active r) (is_silero_speech_active r) (wakeword_detector
    r) (audio r) (start_recording_event r) (stop_recording_event r)
    (backdate_stop_seconds r) (backdate_resume_seconds r)
    (last_transcription_bytes r) (transcribe_count r) (audio_buffer r)
    (last_words_buffer r) (frames r) (last_frames r) v (is_running r)
    (start_recording_on_voice_activity r) (stop_recording_on_voice_deactivity
    r) (allowed_to_early_transcribe r) (webrtc_vad_model r) (silero_vad_model
    r) (interrupt_stop_event r) (was_interrupted r).
Definition set_is_running (v : bool) (r : Recorder) : Recorder :=
  mkRecorder (cfg r) (audio_queue r) (recording_start_time r)
    (recording_stop_time r) (last_recording_start_time r)
    (last_recording_stop_time r) (wake_word_detect_time r) (silero_check_time
    r) (silero_working r) (speech_end_silence_start r) (listen_start r) (halo
    r) (state r) (wakeword_detected r) (text_storage r)
    (is_webrtc_speech_active r) (is_silero_speech_active r) (wakeword_detector
    r) (audio r) (start_recording_event r) (stop_recording_event r)
    (backdate_stop_seconds r) (backdate_resume_seconds r)
    (last_transcription_bytes r) (transcribe_count r) (audio_buffer r)
    (last_words_buffer r) (frames r) (last_frames r) (is_recording r) v
    (start_recording_on_voice_activity r) (stop_recording_on_voice_deactivity
    r) (allowed_to_early_transcribe r) (webrtc_vad_model r) (silero_vad_model
    r) (interrupt_stop_event r) (was_interrupted r).
Definition set_start_recording_on_voice_activity (v : bool) (r : Recorder) : Recorder :=
  mkRecorder (cfg r) (audio_queue r) (recording_start_time r)
    (recording_stop_time r) (last_recording_start_time r)
    (last_recording_stop_time r) (wake_word_detect_time r) (silero_check_time
    r) (silero_working r) (speech_end_silence_start r) (listen_start r) (halo
    r) (state r) (wakeword_detected r) (text_storage r)
    (is_webrtc_speech_active r) (is_silero_speech_active r) (wakeword_detector
    r) (audio r) (start_recording_event r) (stop_recording_event r)
    (backdate_stop_seconds r) (backdate_resume_seconds r)
    (last_transcription_bytes r) (transcribe_count r) (audio_buffer r)
    (last_words_buffer r) (frames r) (last_frames r) (is_recording r)
    (is_running r) v (stop_recording_on_voice_deactivity r)
    (allowed_to_early_transcribe r) (webrtc_vad_model r) (silero_vad_model r)
    (interrupt_stop_event r) (was_interrupted r).
Definition set_stop_recording_on_voice_deactivity (v : bool) (r : Recorder) : Recorder :=
  mkRecorder (cfg r) (audio_queue r) (recording_start_time r)
    (recording_stop_time r) (last_recording_start_time r)
    (last_recording_stop_time r) (wake_word_detect_time r) (silero_check_time
    r) (silero_working r) (speech_end_silence_start r) (listen_start r) (halo
    r) (state r) (wakeword_detected r) (text_storage r)
    (is_webrtc_speech_active r) (is_silero_speech_active r) (wakeword_detector
    r) (audio r) (start_recording_event r) (stop_recording_event r)
    (backdate_stop_seconds r) (backdate_resume_seconds r)
    (last_transcription_bytes r) (transcribe_count r) (audio_buffer r)
    (last_words_buffer r) (frames r) (last_frames r) (is_recording r)
    (is_running r) (start_recording_on_voice_activity r) v
    (allowed_to_early_transcribe r) (webrtc_vad_model r) (silero_vad_model r)
    (interrupt_stop_event r) (was_interrupted r).
Definition set_allowed_to_early_transcribe (v : bool) (r : Recorder) : Recorder :=
  mkRecorder (cfg r) (audio_queue r) (recording_start_time r)
    (recording_stop_time r) (last_recording_start_time r)
    (last_recording_stop_time r) (wake_word_detect_time r) (silero_check_time
    r) (silero_working r) (speech_end_silence_start r) (listen_start r) (halo
    r) (state r) (wakeword_detected r) (text_storage r)
    (is_webrtc_speech_active r) (is_silero_speech_active r) (wakeword_detector
    r) (audio r) (start_recording_event r) (stop_recording_event r)
    (backdate_stop_seconds r) (backdate_resume_seconds r)
    (last_transcription_bytes r) (transcribe_count r) (audio_buffer r)
    (last_words_buffer r) (frames r) (last_frames r) (is_recording r)
    (is_running r) (start_recording_on_voice_activity r)
    (stop_recording_on_voice_deactivity r) v (webrtc_vad_model r)
    (silero_vad_model r) (interrupt_stop_event r) (was_interrupted r).
Definition set_webrtc_vad_model (v : WebRtc) (r : Recorder) : Recorder :=
  mkRecorder (cfg r) (audio_queue r) (recording_start_time r)
    (recording_stop_time r) (last_recording_start_time r)
    (last_recording_stop_time r) (wake_word_detect_time r) (silero_check_time
    r) (silero_working r) (speech_end_silence_start r) (listen_start r) (halo
    r) (state r) (wakeword_detected r) (text_storage r)
    (is_webrtc_speech_active r) (is_silero_speech_active r) (wakeword_detector
    r) (audio r) (start_recording_event r) (stop_recording_event r)
    (backdate_stop_seconds r) (backdate_resume_seconds r)
    (last_transcription_bytes r) (transcribe_count r) (audio_buffer r)
    (last_words_buffer r) (frames r) (last_frames r) (is_recording r)
    (is_running r) (start_recording_on_voice_activity r)
    (stop_recording_on_voice_deactivity r) (allowed_to_early_transcribe r) v
    (silero_vad_model r) (interrupt_stop_event r) (was_interrupted r).
Definition set_silero_vad_model (v : Silero) (r : Recorder) : Recorder :=
  mkRecorder (cfg r) (audio_queue r) (recording_start_time r)
    (recording_stop_time r) (last_recording_start_time r)
    (last_recording_stop_time r) (wake_word_detect_time r) (silero_check_time
    r) (silero_working r) (speech_end_silence_start r) (listen_start r) (halo
    r) (state r) (wakeword_detected r) (text_storage r)
    (is_webrtc_speech_active r) (is_silero_speech_active r) (wakeword_detector
    r) (audio r) (start_recording_event r) (stop_recording_event r)
    (backdate_stop_seconds r) (backdate_resume_seconds r)
    (last_transcription_bytes r) (transcribe_count r) (audio_buffer r)
    (last_words_buffer r) (frames r) (last_frames r) (is_recording r)
    (is_running r) (start_recording_on_voice_activity r)
    (stop_recording_on_voice_deactivity r) (allowed_to_early_transcribe r)
    (webrtc_vad_model r) v (interrupt_stop_event r) (was_interrupted r).
Definition set_interrupt_stop_event (v : bool) (r : Recorder) : Recorder :=
  mkRecorder (cfg r) (audio_queue r) (recording_start_time r)
    (recording_stop_time r) (last_recording_start_time r)
    (last_recording_stop_time r) (wake_word_detect_time r) (silero_check_time
    r) (silero_working r) (speech_end_silence_start r) (listen_start r) (halo
    r) (state r) (wakeword_detected r) (text_storage r)
    (is_webrtc_speech_active r) (is_silero_speech_active r) (wakeword_detector
    r) (audio r) (start_recording_event r) (stop_recording_event r)
    (backdate_stop_seconds r) (backdate_resume_seconds r)
    (last_transcription_bytes r) (transcribe_count r) (audio_buffer r)
    (last_words_buffer r) (frames r) (last_frames r) (is_recording r)
    (is_running r) (start_recording_on_voice_activity r)
    (stop_recording_on_voice_deactivity r) (allowed_to_early_transcribe r)
    (webrtc_vad_model r) (silero_vad_model r) v (was_interrupted r).
Definition set_was_interrupted (v : bool) (r : Recorder) : Recorder :=
  mkRecorder (cfg r) (audio_queue r) (recording_start_time r)
    (recording_stop_time r) (last_recording_start_time r)
    (last_recording_stop_time r) (wake_word_detect_time r) (silero_check_time
    r) (silero_working r) (speech_end_silence_start r) (listen_start r) (halo
    r) (state r) (wakeword_detected r) (text_storage r)
    (is_webrtc_speech_active r) (is_silero_speech_active r) (wakeword_detector
    r) (audio r) (start_recording_event r) (stop_recording_event r)
    (backdate_stop_seconds r) (backdate_resume_seconds r)
    (last_transcription_bytes r) (transcribe_count r) (audio_buffer r)
    (last_words_buffer r) (frames r) (last_frames r) (is_recording r)
    (is_running r) (start_recording_on_voice_activity r)
    (stop_recording_on_voice_deactivity r) (allowed_to_early_transcribe r)
    (webrtc_vad_model r) (silero_vad_model r) (interrupt_stop_event r) v.

(** ** The effect monad

    A method runs on a world: the recorder, the trace of what it has done
    so far (latest event last) and the number of clock readings taken.  It
    returns a value or raises. *)

Record World := mkWorld { self : Recorder; trace : list Event; ticks : nat }.

Inductive Res (A : Type) := Val (a : A) | Exc (e : PyExn).
Arguments Val {A} a.
Arguments Exc {A} e.

Definition M (A : Type) : Type := World -> Res A * World.

Definition ret {A} (a : A) : M A := fun w => (Val a, w).

Definition bind {A B} (m : M A) (k : A -> M B) : M B :=
  fun w => match m w with
           | (Val a, w') => k a w'
           | (Exc e, w') => (Exc e, w')
           end.

Definition raise {A} (e : PyExn) : M A := fun w => (Exc e, w).

Definition get : M Recorder := fun w => (Val (self w), w).

Definition modify (f : Recorder -> Recorder) : M unit :=
  fun w => (Val tt, mkWorld (f (self w)) (trace w) (ticks w)).

Definition emit (evs : list Event) : M unit :=
  fun w => (Val tt, mkWorld (self w) (trace w ++ evs) (ticks w)).

(** [time.time()] *)
Definition time_time : M float :=
  fun w => (Val (clock (ticks w)), mkWorld (self w) (trace w) (S (ticks w))).

Definition when (c : bool) (m : M unit) : M unit := if c then m else ret tt.

(** An operation that raises [e] when it has no result. *)
Definition lift {A} (e : PyExn) (o : option A) : M A :=
  match o with Some a => ret a | None => raise e end.

Definition log (level : LogLevel) (msg : string) (args : list string) : M unit :=
  emit [EvLog level msg args].

Definition call (registered : bool) (cb : Callback) : M unit :=
  emit (StateMachine.fire registered cb).

Notation "x <- m ;; k" := (bind m (fun x => k))
  (at level 61, m at next level, right associativity).
Notation "m ;; k" := (bind m (fun _ => k))
  (at level 61, right associativity).

(** [int(x)] of a float, with the exception Python raises. *)
Definition py_int (x : float) : M Z :=
  match x with
  | S754_nan => raise ValueError
  | _ => lift OverflowError (int_of_float x)
  end.

(** A [try] block whose handler logs and raises the exception again. *)
Definition on_exception {A} (m : M A) (handler : PyExn -> M unit) : M A :=
  fun w => match m w with
           | (Exc e, w') => (Exc e, snd (handler e w'))
           | r => r
           end.

(** ** Spinner and state *)

Definition _set_spinner (text : string) (r : Recorder) : Recorder :=
  if spinner (cfg r) then
    match halo r with
    | None =>
        set_halo (Some {| StateMachine.halo_text := text;
                          StateMachine.halo_interval := None;
                          StateMachine.halo_running := true |}) r
    | Some h =>
        set_halo (Some {| StateMachine.halo_text := text;
                          StateMachine.halo_interval := StateMachine.halo_interval h;
                          StateMachine.halo_running := StateMachine.halo_running h |}) r
    end
  else r.

#[global] Instance Recorder_Owner : StateMachine.Owner Recorder := {|
  StateMachine.get_state r := Some (state r);
  StateMachine.set_state := set_state;
  StateMachine.get_halo := halo;
  StateMachine.set_halo := set_halo;
  StateMachine._set_spinner := _set_spinner
|}.

Definition state_callbacks (c : Config) : StateMachine.StateCallbacks := {|
  StateMachine.on_vad_detect_start := on_vad_detect_start c;
  StateMachine.on_vad_detect_stop := on_vad_detect_stop c;
  StateMachine.on_wakeword_detection_start := on_wakeword_detection_start c;
  StateMachine.on_wakeword_detection_end := on_wakeword_detection_end c;
  StateMachine.on_transcription_start := on_transcription_start c
|}.

Definition _set_state (new_state : string) : M unit :=
  match StateMachine.of_value new_state with
  | None =>
      (* except ValueError *)
      log WARNING "Unknown state '%s', keeping legacy behaviour" [new_state] ;;
      modify (set_state new_state)
  | Some state_enum =>
      r <- get ;;
      let '(r', evs) :=
        StateMachine.transition_state r state_enum (state_callbacks (cfg r))
                                      (spinner (cfg r)) (wake_words (cfg r)) in
      modify (fun _ => r') ;;
      emit evs
  end.

(** ** start, stop, listen *)

Definition start (frames_arg : option (list bytes)) : M unit :=
  now <- time_time ;;
  r <- get ;;
  if flt (fsub now (recording_stop_time r)) (min_gap_between_recordings (cfg r)) then
    log INFO "Attempted to start recording too soon after stopping." []
  else
    log INFO "recording started" [] ;;
    _set_state (StateMachine.value StateMachine.RECORDING) ;;
    modify (set_text_storage []) ;;
    modify (set_wakeword_detected false) ;;
    modify (set_wake_word_detect_time fzero) ;;
    modify (set_frames []) ;;
    match frames_arg with
    | Some (f :: fs) => modify (set_frames (f :: fs))
    | _ => ret tt
    end ;;
    modify (set_is_recording true) ;;
    now <- time_time ;;
    modify (set_recording_start_time now) ;;
    modify (set_is_silero_speech_active false) ;;
    modify (set_is_webrtc_speech_active false) ;;
    modify (set_stop_recording_event false) ;;
    modify (set_start_recording_event true) ;;
    call (on_recording_start (cfg r)) CbRecordingStart.

Definition stop (backdate_stop : float) (backdate_resume : float) : M unit :=
  now <- time_time ;;
  r <- get ;;
  if flt (fsub now (recording_start_time r)) (min_length_of_recording (cfg r)) then
    log INFO "Attempted to stop recording too soon after starting." []
  else
    log INFO "recording stopped" [] ;;
    modify (fun r => set_last_frames (frames r) r) ;;
    modify (set_backdate_stop_seconds backdate_stop) ;;
    modify (set_backdate_resume_seconds backdate_resume) ;;
    modify (set_is_recording false) ;;
    now <- time_time ;;
    modify (set_recording_stop_time now) ;;
    modify (set_is_silero_speech_active false) ;;
    modify (set_is_webrtc_speech_active false) ;;
    modify (set_silero_check_time fzero) ;;
    modify (set_start_recording_event false) ;;
    modify (set_stop_recording_event true) ;;
    modify (fun r => set_last_recording_start_time (recording_start_time r) r) ;;
    modify (fun r => set_last_recording_stop_time (recording_stop_time r) r) ;;
    call (on_recording_stop (cfg r)) CbRecordingStop.

Definition listen : M unit :=
  now <- time_time ;;
  modify (set_listen_start now) ;;
  _set_state (StateMachine.value StateMachine.LISTENING) ;;
  modify (set_start_recording_on_voice_activity true).

Definition wakeup : M unit :=
  now <- time_time ;;
  modify (set_listen_start now).

(** ** Padding *)

(** [audio] is [None] when the recorder has no audio yet; concatenating it
    is a [ValueError]. *)
Definition _add_padding_to_audio (audio : option (list float32))
           (padding_duration : float) : M (list float32) :=
  r <- get ;;
  n <- py_int (fmul (float_of_int (sample_rate (cfg r))) padding_duration) ;;
  padding <- lift ValueError (zeros n) ;;
  audio <- lift ValueError audio ;;
  ret (padding ++ audio ++ padding).

(** The default of [padding_duration]. *)
Definition default_padding_duration : float := decimal 1 1.

(** ** The gates as the recorder calls them *)

Definition _is_silero_speech (chunk : bytes) : M bool :=
  r <- get ;;
  let vad_cfg := {| Vad.sample_rate := sample_rate (cfg r);
                    Vad.silero_sensitivity := silero_sensitivity (cfg r) |} in
  modify (set_silero_working true) ;;
  res <- lift ValueError
           (Vad.silero_is_speech resample_poly (silero_vad_model r) chunk vad_cfg) ;;
  modify (set_silero_vad_model (snd res)) ;;
  modify (set_is_silero_speech_active (fst res)) ;;
  modify (set_silero_working false) ;;
  ret (fst res).

Definition _is_webrtc_speech (chunk : bytes) (all_frames_must_be_true : bool) : M bool :=
  r <- get ;;
  res <- lift ValueError
           (Vad.webrtc_is_speech resample_poly (webrtc_vad_model r) chunk
                                 (sample_rate (cfg r)) all_frames_must_be_true) ;;
  modify (set_webrtc_vad_model (snd res)) ;;
  modify (set_is_webrtc_speech_active (fst res)) ;;
  ret (fst res).

(** The confirming gate runs on a thread of its own; starting it is
    recorded, its run is a later call of [_is_silero_speech]. *)
Definition _check_voice_activity (data : bytes) : M unit :=
  _is_webrtc_speech data false ;;
  r <- get ;;
  if is_webrtc_speech_active r then
    if negb (silero_working r) then
      modify (set_silero_working true) ;;
      emit [EvThreadStart data]
    else ret tt
  else ret tt.

Definition _is_voice_active : M bool :=
  r <- get ;;
  ret (is_webrtc_speech_active r && is_silero_speech_active r).

(** The message of the error log is in Chinese in the source; it is
    given in English here. *)
Definition _process_wakeword (data : bytes) : M Z :=
  r <- get ;;
  match wakeword_detector r with
  | None => ret (-1)
  | Some d =>
      match WakeWord.process d data with
      | (Some index, d') => modify (set_wakeword_detector (Some d')) ;; ret index
      | (None, d') =>
          modify (set_wakeword_detector (Some d')) ;;
          log ERROR "wake word detection failed: %s" [] ;;
          ret (-1)
      end
  end.

(** ** wait_audio

    [wait_audio] blocks twice, on the start event and on the stop event,
    which the recording worker sets.  The three definitions are the code
    before the first wait, between the waits, and after the second. *)

Definition wait_audio_arm : M unit :=
  log INFO "Setting listen time" [] ;;
  r <- get ;;
  (if SFeqb (listen_start r) fzero then
     now <- time_time ;; modify (set_listen_start now)
   else ret tt) ;;
  r <- get ;;
  if negb (is_recording r) && (len (frames r) =? 0) then
    _set_state (StateMachine.value StateMachine.LISTENING) ;;
    modify (set_start_recording_on_voice_activity true) ;;
    log DEBUG "Waiting for recording start" []
  else ret tt.

Definition wait_audio_arm_stop : M unit :=
  r <- get ;;
  if is_recording r then
    modify (set_stop_recording_on_voice_deactivity true) ;;
    log DEBUG "Waiting for recording stop" []
  else ret tt.

Definition FRAME_SIZE : Z := 2048.

(** The frames that seed the next utterance: the last [samples_to_keep]
    samples, back as int16 bytes, cut every [FRAME_SIZE] bytes. *)
Definition frames_to_read_of (full_audio : list float32) (samples_to_keep : Z)
  : list bytes :=
  if samples_to_keep >? 0 then
    let samples_to_keep := Z.min samples_to_keep (len full_audio) in
    let frames_to_read_audio := slice full_audio (Some (- samples_to_keep)) None in
    let frames_to_read_int16 :=
      astype_int16 (array_mul frames_to_read_audio INT16_MAX_ABS_VALUE) in
    let frame_bytes := tobytes_int16 frames_to_read_int16 in
    filter (fun frame => negb (len frame =? 0))
           (map (fun i => slice frame_bytes (Some i) (Some (i + FRAME_SIZE)))
                (range_step 0 (len frame_bytes) FRAME_SIZE))
  else [].

Definition wait_audio_assemble : M unit :=
  r <- get ;;
  let frames := if len (frames r) =? 0 then last_frames r else frames r in
  samples_to_keep <-
    py_int (fmul (float_of_int (sample_rate (cfg r))) (backdate_resume_seconds r)) ;;
  full_audio_array <- lift ValueError (frombuffer_int16 (join frames)) ;;
  let full_audio := array_div (astype_float32 full_audio_array) INT16_MAX_ABS_VALUE in
  let frames_to_read := frames_to_read_of full_audio samples_to_keep in
  samples_to_remove <-
    py_int (fmul (float_of_int (sample_rate (cfg r))) (backdate_stop_seconds r)) ;;
  (if samples_to_remove >? 0 then
     if samples_to_remove <? len full_audio then
       modify (set_audio (Some (slice full_audio None (Some (- samples_to_remove))))) ;;
       log DEBUG "Removed samples from end of audio" []
     else
       modify (set_audio (Some [])) ;;
       log DEBUG "Cleared audio (samples_to_remove >= audio length)" []
   else
     modify (set_audio (Some full_audio)) ;;
     log DEBUG "No samples removed" []) ;;
  modify (set_frames []) ;;
  modify (set_last_frames []) ;;
  modify (fun r => set_frames (Recorder.frames r ++ frames_to_read) r) ;;
  modify (set_backdate_stop_seconds fzero) ;;
  modify (set_backdate_resume_seconds fzero) ;;
  modify (set_listen_start fzero) ;;
  _set_state (StateMachine.value StateMachine.INACTIVE).

(** ** transcribe

    What the engine answers is an input: each [poll(0.1)] either times out,
    and then [interrupt_stop_event], which other threads write, is read, or
    finds an answer ready. *)

Inductive Poll :=
| PollTimeout (interrupted : bool)
| PollReady (status result : string).

(** What [transcribe] returns: a string, or no return within the polls
    given. *)
Inductive Returned := RetStr (s : string) | Blocked.

(** The code after the [while] loop.  [answer] is the [status, result]
    that the last [recv()] gave; it is [None] when the loop was not
    entered, and then the two names are unbound. *)
Definition transcribe_finish (answer : option (string * string))
           (audio_copy : option (list float32)) (start_time : float) : M Returned :=
  modify (set_allowed_to_early_transcribe true) ;;
  _set_state "inactive" ;;
  match answer with
  | None => raise UnboundLocalError
  | Some (status, result) =>
      if String.eqb status "success" then
        modify (set_last_transcription_bytes audio_copy) ;;
        match audio_copy with
        | None => raise AttributeError      (* None.tobytes() *)
        | Some _ =>
            let transcription := _preprocess_output result in
            _ <- time_time ;;
            r <- get ;;
            (if truthy start_time then
               if print_transcription_time (cfg r) then
                 emit [EvPrint "Model completed transcription"]
               else log DEBUG "Model completed transcription" []
             else ret tt) ;;
            r <- get ;;
            ret (RetStr (if interrupt_stop_event r then "" else transcription))
        end
      else
        log ERROR "Transcription error: %s" [result] ;;
        raise (TranscriptionError result)
  end.

(** [while self.transcribe_count > 0:] *)
Fixpoint transcribe_receive (polls : list Poll) (audio_copy : option (list float32))
         (start_time : float) (answer : option (string * string)) : M Returned :=
  r <- get ;;
  if transcribe_count r >? 0 then
    log DEBUG "Receive from transcriber after sending transcription request" [] ;;
    match polls with
    | [] => ret Blocked
    | PollTimeout interrupted :: polls =>
        modify (set_interrupt_stop_event interrupted) ;;
        if interrupted then
          modify (set_was_interrupted true) ;;
          _set_state "inactive" ;;
          ret (RetStr "")
        else transcribe_receive polls audio_copy start_time answer
    | PollReady status result :: polls =>
        modify (fun r => set_transcribe_count (transcribe_count r - 1) r) ;;
        transcribe_receive polls audio_copy start_time (Some (status, result))
    end
  else transcribe_finish answer audio_copy start_time.

Definition transcribe (polls : list Poll) : M Returned :=
  _set_state (StateMachine.value StateMachine.TRANSCRIBING) ;;
  r <- get ;;
  let audio_copy := audio r in
  on_exception
    (sent <-
       (if transcribe_count r =? 0 then
          log DEBUG "Adding transcription request, no early transcription started" [] ;;
          start_time <- time_time ;;
          audio_copy <- _add_padding_to_audio audio_copy default_padding_duration ;;
          emit [EvSend audio_copy (language (cfg r))] ;;
          modify (fun r => set_transcribe_count (transcribe_count r + 1) r) ;;
          ret (Some audio_copy, start_time)
        else ret (audio_copy, fzero)) ;;
     transcribe_receive polls (fst sent) (snd sent) None)
    (fun _ => log ERROR "Error during transcription: %s" []).

(** ** _recording_worker

    One round of [while self.is_running:], on the variables that the loop
    keeps from one round to the next.  The formatting of time stamps for
    log lines is left out. *)

Record Locals := mkLocals {
  time_since_last_buffer_message : float;
  was_recording : bool;
  delay_was_passed : bool;
  wakeword_detected_time : option float;
  wakeword_samples_to_remove : option Z
}.

(** How a round ends: the loop goes on ([continue] or the end of the
    body), it is left ([break]), or the round waits for ever on the queue. *)
Inductive Flow := Next | Break | Waiting.

(** The code before the loop. *)
Definition worker_prologue : M Locals :=
  modify (set_allowed_to_early_transcribe true) ;;
  ret (mkLocals fzero false false None None).

(** [while self.audio_queue.qsize() > limit: data = self.audio_queue.get()].
    [get()] has no timeout: on an empty queue it does not return. *)
Fixpoint discard_backlog (limit : Z) (queue : list bytes) (data : bytes)
  : option (bytes * list bytes) :=
  if len queue >? limit then
    match queue with
    | [] => None
    | oldest :: queue => discard_backlog limit queue oldest
    end
  else Some (data, queue).

(** The chunk of this round, or how the round ends without one. *)
Definition worker_get_chunk : M (Flow + bytes) :=
  r <- get ;;
  match audio_queue r with
  | [] =>
      (* queue.Empty *)
      ret (inl (if negb (is_running r) then Break else Next))
  | data :: queue =>
      modify (set_audio_queue queue) ;;
      modify (fun r => set_last_words_buffer (dq_append data (last_words_buffer r)) r) ;;
      when (on_recorded_chunk (cfg r)) (emit [EvRecordedChunk data]) ;;
      if handle_buffer_overflow (cfg r) then
        when (len queue >? allowed_latency_limit (cfg r))
             (log WARNING
                  "Audio queue size exceeds latency limit. Discarding old audio chunks."
                  []) ;;
        match discard_backlog (allowed_latency_limit (cfg r)) queue data with
        | Some (data, queue) => modify (set_audio_queue queue) ;; ret (inr data)
        | None => modify (set_audio_queue []) ;; ret (inl Waiting)
        end
      else ret (inr data)
  end.

Definition worker_buffer_message_time (L : Locals) : M Locals :=
  if truthy (time_since_last_buffer_message L) then
    now <- time_time ;;
    let time_passed := fsub now (time_since_last_buffer_message L) in
    if fgt time_passed (float_of_int 1) then
      now <- time_time ;;
      ret (mkLocals now (was_recording L) (delay_was_passed L)
                    (wakeword_detected_time L) (wakeword_samples_to_remove L))
    else ret L
  else
    now <- time_time ;;
    ret (mkLocals now (was_recording L) (delay_was_passed L)
                  (wakeword_detected_time L) (wakeword_samples_to_remove L)).

(** The branch [if not self.is_recording:].  The two [except] clauses
    around [_process_wakeword] cannot be reached: that method catches
    every exception itself. *)
Definition worker_not_recording (data : bytes) (L : Locals) : M Locals :=
  r <- get ;;
  let c := cfg r in
  time_since_listen_start <-
    (if truthy (listen_start r) then
       now <- time_time ;; ret (fsub now (listen_start r))
     else ret fzero) ;;
  let wake_word_activation_delay_passed :=
    fgt time_since_listen_start (wake_word_activation_delay c) in
  when (wake_word_activation_delay_passed && negb (delay_was_passed L))
       (when (use_wake_words c && truthy (wake_word_activation_delay c))
             (call (on_wakeword_timeout c) CbWakewordTimeout)) ;;
  let L := mkLocals (time_since_last_buffer_message L) (was_recording L)
                    wake_word_activation_delay_passed
                    (wakeword_detected_time L) (wakeword_samples_to_remove L) in
  when (negb (truthy (recording_stop_time r)))
       (if use_wake_words c && wake_word_activation_delay_passed
           && negb (wakeword_detected r)
        then _set_state "wakeword"
        else if truthy (listen_start r) then _set_state "listening"
             else _set_state "inactive") ;;
  L <- (if use_wake_words c && wake_word_activation_delay_passed then
          wakeword_index <- _process_wakeword data ;;
          if wakeword_index >=? 0 then
            now <- time_time ;;
            modify (set_wake_word_detect_time now) ;;
            now <- time_time ;;
            n <- py_int (fmul (float_of_int (sample_rate c)) (wake_word_buffer_duration c)) ;;
            modify (set_wakeword_detected true) ;;
            call (on_wakeword_detected c) CbWakewordDetected ;;
            ret (mkLocals (time_since_last_buffer_message L) (was_recording L)
                          (delay_was_passed L) (Some now) (Some n))
          else ret L
        else ret L) ;;
  r <- get ;;
  (if ((negb (use_wake_words c) || negb wake_word_activation_delay_passed)
         && start_recording_on_voice_activity r)
      || wakeword_detected r
   then
     active <- _is_voice_active ;;
     if active then
       log INFO "voice activity detected" [] ;;
       start None ;;
       modify (set_start_recording_on_voice_activity false) ;;
       (* self.frames.extend(list(self.audio_buffer)) *)
       modify (fun r => set_frames (frames r ++ dq_items (audio_buffer r)) r) ;;
       modify (fun r => set_audio_buffer (dq_clear (audio_buffer r)) r) ;;
       modify (fun r => set_silero_vad_model (Vad.reset_states (silero_vad_model r)) r)
     else
       _check_voice_activity data
   else ret tt) ;;
  modify (set_speech_end_silence_start fzero) ;;
  ret L.

(** The early request of the silence branch. *)
Definition worker_early_transcription : M unit :=
  r <- get ;;
  if truthy (speech_end_silence_start r)
     && truthy (early_transcription_on_silence (cfg r))
     && (len (frames r) >? 0)
  then
    now <- time_time ;;
    if fgt (fsub now (speech_end_silence_start r)) (early_transcription_on_silence (cfg r))
       && allowed_to_early_transcribe r
    then
      modify (fun r => set_transcribe_count (transcribe_count r + 1) r) ;;
      audio_array <- lift ValueError (frombuffer_int16 (join (frames r))) ;;
      let audio := array_div (astype_float32 audio_array) INT16_MAX_ABS_VALUE in
      audio <- _add_padding_to_audio (Some audio) default_padding_duration ;;
      emit [EvSend audio (language (cfg r))] ;;
      modify (set_allowed_to_early_transcribe false)
    else ret tt
  else ret tt.

(** The branch [else:] (recording); the boolean is [failed_stop_attempt]. *)
Definition worker_recording (data : bytes) (L : Locals) : M (Locals * bool) :=
  L <- (match wakeword_samples_to_remove L with
        | Some n =>
            if negb (n =? 0) && (n >? 0) then
              modify (fun r => set_frames (snd (strip_wakeword_loop n (frames r))) r) ;;
              ret (mkLocals (time_since_last_buffer_message L) (was_recording L)
                            (delay_was_passed L) (wakeword_detected_time L) (Some 0))
            else ret L
        | None => ret L
        end) ;;
  r <- get ;;
  if stop_recording_on_voice_deactivity r then
    is_speech <- (if silero_deactivity_detection (cfg r)
                  then _is_silero_speech data
                  else _is_webrtc_speech data true) ;;
    (if negb is_speech then
       r <- get ;;
       (if SFeqb (speech_end_silence_start r) fzero then
          now <- time_time ;;
          when (fgt (fsub now (recording_start_time r)) (min_length_of_recording (cfg r)))
               (now <- time_time ;; modify (set_speech_end_silence_start now))
        else ret tt) ;;
       worker_early_transcription
     else
       r <- get ;;
       when (truthy (speech_end_silence_start r))
            (modify (set_speech_end_silence_start fzero) ;;
             modify (set_allowed_to_early_transcribe true))) ;;
    r <- get ;;
    if truthy (speech_end_silence_start r) then
      now <- time_time ;;
      if fge (fsub now (speech_end_silence_start r)) (post_speech_silence_duration (cfg r))
      then
        _ <- time_time ;;                        (* time_diff *)
        modify (fun r => set_frames (frames r ++ [data]) r) ;;
        stop fzero fzero ;;
        r <- get ;;
        if negb (is_recording r) then
          modify (set_speech_end_silence_start fzero) ;; ret (L, false)
        else ret (L, true)
      else ret (L, false)
    else ret (L, false)
  else ret (L, false).

(** The code after the two branches. *)
Definition worker_finish (data : bytes) (L : Locals) (failed_stop_attempt : bool)
  : M Locals :=
  r <- get ;;
  when (negb (is_recording r) && was_recording L)
       (modify (set_stop_recording_on_voice_deactivity false)) ;;
  now <- time_time ;;
  when (fgt (fsub now (silero_check_time r)) (decimal 1 10))
       (modify (set_silero_check_time fzero)) ;;
  (if truthy (wake_word_detect_time r) then
     now <- time_time ;;
     if fgt (fsub now (wake_word_detect_time r)) (wake_word_timeout (cfg r)) then
       modify (set_wake_word_detect_time fzero) ;;
       call (wakeword_detected r && on_wakeword_timeout (cfg r)) CbWakewordTimeout ;;
       modify (set_wakeword_detected false)
     else ret tt
   else ret tt) ;;
  let L := mkLocals (time_since_last_buffer_message L) (is_recording r)
                    (delay_was_passed L) (wakeword_detected_time L)
                    (wakeword_samples_to_remove L) in
  when (is_recording r && negb failed_stop_attempt)
       (modify (fun r => set_frames (frames r ++ [data]) r)) ;;
  r <- get ;;
  when (negb (is_recording r) || truthy (speech_end_silence_start r))
       (modify (fun r => set_audio_buffer (dq_append data (audio_buffer r)) r)) ;;
  ret L.

Definition _recording_worker_round (L : Locals) : M (Flow * Locals) :=
  got <- worker_get_chunk ;;
  match got with
  | inl flow => ret (flow, L)
  | inr data =>
      L <- worker_buffer_message_time L ;;
      r <- get ;;
      res <- (if negb (is_recording r) then
                L <- worker_not_recording data L ;; ret (L, false)
              else worker_recording data L) ;;
      L <- worker_finish data (fst res) (snd res) ;;
      ret (Next, L)
  end.

(** The [except Exception] around the loop: the exception is logged and
    raised again unless the interrupt event is set. *)
Definition _recording_worker_guarded (L : Locals) : M (Flow * Locals) :=
  fun w => match _recording_worker_round L w with
           | (Exc e, w') =>
               if interrupt_stop_event (self w') then (Val (Break, L), w')
               else (Exc e, snd (log ERROR "Unhandled exeption in _recording_worker: %s" [] w'))
           | res => res
           end.

(** ** The attributes after [__init__]

    [c] holds [sample_rate] and [buffer_size] as the constructor leaves
    them (a Porcupine detector replaces both by its own).  [None] is an
    exception of the constructor: a zero [buffer_size], or a length of a
    buffer that is not a natural number.  [allowed_to_early_transcribe]
    is first assigned by the recording worker, which the constructor
    starts. *)

Definition deque_maxlen (c : Config) (duration : float) : option nat :=
  if buffer_size c =? 0 then None
  else
    match int_of_float (fmul (float_of_int (sample_rate c / buffer_size c)) duration) with
    | Some n => if n <? 0 then None else Some (Z.to_nat n)
    | None => None
    end.

Definition attributes (c : Config) (pre_roll last_words : nat) (webrtc : WebRtc)
           (silero : Silero) (detector : option Detector) : Recorder :=
           {| cfg := c;
              audio_queue := [];
              recording_start_time := fzero;
              recording_stop_time := fzero;
              last_recording_start_time := fzero;
              last_recording_stop_time := fzero;
              wake_word_detect_time := fzero;
              silero_check_time := fzero;
              silero_working := false;
              speech_end_silence_start := fzero;
              listen_start := fzero;
              halo := None;
              state := StateMachine.value StateMachine.INACTIVE;
              wakeword_detected := false;
              text_storage := [];
              is_webrtc_speech_active := false;
              is_silero_speech_active := false;
              wakeword_detector := detector;
              audio := None;
              start_recording_event := false;
              stop_recording_event := false;
              backdate_stop_seconds := fzero;
              backdate_resume_seconds := fzero;
              last_transcription_bytes := None;
              transcribe_count := 0;
              audio_buffer := dq_new pre_roll;
              last_words_buffer := dq_new last_words;
              frames := [];
              last_frames := [];
              is_recording := false;
              is_running := true;
              start_recording_on_voice_activity := false;
              stop_recording_on_voice_deactivity := false;
              allowed_to_early_transcribe := true;
              webrtc_vad_model := webrtc;
              silero_vad_model := silero;
              interrupt_stop_event := false;
              was_interrupted := false |}.

Definition init_attributes (c : Config) (webrtc : WebRtc) (silero : Silero)
           (detector : option Detector) : option Recorder :=
  match deque_maxlen c (pre_recording_buffer_duration c),
        deque_maxlen c (decimal 3 10) with
  | Some pre_roll, Some last_words =>
      Some (attributes c pre_roll last_words webrtc silero detector)
  | _, _ => None
  end.

End Recorder.

(** The constructor's defaults ([INIT_*], [SAMPLE_RATE], [BUFFER_SIZE],
    [ALLOWED_LATENCY_LIMIT]): no callback is registered, there is no wake
    word, the spinner is on.  [handle_buffer_overflow] is the default of
    every platform but Darwin. *)
Definition default_config : Config := {|
  language := "auto";
  wake_words := "";
  wake_word_activation_delay := decimal 0 1;
  wake_word_timeout := decimal 5 1;
  wake_word_buffer_duration := decimal 1 10;
  min_gap_between_recordings := fzero;
  min_length_of_recording := decimal 5 10;
  pre_recording_buffer_duration := decimal 1 1;
  post_speech_silence_duration := decimal 6 10;
  on_recording_start := false;
  on_recording_stop := false;
  on_wakeword_detected := false;
  on_wakeword_timeout := false;
  on_vad_detect_start := false;
  on_vad_detect_stop := false;
  on_wakeword_detection_start := false;
  on_wakeword_detection_end := false;
  on_recorded_chunk := false;
  on_transcription_start := false;
  model_path := "";
  handle_buffer_overflow := true;
  allowed_latency_limit := 100;
  buffer_size := 512;
  sample_rate := 16000;
  silero_sensitivity := decimal 4 10;
  silero_deactivity_detection := false;
  spinner := true;
  use_wake_words := false;
  print_transcription_time := false;
  early_transcription_on_silence := fzero
|}.

(** [c] with wake words switched on. *)
Definition with_wake_words (words : string) (c : Config) : Config := {|
  language := language c;
  wake_words := words;
  wake_word_activation_delay := wake_word_activation_delay c;
  wake_word_timeout := wake_word_timeout c;
  wake_word_buffer_duration := wake_word_buffer_duration c;
  min_gap_between_recordings := min_gap_between_recordings c;
  min_length_of_recording := min_length_of_recording c;
  pre_recording_buffer_duration := pre_recording_buffer_duration c;
  post_speech_silence_duration := post_speech_silence_duration c;
  on_recording_start := on_recording_start c;
  on_recording_stop := on_recording_stop c;
  on_wakeword_detected := on_wakeword_detected c;
  on_wakeword_timeout := on_wakeword_timeout c;
  on_vad_detect_start := on_vad_detect_start c;
  on_vad_detect_stop := on_vad_detect_stop c;
  on_wakeword_detection_start := on_wakeword_detection_start c;
  on_wakeword_detection_end := on_wakeword_detection_end c;
  on_recorded_chunk := on_recorded_chunk c;
  on_transcription_start := on_transcription_start c;
  model_path := model_path c;
  handle_buffer_overflow := handle_buffer_overflow c;
  allowed_latency_limit := allowed_latency_limit c;
  buffer_size := buffer_size c;
  sample_rate := sample_rate c;
  silero_sensitivity := silero_sensitivity c;
  silero_deactivity_detection := silero_deactivity_detection c;
  spinner := spinner c;
  use_wake_words := true;
  print_transcription_time := print_transcription_time c;
  early_transcription_on_silence := early_transcription_on_silence c
|}.

(** [c] with early transcription after [seconds] of silence. *)
Definition with_early_transcription (seconds : float) (c : Config)
  : Config := {|
  language := language c;
  wake_words := wake_words c;
  wake_word_activation_delay := wake_word_activation_delay c;
  wake_word_timeout := wake_word_timeout c;
  wake_word_buffer_duration := wake_word_buffer_duration c;
  min_gap_between_recordings := min_gap_between_recordings c;
  min_length_of_recording := min_length_of_recording c;
  pre_recording_buffer_duration := pre_recording_buffer_duration c;
  post_speech_silence_duration := post_speech_silence_duration c;
  on_recording_start := on_recording_start c;
  on_recording_stop := on_recording_stop c;
  on_wakeword_detected := on_wakeword_detected c;
  on_wakeword_timeout := on_wakeword_timeout c;
  on_vad_detect_start := on_vad_detect_start c;
  on_vad_detect_stop := on_vad_detect_stop c;
  on_wakeword_detection_start := on_wakeword_detection_start c;
  on_wakeword_detection_end := on_wakeword_detection_end c;
  on_recorded_chunk := on_recorded_chunk c;
  on_transcription_start := on_transcription_start c;
  model_path := model_path c;
  handle_buffer_overflow := handle_buffer_overflow c;
  allowed_latency_limit := allowed_latency_limit c;
  buffer_size := buffer_size c;
  sample_rate := sample_rate c;
  silero_sensitivity := silero_sensitivity c;
  silero_deactivity_detection := silero_deactivity_detection c;
  spinner := spinner c;
  use_wake_words := use_wake_words c;
  print_transcription_time := print_transcription_time c;
  early_transcription_on_silence := seconds
|}.

End Recorder.

(* ===================================================================== *)
(** * Engines for worked examples *)
(* ===================================================================== *)

(** Small deterministic stand-ins for the three engines, the resampler and
    the clock, on which the code can be run. *)

Module Demo.

(** A fast gate without a state: a frame is speech when its first byte
    is [0xff]. *)
#[global] Instance webrtc : Vad.WebRtcVadModel unit := {|
  Vad.is_speech _ frame _ :=
    (match frame with xff :: _ => true | _ => false end, tt)
|}.

(** A confirming gate that counts its calls: probability 1 when the first
    sample of the chunk is not zero, 0 otherwise. *)
#[global] Instance silero : Vad.SileroVadModel nat := {|
  Vad.silero_call calls audio _ :=
    (match audio with
     | S754_finite _ _ _ :: _ => float_of_int 1
     | _ => fzero
     end, S calls);
  Vad.reset_states _ := O
|}.

(** A detector that fires on word 0 when the chunk starts with [0x77]. *)
#[global] Instance detector : WakeWord.IWakeWordDetector unit := {|
  WakeWord.process _ data :=
    (Some (match data with x77 :: _ => 0 | _ => -1 end), tt)
|}.

(** A resampler that keeps every sample (as a float). *)
Definition resample_poly (x : list Z) (up down : Z) : list float :=
  map float_of_int x.

(** A clock that starts at 1000 s and advances 1/64 s per reading. *)
Definition clock (n : nat) : float :=
  fdiv (float_of_int (64000 + Z.of_nat n)) (float_of_int 64).

Definition _preprocess_output (text : string) : string := text.

(** A chunk of [n] samples, all bytes equal to [b]. *)
Definition chunk_of (b : byte) (n : nat) : bytes := repeat b (2 * n).

(** The recorder that the constructor builds from the defaults (a
    pre-roll buffer of 31 chunks). *)
Definition recorder0 : @Recorder.Recorder unit nat unit :=
  Recorder.attributes Recorder.default_config 31 9 tt O None.

(** The same with the wake word "jarvis" and the detector above. *)
Definition wake_recorder : @Recorder.Recorder unit nat unit :=
  Recorder.attributes (Recorder.with_wake_words "jarvis" Recorder.default_config)
                      31 9 tt O (Some tt).

(** The recorder of the defaults with early transcription after a tenth
    of a second of silence. *)
Definition early_recorder : @Recorder.Recorder unit nat unit :=
  Recorder.attributes
    (Recorder.with_early_transcription (decimal 1 10) Recorder.default_config)
    31 9 tt O None.

End Demo.

(* ===================================================================== *)
(** * audio_recorder.py: the text helpers *)
(* ===================================================================== *)

Module Text.

(** A Python [str] is a sequence of code points. *)
Definition str := list N.

Definition SPACE : N := 32.    (* ' ' *)
Definition PERIOD : N := 46.   (* '.' *)

Section Unicode.
(** The tables of the Unicode database that the code consults:
    [str.isspace] of a character (which is also what [\s] matches in a
    pattern over [str], and what [str.strip()] removes), [str.upper] of a
    character (it may give several) and [str.isalnum]. *)
Variable isspace : N -> bool.
Variable upper : N -> str.
Variable isalnum : N -> bool.

Fixpoint lstrip (text : str) : str :=
  match text with
  | c :: rest => if isspace c then lstrip rest else text
  | [] => []
  end.

Definition rstrip (text : str) : str := rev (lstrip (rev text)).

(** [text.strip()] *)
Definition strip (text : str) : str := rstrip (lstrip text).

(** [re.sub(r'\s+', ' ', text)]: every maximal run of whitespace gives one
    space; [in_run] tells that the character before was whitespace. *)
Fixpoint sub_whitespace (in_run : bool) (text : str) : str :=
  match text with
  | [] => []
  | c :: rest =>
      if isspace c then
        if in_run then sub_whitespace true rest
        else SPACE :: sub_whitespace true rest
      else c :: sub_whitespace false rest
  end.

(** [text[-1]] of a text that is not empty. *)
Definition last_char (text : str) : N := last text 0%N.

Definition _preprocess_output (ensure_sentence_starting_uppercase
                               ensure_sentence_ends_with_period : bool)
           (text : str) (preview : bool) : str :=
  let text := sub_whitespace false (strip text) in
  let text :=
    if ensure_sentence_starting_uppercase then
      match text with
      | c :: rest => upper c ++ rest
      | [] => text
      end
    else text in
  if negb preview then
    if ensure_sentence_ends_with_period then
      match text with
      | _ :: _ => if isalnum (last_char text) then text ++ [PERIOD] else text
      | [] => text
      end
    else text
  else text.

End Unicode.

(** [text1 == text2] *)
Fixpoint str_eqb (a b : str) : bool :=
  match a, b with
  | [], [] => true
  | x :: a, y :: b => N.eqb x y && str_eqb a b
  | _, _ => false
  end.

(** The [for i in range(...)] loop of [_find_tail_match_in_text]. *)
Fixpoint tail_match_loop (target text2 : str) (length_of_match : Z)
         (indices : list Z) : Z :=
  match indices with
  | [] => -1
  | i :: rest =>
      let current_substring :=
        slice text2 (Some (len text2 - i - length_of_match)) (Some (len text2 - i)) in
      if str_eqb current_substring target then len text2 - i
      else tail_match_loop target text2 length_of_match rest
  end.

Definition _find_tail_match_in_text (text1 text2 : str) (length_of_match : Z) : Z :=
  if (len text1 <? length_of_match) || (len text2 <? length_of_match) then -1
  else
    let target_substring := slice text1 (Some (- length_of_match)) None in
    tail_match_loop target_substring text2 length_of_match
                    (range (len text2 - length_of_match + 1)).

End Text.

(* ===================================================================== *)
(** * audio_recorder.py: audio on its way to the queue *)
(* ===================================================================== *)

Module Capture.

(** What a call comes to: it returns, it raises, or it does not end. *)
Inductive Outcome (A : Type) :=
| Returns (a : A)
| Raises (e : PyExn)
| ZeroDivisionError
| Diverges.
Arguments Returns {A} a.
Arguments Raises {A} e.
Arguments ZeroDivisionError {A}.
Arguments Diverges {A}.

(** The audio a caller hands over: bytes, or an array of floats with one
    or two dimensions (frames by channels). *)
Inductive Chunk :=
| Bytes (b : bytes)
| Ndarray1 (a : list float)
| Ndarray2 (rows : list (list float)).

Section Capture.
(** External routines: [np.mean(chunk, axis=1)] and
    [scipy.signal.resample(chunk, num_samples)]. *)
Variable np_mean_axis1 : list (list float) -> list float.
Variable resample : list float -> Z -> list float.

(** [int(n * rate / original_sample_rate)] for integers [n], [rate] and
    [original_sample_rate] (the quotient is a float; the operands are
    exact below 2^53). *)
Definition num_samples_of (n rate original_sample_rate : Z) : Outcome Z :=
  if original_sample_rate =? 0 then ZeroDivisionError
  else
    match fdiv (float_of_int (n * rate)) (float_of_int original_sample_rate) with
    | S754_nan => Raises ValueError
    | q => match int_of_float q with
           | Some k => Returns k
           | None => Raises OverflowError
           end
    end.

Definition bind {A B} (o : Outcome A) (k : A -> Outcome B) : Outcome B :=
  match o with
  | Returns a => k a
  | Raises e => Raises e
  | ZeroDivisionError => ZeroDivisionError
  | Diverges => Diverges
  end.

(** [if original_sample_rate != target_sample_rate:] with its two lines. *)
Definition to_rate (chunk : list float) (original_sample_rate target_sample_rate : Z)
  : Outcome (list float) :=
  if negb (original_sample_rate =? target_sample_rate) then
    bind (num_samples_of (len chunk) target_sample_rate original_sample_rate)
         (fun num_samples => Returns (resample chunk num_samples))
  else Returns chunk.

(** [if chunk.ndim == 2: chunk = np.mean(chunk, axis=1)] *)
Definition to_mono (chunk : Chunk) : list float :=
  match chunk with
  | Ndarray2 rows => np_mean_axis1 rows
  | Ndarray1 a => a
  | Bytes _ => []
  end.

(** The nested [preprocess_audio] of [_audio_data_worker]. *)
Definition preprocess_audio (chunk : Chunk) (original_sample_rate target_sample_rate : Z)
  : Outcome bytes :=
  match chunk with
  | Ndarray1 _ | Ndarray2 _ =>
      bind (to_rate (to_mono chunk) original_sample_rate target_sample_rate)
           (fun chunk => Returns (tobytes_int16 (astype_int16 chunk)))
  | Bytes b =>
      match frombuffer_int16 b with
      | None => Raises ValueError
      | Some chunk =>
          if negb (original_sample_rate =? target_sample_rate) then
            bind (to_rate (map float_of_int chunk) original_sample_rate target_sample_rate)
                 (fun chunk => Returns (tobytes_int16 (astype_int16 chunk)))
          else Returns (tobytes_int16 chunk)
      end
  end.

(** The first lines of [feed_audio]: the chunk as bytes. *)
Definition feed_bytes (chunk : Chunk) (original_sample_rate : Z) : Outcome bytes :=
  match chunk with
  | Ndarray1 _ | Ndarray2 _ =>
      bind (to_rate (to_mono chunk) original_sample_rate 16000)
           (fun chunk => Returns (tobytes_int16 (astype_int16 chunk)))
  | Bytes b => Returns b
  end.

End Capture.

(** [while len(self.buffer) >= buf_size:] of [feed_audio]: the first
    [buf_size] bytes of the buffer are put on the queue as one chunk.
    When [buf_size] is not positive the loop never ends. *)
Equations? feed_loop (buf_size : Z) (buffer : bytes) (audio_queue : list bytes)
  : option (bytes * list bytes) by wf (length buffer) lt :=
  feed_loop buf_size buffer audio_queue with Z_le_dec buf_size (len buffer) := {
    | right _ := Some (buffer, audio_queue);
    | left _ with Z_lt_dec 0 buf_size := {
        | right _ := None;
        | left _ :=
            let to_process := slice buffer None (Some buf_size) in
            feed_loop buf_size (slice buffer (Some buf_size) None)
                      (audio_queue ++ [to_process]) } }.
Proof.
  unfold slice, clamp_index, len in *.
  destruct (buf_size <? 0) eqn:E; [apply Z.ltb_lt in E; lia|].
  rewrite length_firstn, length_skipn. lia.
Qed.

Section Feed.
Context {WebRtc Silero Detector : Type}.
Variable np_mean_axis1 : list (list float) -> list float.
Variable resample : list float -> Z -> list float.

(** [feed_audio].  The attribute [buffer], which no other method uses,
    is given and returned beside the recorder; [None] is the recorder
    that does not have it yet. *)
Definition feed_audio (chunk : Chunk) (original_sample_rate : Z)
           (buffer : option bytes) (r : @Recorder.Recorder WebRtc Silero Detector)
  : Outcome (bytes * @Recorder.Recorder WebRtc Silero Detector) :=
  let buffer := match buffer with Some b => b | None => [] end in
  bind (feed_bytes np_mean_axis1 resample chunk original_sample_rate)
       (fun chunk =>
          let buffer := buffer ++ chunk in
          let buf_size := 2 * Recorder.buffer_size (Recorder.cfg r) in
          match feed_loop buf_size buffer (Recorder.audio_queue r) with
          | Some (buffer, audio_queue) =>
              Returns (buffer, Recorder.set_audio_queue audio_queue r)
          | None => Diverges
          end).

End Feed.

End Capture.

(* ===================================================================== *)
(** * wakeword.py: the two detectors *)
(* ===================================================================== *)

Module Detectors.

(** The Porcupine engine: the samples it wants per call, its rate, and
    [process(pcm)], which gives the index of the keyword heard or -1. *)
Class PorcupineEngine (E : Type) := {
  frame_length : E -> Z;
  sample_rate : E -> Z;
  engine_process : E -> list Z -> option Z * E     (* [None]: it raises *)
}.

(** The OpenWakeWord model: [predict(pcm)] updates the prediction buffer
    ([false] is an exception); [prediction_buffer] gives, in the order of
    its keys, the scores kept for each wake-word model (as Python
    floats). *)
Class OpenWakeWordModel (E : Type) := {
  predict : E -> list Z -> bool * E;
  prediction_buffer : E -> list (list float)
}.

(** [struct.unpack_from("h" * n, data)]: the first [n] int16 of [data],
    in the byte order of the machine, taken to be little-endian; [None] is
    [struct.error], raised when [data] is shorter than the format (an [n]
    below 0 gives the empty format). *)
Definition unpack_from_h (n : Z) (data : bytes) : option (list Z) :=
  let n := Z.max n 0 in
  if len data <? 2 * n then None
  else frombuffer_int16 (slice data None (Some (2 * n))).

(** What [process] of a detector comes to. *)
Inductive Processed := Index (i : Z) | StructError | OtherError.

Definition porcupine_process {E} `{PorcupineEngine E} (engine : E) (data : bytes)
  : Processed * E :=
  if len data <? frame_length engine * 2 then (Index (-1), engine)
  else
    match unpack_from_h (frame_length engine) data with
    | None => (StructError, engine)
    | Some pcm =>
        match engine_process engine pcm with
        | (Some i, engine) => (Index i, engine)
        | (None, engine) => (OtherError, engine)
        end
    end.

Record OpenWakeWordDetector (E : Type) := {
  _model : E;
  sensitivity : float
}.

(** The loop over [enumerate(self._model.prediction_buffer.keys())]. *)
Fixpoint best_score (sensitivity : float) (buffer : list (list float)) (idx : Z)
         (max_score : float) (max_index : Z) : Z :=
  match buffer with
  | [] => max_index
  | scores :: rest =>
      match scores with
      | [] => best_score sensitivity rest (idx + 1) max_score max_index
      | _ :: _ =>
          let s := last scores fzero in     (* scores[-1] *)
          if fge s sensitivity && fgt s max_score
          then best_score sensitivity rest (idx + 1) s idx
          else best_score sensitivity rest (idx + 1) max_score max_index
      end
  end.

Definition openwakeword_process {E} `{OpenWakeWordModel E}
           (d : OpenWakeWordDetector E) (data : bytes)
  : Processed * OpenWakeWordDetector E :=
  match frombuffer_int16 data with
  | None => (OtherError, d)                      (* ValueError *)
  | Some pcm =>
      if len pcm =? 0 then (Index (-1), d)
      else
        let (ok, model) := predict (_model d) pcm in
        let d := {| _model := model; sensitivity := sensitivity d |} in
        if ok then
          (Index (best_score (sensitivity d) (prediction_buffer model) 0
                             (float_of_int (-1)) (-1)), d)
        else (OtherError, d)
  end.

(** The detectors as the recorder sees them. *)
Definition as_detector (p : Processed) : option Z :=
  match p with Index i => Some i | StructError | OtherError => None end.

Definition Porcupine_Detector {E} `{PorcupineEngine E}
  : WakeWord.IWakeWordDetector E := {|
  WakeWord.process engine data :=
    let (p, engine) := porcupine_process engine data in (as_detector p, engine)
|}.

Definition OpenWakeWord_Detector {E} `{OpenWakeWordModel E}
  : WakeWord.IWakeWordDetector (OpenWakeWordDetector E) := {|
  WakeWord.process d data :=
    let (p, d) := openwakeword_process d data in (as_detector p, d)
|}.

End Detectors.
(* ===================================================================== *)
(** * audio_recorder.py: the calls of a session *)
(* ===================================================================== *)

Module Session.

(** What [text] comes to: it returns a string; it hands the
    transcription to a thread that runs [on_transcription_finished], and
    returns [None]; or it does not return. *)
Inductive TextResult :=
| Text (s : string)
| Handed (s : string)
| NoReturn.

Section Session.
Import Recorder.

Context {WebRtc Silero Detector : Type}.
Context `{Vad.WebRtcVadModel WebRtc} `{Vad.SileroVadModel Silero}
        `{WakeWord.IWakeWordDetector Detector}.
Variable resample_poly : list Z -> Z -> Z -> list float.
Variable clock : nat -> float.
Variable _preprocess_output : string -> string.

#[local] Abbreviation M := (@M WebRtc Silero Detector).

Notation "x <- m ;; k" := (bind m (fun x => k))
  (at level 61, m at next level, right associativity).
Notation "m ;; k" := (bind m (fun _ => k))
  (at level 61, right associativity).

(** Other threads run while a method waits.  What they do during one
    wait is a change of the world, given from outside. *)
Definition others (step : World -> World) : M unit :=
  fun w => (Val tt, step w).

(** [while not self.interrupt_stop_event.is_set():
       if event.wait(timeout=0.02): break]
    The loop is left when the interrupt or the event is found set; until
    then each [wait] lets the other threads take a step.  The answer is
    [false] when the loop is not left within the steps given. *)
Fixpoint wait_for (event : Recorder -> bool) (waits : list (World -> World)) : M bool :=
  r <- get ;;
  if interrupt_stop_event r || event r then ret true
  else match waits with
       | [] => ret false
       | step :: waits => others step ;; wait_for event waits
       end.

(** [event.wait()], without a timeout. *)
Fixpoint event_wait (event : Recorder -> bool) (waits : list (World -> World)) : M bool :=
  r <- get ;;
  if event r then ret true
  else match waits with
       | [] => ret false
       | step :: waits => others step ;; event_wait event waits
       end.

(** [wait_audio], whole: the code of [wait_audio_arm], the first wait,
    the code of [wait_audio_arm_stop], the second wait, and
    [wait_audio_assemble].  It answers [false] when it waits for ever.
    The handler of [KeyboardInterrupt], which nothing here raises, is
    left out. *)
Definition wait_audio (waits_start waits_stop : list (World -> World)) : M bool :=
  log INFO "Setting listen time" [] ;;
  r <- get ;;
  (if SFeqb (listen_start r) fzero then
     now <- time_time clock ;; modify (set_listen_start now)
   else ret tt) ;;
  r <- get ;;
  started <-
    (if negb (is_recording r) && (len (frames r) =? 0) then
       _set_state (StateMachine.value StateMachine.LISTENING) ;;
       modify (set_start_recording_on_voice_activity true) ;;
       log DEBUG "Waiting for recording start" [] ;;
       wait_for start_recording_event waits_start
     else ret true) ;;
  if started then
    r <- get ;;
    stopped <-
      (if is_recording r then
         modify (set_stop_recording_on_voice_deactivity true) ;;
         log DEBUG "Waiting for recording stop" [] ;;
         wait_for stop_recording_event waits_stop
       else ret true) ;;
    if stopped then wait_audio_assemble ;; ret true
    else ret false
  else ret false.

(** [text].  [is_shut_down] is the flag of that name, which [shutdown]
    sets; [on_transcription_finished] tells whether a callback is given.
    The handler of [KeyboardInterrupt] around [wait_audio] is left out. *)
Definition text (is_shut_down : bool) (on_transcription_finished : bool)
           (waits_start waits_stop : list (World -> World)) (polls : list Poll)
  : M TextResult :=
  modify (set_interrupt_stop_event false) ;;
  modify (set_was_interrupted false) ;;
  returned <- wait_audio waits_start waits_stop ;;
  if returned then
    r <- get ;;
    if is_shut_down || interrupt_stop_event r then
      when (interrupt_stop_event r) (modify (set_was_interrupted true)) ;;
      ret (Text "")
    else
      transcription <- transcribe clock _preprocess_output polls ;;
      match transcription with
      | RetStr s => ret (if on_transcription_finished then Handed s else Text s)
      | Blocked => ret NoReturn
      end
  else ret NoReturn.

(** [abort].  The answer is [false] when [self.was_interrupted.wait()]
    does not return. *)
Definition abort (waits : list (World -> World)) : M bool :=
  modify (set_start_recording_on_voice_activity false) ;;
  modify (set_stop_recording_on_voice_deactivity false) ;;
  modify (set_interrupt_stop_event true) ;;
  r <- get ;;
  went_on <-
    (if negb (String.eqb (state r) (StateMachine.value StateMachine.INACTIVE)) then
       set <- event_wait was_interrupted waits ;;
       if set then
         _set_state (StateMachine.value StateMachine.TRANSCRIBING) ;; ret true
       else ret false
     else ret true) ;;
  if went_on then
    modify (set_was_interrupted false) ;;
    r <- get ;;
    (if is_recording r then stop clock fzero fzero else ret tt) ;;
    ret true
  else ret false.

End Session.

End Session.

(* ===================================================================== *)
(** * Samples for the text helpers and the detectors *)
(* ===================================================================== *)

Module Samples.

(** The Unicode tables, cut down to ASCII. *)
Definition isspace (c : N) : bool :=
  (N.eqb c 32 || (N.leb 9 c && N.leb c 13) || (N.leb 28 c && N.leb c 31))%bool.

Definition upper (c : N) : Text.str :=
  [if (N.leb 97 c && N.leb c 122)%bool then (c - 32)%N else c].

Definition isalnum (c : N) : bool :=
  ((N.leb 48 c && N.leb c 57) || (N.leb 65 c && N.leb c 90)
   || (N.leb 97 c && N.leb c 122))%bool.

(** The code points of an ASCII string. *)
Fixpoint str_of (s : string) : Text.str :=
  match s with
  | EmptyString => []
  | String c s => Ascii.N_of_ascii c :: str_of s
  end.

(** Stand-ins for [np.mean(chunk, axis=1)] (the first channel) and for
    [scipy.signal.resample] (the first samples, zeros after them). *)
Definition np_mean_axis1 (rows : list (list float)) : list float :=
  map (fun row => hd fzero row) rows.

Definition resample (chunk : list float) (num_samples : Z) : list float :=
  firstn (Z.to_nat num_samples) (chunk ++ repeat fzero (Z.to_nat num_samples)).

(** An OpenWakeWord model with three wake words: the state is the
    prediction buffer, and [predict] gives wake word [k] a tenth of
    sample [k] of the chunk as its new score. *)
#[global] Instance oww : Detectors.OpenWakeWordModel (list (list float)) := {|
  Detectors.predict buffer pcm :=
    (true,
     map (fun k => nth k buffer [] ++ [decimal (nth k pcm 0) 10]) [0; 1; 2]%nat);
  Detectors.prediction_buffer buffer := buffer
|}.

(** A Porcupine engine of frames of four samples that hears keyword 0
    when the first sample is 7. *)
#[global] Instance porcupine : Detectors.PorcupineEngine unit := {|
  Detectors.frame_length _ := 4;
  Detectors.sample_rate _ := 16000;
  Detectors.engine_process _ pcm :=
    (Some (match pcm with 7 :: _ => 0 | _ => -1 end), tt)
|}.

(** A clock that stands at 1000 s. *)
Definition still_clock (n : nat) : float := float_of_int 1000.

(** A clock that starts at 1000 s and advances one second per reading. *)
Definition seconds_clock (n : nat) : float := float_of_int (1000 + Z.of_nat n).

(** [c] with a callback registered for every change of state. *)
Definition with_state_callbacks (c : Recorder.Config) : Recorder.Config := {|
  Recorder.language := Recorder.language c;
  Recorder.wake_words := Recorder.wake_words c;
  Recorder.wake_word_activation_delay := Recorder.wake_word_activation_delay c;
  Recorder.wake_word_timeout := Recorder.wake_word_timeout c;
  Recorder.wake_word_buffer_duration := Recorder.wake_word_buffer_duration c;
  Recorder.min_gap_between_recordings := Recorder.min_gap_between_recordings c;
  Recorder.min_length_of_recording := Recorder.min_length_of_recording c;
  Recorder.pre_recording_buffer_duration := Recorder.pre_recording_buffer_duration c;
  Recorder.post_speech_silence_duration := Recorder.post_speech_silence_duration c;
  Recorder.on_recording_start := Recorder.on_recording_start c;
  Recorder.on_recording_stop := Recorder.on_recording_stop c;
  Recorder.on_wakeword_detected := Recorder.on_wakeword_detected c;
  Recorder.on_wakeword_timeout := Recorder.on_wakeword_timeout c;
  Recorder.on_vad_detect_start := true;
  Recorder.on_vad_detect_stop := true;
  Recorder.on_wakeword_detection_start := true;
  Recorder.on_wakeword_detection_end := true;
  Recorder.on_recorded_chunk := Recorder.on_recorded_chunk c;
  Recorder.on_transcription_start := true;
  Recorder.model_path := Recorder.model_path c;
  Recorder.handle_buffer_overflow := Recorder.handle_buffer_overflow c;
  Recorder.allowed_latency_limit := Recorder.allowed_latency_limit c;
  Recorder.buffer_size := Recorder.buffer_size c;
  Recorder.sample_rate := Recorder.sample_rate c;
  Recorder.silero_sensitivity := Recorder.silero_sensitivity c;
  Recorder.silero_deactivity_detection := Recorder.silero_deactivity_detection c;
  Recorder.spinner := Recorder.spinner c;
  Recorder.use_wake_words := Recorder.use_wake_words c;
  Recorder.print_transcription_time := Recorder.print_transcription_time c;
  Recorder.early_transcription_on_silence := Recorder.early_transcription_on_silence c
|}.

(** [str.strip()] for the space character. *)
Fixpoint lstrip_spaces (s : list Ascii.ascii) : list Ascii.ascii :=
  match s with
  | c :: rest => if (Ascii.N_of_ascii c =? 32)%N then lstrip_spaces rest else s
  | [] => []
  end.

Definition strip (s : string) : string :=
  string_of_list_ascii
    (rev (lstrip_spaces (rev (lstrip_spaces (list_ascii_of_string s))))).

End Samples.

(* ===================================================================== *)
(** * core/asr_service.py: [LocalASRStrategy] *)
(* ===================================================================== *)

Module LocalAsr.

(** [b"__STOP__"] *)
Definition STOP : bytes := [x5f; x5f; x53; x54; x4f; x50; x5f; x5f].

(** The dictionary that [transcribe_stream] yields. *)
Record Result := {
  text : string;
  is_final : bool;
  begin_time : Z;
  end_time : Z
}.

(** How the generator ends: it has yielded results and returned; it has
    raised an exception of the recorder's code, [ZeroDivisionError], or
    the [RuntimeError] it makes of an exception of [transcribe]; or it
    does not come to an end. *)
Inductive Ended :=
| Yielded (results : list Result)
| Raised (e : PyExn)
| ZeroDivisionError
| RuntimeError (cause : PyExn)
| NoReturn.

Definition bytes_eqb (a b : bytes) : bool :=
  if list_eq_dec Byte.byte_eq_dec a b then true else false.

Section LocalAsr.
Import Recorder.

Context {WebRtc Silero Detector : Type}.
Variable clock : nat -> float.
Variable _preprocess_output : string -> string.

(** [str.strip()] *)
Variable strip : string -> string.

(** [self._sample_rate] *)
Variable _sample_rate : Z.

#[local] Abbreviation M := (@M WebRtc Silero Detector).

Notation "x <- m ;; k" := (bind m (fun x => k))
  (at level 61, m at next level, right associativity).
Notation "m ;; k" := (bind m (fun _ => k))
  (at level 61, right associativity).

(** [int(time.time() * 1000)] *)
Definition wall_ms : M Z :=
  now <- time_time clock ;;
  py_int (fmul now (float_of_int 1000)).

(** [for chunk in audio_stream:], on the samples gathered so far and
    the time of the first chunk.  A consumer that closes the generator
    before the stream ends is left out. *)
Fixpoint gather (audio_stream : list bytes) (buffer : list Z)
         (start_wall_ms : option Z) : M (list Z * option Z) :=
  match audio_stream with
  | [] => ret (buffer, start_wall_ms)
  | chunk :: audio_stream =>
      if len chunk =? 0 then gather audio_stream buffer start_wall_ms
      else if bytes_eqb chunk STOP then ret (buffer, start_wall_ms)
      else
        start_wall_ms <-
          (match start_wall_ms with
           | None => t <- wall_ms ;; ret (Some t)
           | Some t => ret (Some t)
           end) ;;
        arr <- lift ValueError (frombuffer_int16 chunk) ;;
        if len arr =? 0 then gather audio_stream buffer start_wall_ms
        else gather audio_stream (buffer ++ arr) start_wall_ms
  end.

(** [transcribe_stream].  The array of int16 samples that becomes the
    recorder's audio is given as the float32 values of the samples, which
    is what [np.concatenate] with the float32 padding makes of it.
    [int(total_samples * 1000 / self._sample_rate)] is taken of the
    quotient of the two numbers as floats, which is the quotient the
    source computes as long as [total_samples * 1000] is below 2^53. *)
Definition transcribe_stream (audio_stream : list bytes) (polls : list Poll)
  : World -> Ended * World :=
  fun w =>
    match gather audio_stream [] None w with
    | (Exc _ e, w) => (Raised e, w)
    | (Val (buffer, start_wall_ms), w) =>
        if len buffer =? 0 then (Yielded [], w)
        else
          let total_samples := len buffer in
          if _sample_rate =? 0 then (ZeroDivisionError, w)
          else
            match py_int (fdiv (float_of_int (total_samples * 1000))
                               (float_of_int _sample_rate)) w with
            | (Exc _ e, w) => (Raised e, w)
            | (Val duration_ms, w) =>
                match (match start_wall_ms with
                       | None => t <- wall_ms ;; ret (t - duration_ms)
                       | Some t => ret t
                       end) w with
                | (Exc _ e, w) => (Raised e, w)
                | (Val start_wall_ms, w) =>
                    match (modify (set_audio (Some (astype_float32 buffer))) ;;
                           transcribe clock _preprocess_output polls) w with
                    | (Exc _ e, w) => (RuntimeError e, w)
                    | (Val Blocked, w) => (NoReturn, w)
                    | (Val (RetStr text), w) =>
                        let text := strip text in
                        if String.eqb text "" then (Yielded [], w)
                        else
                          (Yielded [{| text := text;
                                       is_final := true;
                                       begin_time := start_wall_ms;
                                       end_time := start_wall_ms + duration_ms |}],
                           w)
                    end
                end
            end
    end.

End LocalAsr.

End LocalAsr.


(* ===================================================================== *)
(** * Vocabulary of the properties *)
(* ===================================================================== *)

(** The requests sent to the transcription engine, in order. *)
Fixpoint sends (t : list Event) : list (list float32 * string) :=
  match t with
  | [] => []
  | EvSend audio language :: t => (audio, language) :: sends t
  | _ :: t => sends t
  end.

(** The callbacks called, in order. *)
Fixpoint callbacks_of (t : list Event) : list Callback :=
  match t with
  | [] => []
  | EvCallback cb :: t => cb :: callbacks_of t
  | _ :: t => callbacks_of t
  end.

(** The frames the fast gate looks at: [num_frames] consecutive slices of
    the 16 kHz chunk. *)
Definition vad_frames (chunk : bytes) : list bytes :=
  map (Vad.frame_at chunk) (range (Vad.num_frames chunk)).

(** The decisions of the frame model on a list of frames, each frame given
    to the model in the state the frame before left it in. *)
Fixpoint frame_flags {M} `{Vad.WebRtcVadModel M} (model : M) (frames : list bytes)
  : list bool :=
  match frames with
  | [] => []
  | f :: fs =>
      let (flag, model) := Vad.is_speech model f 16000 in
      flag :: frame_flags model fs
  end.

(** A float32 between -1 and 1. *)
Definition in_unit_interval (x : float32) : bool :=
  SFleb (float32_of_int (-1)) x && SFleb x (float32_of_int 1).

(** int16 samples as normalized float32 audio. *)
Definition normalize (samples : list Z) : list float32 :=
  array_div (astype_float32 samples) 32768.

(** [P] on each of the [2 ^ bits] integers from [base] on. *)
Fixpoint all_below (bits : nat) (base : Z) (P : Z -> bool) : bool :=
  match bits with
  | O => P base
  | S b => all_below b base P && all_below b (base + 2 ^ Z.of_nat b) P
  end.

(** How many flags are set. *)
Fixpoint count_true (flags : list bool) : Z :=
  match flags with
  | [] => 0
  | true :: fs => 1 + count_true fs
  | false :: fs => count_true fs
  end.

(** A computation that, when it returns, has left the frames and the
    recording flag as they were. *)
Definition keeps_frames {WebRtc Silero Detector A : Type}
           (m : @Recorder.M WebRtc Silero Detector A) : Prop :=
  forall w a w',
    m w = (Recorder.Val a, w') ->
    Recorder.frames (Recorder.self w') = Recorder.frames (Recorder.self w)
    /\ Recorder.is_recording (Recorder.self w')
       = Recorder.is_recording (Recorder.self w).

(** A computation that sends nothing to the transcription engine. *)
Definition no_send {WebRtc Silero Detector A : Type}
           (m : @Recorder.M WebRtc Silero Detector A) : Prop :=
  forall w, sends (Recorder.trace (snd (m w))) = sends (Recorder.trace w).

(** The audio that [_add_padding_to_audio] makes of [audio] with a padding
    of [n] samples. *)
Definition padded (n : Z) (audio : list float32) : list float32 :=
  repeat f32zero (Z.to_nat n) ++ audio ++ repeat f32zero (Z.to_nat n).

(** [k] rounds of the recording worker, one after the other, as long as
    none raises. *)
Fixpoint run_rounds {WebRtc Silero Detector : Type}
         `{Vad.WebRtcVadModel WebRtc} `{Vad.SileroVadModel Silero}
         `{WakeWord.IWakeWordDetector Detector}
         (resample_poly : list Z -> Z -> Z -> list float) (clock : nat -> float)
         (k : nat) (L : Recorder.Locals) (w : @Recorder.World WebRtc Silero Detector)
  : Recorder.Locals * Recorder.World :=
  match k with
  | O => (L, w)
  | S k =>
      match Recorder._recording_worker_round resample_poly clock L w with
      | (Recorder.Val (_, L'), w') => run_rounds resample_poly clock k L' w'
      | (_, w') => (L, w')
      end
  end.

(** A text in which no whitespace character comes first or follows
    another one; [after_space] tells that the character before was
    whitespace (or that there was none). *)
Fixpoint single_spaced (isspace : N -> bool) (after_space : bool) (text : Text.str)
  : bool :=
  match text with
  | [] => true
  | c :: rest =>
      if isspace c then negb after_space && single_spaced isspace true rest
      else single_spaced isspace false rest
  end.

(** The characters of a text that are not whitespace. *)
Definition non_space (isspace : N -> bool) (text : Text.str) : Text.str :=
  filter (fun c => negb (isspace c)) text.

(** The [length] characters of [text] that end at position [stop]. *)
Definition window (text : Text.str) (stop length : Z) : Text.str :=
  firstn (Z.to_nat length) (skipn (Z.to_nat (stop - length)) text).

(** A float that is NaN. *)
Definition is_nan (x : float) : bool :=
  match x with S754_nan => true | _ => false end.

(** The latest score of a wake-word model, and whether it lets the model
    fire: it reaches the sensitivity and it is above -1. *)
Definition last_score (scores : list float) : float := last scores fzero.

Definition fires (sensitivity : float) (scores : list float) : bool :=
  match scores with
  | [] => false
  | _ :: _ => fge (last_score scores) sensitivity
              && fgt (last_score scores) (float_of_int (-1))
  end.

(** What the loop knows after the models [done]: no model fires and the
    maximum is still -1, or [max_index] is the first model with the
    highest score among those that fire. *)
Definition best_so_far (sensitivity : float) (done : list (list float))
           (max_score : float) (max_index : Z) : Prop :=
  (max_index = -1 /\ max_score = float_of_int (-1)
   /\ forall scores, In scores done -> fires sensitivity scores = false)
  \/ (0 <= max_index < len done
      /\ max_score = last_score (nth (Z.to_nat max_index) done [])
      /\ fires sensitivity (nth (Z.to_nat max_index) done []) = true
      /\ forall j, 0 <= j < len done ->
                   fires sensitivity (nth (Z.to_nat j) done []) = true ->
                   (j < max_index ->
                    flt (last_score (nth (Z.to_nat j) done [])) max_score = true)
                   /\ (max_index < j ->
                       fgt (last_score (nth (Z.to_nat j) done [])) max_score = false)).

(** The answers that a list of polls delivers, in order, and whether no
    poll in it finds the interrupt set. *)
Fixpoint ready_answers (polls : list Recorder.Poll) : list (string * string) :=
  match polls with
  | [] => []
  | Recorder.PollReady status result :: polls => (status, result) :: ready_answers polls
  | Recorder.PollTimeout _ :: polls => ready_answers polls
  end.

Definition never_interrupted (polls : list Recorder.Poll) : bool :=
  forallb (fun p => match p with
                    | Recorder.PollTimeout true => false
                    | _ => true
                    end) polls.

(** The chunks on which a thread of the confirming gate was started. *)
Fixpoint gate_threads (t : list Event) : list bytes :=
  match t with
  | [] => []
  | EvThreadStart data :: t => data :: gate_threads t
  | _ :: t => gate_threads t
  end.

(** Requests for a list of states, one after the other. *)
Fixpoint requests {WebRtc Silero Detector : Type}
         (states : list StateMachine.RecorderState)
  : @Recorder.M WebRtc Silero Detector unit :=
  match states with
  | [] => Recorder.ret tt
  | s :: states =>
      Recorder.bind (Recorder._set_state (StateMachine.value s))
                    (fun _ => requests states)
  end.

Definition callback_index (cb : Callback) : Z :=
  match cb with
  | CbRecordingStart => 0 | CbRecordingStop => 1 | CbTranscriptionStart => 2
  | CbVadDetectStart => 3 | CbVadDetectStop => 4
  | CbWakewordDetectionStart => 5 | CbWakewordDetectionEnd => 6
  | CbWakewordDetected => 7 | CbWakewordTimeout => 8
  end.

(** How often a callback has been called. *)
Definition calls (cb : Callback) (t : list Event) : Z :=
  len (filter (fun c => callback_index c =? callback_index cb) (callbacks_of t)).

(** Whether the recorder is in a state. *)
Definition in_state {WebRtc Silero Detector : Type} (s : StateMachine.RecorderState)
           (r : @Recorder.Recorder WebRtc Silero Detector) : bool :=
  String.eqb (Recorder.state r) (StateMachine.value s).

(** The callbacks that [transition_state] calls on leaving the state
    [old_state] and on entering [new_state]. *)
Definition leaving_callbacks (c : StateMachine.StateCallbacks) (old_state : string)
  : list Callback :=
  if String.eqb old_state "listening" then
    if StateMachine.on_vad_detect_stop c then [CbVadDetectStop] else []
  else if String.eqb old_state "wakeword" then
    if StateMachine.on_wakeword_detection_end c then [CbWakewordDetectionEnd] else []
  else [].

Definition entering_callbacks (c : StateMachine.StateCallbacks)
           (new_state : StateMachine.RecorderState) : list Callback :=
  match new_state with
  | StateMachine.LISTENING =>
      if StateMachine.on_vad_detect_start c then [CbVadDetectStart] else []
  | StateMachine.WAKEWORD =>
      if StateMachine.on_wakeword_detection_start c then [CbWakewordDetectionStart]
      else []
  | StateMachine.TRANSCRIBING =>
      if StateMachine.on_transcription_start c then [CbTranscriptionStart] else []
  | _ => []
  end.

(** The start and stop callbacks of a state that are owed: the start
    ones called so far, less the stop ones, less the one that is open
    while the recorder is in the state. *)
Definition owed {WebRtc Silero Detector : Type} (s : StateMachine.RecorderState)
           (on off : Callback) (w : @Recorder.World WebRtc Silero Detector) : Z :=
  calls on (Recorder.trace w) - calls off (Recorder.trace w)
  - Z.b2z (in_state s (Recorder.self w)).

(** The chunks of a stream that [transcribe_stream] takes in: those
    before the stop marker, the empty ones left out. *)
Fixpoint heard (audio_stream : list bytes) : list bytes :=
  match audio_stream with
  | [] => []
  | chunk :: audio_stream =>
      if len chunk =? 0 then heard audio_stream
      else if LocalAsr.bytes_eqb chunk LocalAsr.STOP then []
      else chunk :: heard audio_stream
  end.

(** ** Clock readings of a round, and what a step leaves alone *)

(** The number of clock readings that [worker_buffer_message_time] takes
    when the clock has been read [k] times: one, and one more when over a
    second has passed since the last buffer message. *)
Definition buffer_message_readings (clock : nat -> float) (L : Recorder.Locals)
           (k : nat) : nat :=
  if truthy (Recorder.time_since_last_buffer_message L)
     && fgt (fsub (clock k) (Recorder.time_since_last_buffer_message L)) (float_of_int 1)
  then 2 else 1.

(** The number of the [i]-th reading of the clock (from 0) that a round
    of the recording worker takes after those for the buffer message:
    [clock (round_reading clock L w i)] is what that call of
    [time.time()] returns. *)
Definition round_reading {WebRtc Silero Detector : Type} (clock : nat -> float)
           (L : Recorder.Locals) (w : @Recorder.World WebRtc Silero Detector)
           (i : nat) : nat :=
  (Recorder.ticks w + buffer_message_readings clock L (Recorder.ticks w) + i)%nat.

(** A computation that, when it returns, has left a field of the
    recorder as it was. *)
Definition keeps {WebRtc Silero Detector A B : Type}
           (field : @Recorder.Recorder WebRtc Silero Detector -> B)
           (m : @Recorder.M WebRtc Silero Detector A) : Prop :=
  forall w a w',
    m w = (Recorder.Val a, w') -> field (Recorder.self w') = field (Recorder.self w).

(** The recording flag and the pre-roll buffer, which the steps of a
    round before [start] leave alone. *)
Definition idle_fields {WebRtc Silero Detector : Type}
           (r : @Recorder.Recorder WebRtc Silero Detector) : bool * deque bytes :=
  (Recorder.is_recording r, Recorder.audio_buffer r).


(* ===================================================================== *)
(** * Properties *)
(* ===================================================================== *)

Unset Implicit Arguments.

Section Guards.

Import Recorder.

Lemma recorder0_is_constructed :
  init_attributes default_config tt O None = Some Demo.recorder0.
Proof. vm_compute. reflexivity. Qed.

(** ** The state machine *)

(** C8.  A transition request to the state the owner is already in does
    nothing: the owner is returned as it is and no event, so no entry or
    exit callback, is produced. *)
Theorem transition_state_same_state :
  forall (O : Type) (I : StateMachine.Owner O) (owner : O)
         (s : StateMachine.RecorderState) (callbacks : StateMachine.StateCallbacks)
         (spinner_enabled : bool) (wake_words : string),
    StateMachine.get_state owner = Some (StateMachine.value s) ->
    StateMachine.transition_state owner s callbacks spinner_enabled wake_words
    = (owner, []).
Proof.
  intros O I owner s callbacks spinner_enabled wake_words Hstate.
  unfold StateMachine.transition_state.
  rewrite Hstate. cbn [StateMachine.option_string_eqb].
  rewrite String.eqb_refl. reflexivity.
Qed.

Lemma transition_state_same_state_witness :
  let cbs := state_callbacks default_config in
  StateMachine.transition_state Demo.recorder0 StateMachine.INACTIVE cbs false ""
  = (Demo.recorder0, []).
Proof.
  intro cbs.
  apply (@transition_state_same_state _ Recorder_Owner Demo.recorder0
           StateMachine.INACTIVE cbs false "").
  reflexivity.
Defined.

(** C1, as the code has it.  A request for a state that is not one of the
    five values does not fail: a warning is logged, no callback is called,
    and the state attribute is set to the requested string; nothing else
    of the recorder changes. *)
Theorem set_state_unknown_legacy :
  forall (WebRtc Silero Detector : Type) (new_state : string)
         (w : @World WebRtc Silero Detector),
    StateMachine.of_value new_state = None ->
    _set_state new_state w
    = (Val tt,
       mkWorld (set_state new_state (self w))
               (trace w ++ [EvLog WARNING "Unknown state '%s', keeping legacy behaviour"
                                  [new_state]])
               (ticks w)).
Proof.
  intros WebRtc Silero Detector new_state w Hunknown.
  unfold _set_state. rewrite Hunknown. reflexivity.
Qed.

Lemma set_state_unknown_legacy_witness :
  let w := mkWorld Demo.recorder0 [] 0 in
  _set_state "paused" w
  = (Val tt,
     mkWorld (set_state "paused" Demo.recorder0)
             [EvLog WARNING "Unknown state '%s', keeping legacy behaviour" ["paused"]]
             0%nat).
Proof.
  intro w.
  apply (@set_state_unknown_legacy unit nat unit "paused" w).
  reflexivity.
Defined.

(** C1 as stated fails: the recorder is inactive, the state "paused" is
    requested, and afterwards the state attribute is "paused", not the
    state held before. *)
Lemma set_state_unknown_changes_state :
  let w := mkWorld Demo.recorder0 [] 0 in
  StateMachine.of_value "paused" = None
  /\ state (self w) = "inactive"
  /\ state (self (snd (_set_state "paused" w))) <> state (self w).
Proof.
  cbv zeta. repeat split. vm_compute. discriminate.
Qed.

(** ** The minimum duration guard *)

(** C5.  When the clock reading that [stop] takes is less than
    [min_length_of_recording] after [recording_start_time], [stop] returns
    with the recorder exactly as it was: [is_recording], the state, the
    frames, the backdate parameters, the events and the time stamps are
    untouched.  The only trace of the call is a log line; in particular
    the stop callback is not called. *)
Theorem stop_too_soon_no_effect :
  forall (WebRtc Silero Detector : Type) (clock : nat -> float)
         (backdate_stop backdate_resume : float)
         (w : @World WebRtc Silero Detector),
    flt (fsub (clock (ticks w)) (recording_start_time (self w)))
        (min_length_of_recording (cfg (self w))) = true ->
    stop clock backdate_stop backdate_resume w
    = (Val tt,
       mkWorld (self w)
               (trace w ++ [EvLog INFO "Attempted to stop recording too soon after starting." []])
               (S (ticks w))).
Proof.
  intros WebRtc Silero Detector clock backdate_stop backdate_resume w Hsoon.
  unfold stop, bind, time_time, get. cbn [self ticks trace].
  rewrite Hsoon. reflexivity.
Qed.

(** A recording started from the constructed recorder and stopped at the
    next clock reading, 1/64 s later. *)
Lemma stop_too_soon_no_effect_witness :
  let w := snd (start Demo.clock None (mkWorld Demo.recorder0 [] 0)) in
  is_recording (self w) = true
  /\ state (self w) = "recording"
  /\ stop Demo.clock (decimal 1 10) (decimal 2 10) w
     = (Val tt,
        mkWorld (self w)
                (trace w ++ [EvLog INFO "Attempted to stop recording too soon after starting." []])
                (S (ticks w))).
Proof.
  intro w. split; [reflexivity|]. split; [reflexivity|].
  apply stop_too_soon_no_effect.
  vm_compute. reflexivity.
Defined.

End Guards.

(** ** Lists, slices and ranges *)

Lemma all_below_spec :
  forall bits base P,
    all_below bits base P = true ->
    forall z, base <= z < base + 2 ^ Z.of_nat bits -> P z = true.
Proof.
  induction bits as [|b IH]; intros base P Hall z Hz.
  - cbn in *. replace z with base by lia. exact Hall.
  - cbn [all_below] in Hall. apply andb_prop in Hall. destruct Hall as [Hlo Hhi].
    rewrite Nat2Z.inj_succ, Z.pow_succ_r in Hz by lia.
    destruct (Z_lt_dec z (base + 2 ^ Z.of_nat b)).
    + apply (IH base); [exact Hlo | lia].
    + apply (IH (base + 2 ^ Z.of_nat b)); [exact Hhi | lia].
Qed.

Lemma firstn_plus :
  forall (A : Type) (a b : nat) (l : list A),
    firstn (a + b) l = firstn a l ++ firstn b (skipn a l).
Proof.
  induction a as [|a IH]; intros b l.
  - reflexivity.
  - destruct l as [|x l]; cbn.
    + now rewrite firstn_nil.
    + now rewrite IH.
Qed.

Lemma slice_between :
  forall (A : Type) (l : list A) (a b : Z),
    0 <= a <= b ->
    slice l (Some a) (Some b) = firstn (Z.to_nat (b - a)) (skipn (Z.to_nat a) l).
Proof.
  intros A l a b Hab. unfold slice, clamp_index, len.
  destruct (a <? 0) eqn:Ea; [apply Z.ltb_lt in Ea; lia|].
  destruct (b <? 0) eqn:Eb; [apply Z.ltb_lt in Eb; lia|].
  set (n := length l).
  destruct (Z_le_dec a (Z.of_nat n)) as [Han|Han].
  - rewrite (Z.min_l a) by lia.
    destruct (Z_le_dec b (Z.of_nat n)) as [Hbn|Hbn].
    + rewrite Z.min_l by lia. reflexivity.
    + rewrite Z.min_r by lia.
      rewrite !firstn_all2; try reflexivity; rewrite length_skipn; fold n; lia.
  - rewrite !Z.min_r by lia.
    replace (Z.of_nat n - Z.of_nat n) with 0 by lia. cbn [Z.to_nat firstn].
    rewrite (skipn_all2 (n := Z.to_nat a)) by (fold n; lia).
    now rewrite firstn_nil.
Qed.

Lemma slice_from :
  forall (A : Type) (l : list A) (a : Z),
    0 <= a -> slice l (Some a) None = skipn (Z.to_nat a) l.
Proof.
  intros A l a Ha. unfold slice, clamp_index, len.
  destruct (a <? 0) eqn:Ea; [apply Z.ltb_lt in Ea; lia|].
  set (n := length l).
  destruct (Z_le_dec a (Z.of_nat n)) as [Han|Han].
  - rewrite Z.min_l by lia. apply firstn_all2. rewrite length_skipn. fold n. lia.
  - rewrite Z.min_r by lia. rewrite Nat2Z.id.
    replace (Z.to_nat (Z.of_nat n - Z.of_nat n)) with O by lia. cbn [firstn].
    symmetry. apply skipn_all2. fold n. lia.
Qed.

Lemma range_step_length :
  forall first last step,
    length (range_step first last step)
    = if last <=? first then O else Z.to_nat ((last - first + step - 1) / step).
Proof.
  intros. unfold range_step. destruct (last <=? first); [reflexivity|].
  now rewrite length_map, length_seq.
Qed.

Lemma range_as_seq :
  forall n, range n = map Z.of_nat (seq 0 (Z.to_nat n)).
Proof.
  intro n. unfold range, range_step.
  destruct (n <=? 0) eqn:E.
  - apply Z.leb_le in E. now replace (Z.to_nat n) with O by lia.
  - replace ((n - 0 + 1 - 1) / 1) with n by (rewrite Z.div_1_r; lia).
    apply map_ext. intro k. lia.
Qed.

(** Consecutive slices of one size put together are a prefix. *)
Lemma concat_consecutive :
  forall (A : Type) (l : list A) (size m : nat),
    concat (map (fun k => firstn size (skipn (k * size) l)) (seq 0 m))
    = firstn (m * size) l.
Proof.
  intros A l size m. induction m as [|m IH].
  - reflexivity.
  - rewrite seq_S, map_app, concat_app, IH. cbn [map concat plus].
    rewrite app_nil_r.
    replace (S m * size)%nat with (m * size + size)%nat by lia.
    now rewrite firstn_plus.
Qed.

(** ** The fast gate *)

Lemma frame_length_value : Vad.frame_length = 160.
Proof. vm_compute. reflexivity. Qed.

(** The float quotient of the source and the integer quotient of
    [Vad.num_frames] have the same integer part, checked here for every
    length up to 8191 bytes. *)
Lemma num_frames_as_in_source :
  forall n, 0 <= n < 8192 ->
    int_of_float (fdiv (float_of_int n) (float_of_int (2 * Vad.frame_length)))
    = Some (n / (2 * Vad.frame_length)).
Proof.
  intros n Hn.
  assert (Hall : all_below 13 0
            (fun n => match int_of_float
                              (fdiv (float_of_int n) (float_of_int (2 * Vad.frame_length))) with
                      | Some q => q =? n / (2 * Vad.frame_length)
                      | None => false
                      end) = true) by (vm_compute; reflexivity).
  pose proof (all_below_spec _ _ _ Hall n) as Hq. cbv beta in Hq.
  destruct (int_of_float _) as [q|]; [|discriminate Hq; simpl; lia].
  f_equal. apply Z.eqb_eq. apply Hq. simpl. lia.
Qed.

Lemma frame_at_as_firstn :
  forall (chunk : bytes) (k : nat),
    Vad.frame_at chunk (Z.of_nat k) = firstn 320 (skipn (k * 320) chunk).
Proof.
  intros chunk k. unfold Vad.frame_at. rewrite frame_length_value.
  rewrite slice_between by lia.
  replace (Z.to_nat (Z.of_nat k * 160 * 2 + 160 * 2 - Z.of_nat k * 160 * 2))
    with 320%nat by lia.
  replace (Z.to_nat (Z.of_nat k * 160 * 2)) with (k * 320)%nat by lia.
  reflexivity.
Qed.

Lemma vad_frames_as_firstn :
  forall chunk : bytes,
    vad_frames chunk
    = map (fun k => firstn 320 (skipn (k * 320) chunk))
          (seq 0 (Z.to_nat (Vad.num_frames chunk))).
Proof.
  intro chunk. unfold vad_frames. rewrite range_as_seq, map_map.
  apply map_ext. intro k. apply frame_at_as_firstn.
Qed.

Lemma num_frames_fit :
  forall chunk : bytes,
    (Z.to_nat (Vad.num_frames chunk) * 320 <= length chunk)%nat.
Proof.
  intro chunk. unfold Vad.num_frames, len. rewrite frame_length_value.
  pose proof (Z.mul_div_le (Z.of_nat (length chunk)) 320 ltac:(lia)).
  pose proof (Z.div_pos (Z.of_nat (length chunk)) 320 ltac:(lia) ltac:(lia)).
  change (2 * 160) with 320. lia.
Qed.

Lemma vad_frames_partition :
  forall chunk : bytes,
    Forall (fun f => len f = 2 * Vad.frame_length) (vad_frames chunk)
    /\ concat (vad_frames chunk)
       = firstn (Z.to_nat (Vad.num_frames chunk) * 320) chunk.
Proof.
  intro chunk. rewrite vad_frames_as_firstn. split.
  - apply Forall_forall. intros f Hf. apply in_map_iff in Hf.
    destruct Hf as [k [Hk Hin]]. apply in_seq in Hin. subst f.
    pose proof (num_frames_fit chunk).
    unfold len. rewrite frame_length_value, length_firstn, length_skipn. lia.
  - apply concat_consecutive.
Qed.

Lemma count_true_bounds :
  forall flags, 0 <= count_true flags <= len flags.
Proof.
  unfold len. induction flags as [|[|] fs IH]; cbn [count_true length]; lia.
Qed.

Lemma count_true_all :
  forall flags, (count_true flags =? len flags) = forallb id flags.
Proof.
  induction flags as [|[|] fs IH]; [reflexivity| |].
  - cbn [count_true forallb id andb]. rewrite <- IH. unfold len. cbn [length].
    destruct (count_true fs =? Z.of_nat (length fs)) eqn:E.
    + apply Z.eqb_eq in E. apply Z.eqb_eq. lia.
    + apply Z.eqb_neq in E. apply Z.eqb_neq. lia.
  - cbn [count_true forallb id andb]. pose proof (count_true_bounds fs).
    apply Z.eqb_neq. unfold len in *. cbn [length]. lia.
Qed.

Lemma frame_flags_length :
  forall (M : Type) (I : Vad.WebRtcVadModel M) (frames : list bytes) (model : M),
    length (frame_flags model frames) = length frames.
Proof.
  induction frames as [|f fs IH]; intro model; [reflexivity|].
  cbn [frame_flags]. destruct (Vad.is_speech model f 16000) as [flag m].
  cbn [length]. now rewrite IH.
Qed.

Section FastGate.

Context {M : Type} {I : Vad.WebRtcVadModel M}.
Variable resample_poly : list Z -> Z -> Z -> list float.

Lemma frame_loop_any :
  forall (chunk : bytes) (indices : list Z) (model : M) (n0 : Z),
    fst (Vad.frame_loop chunk false indices model n0)
    = if existsb id (frame_flags model (map (Vad.frame_at chunk) indices))
      then inl true else inr n0.
Proof.
  intros chunk. induction indices as [|i rest IH]; intros model n0; [reflexivity|].
  cbn [Vad.frame_loop map frame_flags].
  destruct (Vad.is_speech model (Vad.frame_at chunk i) 16000) as [flag m].
  destruct flag; cbn [negb existsb id orb fst]; [reflexivity | apply IH].
Qed.

Lemma frame_loop_all :
  forall (chunk : bytes) (indices : list Z) (model : M) (n0 : Z),
    fst (Vad.frame_loop chunk true indices model n0)
    = inr (n0 + count_true (frame_flags model (map (Vad.frame_at chunk) indices))).
Proof.
  intros chunk. induction indices as [|i rest IH]; intros model n0.
  - cbn. f_equal. lia.
  - cbn [Vad.frame_loop map frame_flags].
    destruct (Vad.is_speech model (Vad.frame_at chunk i) 16000) as [flag m].
    destruct flag; cbn [negb count_true]; rewrite IH; f_equal; lia.
Qed.

(** C6, as the code has it.  The 16 kHz chunk is cut into [num_frames]
    consecutive frames of 320 bytes (10 ms), which together are a prefix
    of the chunk.  In "any" mode the gate answers true exactly when the
    frame model flags at least one frame; in "all" mode exactly when there
    is at least one frame and the model flags every frame.  When the chunk
    cannot be brought to 16 kHz the gate raises. *)
Theorem webrtc_is_speech_modes :
  forall (model : M) (chunk : bytes) (sample_rate : Z),
    match Vad.to_16k resample_poly chunk sample_rate with
    | Some chunk16 =>
        let frames := vad_frames chunk16 in
        let flags := frame_flags model frames in
        Forall (fun f => len f = 2 * Vad.frame_length) frames
        /\ concat frames = firstn (Z.to_nat (Vad.num_frames chunk16) * 320) chunk16
        /\ option_map fst (Vad.webrtc_is_speech resample_poly model chunk sample_rate false)
           = Some (existsb id flags)
        /\ option_map fst (Vad.webrtc_is_speech resample_poly model chunk sample_rate true)
           = Some (negb (Vad.num_frames chunk16 =? 0) && forallb id flags)
    | None =>
        Vad.webrtc_is_speech resample_poly model chunk sample_rate false = None
        /\ Vad.webrtc_is_speech resample_poly model chunk sample_rate true = None
    end.
Proof.
  intros model chunk sample_rate.
  unfold Vad.webrtc_is_speech.
  destruct (Vad.to_16k resample_poly chunk sample_rate) as [chunk16|]; [|split; reflexivity].
  cbv zeta.
  destruct (vad_frames_partition chunk16) as [Hlen Hcat].
  split; [exact Hlen|]. split; [exact Hcat|].
  destruct (Vad.num_frames chunk16 =? 0) eqn:En.
  - apply Z.eqb_eq in En. unfold vad_frames. rewrite En. split; reflexivity.
  - split.
    + pose proof (frame_loop_any chunk16 (range (Vad.num_frames chunk16)) model 0) as Hany.
      fold (vad_frames chunk16) in Hany.
      destruct (Vad.frame_loop chunk16 false (range (Vad.num_frames chunk16)) model 0)
        as [[b|n] m]; cbn [fst] in Hany;
        destruct (existsb id (frame_flags model (vad_frames chunk16)));
        inversion Hany; reflexivity.
    + pose proof (frame_loop_all chunk16 (range (Vad.num_frames chunk16)) model 0) as Hall.
      fold (vad_frames chunk16) in Hall.
      destruct (Vad.frame_loop chunk16 true (range (Vad.num_frames chunk16)) model 0)
        as [[b|n] m]; cbn [fst] in Hall; [discriminate Hall|].
      inversion Hall; subst n. cbn [option_map fst negb andb]. f_equal.
      rewrite <- count_true_all. unfold len.
      rewrite frame_flags_length. unfold vad_frames.
      rewrite length_map, range_as_seq, length_map, length_seq.
      apply Z.eqb_neq in En.
      pose proof (num_frames_fit chunk16).
      assert (0 <= Vad.num_frames chunk16).
      { unfold Vad.num_frames. rewrite frame_length_value.
        apply Z.div_pos; unfold len; lia. }
      rewrite Z2Nat.id by lia. reflexivity.
Qed.

(** C10.  A chunk that, at 16 kHz, is shorter than one frame (fewer than
    320 bytes) is not speech, in "any" mode and in "all" mode alike: the
    gate answers false and the model is not consulted. *)
Theorem webrtc_is_speech_short_chunk :
  forall (model : M) (chunk chunk16 : bytes) (sample_rate : Z) (all_frames_must_be_true : bool),
    Vad.to_16k resample_poly chunk sample_rate = Some chunk16 ->
    len chunk16 < 320 ->
    Vad.webrtc_is_speech resample_poly model chunk sample_rate all_frames_must_be_true
    = Some (false, model).
Proof.
  intros model chunk chunk16 sample_rate all_frames_must_be_true H16 Hshort.
  unfold Vad.webrtc_is_speech. rewrite H16.
  assert (Hn : Vad.num_frames chunk16 = 0).
  { unfold Vad.num_frames. rewrite frame_length_value.
    apply Z.div_small. unfold len in *. lia. }
  rewrite Hn. reflexivity.
Qed.

End FastGate.

(** In "all" mode, on a chunk of 319 bytes that are all [0xff]. *)
Lemma webrtc_is_speech_short_chunk_witness :
  let chunk := repeat xff 319 in
  Vad.webrtc_is_speech Demo.resample_poly tt chunk 16000 true = Some (false, tt)
  /\ Vad.webrtc_is_speech Demo.resample_poly tt chunk 16000 false = Some (false, tt).
Proof.
  intro chunk. split.
  - apply (@webrtc_is_speech_short_chunk unit Demo.webrtc Demo.resample_poly
             tt chunk chunk 16000 true); [reflexivity | vm_compute; reflexivity].
  - apply (@webrtc_is_speech_short_chunk unit Demo.webrtc Demo.resample_poly
             tt chunk chunk 16000 false); [reflexivity | vm_compute; reflexivity].
Defined.

(** C6 as stated fails in "all" mode: on the empty chunk no frame is left
    unflagged, and the gate answers false. *)
Lemma webrtc_all_mode_no_frame :
  option_map fst (Vad.webrtc_is_speech Demo.resample_poly tt [] 16000 true) = Some false
  /\ Forall (fun flag => flag = true) (frame_flags tt (vad_frames [])).
Proof.
  split; [reflexivity | constructor].
Qed.

(** ** int16 samples and float32 audio *)

Lemma bytes_pair_ind :
  forall P : bytes -> Prop,
    P [] -> (forall b, P [b]) ->
    (forall lo hi rest, P rest -> P (lo :: hi :: rest)) ->
    forall b, P b.
Proof.
  intros P Hnil Hone Hpair. fix IH 1.
  intros [|lo [|hi rest]]; [exact Hnil | apply Hone | apply Hpair, IH].
Qed.

Lemma wrap16_range : forall z, -32768 <= wrap16 z < 32768.
Proof.
  intro z. unfold wrap16.
  pose proof (Z.mod_pos_bound z 65536 ltac:(lia)).
  destruct (z mod 65536 <? 32768) eqn:E;
    [apply Z.ltb_lt in E | apply Z.ltb_ge in E]; lia.
Qed.

Lemma frombuffer_int16_range :
  forall (b : bytes) (samples : list Z),
    frombuffer_int16 b = Some samples ->
    Forall (fun z => -32768 <= z < 32768) samples.
Proof.
  induction b as [|b|lo hi rest IH] using bytes_pair_ind; intros samples Hb.
  - inversion Hb. constructor.
  - discriminate Hb.
  - cbn [frombuffer_int16] in Hb.
    destruct (frombuffer_int16 rest) as [l|]; [|discriminate Hb].
    inversion Hb; subst samples. constructor; [apply wrap16_range | now apply IH].
Qed.

Lemma astype_int16_range :
  forall a : list float32, Forall (fun z => -32768 <= z < 32768) (astype_int16 a).
Proof.
  intro a. unfold astype_int16. apply Forall_forall. intros z Hz.
  apply in_map_iff in Hz. destruct Hz as [x [Hx _]]. subst z.
  unfold int16_of_float32. destruct (truncate x); [apply wrap16_range | lia].
Qed.

(** Dividing an int16 sample by 32768 in binary32 lands in [-1, 1] and
    loses nothing: multiplying back and converting gives the sample.  Both
    are checked on each of the 65536 samples. *)
Lemma normalize_sample_exact :
  forall z, -32768 <= z < 32768 ->
    let x := SFdiv 24 128 (float32_of_int z) (float32_of_int 32768) in
    in_unit_interval x = true
    /\ int16_of_float32 (SFmul 24 128 x (float32_of_int 32768)) = z.
Proof.
  intros z Hz.
  assert (Hall : all_below 16 (-32768)
            (fun z => let x := SFdiv 24 128 (float32_of_int z) (float32_of_int 32768) in
                      in_unit_interval x
                      && (int16_of_float32 (SFmul 24 128 x (float32_of_int 32768)) =? z))
          = true) by (vm_compute; reflexivity).
  pose proof (all_below_spec _ _ _ Hall z ltac:(simpl; lia)) as Hq.
  cbv beta zeta in Hq. apply andb_prop in Hq. destruct Hq as [Hunit Hback].
  cbv zeta. split; [exact Hunit | now apply Z.eqb_eq].
Qed.

Lemma normalize_in_unit_interval :
  forall samples : list Z,
    Forall (fun z => -32768 <= z < 32768) samples ->
    forallb in_unit_interval (normalize samples) = true.
Proof.
  intros samples Hrange. unfold normalize, array_div, astype_float32.
  rewrite map_map. apply forallb_forall. intros x Hx.
  apply in_map_iff in Hx. destruct Hx as [z [Hz Hin]]. subst x.
  rewrite Forall_forall in Hrange.
  apply (normalize_sample_exact z (Hrange z Hin)).
Qed.

(** ** The confirming gate *)

Section ConfirmGate.

Context {M : Type} {I : Vad.SileroVadModel M}.
Variable resample_poly : list Z -> Z -> Z -> list float.

(** C7.  The chunk, as int16 samples (resampled when the rate is not
    16 kHz), is divided by 32768 in float32, which puts every sample in
    [-1, 1]; the model is called once on that audio, and the gate answers
    true exactly when the probability [p] it gives is greater than
    [1 - silero_sensitivity].  A chunk with an odd number of bytes raises. *)
Theorem silero_is_speech_threshold :
  forall (model : M) (chunk : bytes) (cfg : Vad.VadConfig),
    match frombuffer_int16 chunk with
    | Some pcm_data =>
        let pcm_data :=
          if negb (Vad.sample_rate cfg =? 16000)
          then astype_int16 (resample_poly pcm_data 16000 (Vad.sample_rate cfg))
          else pcm_data in
        let audio_chunk := normalize pcm_data in
        let p := fst (Vad.silero_call model audio_chunk 16000) in
        forallb in_unit_interval audio_chunk = true
        /\ Vad.silero_is_speech resample_poly model chunk cfg
           = Some (fgt p (fsub (float_of_int 1) (Vad.silero_sensitivity cfg)),
                   snd (Vad.silero_call model audio_chunk 16000))
    | None => Vad.silero_is_speech resample_poly model chunk cfg = None
    end.
Proof.
  intros model chunk cfg. unfold Vad.silero_is_speech.
  destruct (frombuffer_int16 chunk) as [pcm|] eqn:Hpcm; [|reflexivity].
  cbv zeta. split.
  - apply normalize_in_unit_interval.
    destruct (negb (Vad.sample_rate cfg =? 16000)).
    + apply astype_int16_range.
    + now apply frombuffer_int16_range with (b := chunk).
  - unfold normalize, Vad.INT16_MAX_ABS_VALUE.
    destruct (Vad.silero_call model _ 16000) as [p m]. reflexivity.
Qed.

End ConfirmGate.

(** ** The recorder: what a step leaves alone *)

Lemma sends_app :
  forall t1 t2, sends (t1 ++ t2) = sends t1 ++ sends t2.
Proof.
  induction t1 as [|ev t1 IH]; intro t2; [reflexivity|].
  destruct ev; cbn [sends app]; rewrite IH; reflexivity.
Qed.

Lemma sends_fire :
  forall registered cb, sends (StateMachine.fire registered cb) = [].
Proof. intros [|] cb; reflexivity. Qed.

Section RecorderFacts.

Import Recorder.

Context {WebRtc Silero Detector : Type}.
Context {IW : Vad.WebRtcVadModel WebRtc} {IS : Vad.SileroVadModel Silero}
        {ID : WakeWord.IWakeWordDetector Detector}.
Variable resample_poly : list Z -> Z -> Z -> list float.
Variable clock : nat -> float.
Variable _preprocess_output : string -> string.

#[local] Abbreviation World := (@World WebRtc Silero Detector).
#[local] Abbreviation M := (@M WebRtc Silero Detector).

Lemma no_send_ret : forall (A : Type) (a : A), no_send (ret a : M A).
Proof. intros A a w. reflexivity. Qed.

Lemma no_send_raise : forall (A : Type) (e : PyExn), no_send (raise e : M A).
Proof. intros A e w. reflexivity. Qed.

Lemma no_send_bind :
  forall (A B : Type) (m : M A) (k : A -> M B),
    no_send m -> (forall a, no_send (k a)) -> no_send (bind m k).
Proof.
  intros A B m k Hm Hk w. unfold bind. specialize (Hm w).
  destruct (m w) as [[a|e] w']; cbn [snd] in *; [|exact Hm].
  now rewrite Hk.
Qed.

Lemma no_send_get : no_send (get : M _).
Proof. intro w. reflexivity. Qed.

Lemma no_send_modify : forall f, no_send (modify f : M _).
Proof. intros f w. reflexivity. Qed.

Lemma no_send_time : no_send (time_time clock : M _).
Proof. intro w. reflexivity. Qed.

Lemma no_send_emit :
  forall evs, sends evs = [] -> no_send (emit evs : M _).
Proof.
  intros evs Hevs w. unfold emit. cbn [snd trace].
  now rewrite sends_app, Hevs, app_nil_r.
Qed.

Lemma no_send_log : forall level msg args, no_send (log level msg args : M _).
Proof. intros. now apply no_send_emit. Qed.

Lemma no_send_call : forall registered cb, no_send (call registered cb : M _).
Proof. intros. apply no_send_emit, sends_fire. Qed.

Lemma no_send_lift :
  forall (A : Type) (e : PyExn) (o : option A), no_send (lift e o : M A).
Proof. intros A e [a|]; [apply no_send_ret | apply no_send_raise]. Qed.

Lemma no_send_py_int : forall x, no_send (py_int x : M _).
Proof. intros x. unfold py_int. destruct x; try apply no_send_lift. apply no_send_raise. Qed.

Lemma no_send_when :
  forall (c : bool) (m : M unit), no_send m -> no_send (when c m).
Proof. intros [|] m Hm; [exact Hm | apply no_send_ret]. Qed.

(** [_set_state] writes the state and the spinner, and nothing else. *)
Lemma set_state_effect :
  forall (new_state : string) (w : World),
    exists (st : string) (h : option StateMachine.Halo) (evs : list Event),
      _set_state new_state w
      = (Val tt, mkWorld (set_halo h (set_state st (self w))) (trace w ++ evs) (ticks w))
      /\ sends evs = [].
Proof.
  intros new_state [r t k]. destruct r.
  unfold _set_state.
  destruct (StateMachine.of_value new_state) as [e|].
  - unfold bind, get, modify, emit, StateMachine.transition_state. cbn.
    destruct (String.eqb state0 (StateMachine.value e)).
    + exists state0, halo0, []. split; reflexivity.
    + destruct e; cbn;
        unfold StateMachine.set_interval, _set_spinner; cbn;
        destruct (spinner cfg0); destruct halo0; cbn;
        do 3 eexists; (split; [unfold set_halo, set_state; cbn; reflexivity|]);
        repeat first
          [ rewrite sends_app | rewrite sends_fire | progress cbn [sends app]
          | match goal with
            | |- context [if ?b then _ else _] => destruct b
            end ];
        reflexivity.
  - exists new_state, halo0,
      [EvLog WARNING "Unknown state '%s', keeping legacy behaviour" [new_state]].
    split; reflexivity.
Qed.

Lemma no_send_set_state : forall s, no_send (_set_state s : M _).
Proof.
  intros s w. destruct (set_state_effect s w) as [st [h [evs [Heq Hevs]]]].
  rewrite Heq. cbn [snd trace]. now rewrite sends_app, Hevs, app_nil_r.
Qed.

Ltac no_send_step :=
  first
    [ apply no_send_set_state
    | apply no_send_ret | apply no_send_raise | apply no_send_get
    | apply no_send_modify | apply no_send_time | apply no_send_log
    | apply no_send_call | apply no_send_lift | apply no_send_py_int
    | apply no_send_when
    | apply no_send_emit; reflexivity
    | apply no_send_bind; [|intro]
    | match goal with
      | |- @no_send _ _ _ _ (if ?b then _ else _) => destruct b
      | |- @no_send _ _ _ _ (match ?x with _ => _ end) => destruct x
      end ].

Lemma no_send_transcribe_finish :
  forall answer audio_copy start_time,
    no_send (transcribe_finish clock _preprocess_output answer audio_copy start_time
             : M Returned).
Proof.
  intros answer audio_copy start_time. unfold transcribe_finish.
  destruct answer as [[status result]|]; repeat no_send_step.
Qed.

Lemma no_send_transcribe_receive :
  forall polls audio_copy start_time answer,
    no_send (transcribe_receive clock _preprocess_output polls audio_copy start_time
                                answer
             : M Returned).
Proof.
  induction polls as [|p polls IH]; intros audio_copy start_time answer;
    cbn [transcribe_receive].
  - apply no_send_bind; [apply no_send_get|]. intro r.
    destruct (transcribe_count r >? 0); [|apply no_send_transcribe_finish].
    repeat no_send_step.
  - apply no_send_bind; [apply no_send_get|]. intro r.
    destruct (transcribe_count r >? 0); [|apply no_send_transcribe_finish].
    apply no_send_bind; [apply no_send_log|]. intros _.
    destruct p as [interrupted|status result].
    + apply no_send_bind; [apply no_send_modify|]. intros _.
      destruct interrupted; [repeat no_send_step | apply IH].
    + apply no_send_bind; [apply no_send_modify|]. intros _. apply IH.
Qed.

Lemma py_int_value :
  forall (x : float) (n : Z) (w : World),
    int_of_float x = Some n -> py_int x w = (Val n, w).
Proof.
  intros x n w Hx. unfold py_int. destruct x; try discriminate Hx;
    rewrite Hx; reflexivity.
Qed.

Lemma zeros_value :
  forall n, 0 <= n -> zeros n = Some (repeat f32zero (Z.to_nat n)).
Proof.
  intros n Hn. unfold zeros. destruct (n <? 0) eqn:E; [apply Z.ltb_lt in E; lia|].
  reflexivity.
Qed.

Lemma add_padding_value :
  forall (audio : list float32) (duration : float) (n : Z) (w : World),
    int_of_float (fmul (float_of_int (sample_rate (cfg (self w)))) duration) = Some n ->
    0 <= n ->
    _add_padding_to_audio (Some audio) duration w = (Val (padded n audio), w).
Proof.
  intros audio duration n w Hn Hpos.
  unfold _add_padding_to_audio, bind, get. cbn [self].
  rewrite (py_int_value _ n w Hn), (zeros_value n Hpos). reflexivity.
Qed.


Lemma on_exception_sends :
  forall (A : Type) (m : M A) (handler : PyExn -> M unit) (w : World),
    (forall e, no_send (handler e)) ->
    sends (trace (snd (on_exception m handler w))) = sends (trace (snd (m w))).
Proof.
  intros A m handler w Hh. unfold on_exception.
  destruct (m w) as [[a|e] w']; cbn [snd]; [reflexivity | apply Hh].
Qed.

Lemma bind_value :
  forall (A B : Type) (m : M A) (k : A -> M B) (w w' : World) (a : A),
    m w = (Val a, w') -> bind m k w = k a w'.
Proof. intros A B m k w w' a Hm. unfold bind. now rewrite Hm. Qed.

(** ** Padding *)

(** C9.  Let [n] be [int(sample_rate * 1.0)].  When [transcribe] submits
    the recorded audio (no early request is pending), what it sends is
    that audio with [n] float32 zeros before it and [n] after it, and it
    sends nothing else; when an early request is pending it sends nothing.
    The early request of the recording worker is made exactly when the
    silence timer runs, early transcription is on, there are frames, the
    silence has lasted longer than [early_transcription_on_silence] at
    the one reading of the clock taken for it, and no early request was
    made before in this silence; it then carries the frames recorded so
    far, normalized, with the same padding, and nothing else is sent
    (nothing at all when the bytes of the frames are no int16 samples). *)
Theorem transcription_audio_is_padded :
  forall (polls : list Poll) (w : World) (n : Z),
    int_of_float (fmul (float_of_int (sample_rate (cfg (self w)))) (decimal 1 1)) = Some n ->
    0 <= n ->
    (forall a,
        audio (self w) = Some a -> transcribe_count (self w) = 0 ->
        sends (trace (snd (transcribe clock _preprocess_output polls w)))
        = sends (trace w) ++ [(padded n a, language (cfg (self w)))])
    /\ (transcribe_count (self w) <> 0 ->
        sends (trace (snd (transcribe clock _preprocess_output polls w)))
        = sends (trace w))
    /\ (let r := self w in
        let due :=
          truthy (speech_end_silence_start r)
          && truthy (early_transcription_on_silence (cfg r))
          && (len (frames r) >? 0)
          && fgt (fsub (clock (ticks w)) (speech_end_silence_start r))
                 (early_transcription_on_silence (cfg r))
          && allowed_to_early_transcribe r in
        sends (trace (snd (worker_early_transcription clock w)))
        = sends (trace w)
          ++ match frombuffer_int16 (join (frames r)) with
             | Some u => if due then [(padded n (normalize u), language (cfg r))] else []
             | None => []
             end).
Proof.
  intros polls w n Hn Hpos. split; [|split].
  - intros a Haudio Hcount.
    destruct (set_state_effect (StateMachine.value StateMachine.TRANSCRIBING) w)
      as [st [h [evs [Heq Hevs]]]].
    unfold transcribe. unfold bind at 1. rewrite Heq.
    unfold bind at 1. unfold get at 1. cbn [self].
    rewrite on_exception_sends by (intro; apply no_send_log).
    cbn [transcribe_count set_halo set_state audio cfg].
    rewrite Hcount, Haudio. cbn [Z.eqb].
    unfold bind at 1.
    cbn [bind log emit time_time self trace ticks].
    erewrite bind_value by (apply add_padding_value; [exact Hn | exact Hpos]).
    cbn [bind emit modify ret self trace ticks fst snd].
    rewrite no_send_transcribe_receive. cbn [trace].
    rewrite !sends_app, Hevs. cbn [sends]. now rewrite !app_nil_r.
  - intros Hcount.
    destruct (set_state_effect (StateMachine.value StateMachine.TRANSCRIBING) w)
      as [st [h [evs [Heq Hevs]]]].
    unfold transcribe. unfold bind at 1. rewrite Heq.
    unfold bind at 1. unfold get at 1. cbn [self].
    rewrite on_exception_sends by (intro; apply no_send_log).
    cbn [transcribe_count set_halo set_state audio cfg].
    apply Z.eqb_neq in Hcount. rewrite Hcount.
    cbn [bind ret fst snd].
    rewrite no_send_transcribe_receive. cbn [trace].
    now rewrite sends_app, Hevs, app_nil_r.
  - cbv zeta.
    unfold worker_early_transcription, bind, get, time_time, modify, emit.
    cbn [self trace ticks].
    destruct (truthy (speech_end_silence_start (self w))
              && truthy (early_transcription_on_silence (cfg (self w)))
              && (len (frames (self w)) >? 0));
      cbn [andb];
      [|destruct (frombuffer_int16 _); rewrite app_nil_r; reflexivity].
    destruct (fgt _ _ && allowed_to_early_transcribe (self w));
      [|destruct (frombuffer_int16 _); rewrite app_nil_r; reflexivity].
    destruct (frombuffer_int16 (join (frames (self w)))) as [u|] eqn:Hu;
      cbn [lift ret raise]; [|rewrite app_nil_r; reflexivity].
    erewrite add_padding_value; [|exact Hn|exact Hpos].
    cbn [snd trace]. now rewrite sends_app.
Qed.

End RecorderFacts.

(** Both send sites at work.  Four samples are given to [start], the
    recording is stopped and [wait_audio] assembles it; [transcribe]
    sends 16000 zeros, the four samples, 16000 zeros.  And the recorder with
    early transcription after a tenth of a second of silence listens, a
    recording is started by voice, goes on for sixteen chunks of speech
    and two of silence: the early request that is then due carries the
    21 chunks recorded so far, padded in the same way. *)
Lemma transcription_audio_is_padded_witness :
  let recorded := [x01; x00; xfe; xff; x03; x00; xfc; xff] in
  let wa := snd (Session.wait_audio Samples.seconds_clock [] []
                   (snd (Recorder.stop Samples.seconds_clock fzero fzero
                           (snd (Recorder.start Samples.seconds_clock (Some [recorded])
                                   (Recorder.mkWorld Demo.recorder0 [] 0)))))) in
  let chunk := fun b : byte => Demo.chunk_of b 512 in
  let queued := fun (q : list bytes) (w : @Recorder.World unit nat unit) =>
                  Recorder.mkWorld (Recorder.set_audio_queue q (Recorder.self w))
                                   (Recorder.trace w) (Recorder.ticks w) in
  let rounds := run_rounds Demo.resample_poly Demo.clock in
  let w0 := snd (Recorder.wait_audio_arm Demo.clock
                   (Recorder.mkWorld Demo.early_recorder [] 0)) in
  let s1 := rounds 2%nat (Recorder.mkLocals fzero false false None None)
                   (queued [chunk x01; chunk xff; chunk xfe] w0) in
  let s2 := rounds 1%nat (fst s1)
                   (snd (Recorder._is_silero_speech Demo.resample_poly (chunk xff)
                                                    (snd s1))) in
  let s3 := rounds 16%nat (fst s2)
                   (queued (repeat (chunk xff) 16)
                           (snd (Recorder.wait_audio_arm_stop (snd s2)))) in
  let we := snd (rounds 2%nat (fst s3) (queued (repeat (chunk x00) 3) (snd s3))) in
  sends (Recorder.trace
           (snd (Recorder.transcribe Samples.seconds_clock Demo._preprocess_output
                                     [Recorder.PollReady "success" "hello"] wa)))
  = [(padded 16000 (normalize [1; -2; 3; -4]), "auto")]
  /\ exists u,
      frombuffer_int16 (join (Recorder.frames (Recorder.self we))) = Some u
      /\ len u = 21 * 512
      /\ sends (Recorder.trace (snd (Recorder.worker_early_transcription Demo.clock we)))
         = [(padded 16000 (normalize u), "auto")].
Proof.
  intros recorded wa chunk queued rounds w0 s1 s2 s3 we.
  split.
  - apply (proj1 (@transcription_audio_is_padded unit nat unit Samples.seconds_clock
                    Demo._preprocess_output [Recorder.PollReady "success" "hello"]
                    wa 16000 ltac:(vm_compute; reflexivity) ltac:(lia))
                 (normalize [1; -2; 3; -4]));
      vm_compute; reflexivity.
  - assert (Hlen : option_map (fun u : list Z => len u)
                     (frombuffer_int16 (join (Recorder.frames (Recorder.self we))))
                   = Some (21 * 512))
      by (vm_compute; reflexivity).
    pose proof (proj2 (proj2 (@transcription_audio_is_padded unit nat unit Demo.clock
                                Demo._preprocess_output [] we 16000
                                ltac:(vm_compute; reflexivity) ltac:(lia))))
      as Hsent.
    cbv zeta in Hsent.
    destruct (frombuffer_int16 (join (Recorder.frames (Recorder.self we))))
      as [u|]; [|discriminate Hlen].
    exists u. split; [reflexivity|].
    split; [injection Hlen as Hlen; exact Hlen|].
    replace (sends (Recorder.trace we)) with (@nil (list float32 * string)) in Hsent
      by (vm_compute; reflexivity).
    match type of Hsent with
    | context [if ?b then _ else _] =>
        replace b with true in Hsent by (vm_compute; reflexivity)
    end.
    exact Hsent.
Defined.

(** ** The wake-word strip loop *)

(** Whatever the number of samples to remove, the loop leaves whole
    frames only; and as soon as there is something to remove, the first
    frame goes entirely, however long it is. *)
Lemma strip_wakeword_loop_whole_frames :
  forall (n : Z) (frames : list bytes),
    exists k : nat,
      (0 < n -> frames <> [] -> (1 <= k)%nat)
      /\ snd (Recorder.strip_wakeword_loop n frames) = skipn k frames.
Proof.
  intros n frames. funelim (Recorder.strip_wakeword_loop n frames).
  - exists O. split; [congruence | reflexivity].
  - exists O. split; [lia | reflexivity].
  - destruct H as [k [_ Hk]]. exists (S k). split; [lia|].
    rewrite Hk. reflexivity.
  - destruct H as [k [Hpos Hk]].
    assert (1 <= k)%nat as Hk1 by (apply Hpos; [lia | discriminate]).
    exists k. split; [lia|]. rewrite Hk.
    destruct k as [|k]; [lia | reflexivity].
Qed.

(** C2 at a failing input.  Wake words are on; the recorder listens; two
    chunks of silence, the wake word, and three chunks of speech come in
    (512 samples each), the confirming gate answering after the first
    speech chunk.  The recording starts on the second speech chunk with
    the four buffered chunks and 1600 samples to strip.  The
    specification asks for 1600 samples off the front: three chunks and
    64 samples of the fourth, which with the chunk of the round leaves
    1472 samples (2944 bytes).  The code drops the whole fourth chunk as
    well: 1024 samples (2048 bytes) are left. *)
Lemma wakeword_strip_failing_run :
  let s1 := Demo.chunk_of x01 512 in
  let s2 := Demo.chunk_of x02 512 in
  let k := Demo.chunk_of x77 512 in
  let v1 := Demo.chunk_of xff 512 in
  let v2 := Demo.chunk_of xfe 512 in
  let v3 := Demo.chunk_of xfd 512 in
  let w0 := snd (Recorder.wait_audio_arm Demo.clock
                   (Recorder.mkWorld Demo.wake_recorder [] 0)) in
  let w1 := Recorder.mkWorld
              (Recorder.set_audio_queue [s1; s2; k; v1; v2; v3] (Recorder.self w0))
              (Recorder.trace w0) (Recorder.ticks w0) in
  let '(L4, w4) := run_rounds Demo.resample_poly Demo.clock 4
                              (Recorder.mkLocals fzero false false None None) w1 in
  let w4' := snd (Recorder._is_silero_speech Demo.resample_poly v1 w4) in
  let '(L5, w5) := run_rounds Demo.resample_poly Demo.clock 1 L4 w4' in
  let '(L6, w6) := run_rounds Demo.resample_poly Demo.clock 1 L5 w5 in
  Recorder.frames (Recorder.self w5) = [s1; s2; k; v1; v2]
  /\ Recorder.wakeword_samples_to_remove L5 = Some 1600
  /\ Recorder.frames (Recorder.self w6) = [v2; v3]
  /\ len (join [skipn 3200 (join [s1; s2; k; v1; v2]); v3]) = 2944
  /\ len (join (Recorder.frames (Recorder.self w6))) = 2048.
Proof.
  vm_compute. repeat split; reflexivity.
Qed.

(** ** Bytes and samples, back and forth *)

Lemma byte_of_val : forall b : byte, byte_of_Z (byte_val b) = b.
Proof.
  intro b. unfold byte_of_Z, byte_val.
  pose proof (Byte.to_N_bounded b) as Hb.
  rewrite Z.mod_small by lia.
  rewrite N2Z.id, Byte.of_to_N. reflexivity.
Qed.

Lemma bytes_of_int16_of_bytes :
  forall lo hi : byte, bytes_of_int16 (int16_of_bytes lo hi) = [lo; hi].
Proof.
  intros lo hi. unfold bytes_of_int16, int16_of_bytes, wrap16.
  pose proof (Byte.to_N_bounded lo) as Hlo.
  pose proof (Byte.to_N_bounded hi) as Hhi.
  set (v := byte_val lo + 256 * byte_val hi).
  assert (Hv : 0 <= v < 65536) by (unfold v, byte_val; lia).
  rewrite (Z.mod_small v) by lia.
  assert (Hu : (if v <? 32768 then v else v - 65536) mod 65536 = v).
  { destruct (v <? 32768) eqn:E.
    - apply Z.mod_small; lia.
    - apply Z.ltb_ge in E.
      replace (v - 65536) with (v + (-1) * 65536) by lia.
      rewrite Z.mod_add by lia. apply Z.mod_small; lia. }
  rewrite Hu.
  assert (Hlo' : v mod 256 = byte_val lo).
  { replace v with (byte_val lo + byte_val hi * 256) by (unfold v; lia).
    rewrite Z.mod_add by lia. apply Z.mod_small. unfold byte_val; lia. }
  assert (Hhi' : v / 256 = byte_val hi).
  { replace v with (byte_val lo + byte_val hi * 256) by (unfold v; lia).
    rewrite Z.div_add by lia.
    rewrite Z.div_small by (unfold byte_val; lia). lia. }
  rewrite Hlo', Hhi', !byte_of_val. reflexivity.
Qed.

Lemma tobytes_of_frombuffer :
  forall (b : bytes) (samples : list Z),
    frombuffer_int16 b = Some samples -> tobytes_int16 samples = b.
Proof.
  induction b as [|b|lo hi rest IH] using bytes_pair_ind; intros samples Hb.
  - inversion Hb. reflexivity.
  - discriminate Hb.
  - cbn [frombuffer_int16] in Hb.
    destruct (frombuffer_int16 rest) as [l|]; [|discriminate Hb].
    inversion Hb; subst samples. unfold tobytes_int16. cbn [flat_map].
    rewrite bytes_of_int16_of_bytes. cbn [app]. f_equal. f_equal.
    now apply IH.
Qed.

Lemma denormalize_normalize :
  forall samples : list Z,
    Forall (fun z => -32768 <= z < 32768) samples ->
    astype_int16 (array_mul (normalize samples) 32768) = samples.
Proof.
  intros samples Hrange. unfold normalize, array_mul, array_div, astype_float32,
    astype_int16. rewrite !map_map.
  induction Hrange as [|z l Hz Hl IH]; [reflexivity|].
  cbn [map]. rewrite IH. f_equal.
  apply (normalize_sample_exact z Hz).
Qed.

Lemma normalize_length :
  forall samples, length (normalize samples) = length samples.
Proof.
  intro samples. unfold normalize, array_div, astype_float32.
  now rewrite !length_map.
Qed.

(** ** Slices from the end *)

Lemma slice_drop_last :
  forall (A : Type) (l : list A) (n : Z),
    0 < n < len l ->
    slice l None (Some (- n)) = firstn (length l - Z.to_nat n) l.
Proof.
  intros A l n Hn. unfold slice, clamp_index, len in *.
  destruct (- n <? 0) eqn:E; [|apply Z.ltb_ge in E; lia].
  rewrite Z.max_l by lia. cbn [Z.to_nat skipn]. f_equal. lia.
Qed.

Lemma slice_keep_last :
  forall (A : Type) (l : list A) (k : Z),
    0 < k <= len l ->
    slice l (Some (- k)) None = skipn (length l - Z.to_nat k) l.
Proof.
  intros A l k Hk. unfold slice, clamp_index, len in *.
  destruct (- k <? 0) eqn:E; [|apply Z.ltb_ge in E; lia].
  rewrite Z.max_l by lia.
  replace (Z.to_nat (- k + Z.of_nat (length l))) with (length l - Z.to_nat k)%nat by lia.
  apply firstn_all2. rewrite length_skipn. lia.
Qed.

(** ** Cutting bytes into frames *)

Lemma chunks_spec :
  forall fb : bytes,
    let cs := filter (fun frame => negb (len frame =? 0))
                     (map (fun i => slice fb (Some i) (Some (i + 2048)))
                          (range_step 0 (len fb) 2048)) in
    concat cs = fb
    /\ Forall (fun f => 0 < len f <= 2048) cs
    /\ (forall i, (S i < length cs)%nat -> len (nth i cs []) = 2048).
Proof.
  intro fb. cbv zeta. unfold range_step.
  destruct (len fb <=? 0) eqn:E.
  - apply Z.leb_le in E. unfold len in E.
    destruct fb; [|cbn in E; lia]. cbn.
    repeat split; [constructor | intros i Hi; inversion Hi].
  - apply Z.leb_gt in E.
    set (N := length fb) in *.
    set (q := (len fb - 0 + 2048 - 1) / 2048).
    assert (Hq : 2048 * (q - 1) < Z.of_nat N <= 2048 * q).
    { unfold q, len. fold N.
      pose proof (Z.div_mod (Z.of_nat N - 0 + 2048 - 1) 2048 ltac:(lia)).
      pose proof (Z.mod_pos_bound (Z.of_nat N - 0 + 2048 - 1) 2048 ltac:(lia)).
      lia. }
    set (m := Z.to_nat q).
    assert (Hm : ((m - 1) * 2048 < N <= m * 2048)%nat) by (unfold m, len in *; lia).
    rewrite map_map.
    assert (Hmap :
      map (fun k => slice fb (Some (0 + Z.of_nat k * 2048))
                          (Some (0 + Z.of_nat k * 2048 + 2048))) (seq 0 m)
      = map (fun k => firstn 2048 (skipn (k * 2048) fb)) (seq 0 m)).
    { apply map_ext. intro k. rewrite slice_between by lia. f_equal; [lia|].
      f_equal. lia. }
    rewrite Hmap.
    assert (Hlen : forall k, (k < m)%nat ->
              length (firstn 2048 (skipn (k * 2048) fb))
              = Nat.min 2048 (N - k * 2048)).
    { intros k Hk. rewrite length_firstn, length_skipn. reflexivity. }
    rewrite forallb_filter_id.
    + split; [|split].
      * rewrite concat_consecutive. apply firstn_all2. fold N. lia.
      * apply Forall_forall. intros f Hf. apply in_map_iff in Hf.
        destruct Hf as [k [Hk Hin]]. apply in_seq in Hin. subst f.
        unfold len. rewrite Hlen by lia.
        assert (k * 2048 < N)%nat by nia. lia.
      * intros i Hi. rewrite length_map, length_seq in Hi.
        rewrite (nth_indep _ [] ((fun k => firstn 2048 (skipn (k * 2048) fb)) O))
          by (rewrite length_map, length_seq; lia).
        rewrite (map_nth (fun k => firstn 2048 (skipn (k * 2048) fb))).
        rewrite seq_nth by lia. cbn [plus].
        unfold len. rewrite Hlen by lia.
        assert ((i + 1) * 2048 < N)%nat by nia. lia.
    + apply forallb_forall. intros f Hf. apply in_map_iff in Hf.
      destruct Hf as [k [Hk Hin]]. apply in_seq in Hin. subst f.
      unfold len. rewrite Hlen by lia.
      assert (k * 2048 < N)%nat by nia.
      apply negb_true_iff, Z.eqb_neq. lia.
Qed.

Lemma Forall_skipn_range :
  forall (P : Z -> Prop) (k : nat) (l : list Z),
    Forall P l -> Forall P (skipn k l).
Proof.
  intros P k. induction k as [|k IH]; intros l Hl; [exact Hl|].
  destruct l as [|x l]; [constructor|]. inversion Hl; subst. now apply IH.
Qed.

(** ** Backdating *)

(** The frames kept for the next utterance: the last [min n L] of the [L]
    samples, as bytes, in frames of 2048 bytes with a shorter last one. *)
Lemma frames_to_read_spec :
  forall (samples : list Z) (n : Z),
    Forall (fun z => -32768 <= z < 32768) samples ->
    0 <= n ->
    let fr := Recorder.frames_to_read_of (normalize samples) n in
    join fr = tobytes_int16 (skipn (length samples - Z.to_nat n) samples)
    /\ Forall (fun f => 0 < len f <= 2048) fr
    /\ (forall i, (S i < length fr)%nat -> len (nth i fr []) = 2048).
Proof.
  intros samples n Hrange Hn. cbv zeta. unfold Recorder.frames_to_read_of.
  destruct (n >? 0) eqn:E.
  - apply Z.gtb_lt in E.
    set (k := Z.min n (len (normalize samples))).
    assert (Htail : slice (normalize samples) (Some (- k)) None
                    = normalize (skipn (length samples - Z.to_nat n) samples)).
    { destruct samples as [|z l].
      - assert (Hk0 : k = 0) by (unfold k; cbn; lia).
        rewrite Hk0, skipn_nil. reflexivity.
      - assert (Hk : 0 < k <= len (normalize (z :: l))).
        { unfold k, len. rewrite normalize_length. cbn [length]. lia. }
        rewrite slice_keep_last by exact Hk.
        rewrite normalize_length. unfold normalize, array_div, astype_float32.
        rewrite !skipn_map. do 2 f_equal.
        unfold k, len. rewrite normalize_length. f_equal. lia. }
    rewrite Htail. unfold Recorder.INT16_MAX_ABS_VALUE.
    rewrite denormalize_normalize by (now apply Forall_skipn_range).
    apply chunks_spec.
  - rewrite Z.gtb_ltb in E. apply Z.ltb_ge in E. assert (n = 0) by lia. subst n.
    cbn [Z.to_nat]. rewrite Nat.sub_0_r, skipn_all.
    repeat split; [constructor | intros i Hi; inversion Hi].
Qed.

Section BackdateFacts.

Import Recorder.

Context {WebRtc Silero Detector : Type}.

#[local] Abbreviation World := (@World WebRtc Silero Detector).

(** The backdates as [wait_audio] applies them.  Let the recorded frames
    hold [L] samples, let [n_stop] be
    [int(sample_rate * backdate_stop_seconds)] and [n_resume] be
    [int(sample_rate * backdate_resume_seconds)] (the integer parts of the
    float products), both not negative.  Then [wait_audio] leaves as audio
    the samples, normalized, without the last [n_stop] of them (none when
    [n_stop >= L]), and it leaves in [self.frames] the bytes of the last
    [min n_resume L] samples, cut into frames of 2048 bytes, the last one
    possibly shorter and none empty. *)
Lemma wait_audio_backdate :
  forall (w : World) (samples : list Z) (n_stop n_resume : Z),
    let r := self w in
    let recorded := if len (frames r) =? 0 then last_frames r else frames r in
    frombuffer_int16 (join recorded) = Some samples ->
    int_of_float (fmul (float_of_int (sample_rate (cfg r))) (backdate_stop_seconds r))
    = Some n_stop ->
    int_of_float (fmul (float_of_int (sample_rate (cfg r))) (backdate_resume_seconds r))
    = Some n_resume ->
    0 <= n_stop -> 0 <= n_resume ->
    exists w',
      wait_audio_assemble w = (Val tt, w')
      /\ audio (self w')
         = Some (normalize (firstn (length samples - Z.to_nat n_stop) samples))
      /\ join (frames (self w'))
         = tobytes_int16 (skipn (length samples - Z.to_nat n_resume) samples)
      /\ Forall (fun f => 0 < len f <= 2048) (frames (self w'))
      /\ (forall i, (S i < length (frames (self w')))%nat ->
                    len (nth i (frames (self w')) []) = 2048).
Proof.
  intros w samples n_stop n_resume. cbv zeta.
  intros Hbuf Hstop Hresume Hs Hr.
  pose proof (frombuffer_int16_range _ _ Hbuf) as Hrange.
  destruct (frames_to_read_spec samples n_resume Hrange Hr) as [Hjoin [Hsizes Hfull]].
  unfold wait_audio_assemble. unfold bind at 1, get at 1.
  unfold bind at 1. rewrite (py_int_value _ n_resume w Hresume).
  unfold bind at 1. rewrite Hbuf. cbn [lift ret].
  unfold bind at 1. rewrite (py_int_value _ n_stop w Hstop).
  change (array_div (astype_float32 samples) INT16_MAX_ABS_VALUE)
    with (normalize samples).
  assert (Haudio : exists msg,
            (if n_stop >? 0
             then
               if n_stop <? len (normalize samples)
               then
                 bind (modify (set_audio
                                 (Some (slice (normalize samples) None (Some (- n_stop))))))
                      (fun _ : unit => log DEBUG "Removed samples from end of audio" [])
               else
                 bind (modify (set_audio (Some [])))
                      (fun _ : unit =>
                         log DEBUG "Cleared audio (samples_to_remove >= audio length)" [])
             else
               bind (modify (set_audio (Some (normalize samples))))
                    (fun _ : unit => log DEBUG "No samples removed" [])) w
            = (Val tt,
               mkWorld (set_audio
                          (Some (normalize
                                   (firstn (length samples - Z.to_nat n_stop) samples)))
                          (self w))
                       (trace w ++ [EvLog DEBUG msg []]) (ticks w))).
  { destruct (n_stop >? 0) eqn:E1.
    - rewrite Z.gtb_ltb in E1. apply Z.ltb_lt in E1.
      destruct (n_stop <? len (normalize samples)) eqn:E2.
      + apply Z.ltb_lt in E2. eexists.
        rewrite slice_drop_last by lia.
        rewrite normalize_length. unfold normalize, array_div, astype_float32.
        rewrite !firstn_map. reflexivity.
      + apply Z.ltb_ge in E2. eexists.
        unfold len in E2. rewrite normalize_length in E2.
        replace (length samples - Z.to_nat n_stop)%nat with O by lia.
        reflexivity.
    - rewrite Z.gtb_ltb in E1. apply Z.ltb_ge in E1. eexists.
      replace (Z.to_nat n_stop) with O by lia.
      rewrite Nat.sub_0_r, firstn_all. reflexivity. }
  destruct Haudio as [msg Haudio].
  erewrite bind_value by exact Haudio.
  cbn [bind modify ret self trace ticks].
  match goal with
  | |- context [_set_state ?s ?W] =>
      destruct (set_state_effect s W) as [st [h [evs [Heq _]]]]; rewrite Heq
  end.
  eexists. split; [reflexivity|].
  cbn [self audio frames set_halo set_state set_listen_start
       set_backdate_resume_seconds set_backdate_stop_seconds set_frames
       set_last_frames set_audio app].
  repeat split; assumption.
Qed.

End BackdateFacts.

(** Four samples are recorded; [stop] was given 1/8192 s and 1/4096 s, at
    16 kHz 1.953125 and 3.90625 samples, of which the integer parts are 1
    and 3. *)
Lemma wait_audio_backdate_witness :
  let recorded := [x01; x00; x02; x00; x03; x00; x04; x00] in
  let w := Recorder.mkWorld
             (Recorder.set_backdate_resume_seconds (decimal 1 4096)
                (Recorder.set_backdate_stop_seconds (decimal 1 8192)
                   (Recorder.set_frames [recorded] Demo.recorder0))) [] 0 in
  exists w',
    Recorder.wait_audio_assemble w = (Recorder.Val tt, w')
    /\ Recorder.audio (Recorder.self w') = Some (normalize [1; 2; 3])
    /\ join (Recorder.frames (Recorder.self w')) = tobytes_int16 [2; 3; 4]
    /\ Forall (fun f => 0 < len f <= 2048) (Recorder.frames (Recorder.self w'))
    /\ (forall i, (S i < length (Recorder.frames (Recorder.self w')))%nat ->
                  len (nth i (Recorder.frames (Recorder.self w')) []) = 2048).
Proof.
  intros recorded w.
  apply (@wait_audio_backdate unit nat unit w [1; 2; 3; 4] 1 3);
    [reflexivity | vm_compute; reflexivity | vm_compute; reflexivity | lia | lia].
Defined.

(** The counts are integer parts, not rounded: in the same situation
    rounding 1.953125 gives 2; the code removes one sample. *)
Lemma wait_audio_backdate_not_rounded :
  let recorded := [x01; x00; x02; x00; x03; x00; x04; x00] in
  let w := Recorder.mkWorld
             (Recorder.set_backdate_resume_seconds (decimal 1 4096)
                (Recorder.set_backdate_stop_seconds (decimal 1 8192)
                   (Recorder.set_frames [recorded] Demo.recorder0))) [] 0 in
  round_half_even (fmul (float_of_int 16000) (decimal 1 8192)) = Some 2
  /\ frombuffer_int16 recorded = Some [1; 2; 3; 4]
  /\ Recorder.audio (Recorder.self (snd (Recorder.wait_audio_assemble w)))
     = Some (normalize [1; 2; 3])
  /\ Recorder.audio (Recorder.self (snd (Recorder.wait_audio_assemble w)))
     <> Some (normalize (firstn (4 - 2) [1; 2; 3; 4])).
Proof.
  cbv zeta. repeat split; try (vm_compute; reflexivity).
  vm_compute. discriminate.
Qed.

(** C3 fails in the code: the samples kept for the next utterance never
    lead one.  Four samples are given to [start]; [stop] is called with
    1/8192 s and 1/4096 s, one second later by the clock, and [wait_audio]
    assembles the utterance: its audio is the first three samples, and the
    last three are kept in [self.frames].  When [wait_audio] is called
    again it finds frames, does not listen, and returns at once with the
    three kept samples alone as the next utterance.  When instead a
    recording is started, [start] empties [self.frames]: after the round of
    the first chunk the frames are that chunk, not the kept samples
    followed by it. *)
Lemma backdate_resume_seed_is_lost :
  let clock := Samples.seconds_clock in
  let recorded := [x01; x00; x02; x00; x03; x00; x04; x00] in
  let kept := tobytes_int16 [2; 3; 4] in
  let speech := Demo.chunk_of xff 512 in
  let stopped :=
    snd (Recorder.stop clock (decimal 1 8192) (decimal 1 4096)
           (snd (Recorder.start clock (Some [recorded])
                   (Recorder.mkWorld Demo.recorder0 [] 0)))) in
  let first := Session.wait_audio clock [] [] stopped in
  let again := Session.wait_audio clock [] [] (snd first) in
  let started := snd (Recorder.start clock None (snd first)) in
  let recording :=
    snd (run_rounds Demo.resample_poly clock 1
           (Recorder.mkLocals fzero false false None None)
           (Recorder.mkWorld
              (Recorder.set_audio_queue [speech] (Recorder.self started))
              (Recorder.trace started) (Recorder.ticks started))) in
  frombuffer_int16 recorded = Some [1; 2; 3; 4]
  /\ Recorder.last_frames (Recorder.self stopped) = [recorded]
  /\ Recorder.is_recording (Recorder.self stopped) = false
  /\ fst first = Recorder.Val true
  /\ Recorder.audio (Recorder.self (snd first)) = Some (normalize [1; 2; 3])
  /\ Recorder.frames (Recorder.self (snd first)) = [kept]
  /\ fst again = Recorder.Val true
  /\ Recorder.state (Recorder.self (snd again)) = "inactive"
  /\ Recorder.audio (Recorder.self (snd again)) = Some (normalize [2; 3; 4])
  /\ Recorder.frames (Recorder.self (snd again)) = []
  /\ Recorder.is_recording (Recorder.self started) = true
  /\ Recorder.frames (Recorder.self started) = []
  /\ Recorder.frames (Recorder.self recording) = [speech]
  /\ join (Recorder.frames (Recorder.self recording)) <> kept ++ speech.
Proof.
  cbv zeta. repeat split; try (vm_compute; reflexivity).
  intro H. apply (f_equal (hd x00)) in H. vm_compute in H. discriminate H.
Qed.

(** ** The pre-roll buffer *)

Lemma dq_append_maxlen :
  forall (A : Type) (x : A) (d : deque A), dq_maxlen (dq_append x d) = dq_maxlen d.
Proof. reflexivity. Qed.

(** A bounded deque that was empty holds the last [maxlen] of the items
    appended to it, oldest first. *)
Lemma deque_holds_most_recent :
  forall (A : Type) (maxlen : nat) (history : list A),
    let d := fold_left (fun d c => dq_append c d) history (dq_new maxlen) in
    dq_maxlen d = maxlen
    /\ dq_items d = skipn (length history - maxlen) history.
Proof.
  intros A maxlen history. cbv zeta.
  induction history as [|x h IH] using rev_ind.
  - split; reflexivity.
  - rewrite fold_left_app. cbn [fold_left].
    destruct IH as [Hmax Hitems]. split; [exact Hmax|].
    unfold dq_append at 1. cbn [dq_items]. rewrite Hmax, Hitems.
    rewrite !length_app, length_skipn. cbn [length].
    destruct (Nat.le_gt_cases maxlen (length h)) as [Hge|Hlt].
    + replace (length h - (length h - maxlen) + 1 - maxlen)%nat with 1%nat by lia.
      replace (length h + 1 - maxlen)%nat with (1 + (length h - maxlen))%nat by lia.
      rewrite <- skipn_skipn. f_equal.
      rewrite skipn_app.
      replace (length h - maxlen - length h)%nat with O by lia. reflexivity.
    + replace (length h - maxlen)%nat with O by lia. cbn [skipn].
      replace (length h - 0 + 1 - maxlen)%nat with O by lia.
      replace (length h + 1 - maxlen)%nat with O by lia. reflexivity.
Qed.

(** ** One round of the recording worker *)

Section RoundFacts.

Import Recorder.

Context {WebRtc Silero Detector : Type}.
Context {IW : Vad.WebRtcVadModel WebRtc} {IS : Vad.SileroVadModel Silero}
        {ID : WakeWord.IWakeWordDetector Detector}.
Variable resample_poly : list Z -> Z -> Z -> list float.
Variable clock : nat -> float.

#[local] Abbreviation World := (@World WebRtc Silero Detector).
#[local] Abbreviation M := (@M WebRtc Silero Detector).

Lemma discard_backlog_within_limit :
  forall (limit : Z) (queue : list bytes) (data : bytes),
    len queue <= limit -> discard_backlog limit queue data = Some (data, queue).
Proof.
  intros limit queue data Hq.
  assert (E : (len queue >? limit) = false)
    by (rewrite Z.gtb_ltb; apply Z.ltb_ge; exact Hq).
  destruct queue; cbn [discard_backlog]; rewrite E; reflexivity.
Qed.

Lemma get_chunk_value :
  forall (w : World) (data : bytes) (queue : list bytes),
    audio_queue (self w) = data :: queue ->
    len queue <= allowed_latency_limit (cfg (self w)) ->
    exists evs,
      worker_get_chunk w
      = (Val (inr data),
         mkWorld (set_audio_queue queue
                    (set_last_words_buffer
                       (dq_append data (last_words_buffer (self w))) (self w)))
                 (trace w ++ evs) (ticks w)).
Proof.
  intros w data queue Hq Hlimit.
  assert (E : (len queue >? allowed_latency_limit (cfg (self w))) = false)
    by (rewrite Z.gtb_ltb; apply Z.ltb_ge; exact Hlimit).
  unfold worker_get_chunk, bind, get, modify, when, emit, log, ret.
  cbn [self trace ticks]. rewrite Hq.
  cbn [self trace ticks cfg set_audio_queue set_last_words_buffer].
  rewrite E, (discard_backlog_within_limit _ _ data Hlimit).
  destruct (on_recorded_chunk (cfg (self w)));
    destruct (handle_buffer_overflow (cfg (self w)));
    cbn [self trace ticks];
    (exists [EvRecordedChunk data] + (exists []; rewrite app_nil_r));
    reflexivity.
Qed.

Lemma buffer_message_time_value :
  forall (L : Locals) (w : World),
    exists t k,
      worker_buffer_message_time clock L w
      = (Val (mkLocals t (was_recording L) (delay_was_passed L)
                       (wakeword_detected_time L) (wakeword_samples_to_remove L)),
         mkWorld (self w) (trace w) (ticks w + k)).
Proof.
  intros [t0 wr dp wt ws] [r t k].
  unfold worker_buffer_message_time, bind, time_time, ret.
  cbn [time_since_last_buffer_message was_recording delay_was_passed
       wakeword_detected_time wakeword_samples_to_remove self trace ticks].
  destruct (truthy t0).
  - cbv beta. cbn [self trace ticks].
    destruct (fgt (fsub (clock k) t0) (float_of_int 1)).
    + exists (clock (S k)), 2%nat.
      replace (k + 2)%nat with (S (S k)) by lia. reflexivity.
    + exists t0, 1%nat. replace (k + 1)%nat with (S k) by lia. reflexivity.
  - exists (clock k), 1%nat. replace (k + 1)%nat with (S k) by lia. reflexivity.
Qed.

(** While recording, the end of a round appends the chunk to the frames,
    and leaves the pre-roll buffer alone unless the silence timer runs. *)
Lemma worker_finish_recording :
  forall (data : bytes) (L : Locals) (w : World),
    is_recording (self w) = true ->
    exists L' w',
      worker_finish clock data L false w = (Val L', w')
      /\ frames (self w') = frames (self w) ++ [data]
      /\ is_recording (self w') = true
      /\ (truthy (speech_end_silence_start (self w)) = false ->
          audio_buffer (self w') = audio_buffer (self w)).
Proof.
  intros data L w Hrec.
  unfold worker_finish, bind, get, modify, when, time_time, call, emit, ret.
  cbn [self trace ticks]. rewrite Hrec. cbn [negb andb orb self trace ticks].
  destruct (truthy (speech_end_silence_start (self w))) eqn:Es;
    destruct (fgt _ (decimal 1 10));
    destruct (truthy (wake_word_detect_time (self w)));
    try destruct (fgt _ (wake_word_timeout _));
    repeat (cbv beta;
            cbn [self trace ticks cfg is_recording speech_end_silence_start
                 set_silero_check_time set_wake_word_detect_time
                 set_wakeword_detected set_frames negb andb orb];
            rewrite ?Hrec, ?Es);
    do 2 eexists; (split; [reflexivity|]);
    cbn [self frames is_recording audio_buffer set_frames set_audio_buffer
         set_silero_check_time set_wake_word_detect_time set_wakeword_detected];
    repeat split;
    first [reflexivity | exact Hrec | intro; reflexivity | intro; congruence].
Qed.

Lemma start_value :
  forall w : World,
    flt (fsub (clock (ticks w)) (recording_stop_time (self w)))
        (min_gap_between_recordings (cfg (self w))) = false ->
    exists w',
      start clock None w = (Val tt, w')
      /\ frames (self w') = []
      /\ is_recording (self w') = true
      /\ audio_buffer (self w') = audio_buffer (self w)
      /\ wake_word_detect_time (self w') = fzero.
Proof.
  intros [r t k] Hgap. cbn [self trace ticks] in Hgap.
  unfold start.
  cbv [bind get time_time log emit self trace ticks].
  rewrite Hgap.
  match goal with
  | |- context [_set_state ?s ?W] =>
      destruct (set_state_effect s W) as [st [h [evs [Heq _]]]]; rewrite Heq
  end.
  cbv [bind get modify time_time log call emit ret self trace ticks].
  eexists. split; [reflexivity|].
  repeat split; reflexivity.
Qed.

(** The round in which voice activity starts a recording, up to the end of
    the branch: the frames are the contents of the pre-roll buffer, which
    is then empty. *)
Lemma not_recording_trigger :
  forall (data : bytes) (L : Locals) (w : World),
    use_wake_words (cfg (self w)) = false ->
    start_recording_on_voice_activity (self w) = true ->
    is_webrtc_speech_active (self w) = true ->
    is_silero_speech_active (self w) = true ->
    (forall n, flt (fsub (clock n) (recording_stop_time (self w)))
                   (min_gap_between_recordings (cfg (self w))) = false) ->
    exists L' w',
      worker_not_recording resample_poly clock data L w = (Val L', w')
      /\ frames (self w') = dq_items (audio_buffer (self w))
      /\ is_recording (self w') = true
      /\ dq_items (audio_buffer (self w')) = []
      /\ truthy (speech_end_silence_start (self w')) = false
      /\ wakeword_samples_to_remove L' = wakeword_samples_to_remove L.
Proof.
  intros data L [r t k] Hwake Harmed Hwebrtc Hsilero Hgap.
  cbn [self trace ticks] in *.
  unfold worker_not_recording.
  cbv [bind get when call emit ret time_time modify self trace ticks andb orb negb].
  rewrite Hwake.
  destruct (truthy (listen_start r));
    destruct (fgt _ (wake_word_activation_delay (cfg r)));
    destruct (delay_was_passed L);
    destruct (truthy (recording_stop_time r));
    cbv [bind get when call emit ret time_time modify self trace ticks andb orb negb].
  all: try match goal with
  | |- context [_set_state ?s ?W] =>
      destruct (set_state_effect s W) as [st [h [evs [Heq _]]]]; rewrite Heq
  end.
  all: repeat progress
         (cbv [bind get when call emit ret time_time modify self trace ticks
               andb orb negb _is_voice_active log];
          cbn [start_recording_on_voice_activity is_webrtc_speech_active
               is_silero_speech_active set_halo set_state];
          rewrite ?Harmed, ?Hwebrtc, ?Hsilero).
  all: match goal with
       | |- context [start clock None ?W] =>
           destruct (start_value W (Hgap _)) as [w5 [Hs [Hf [Hr [Hb Hd]]]]];
           rewrite Hs
       end.
  all: cbv [bind get when call emit ret time_time modify self trace ticks andb orb negb].
  all: do 2 eexists; (split; [reflexivity|]).
  all: cbv [self].
  all: split; [transitivity (frames (self w5) ++ dq_items (audio_buffer (self w5)));
               [reflexivity | rewrite Hf, Hb; reflexivity]|].
  all: split; [transitivity (is_recording (self w5)); [reflexivity | exact Hr]|].
  all: repeat split; reflexivity.
Qed.

(** The end of a round, whatever the state: the chunk is appended to the
    frames exactly when the recorder records and no stop has just failed. *)
Lemma worker_finish_frames :
  forall (data : bytes) (L : Locals) (failed : bool) (w : World),
    exists L' w',
      worker_finish clock data L failed w = (Val L', w')
      /\ frames (self w')
         = (if is_recording (self w) && negb failed
            then frames (self w) ++ [data] else frames (self w))
      /\ is_recording (self w') = is_recording (self w)
      /\ wakeword_samples_to_remove L' = wakeword_samples_to_remove L
      /\ stop_recording_on_voice_deactivity (self w')
         = (if negb (is_recording (self w)) && was_recording L then false
            else stop_recording_on_voice_deactivity (self w)).
Proof.
  intros data L failed [r t k].
  cbv [worker_finish bind get modify when time_time call emit ret self trace ticks].
  destruct (is_recording r) eqn:Hrec; destruct failed; destruct (was_recording L);
    cbv [negb andb orb];
    destruct (fgt _ (decimal 1 10));
    destruct (truthy (wake_word_detect_time r));
    try destruct (fgt _ (wake_word_timeout _));
    cbv [bind get modify when time_time call emit ret self trace ticks negb andb orb];
    repeat match goal with
           | |- context [if is_recording ?R then _ else _] =>
               change (is_recording R) with (is_recording r); rewrite Hrec
           end;
    cbv [bind get modify when time_time call emit ret self trace ticks negb andb orb];
    try destruct (truthy _);
    cbv [bind get modify when time_time call emit ret self trace ticks negb andb orb];
    do 2 eexists; (split; [reflexivity|]);
    cbv [self]; repeat split; try reflexivity; try exact Hrec.
Qed.

(** *** What leaves the frames alone *)

Lemma keeps_frames_ret : forall (A : Type) (a : A), keeps_frames (ret a : M A).
Proof. intros A a w b w' H. inversion H. split; reflexivity. Qed.

Lemma keeps_frames_raise : forall (A : Type) (e : PyExn), keeps_frames (raise e : M A).
Proof. intros A e w b w' H. discriminate H. Qed.

Lemma keeps_frames_bind :
  forall (A B : Type) (m : M A) (k : A -> M B),
    keeps_frames m -> (forall a, keeps_frames (k a)) -> keeps_frames (bind m k).
Proof.
  intros A B m k Hm Hk w b w' H. unfold bind in H.
  destruct (m w) as [[a|e] w1] eqn:E; [|discriminate H].
  destruct (Hm _ _ _ E) as [F1 R1]. destruct (Hk _ _ _ _ H) as [F2 R2].
  split; congruence.
Qed.

Lemma keeps_frames_get : keeps_frames (get : M _).
Proof. intros w b w' H. inversion H. split; reflexivity. Qed.

Lemma keeps_frames_modify :
  forall f : Recorder -> Recorder,
    (forall r, frames (f r) = frames r /\ is_recording (f r) = is_recording r) ->
    keeps_frames (modify f : M _).
Proof. intros f Hf w b w' H. inversion H. cbn [self]. apply Hf. Qed.

Lemma keeps_frames_time : keeps_frames (time_time clock : M _).
Proof. intros w b w' H. inversion H. split; reflexivity. Qed.

Lemma keeps_frames_emit : forall evs, keeps_frames (emit evs : M _).
Proof. intros evs w b w' H. inversion H. split; reflexivity. Qed.

Lemma keeps_frames_log : forall level msg args, keeps_frames (log level msg args : M _).
Proof. intros. apply keeps_frames_emit. Qed.

Lemma keeps_frames_call : forall registered cb, keeps_frames (call registered cb : M _).
Proof. intros. apply keeps_frames_emit. Qed.

Lemma keeps_frames_lift :
  forall (A : Type) (e : PyExn) (o : option A), keeps_frames (lift e o : M A).
Proof. intros A e [a|]; [apply keeps_frames_ret | apply keeps_frames_raise]. Qed.

Lemma keeps_frames_py_int : forall x, keeps_frames (py_int x : M _).
Proof.
  intros x. unfold py_int. destruct x; try apply keeps_frames_lift.
  apply keeps_frames_raise.
Qed.

Lemma keeps_frames_when :
  forall (c : bool) (m : M unit), keeps_frames m -> keeps_frames (when c m).
Proof. intros [|] m Hm; [exact Hm | apply keeps_frames_ret]. Qed.

Lemma keeps_frames_set_state : forall s, keeps_frames (_set_state s : M _).
Proof.
  intros s w b w' H.
  destruct (set_state_effect s w) as [st [h [evs [Heq _]]]].
  rewrite Heq in H. inversion H. split; reflexivity.
Qed.

Ltac keeps_frames_step :=
  first
    [ apply keeps_frames_set_state
    | apply keeps_frames_ret | apply keeps_frames_raise | apply keeps_frames_get
    | apply keeps_frames_modify; intro; split; reflexivity
    | apply keeps_frames_time | apply keeps_frames_log
    | apply keeps_frames_call | apply keeps_frames_lift | apply keeps_frames_py_int
    | apply keeps_frames_when
    | apply keeps_frames_emit
    | apply keeps_frames_bind; [|intro]
    | match goal with
      | |- @keeps_frames _ _ _ _ (if ?b then _ else _) => destruct b
      | |- @keeps_frames _ _ _ _ (match ?x with _ => _ end) => destruct x
      end ].

Lemma keeps_frames_silero :
  forall chunk, keeps_frames (_is_silero_speech resample_poly chunk : M _).
Proof. intro chunk. unfold _is_silero_speech. repeat keeps_frames_step. Qed.

Lemma keeps_frames_webrtc :
  forall chunk all_frames,
    keeps_frames (_is_webrtc_speech resample_poly chunk all_frames : M _).
Proof. intros chunk all_frames. unfold _is_webrtc_speech. repeat keeps_frames_step. Qed.

Lemma keeps_frames_early_transcription :
  keeps_frames (worker_early_transcription clock : M _).
Proof.
  unfold worker_early_transcription, _add_padding_to_audio.
  repeat keeps_frames_step.
Qed.

(** *** A round of a recording

    [stop] leaves the frames alone; a round of a recording adds its chunk
    once, either before the stop that the silence branch asks for, or at
    the end of the round. *)

Lemma stop_frames :
  forall (s r : float) (w : World),
    exists w',
      stop clock s r w = (Val tt, w')
      /\ frames (self w') = frames (self w)
      /\ (is_recording (self w') = is_recording (self w)
          \/ is_recording (self w') = false).
Proof.
  intros s r [r0 t k]. unfold stop.
  cbv [bind get time_time log emit self trace ticks].
  destruct (flt _ _).
  - eexists. split; [reflexivity|]. split; [reflexivity | left; reflexivity].
  - cbv [bind get modify time_time log call emit ret self trace ticks].
    eexists. split; [reflexivity|]. split; [reflexivity | right; reflexivity].
Qed.

Lemma recording_frames :
  forall (data : bytes) (L : Locals) (w : World) (res : Locals * bool) (w' : World),
    wakeword_samples_to_remove L = None ->
    is_recording (self w) = true ->
    worker_recording resample_poly clock data L w = (Val res, w') ->
    fst res = L
    /\ ((snd res = false /\ is_recording (self w') = true
         /\ frames (self w') = frames (self w))
        \/ (frames (self w') = frames (self w) ++ [data]
            /\ (snd res = true \/ is_recording (self w') = false))).
Proof.
  intros data L w res w' Hnone Hrec H.
  unfold worker_recording in H. rewrite Hnone in H.
  unfold bind at 1, ret at 1 in H. unfold bind at 1, get at 1 in H.
  destruct (stop_recording_on_voice_deactivity (self w)).
  - unfold bind at 1 in H.
    match type of H with
    | (let (_, _) := ?m w in _) = _ =>
        assert (Hk1 : keeps_frames (m : M bool))
          by (destruct (silero_deactivity_detection (cfg (self w)));
              [apply keeps_frames_silero | apply keeps_frames_webrtc]);
        destruct (m w) as [[a|e] w1] eqn:E1; [|discriminate H];
        apply Hk1 in E1; destruct E1 as [F1 R1]
    end.
    unfold bind at 1 in H.
    match type of H with
    | (let (_, _) := ?m w1 in _) = _ =>
        assert (Hk2 : keeps_frames (m : M unit))
          by (repeat first [apply keeps_frames_early_transcription
                           | keeps_frames_step]);
        destruct (m w1) as [[u|e] w2] eqn:E2; [|discriminate H];
        apply Hk2 in E2; destruct E2 as [F2 R2]
    end.
    assert (F : frames (self w2) = frames (self w)) by congruence.
    assert (R : is_recording (self w2) = true) by congruence.
    clear F1 R1 F2 R2 Hk1 Hk2.
    destruct w2 as [r2 t2 k2]. cbn [self] in F, R.
    unfold bind at 1, get at 1 in H. cbn [self] in H.
    destruct (truthy (speech_end_silence_start r2));
      [|inversion H; split; [reflexivity|left; repeat split; assumption]].
    unfold bind at 1, time_time at 1 in H. cbn [self trace ticks] in H.
    destruct (fge _ _);
      [|inversion H; split; [reflexivity|left; repeat split; assumption]].
    cbv [bind time_time modify self trace ticks] in H.
    match type of H with
    | context [stop clock fzero fzero ?W] =>
        destruct (stop_frames fzero fzero W) as [w3 [Hs [Hf Hr]]];
        rewrite Hs in H
    end.
    cbn [self frames set_frames] in Hf.
    destruct w3 as [r3 t3 k3]. cbv [get self ret] in H. cbn [self] in Hf, Hr.
    destruct (is_recording r3) eqn:R3; cbn [negb] in H; inversion H; cbn [self fst snd].
    + split; [reflexivity|]. right. split; [|left; reflexivity].
      transitivity (frames r3); [reflexivity | congruence].
    + split; [reflexivity|]. right. split; [|right; exact R3].
      transitivity (frames r3); [reflexivity | congruence].
  - inversion H. subst. split; [reflexivity|]. left. repeat split; assumption.
Qed.

Lemma recording_round_unfold :
  forall (L : Locals) (w : World) (data : bytes) (queue : list bytes),
    audio_queue (self w) = data :: queue ->
    len queue <= allowed_latency_limit (cfg (self w)) ->
    is_recording (self w) = true ->
    exists L1 w1,
      wakeword_samples_to_remove L1 = wakeword_samples_to_remove L
      /\ frames (self w1) = frames (self w)
      /\ is_recording (self w1) = true
      /\ stop_recording_on_voice_deactivity (self w1)
         = stop_recording_on_voice_deactivity (self w)
      /\ _recording_worker_round resample_poly clock L w
         = bind (worker_recording resample_poly clock data L1)
                (fun res => bind (worker_finish clock data (fst res) (snd res))
                                 (fun L => ret (Next, L))) w1.
Proof.
  intros L w data queue Hq Hlimit Hrec.
  destruct (get_chunk_value w data queue Hq Hlimit) as [evs Hget].
  unfold _recording_worker_round.
  rewrite (bind_value _ _ _ _ _ _ _ Hget). cbv beta iota.
  unfold bind at 1.
  match goal with
  | |- context [worker_buffer_message_time clock L ?W] =>
      destruct (buffer_message_time_value L W) as [t1 [k1 Htime]]
  end.
  rewrite Htime.
  unfold bind at 1, get at 1. cbn [self].
  change (is_recording (set_audio_queue queue
            (set_last_words_buffer (dq_append data (last_words_buffer (self w)))
               (self w)))) with (is_recording (self w)).
  rewrite Hrec. cbn [negb].
  do 2 eexists. split; [|split; [|split; [|split; [|reflexivity]]]];
    first [exact Hrec | reflexivity].
Qed.

Lemma recording_unarmed :
  forall (data : bytes) (L : Locals) (w : World),
    wakeword_samples_to_remove L = None ->
    stop_recording_on_voice_deactivity (self w) = false ->
    worker_recording resample_poly clock data L w = (Val (L, false), w).
Proof.
  intros data L w Hnone Hunarmed.
  unfold worker_recording. rewrite Hnone.
  unfold bind at 1, ret at 1. unfold bind at 1, get at 1.
  rewrite Hunarmed. reflexivity.
Qed.

(** A round of a recording that has no wake word to strip: when it comes
    to its end, the chunk of the round has been added after the frames;
    and it does come to its end while no stop is armed. *)
Lemma recording_round_appends :
  forall (L : Locals) (w : World) (data : bytes) (queue : list bytes),
    audio_queue (self w) = data :: queue ->
    len queue <= allowed_latency_limit (cfg (self w)) ->
    is_recording (self w) = true ->
    wakeword_samples_to_remove L = None ->
    (forall res w',
        _recording_worker_round resample_poly clock L w = (Val res, w') ->
        frames (self w') = frames (self w) ++ [data]
        /\ wakeword_samples_to_remove (snd res) = None)
    /\ (stop_recording_on_voice_deactivity (self w) = false ->
        exists L' w',
          _recording_worker_round resample_poly clock L w = (Val (Next, L'), w')
          /\ is_recording (self w') = true
          /\ stop_recording_on_voice_deactivity (self w') = false).
Proof.
  intros L w data queue Hq Hlimit Hrec Hnone.
  destruct (recording_round_unfold L w data queue Hq Hlimit Hrec)
    as [L1 [w1 [HL1 [F1 [R1 [A1 Hround]]]]]].
  rewrite Hround. rewrite <- HL1 in Hnone. split.
  - intros res w' H. unfold bind at 1 in H.
    destruct (worker_recording resample_poly clock data L1 w1)
      as [[[L2 failed]|e] w2] eqn:E; [|discriminate H].
    apply (recording_frames data L1 w1 _ _ Hnone R1) in E.
    cbn [fst snd] in E, H. destruct E as [EL E]. subst L2.
    destruct (worker_finish_frames data L1 failed w2)
      as [L3 [w3 [Hfin [F3 [R3 [S3 _]]]]]].
    rewrite (bind_value _ _ _ _ _ _ _ Hfin) in H. inversion H. subst.
    cbn [snd]. split; [|congruence].
    rewrite F3.
    destruct E as [[Ef [Er Efr]] | [Efr [Ef | Er]]].
    + rewrite Er, Ef. cbn. congruence.
    + rewrite Ef, andb_false_r. congruence.
    + rewrite Er. cbn. congruence.
  - intro Hunarmed. rewrite <- A1 in Hunarmed.
    rewrite (bind_value _ _ _ _ _ _ _ (recording_unarmed data L1 w1 Hnone Hunarmed)).
    cbn [fst snd].
    destruct (worker_finish_frames data L1 false w1)
      as [L3 [w3 [Hfin [F3 [R3 [S3 A3]]]]]].
    rewrite (bind_value _ _ _ _ _ _ _ Hfin).
    exists L3, w3. split; [reflexivity|]. split; [congruence|].
    rewrite A3, R1. cbn. exact Hunarmed.
Qed.

End RoundFacts.

(** ** What the steps of a round leave alone *)

Section KeepFacts.

Import Recorder.

Context {WebRtc Silero Detector : Type}.
Context {IW : Vad.WebRtcVadModel WebRtc} {IS : Vad.SileroVadModel Silero}
        {ID : WakeWord.IWakeWordDetector Detector}.
Variable resample_poly : list Z -> Z -> Z -> list float.
Variable clock : nat -> float.

#[local] Abbreviation Recorder := (@Recorder WebRtc Silero Detector).
#[local] Abbreviation World := (@World WebRtc Silero Detector).
#[local] Abbreviation M := (@M WebRtc Silero Detector).

Lemma bind_returns :
  forall (A B : Type) (m : M A) (k : A -> M B) (w w' : World) (b : B),
    bind m k w = (Val b, w') ->
    exists a w1, m w = (Val a, w1) /\ k a w1 = (Val b, w').
Proof.
  intros A B m k w w' b H. unfold bind in H.
  destruct (m w) as [[a|e] w1]; [|discriminate H].
  exists a, w1. split; [reflexivity | exact H].
Qed.

Variable B : Type.
Variable field : Recorder -> B.

Lemma keeps_ret : forall (A : Type) (a : A), keeps field (ret a : M A).
Proof. intros A a w b w' H. inversion H. reflexivity. Qed.

Lemma keeps_raise : forall (A : Type) (e : PyExn), keeps field (raise e : M A).
Proof. intros A e w b w' H. discriminate H. Qed.

Lemma keeps_bind :
  forall (A C : Type) (m : M A) (k : A -> M C),
    keeps field m -> (forall a, keeps field (k a)) -> keeps field (bind m k).
Proof.
  intros A C m k Hm Hk w b w' H.
  destruct (bind_returns _ _ _ _ _ _ _ H) as [a [w1 [E1 E2]]].
  rewrite (Hk _ _ _ _ E2). exact (Hm _ _ _ E1).
Qed.

Lemma keeps_get : keeps field (get : M _).
Proof. intros w b w' H. inversion H. reflexivity. Qed.

Lemma keeps_modify :
  forall f : Recorder -> Recorder,
    (forall r, field (f r) = field r) -> keeps field (modify f : M _).
Proof. intros f Hf w b w' H. inversion H. cbn [self]. apply Hf. Qed.

Lemma keeps_time : keeps field (time_time clock : M _).
Proof. intros w b w' H. inversion H. reflexivity. Qed.

Lemma keeps_emit : forall evs, keeps field (emit evs : M _).
Proof. intros evs w b w' H. inversion H. reflexivity. Qed.

Lemma keeps_log : forall level msg args, keeps field (log level msg args : M _).
Proof. intros. apply keeps_emit. Qed.

Lemma keeps_call : forall registered cb, keeps field (call registered cb : M _).
Proof. intros. apply keeps_emit. Qed.

Lemma keeps_lift :
  forall (A : Type) (e : PyExn) (o : option A), keeps field (lift e o : M A).
Proof. intros A e [a|]; [apply keeps_ret | apply keeps_raise]. Qed.

Lemma keeps_py_int : forall x, keeps field (py_int x : M _).
Proof.
  intros x. unfold py_int. destruct x; try apply keeps_lift. apply keeps_raise.
Qed.

Lemma keeps_when :
  forall (c : bool) (m : M unit), keeps field m -> keeps field (when c m).
Proof. intros [|] m Hm; [exact Hm | apply keeps_ret]. Qed.

(** A field that a change of state and of the spinner leaves alone. *)
Hypothesis field_of_state :
  forall (st : string) (h : option StateMachine.Halo) (r : Recorder),
    field (set_halo h (set_state st r)) = field r.

Lemma keeps_set_state : forall s, keeps field (_set_state s : M _).
Proof.
  intros s w b w' H.
  destruct (set_state_effect s w) as [st [h [evs [Heq _]]]].
  rewrite Heq in H. inversion H. cbn [self]. apply field_of_state.
Qed.

End KeepFacts.

(** ** The round that starts a recording *)

Section StartFacts.

Import Recorder.

Context {WebRtc Silero Detector : Type}.
Context {IW : Vad.WebRtcVadModel WebRtc} {IS : Vad.SileroVadModel Silero}
        {ID : WakeWord.IWakeWordDetector Detector}.
Variable resample_poly : list Z -> Z -> Z -> list float.
Variable clock : nat -> float.

#[local] Abbreviation Recorder := (@Recorder WebRtc Silero Detector).
#[local] Abbreviation World := (@World WebRtc Silero Detector).
#[local] Abbreviation M := (@M WebRtc Silero Detector).

(** The readings of [worker_buffer_message_time]. *)
Lemma buffer_message_time_readings :
  forall (L : Locals) (w : World),
    exists t,
      worker_buffer_message_time clock L w
      = (Val (mkLocals t (was_recording L) (delay_was_passed L)
                       (wakeword_detected_time L) (wakeword_samples_to_remove L)),
         mkWorld (self w) (trace w)
                 (ticks w + buffer_message_readings clock L (ticks w))).
Proof.
  intros [t0 wr dp wt ws] [r t k].
  unfold worker_buffer_message_time, buffer_message_readings, bind, time_time, ret.
  cbn [time_since_last_buffer_message was_recording delay_was_passed
       wakeword_detected_time wakeword_samples_to_remove self trace ticks].
  destruct (truthy t0); cbn [andb].
  - cbv beta. cbn [self trace ticks].
    destruct (fgt (fsub (clock k) t0) (float_of_int 1)).
    + exists (clock (S k)).
      replace (k + 2)%nat with (S (S k)) by lia. reflexivity.
    + exists t0. replace (k + 1)%nat with (S k) by lia. reflexivity.
  - exists (clock k). replace (k + 1)%nat with (S k) by lia. reflexivity.
Qed.

Ltac keeps_step :=
  first
    [ apply keeps_set_state; intros; reflexivity
    | apply keeps_ret | apply keeps_raise | apply keeps_get
    | apply keeps_modify; intro; reflexivity
    | apply keeps_time | apply keeps_log
    | apply keeps_call | apply keeps_lift | apply keeps_py_int
    | apply keeps_when
    | apply keeps_emit
    | apply keeps_bind; [|intro]
    | match goal with
      | |- keeps _ (if ?b then _ else _) => destruct b
      | |- keeps _ (match ?x with _ => _ end) => destruct x
      end ].

Lemma keeps_idle_process_wakeword :
  forall data, keeps idle_fields (_process_wakeword data : M _).
Proof. intro data. unfold _process_wakeword. repeat keeps_step. Qed.

Lemma keeps_idle_check_voice_activity :
  forall data, keeps idle_fields (_check_voice_activity resample_poly data : M _).
Proof.
  intro data. unfold _check_voice_activity, _is_webrtc_speech. repeat keeps_step.
Qed.

Lemma start_refused :
  forall w : World,
    flt (fsub (clock (ticks w)) (recording_stop_time (self w)))
        (min_gap_between_recordings (cfg (self w))) = true ->
    start clock None w
    = (Val tt,
       mkWorld (self w)
               (trace w ++ [EvLog INFO "Attempted to start recording too soon after stopping."
                                  []])
               (S (ticks w))).
Proof.
  intros [r t k] Hgap. cbn [self trace ticks] in Hgap.
  unfold start. cbv [bind get time_time log emit self trace ticks].
  rewrite Hgap. reflexivity.
Qed.

Ltac split_bind H a w E :=
  apply bind_returns in H; destruct H as [a [w [E H]]].

Ltac kept E K :=
  match type of E with
  | ?m _ = _ =>
      assert (K : keeps idle_fields (m : M _)) by (repeat keeps_step);
      apply K in E; clear K
  end.

(** The branch of a recorder that does not record: when it has started
    a recording, the frames are the contents of the pre-roll buffer, and
    the buffer is empty. *)
Lemma not_recording_started :
  forall (data : bytes) (L L' : Locals) (w w' : World),
    worker_not_recording resample_poly clock data L w = (Val L', w') ->
    is_recording (self w) = false ->
    is_recording (self w') = true ->
    frames (self w') = dq_items (audio_buffer (self w))
    /\ dq_items (audio_buffer (self w')) = []
    /\ speech_end_silence_start (self w') = fzero.
Proof.
  intros data L L' w w' H Hrec Hafter.
  unfold worker_not_recording in H.
  split_bind H r w1 E1. inversion E1. subst r w1. clear E1.
  split_bind H tsl w2 E2. kept E2 K.
  split_bind H u3 w3 E3. kept E3 K.
  split_bind H u4 w4 E4. kept E4 K.
  split_bind H L5 w5 E5.
  assert (K5 : idle_fields (self w5) = idle_fields (self w4)).
  { match type of E5 with
    | ?m _ = _ =>
        assert (K : keeps idle_fields (m : M _))
          by (repeat first [apply keeps_idle_process_wakeword | keeps_step]);
        apply K in E5; exact E5
    end. }
  clear E5.
  assert (K : idle_fields (self w5) = idle_fields (self w)) by congruence.
  clear E2 E3 E4 K5.
  split_bind H r5 w5' E6. inversion E6. subst r5 w5'. clear E6.
  split_bind H u7 w7 E7.
  cbv [bind modify ret] in H. inversion H. subst L' w'. clear H.
  cbn [self] in Hafter |- *.
  change (is_recording (set_speech_end_silence_start fzero (self w7)))
    with (is_recording (self w7)) in Hafter.
  change (frames (set_speech_end_silence_start fzero (self w7)))
    with (frames (self w7)).
  change (audio_buffer (set_speech_end_silence_start fzero (self w7)))
    with (audio_buffer (self w7)).
  change (speech_end_silence_start (set_speech_end_silence_start fzero (self w7)))
    with fzero.
  unfold idle_fields in K. injection K as Kr Kb. rewrite Hrec in Kr.
  destruct ((negb (use_wake_words (cfg (self w)))
             || negb (fgt tsl (wake_word_activation_delay (cfg (self w)))))
            && start_recording_on_voice_activity (self w5)
            || wakeword_detected (self w5)).
  2: { inversion E7. subst w7. congruence. }
  split_bind E7 active w6 E6. cbv [_is_voice_active bind get ret] in E6.
  inversion E6. subst w6. clear E6.
  destruct active.
  2: { apply keeps_idle_check_voice_activity in E7. unfold idle_fields in E7.
       injection E7 as E7 _. congruence. }
  destruct w5 as [r5 t5 k5]. cbn [self] in *.
  cbv [bind log emit] in E7. cbn [self trace ticks] in E7.
  destruct (flt (fsub (clock k5) (recording_stop_time r5))
                (min_gap_between_recordings (cfg r5))) eqn:Hgap.
  - rewrite start_refused in E7 by exact Hgap.
    cbv [bind modify ret] in E7. cbn [self trace ticks] in E7.
    inversion E7. subst w7. cbn [self] in Hafter.
    change (is_recording _) with (is_recording r5) in Hafter. congruence.
  - match type of E7 with
    | context [start clock None ?W] =>
        destruct (start_value clock W Hgap) as [w8 [Hs [Hf [Hr [Hb Hd]]]]]
    end.
    rewrite Hs in E7.
    cbv [bind modify ret] in E7. inversion E7. subst w7. cbn [self].
    cbn [self] in Hb.
    split; [|split; reflexivity].
    transitivity (frames (self w8) ++ dq_items (audio_buffer (self w8)));
      [reflexivity|].
    rewrite Hf, Hb, Kb. reflexivity.
Qed.

(** The same branch when voice activity starts a recording: wake words
    are off or the activation delay has not passed, the recorder waits
    for voice, both gates have answered speech, and the reading of the
    clock that [start] takes is not within the minimum gap of the last
    stop. *)
Lemma not_recording_voice_start :
  forall (data : bytes) (L : Locals) (w : World),
    let listening := truthy (listen_start (self w)) in
    let time_since_listen_start :=
      if listening then fsub (clock (ticks w)) (listen_start (self w)) else fzero in
    use_wake_words (cfg (self w))
    && fgt time_since_listen_start (wake_word_activation_delay (cfg (self w))) = false ->
    start_recording_on_voice_activity (self w) = true ->
    is_webrtc_speech_active (self w) = true ->
    is_silero_speech_active (self w) = true ->
    flt (fsub (clock (ticks w + (if listening then 1 else 0)))
              (recording_stop_time (self w)))
        (min_gap_between_recordings (cfg (self w))) = false ->
    exists L' w',
      worker_not_recording resample_poly clock data L w = (Val L', w')
      /\ is_recording (self w') = true
      /\ wakeword_samples_to_remove L' = wakeword_samples_to_remove L.
Proof.
  intros data L [r t k]. cbn [self trace ticks]. cbv zeta.
  intros Hwake Harmed Hwebrtc Hsilero Hgap.
  unfold worker_not_recording.
  cbv [bind get when call emit ret time_time modify self trace ticks].
  destruct (truthy (listen_start r));
    [replace (k + 1)%nat with (S k) in Hgap by lia
    |replace (k + 0)%nat with k in Hgap by lia];
    cbv [bind get when call emit ret time_time modify self trace ticks].
  all: destruct (fgt _ (wake_word_activation_delay (cfg r)));
       destruct (use_wake_words (cfg r)); try discriminate Hwake;
       destruct (delay_was_passed L);
       destruct (truthy (recording_stop_time r));
       cbv [bind get when call emit ret time_time modify self trace ticks andb orb negb].
  all: try match goal with
  | |- context [_set_state ?s ?W] =>
      destruct (set_state_effect s W) as [st [h [evs [Heq _]]]]; rewrite Heq
  end.
  all: repeat progress
         (cbv [bind get when call emit ret time_time modify self trace ticks
               andb orb negb _is_voice_active log];
          cbn [start_recording_on_voice_activity is_webrtc_speech_active
               is_silero_speech_active set_halo set_state];
          rewrite ?Harmed, ?Hwebrtc, ?Hsilero).
  all: match goal with
       | |- context [start clock None ?W] =>
           destruct (start_value clock W Hgap) as [w5 [Hs [Hf [Hr [Hb Hd]]]]];
           rewrite Hs
       end.
  all: cbv [bind get when call emit ret time_time modify self trace ticks andb orb negb].
  all: do 2 eexists; (split; [reflexivity|]).
  all: cbv [self].
  all: split; [transitivity (is_recording (self w5)); [reflexivity | exact Hr]|].
  all: reflexivity.
Qed.

(** C4, as the code has it.  The pre-roll buffer, of capacity [maxlen],
    was empty and has since been given the chunks [history]; the recorder
    does not record.  Whatever the configuration, when the round that
    handles the next chunk has started a recording, the frames are the
    last [maxlen] chunks of [history] (all of it when it is shorter), in
    capture order, followed by the chunk of the round, and the buffer is
    left empty.  The round does start a recording when the recorder waits
    for voice, wake words are off or their activation delay has not
    passed, both gates have answered speech, and the one reading of the
    clock that [start] takes is not within the minimum gap of the last
    stop.  Every later round of a recording with no wake word to strip,
    when it comes to its end, has added its chunk after the frames; it
    does come to its end while no stop on silence is armed. *)
Theorem voice_activity_start_prepends_pre_roll :
  forall (L : Locals) (w : World) (data : bytes) (queue history : list bytes)
         (maxlen : nat),
    audio_queue (self w) = data :: queue ->
    len queue <= allowed_latency_limit (cfg (self w)) ->
    is_recording (self w) = false ->
    audio_buffer (self w) = fold_left (fun d c => dq_append c d) history (dq_new maxlen) ->
    let listening := truthy (listen_start (self w)) in
    let time_since_listen_start :=
      if listening
      then fsub (clock (round_reading clock L w 0)) (listen_start (self w))
      else fzero in
    let reading_of_start := round_reading clock L w (if listening then 1 else 0) in
    (forall res w',
        _recording_worker_round resample_poly clock L w = (Val res, w') ->
        is_recording (self w') = true ->
        frames (self w') = skipn (length history - maxlen) history ++ [data]
        /\ dq_items (audio_buffer (self w')) = [])
    /\ (use_wake_words (cfg (self w))
        && fgt time_since_listen_start (wake_word_activation_delay (cfg (self w)))
        = false ->
        start_recording_on_voice_activity (self w) = true ->
        is_webrtc_speech_active (self w) = true ->
        is_silero_speech_active (self w) = true ->
        flt (fsub (clock reading_of_start) (recording_stop_time (self w)))
            (min_gap_between_recordings (cfg (self w))) = false ->
        exists L' w',
          _recording_worker_round resample_poly clock L w = (Val (Next, L'), w')
          /\ is_recording (self w') = true
          /\ frames (self w') = skipn (length history - maxlen) history ++ [data]
          /\ dq_items (audio_buffer (self w')) = []
          /\ wakeword_samples_to_remove L' = wakeword_samples_to_remove L)
    /\ (forall (L2 : Locals) (w2 : World) (data2 : bytes) (queue2 : list bytes),
          audio_queue (self w2) = data2 :: queue2 ->
          len queue2 <= allowed_latency_limit (cfg (self w2)) ->
          is_recording (self w2) = true ->
          wakeword_samples_to_remove L2 = None ->
          (forall res w3,
              _recording_worker_round resample_poly clock L2 w2 = (Val res, w3) ->
              frames (self w3) = frames (self w2) ++ [data2]
              /\ wakeword_samples_to_remove (snd res) = None)
          /\ (stop_recording_on_voice_deactivity (self w2) = false ->
              exists L3 w3,
                _recording_worker_round resample_poly clock L2 w2
                = (Val (Next, L3), w3)
                /\ is_recording (self w3) = true
                /\ stop_recording_on_voice_deactivity (self w3) = false)).
Proof.
  intros L w data queue history maxlen Hq Hlimit Hrec Hbuf.
  cbv zeta. unfold round_reading.
  destruct (get_chunk_value w data queue Hq Hlimit) as [evs Hget].
  destruct (buffer_message_time_readings L
              (mkWorld (set_audio_queue queue
                          (set_last_words_buffer
                             (dq_append data (last_words_buffer (self w))) (self w)))
                       (trace w ++ evs) (ticks w))) as [t1 Htime].
  cbn [self trace ticks] in Htime.
  assert (Hround :
            _recording_worker_round resample_poly clock L w
            = bind (worker_not_recording resample_poly clock data
                      (mkLocals t1 (was_recording L) (delay_was_passed L)
                                (wakeword_detected_time L)
                                (wakeword_samples_to_remove L)))
                   (fun L2 => bind (worker_finish clock data L2 false)
                                   (fun L3 => ret (Next, L3)))
                   (mkWorld (set_audio_queue queue
                               (set_last_words_buffer
                                  (dq_append data (last_words_buffer (self w)))
                                  (self w)))
                            (trace w ++ evs)
                            (ticks w + buffer_message_readings clock L (ticks w)))).
  { unfold _recording_worker_round.
    rewrite (bind_value _ _ _ _ _ _ _ Hget). cbv beta iota.
    unfold bind at 1. rewrite Htime.
    unfold bind at 1, get at 1. cbn [self].
    change (is_recording (set_audio_queue queue
              (set_last_words_buffer (dq_append data (last_words_buffer (self w)))
                 (self w)))) with (is_recording (self w)).
    rewrite Hrec. cbn [negb].
    cbv [bind ret].
    destruct (worker_not_recording _ _ _ _ _) as [[L2|e] w2]; reflexivity. }
  rewrite Hround. clear Hround Hget Htime.
  assert (Hstarted :
            forall L2 w2 L3 w3,
              worker_not_recording resample_poly clock data L2
                (mkWorld (set_audio_queue queue
                            (set_last_words_buffer
                               (dq_append data (last_words_buffer (self w))) (self w)))
                         (trace w ++ evs)
                         (ticks w + buffer_message_readings clock L (ticks w)))
              = (Val L3, w2) ->
              forall L4, worker_finish clock data L3 false w2 = (Val L4, w3) ->
              is_recording (self w3) = true ->
              frames (self w3) = skipn (length history - maxlen) history ++ [data]
              /\ dq_items (audio_buffer (self w3)) = []).
  { intros L2 w2 L3 w3 Hbranch L4 Hfin Hafter.
    destruct (worker_finish_frames clock data L3 false w2)
      as [L4' [w3' [Hfin' [F3 [R3 _]]]]].
    rewrite Hfin in Hfin'. inversion Hfin'. subst L4' w3'. clear Hfin'.
    rewrite Hafter in R3. symmetry in R3.
    pose proof Hbranch as Hst.
    apply not_recording_started in Hst; [|exact Hrec | exact R3].
    destruct Hst as [F2 [B2 S2]].
    destruct (worker_finish_recording clock data L3 w2 R3)
      as [L4' [w3' [Hfin' [_ [_ B3]]]]].
    rewrite Hfin in Hfin'. inversion Hfin'. subst L4' w3'. clear Hfin'.
    rewrite F3, R3, F2. cbn [negb andb self].
    change (audio_buffer (set_audio_queue queue
              (set_last_words_buffer (dq_append data (last_words_buffer (self w)))
                 (self w)))) with (audio_buffer (self w)).
    rewrite Hbuf, (proj2 (deque_holds_most_recent bytes maxlen history)).
    split; [reflexivity|].
    rewrite B3; [exact B2 | rewrite S2; reflexivity]. }
  split; [|split].
  - intros res w' H Hafter.
    apply bind_returns in H. destruct H as [L3 [w2 [Hbranch H]]].
    apply bind_returns in H. destruct H as [L4 [w3 [Hfin H]]].
    inversion H. subst res w'.
    exact (Hstarted _ _ _ _ Hbranch _ Hfin Hafter).
  - intros Hwake Harmed Hwebrtc Hsilero Hgap.
    match goal with
    | |- context [bind (worker_not_recording _ _ data ?L1) _ ?W] =>
        pose (L1' := L1); pose (W' := W)
    end.
    pose proof (not_recording_voice_start data L1' W') as Hx.
    subst L1' W'. cbv zeta in Hx. cbn [self trace ticks] in Hx.
    rewrite Nat.add_0_r in Hwake.
    destruct (Hx Hwake Harmed Hwebrtc Hsilero Hgap) as [L3 [w2 [Hbranch [R2 N2]]]].
    clear Hx.
    destruct (worker_finish_frames clock data L3 false w2)
      as [L4 [w3 [Hfin [F3 [R3 [N3 _]]]]]].
    rewrite (bind_value _ _ _ _ _ _ _ Hbranch), (bind_value _ _ _ _ _ _ _ Hfin). unfold ret.
    exists L4, w3. split; [reflexivity|].
    assert (Hafter : is_recording (self w3) = true) by congruence.
    destruct (Hstarted _ _ _ _ Hbranch _ Hfin Hafter) as [F B].
    repeat split; try assumption.
    rewrite N3. exact N2.
  - exact (recording_round_appends resample_poly clock).
Qed.

End StartFacts.

(** The theorem at work on a second utterance.  The recorder of the
    defaults listens; a chunk of silence and two chunks of speech come in,
    the confirming gate answering after the first of these, and the
    recording that this starts goes on for sixteen chunks of speech, with
    the stop on silence armed, and is stopped by a call of [stop].
    The recorder listens again: a chunk of silence and a chunk of speech
    come in and the confirming gate answers.  The round of the next chunk
    starts the second recording with the two chunks buffered since the
    first, and the round after it adds its chunk. *)
Lemma voice_activity_start_prepends_pre_roll_witness :
  let chunk := fun b : byte => Demo.chunk_of b 512 in
  let queued := fun (q : list bytes) (w : @Recorder.World unit nat unit) =>
                  Recorder.mkWorld (Recorder.set_audio_queue q (Recorder.self w))
                                   (Recorder.trace w) (Recorder.ticks w) in
  let rounds := run_rounds Demo.resample_poly Demo.clock in
  let gate := fun w => snd (Recorder._is_silero_speech Demo.resample_poly (chunk xff) w) in
  let w0 := snd (Recorder.wait_audio_arm Demo.clock
                   (Recorder.mkWorld Demo.recorder0 [] 0)) in
  let s1 := rounds 2%nat (Recorder.mkLocals fzero false false None None)
                   (queued [chunk x01; chunk xff; chunk xfe] w0) in
  let s2 := rounds 1%nat (fst s1) (gate (snd s1)) in
  let s3 := rounds 16%nat (fst s2)
                   (queued (repeat (chunk xff) 16)
                           (snd (Recorder.wait_audio_arm_stop (snd s2)))) in
  let w4 := snd (Recorder.wait_audio_assemble
                   (snd (Recorder.stop Demo.clock fzero fzero (snd s3)))) in
  let w5 := snd (Recorder.wait_audio_arm Demo.clock w4) in
  let s6 := rounds 2%nat (fst s3) (queued [chunk x02; chunk xff; chunk xfc; chunk xfb] w5) in
  let w7 := gate (snd s6) in
  Recorder.frames (Recorder.self (snd s2)) = [chunk x01; chunk xff; chunk xfe]
  /\ Recorder.recording_stop_time (Recorder.self w7) = Demo.clock 45
  /\ exists L8 w8,
      Recorder._recording_worker_round Demo.resample_poly Demo.clock (fst s6) w7
      = (Recorder.Val (Recorder.Next, L8), w8)
      /\ Recorder.frames (Recorder.self w8) = [chunk x02; chunk xff; chunk xfc]
      /\ dq_items (Recorder.audio_buffer (Recorder.self w8)) = []
      /\ (exists L9 w9,
            Recorder._recording_worker_round Demo.resample_poly Demo.clock L8 w8
            = (Recorder.Val (Recorder.Next, L9), w9)
            /\ Recorder.frames (Recorder.self w9)
               = [chunk x02; chunk xff; chunk xfc; chunk xfb]).
Proof.
  intros chunk queued rounds gate w0 s1 s2 s3 w4 w5 s6 w7.
  split; [vm_compute; reflexivity|]. split; [vm_compute; reflexivity|].
  destruct (@voice_activity_start_prepends_pre_roll unit nat unit _ _ _
              Demo.resample_poly Demo.clock (fst s6) w7 (chunk xfc) [chunk xfb]
              [chunk x02; chunk xff] 31
              ltac:(vm_compute; reflexivity) ltac:(vm_compute; discriminate)
              ltac:(vm_compute; reflexivity) ltac:(vm_compute; reflexivity))
    as [_ [Hstart Hlater]].
  destruct (Hstart ltac:(vm_compute; reflexivity) ltac:(vm_compute; reflexivity)
                   ltac:(vm_compute; reflexivity) ltac:(vm_compute; reflexivity)
                   ltac:(vm_compute; reflexivity))
    as [L8 [w8 [Hround [Hrec [Hframes [Hbuf Hstrip]]]]]].
  exists L8, w8. split; [exact Hround|]. split; [exact Hframes|]. split; [exact Hbuf|].
  assert (E8 : w8 = snd (Recorder._recording_worker_round
                           Demo.resample_poly Demo.clock (fst s6) w7))
    by (rewrite Hround; reflexivity).
  assert (Hq8 : Recorder.audio_queue (Recorder.self w8) = [chunk xfb])
    by (rewrite E8; vm_compute; reflexivity).
  assert (Hlimit8 : len (@nil bytes)
                    <= Recorder.allowed_latency_limit (Recorder.cfg (Recorder.self w8)))
    by (rewrite E8; vm_compute; discriminate).
  assert (Hunarmed : Recorder.stop_recording_on_voice_deactivity (Recorder.self w8)
                     = false)
    by (rewrite E8; vm_compute; reflexivity).
  assert (Hnone : Recorder.wakeword_samples_to_remove L8 = None)
    by (rewrite Hstrip; vm_compute; reflexivity).
  destruct (Hlater L8 w8 (chunk xfb) [] Hq8 Hlimit8 Hrec Hnone) as [Happend Hreturns].
  destruct (Hreturns Hunarmed) as [L9 [w9 [Hround9 _]]].
  exists L9, w9. split; [exact Hround9|].
  rewrite (proj1 (Happend _ _ Hround9)), Hframes. reflexivity.
Defined.

(** C4 as stated fails for the recorder of the defaults.  The pre-roll
    time is 1.0 s, that is 16000 samples or 32000 bytes; the buffer holds
    31 chunks of 512 samples, 15872 samples.  The recorder listens through
    32 chunks of silence (filled with the bytes 1 to 32) and a chunk of
    speech, 33792 bytes and more than a second, and the round of the next
    chunk starts the recording.  The first 32000 bytes of the utterance
    start with chunk 3; the 32000 bytes heard before the triggering chunk
    start inside chunk 2. *)
Lemma pre_roll_is_short_of_a_second :
  let silence := map (fun i => Demo.chunk_of (byte_of_Z i) 512) (range_step 1 33 1) in
  let v1 := Demo.chunk_of xff 512 in
  let v2 := Demo.chunk_of xfe 512 in
  let w0 := snd (Recorder.wait_audio_arm Demo.clock
                   (Recorder.mkWorld Demo.recorder0 [] 0)) in
  let w1 := Recorder.mkWorld
              (Recorder.set_audio_queue (silence ++ [v1; v2]) (Recorder.self w0))
              (Recorder.trace w0) (Recorder.ticks w0) in
  let s := run_rounds Demo.resample_poly Demo.clock 33
                      (Recorder.mkLocals fzero false false None None) w1 in
  let w2 := snd (Recorder._is_silero_speech Demo.resample_poly v1 (snd s)) in
  let w3 := snd (run_rounds Demo.resample_poly Demo.clock 1 (fst s) w2) in
  let heard := join (silence ++ [v1]) in
  let utterance := join (Recorder.frames (Recorder.self w3)) in
  int_of_float (fmul (float_of_int (Recorder.sample_rate Recorder.default_config))
                     (Recorder.pre_recording_buffer_duration Recorder.default_config))
  = Some 16000
  /\ Recorder.state (Recorder.self (snd s)) = "listening"
  /\ Recorder.is_recording (Recorder.self w3) = true
  /\ Recorder.frames (Recorder.self w3) = skipn 2 silence ++ [v1; v2]
  /\ len heard = 33792
  /\ len (slice heard (Some (-32000)) None) = 32000
  /\ hd x00 (slice utterance None (Some 32000)) = x03
  /\ hd x00 (slice heard (Some (-32000)) None) = x02
  /\ slice utterance None (Some 32000) <> slice heard (Some (-32000)) None.
Proof.
  cbv zeta. repeat split; try (vm_compute; reflexivity).
  intro H. apply (f_equal (hd x00)) in H.
  vm_compute in H. discriminate H.
Qed.

(* ===================================================================== *)
(** * More of the code: the text helpers *)
(* ===================================================================== *)

Section TextFacts.

Variable isspace : N -> bool.
Variable upper : N -> Text.str.
Variable isalnum : N -> bool.

Lemma non_space_lstrip :
  forall text, non_space isspace (Text.lstrip isspace text) = non_space isspace text.
Proof.
  induction text as [|c rest IH]; [reflexivity|].
  cbn [Text.lstrip]. destruct (isspace c) eqn:E; [|reflexivity].
  unfold non_space in *. cbn [filter]. rewrite E. exact IH.
Qed.

Lemma non_space_rev :
  forall text, non_space isspace (rev text) = rev (non_space isspace text).
Proof.
  intro text. unfold non_space. induction text as [|c rest IH]; [reflexivity|].
  cbn [rev filter]. rewrite filter_app, IH. cbn [filter].
  destruct (negb (isspace c)); [reflexivity | now rewrite app_nil_r].
Qed.

Lemma non_space_strip :
  forall text, non_space isspace (Text.strip isspace text) = non_space isspace text.
Proof.
  intro text. unfold Text.strip, Text.rstrip.
  now rewrite non_space_rev, non_space_lstrip, <- non_space_rev, rev_involutive,
    non_space_lstrip.
Qed.

Lemma non_space_sub_whitespace :
  isspace Text.SPACE = true ->
  forall text in_run,
    non_space isspace (Text.sub_whitespace isspace in_run text) = non_space isspace text.
Proof.
  intros Hsp. unfold non_space.
  induction text as [|c rest IH]; intro in_run; [reflexivity|].
  cbn [Text.sub_whitespace filter]. destruct (isspace c) eqn:E; cbn [negb].
  - destruct in_run; cbn [filter]; rewrite ?Hsp; cbn [negb]; apply IH.
  - cbn [filter]. rewrite E. cbn [negb]. f_equal. apply IH.
Qed.

Lemma sub_whitespace_single_spaced :
  forall text in_run,
    single_spaced isspace in_run (Text.sub_whitespace isspace in_run text) = true.
Proof.
  induction text as [|c rest IH]; intro in_run; [reflexivity|].
  cbn [Text.sub_whitespace]. destruct (isspace c) eqn:E.
  - destruct in_run; [apply IH|].
    cbn [single_spaced]. destruct (isspace Text.SPACE) eqn:Es; cbn [negb andb].
    + apply IH.
    + (* a space that is no whitespace: the run goes on *)
      clear E. revert IH. generalize rest. clear.
      intros rest IH. specialize (IH true).
      revert IH. generalize (Text.sub_whitespace isspace true rest). clear rest.
      intros l. destruct l as [|d l]; [reflexivity|].
      cbn [single_spaced]. destruct (isspace d); cbn [negb andb]; [discriminate | trivial].
  - cbn [single_spaced]. rewrite E. apply IH.
Qed.

Lemma sub_whitespace_spaces :
  forall text in_run c,
    In c (Text.sub_whitespace isspace in_run text) -> isspace c = true -> c = Text.SPACE.
Proof.
  induction text as [|d rest IH]; intros in_run c Hin Hc; [destruct Hin|].
  cbn [Text.sub_whitespace] in Hin. destruct (isspace d) eqn:E.
  - destruct in_run; [now apply IH with (in_run := true)|].
    destruct Hin as [<-|Hin]; [reflexivity | now apply IH with (in_run := true)].
  - destruct Hin as [<-|Hin]; [congruence | now apply IH with (in_run := false)].
Qed.

Lemma lstrip_head :
  forall text c rest, Text.lstrip isspace text = c :: rest -> isspace c = false.
Proof.
  induction text as [|d text IH]; intros c rest H; [discriminate H|].
  cbn [Text.lstrip] in H. destruct (isspace d) eqn:E; [now apply IH with rest|].
  now inversion H; subst.
Qed.

Lemma lstrip_fixed :
  forall text,
    match text with c :: _ => isspace c = false | [] => True end ->
    Text.lstrip isspace text = text.
Proof.
  intros [|c rest] H; [reflexivity|]. cbn [Text.lstrip]. now rewrite H.
Qed.

Lemma lstrip_suffix :
  forall text, exists pre, text = pre ++ Text.lstrip isspace text.
Proof.
  induction text as [|c rest [pre IH]]; [exists []; reflexivity|].
  cbn [Text.lstrip]. destruct (isspace c).
  - exists (c :: pre). cbn [app]. now f_equal.
  - exists []. reflexivity.
Qed.

Lemma last_rev_hd :
  forall (text : Text.str) d, last text d = hd d (rev text).
Proof.
  intros text d. induction text as [|c rest IH]; [reflexivity|].
  cbn [rev]. destruct rest as [|c' rest']; [reflexivity|].
  change (last (c :: c' :: rest') d) with (last (c' :: rest') d). rewrite IH.
  cbn [rev]. destruct (rev rest' ++ [c']) eqn:E; [|reflexivity].
  now destruct (rev rest').
Qed.

Lemma rstrip_last :
  forall text,
    Text.rstrip isspace text = [] \/ isspace (Text.last_char (Text.rstrip isspace text)) = false.
Proof.
  intro text. unfold Text.rstrip, Text.last_char.
  rewrite last_rev_hd, rev_involutive.
  destruct (Text.lstrip isspace (rev text)) as [|c rest] eqn:E; [now left|].
  right. cbn [hd]. now apply lstrip_head with (rev text) rest.
Qed.

Lemma rstrip_fixed :
  forall text,
    text = [] \/ isspace (Text.last_char text) = false ->
    Text.rstrip isspace text = text.
Proof.
  intros text H. unfold Text.rstrip.
  rewrite lstrip_fixed; [apply rev_involutive|].
  destruct H as [->|H]; [exact I|].
  unfold Text.last_char in H. rewrite last_rev_hd in H.
  destruct (rev text) as [|c rest] eqn:E; [exact I | exact H].
Qed.

Lemma rstrip_head :
  forall text c,
    isspace c = false -> exists rest', Text.rstrip isspace (c :: text) = c :: rest'.
Proof.
  intros text c Hc. unfold Text.rstrip. cbn [rev].
  destruct (lstrip_suffix (rev text ++ [c])) as [pre Hpre].
  destruct (Text.lstrip isspace (rev text ++ [c])) as [|d l] eqn:E.
  - (* the whole text stripped: impossible, [c] is no whitespace *)
    exfalso. clear Hpre.
    revert E. generalize (rev text). induction l as [|x l IH]; cbn [app Text.lstrip].
    + now rewrite Hc.
    + destruct (isspace x); [exact IH | discriminate].
  - apply (f_equal (@rev N)) in Hpre.
    rewrite !rev_app_distr, rev_involutive in Hpre. cbn [rev app] in Hpre.
    destruct (rev (d :: l)) as [|y ys] eqn:Ey.
    + apply (f_equal (@length N)) in Ey. rewrite length_rev in Ey. discriminate Ey.
    + cbn [rev] in Ey. rewrite Ey in Hpre. cbn [app] in Hpre.
      inversion Hpre. subst y. now exists ys.
Qed.

Lemma strip_ends :
  forall text,
    let t := Text.strip isspace text in
    match t with c :: _ => isspace c = false | [] => True end
    /\ (t = [] \/ isspace (Text.last_char t) = false).
Proof.
  intro text. cbv zeta. split; [|apply rstrip_last].
  unfold Text.strip.
  destruct (Text.lstrip isspace text) as [|c rest] eqn:E; [exact I|].
  pose proof (lstrip_head _ _ _ E) as Hc.
  destruct (rstrip_head rest c Hc) as [rest' ->]. exact Hc.
Qed.

Lemma sub_whitespace_cons :
  forall c rest in_run,
    Text.sub_whitespace isspace in_run (c :: rest)
    = if isspace c then
        if in_run then Text.sub_whitespace isspace true rest
        else Text.SPACE :: Text.sub_whitespace isspace true rest
      else c :: Text.sub_whitespace isspace false rest.
Proof. reflexivity. Qed.

Lemma last_cons_nonempty :
  forall (c : N) (l : Text.str) d, l <> [] -> last (c :: l) d = last l d.
Proof. intros c [|x l] d H; [congruence | reflexivity]. Qed.

Lemma sub_whitespace_last :
  forall text in_run,
    text <> [] -> isspace (Text.last_char text) = false ->
    Text.last_char (Text.sub_whitespace isspace in_run text) = Text.last_char text
    /\ Text.sub_whitespace isspace in_run text <> [].
Proof.
  unfold Text.last_char.
  induction text as [|c rest IH]; intros in_run Hne Hlast; [congruence|].
  destruct rest as [|c' rest'].
  - cbn [last] in Hlast. cbn [Text.sub_whitespace]. rewrite Hlast.
    split; [reflexivity | discriminate].
  - assert (Hne' : c' :: rest' <> []) by discriminate.
    rewrite (last_cons_nonempty c _ _ Hne') in *.
    rewrite sub_whitespace_cons.
    destruct (isspace c).
    + destruct in_run.
      * apply (IH true Hne' Hlast).
      * destruct (IH true Hne' Hlast) as [H1 H2]. split; [|discriminate].
        now rewrite (last_cons_nonempty _ _ _ H2).
    + destruct (IH false Hne' Hlast) as [H1 H2]. split; [|discriminate].
      now rewrite (last_cons_nonempty _ _ _ H2).
Qed.

Lemma sub_whitespace_fixed :
  forall text in_run,
    single_spaced isspace in_run text = true ->
    (forall c, In c text -> isspace c = true -> c = Text.SPACE) ->
    Text.sub_whitespace isspace in_run text = text.
Proof.
  induction text as [|c rest IH]; intros in_run Hs Hall; [reflexivity|].
  cbn [Text.sub_whitespace single_spaced] in *. destruct (isspace c) eqn:E.
  - destruct in_run; [discriminate Hs|]. cbn [negb andb] in Hs.
    rewrite (Hall c (or_introl eq_refl) E). f_equal.
    apply IH; [exact Hs | intros d Hd; apply Hall; now right].
  - f_equal. apply IH; [exact Hs | intros d Hd; apply Hall; now right].
Qed.

Lemma single_spaced_head :
  forall text,
    single_spaced isspace true text = true ->
    match text with c :: _ => isspace c = false | [] => True end.
Proof.
  intros [|c rest] H; [exact I|]. cbn [single_spaced] in H.
  destruct (isspace c); [discriminate H | reflexivity].
Qed.

Lemma single_spaced_app :
  forall text in_run c,
    single_spaced isspace in_run text = true -> isspace c = false ->
    single_spaced isspace in_run (text ++ [c]) = true.
Proof.
  induction text as [|d rest IH]; intros in_run c Hs Hc.
  - cbn. now rewrite Hc.
  - cbn [app single_spaced] in *. destruct (isspace d).
    + apply andb_true_iff in Hs. destruct Hs as [H1 H2]. rewrite H1. cbn [andb].
      now apply IH.
    + now apply IH.
Qed.

(** The text after [strip] and [re.sub], as a text that these two steps
    leave alone. *)
Lemma normalized_fixed :
  forall text,
    single_spaced isspace true text = true ->
    (text = [] \/ isspace (Text.last_char text) = false) ->
    (forall c, In c text -> isspace c = true -> c = Text.SPACE) ->
    Text.sub_whitespace isspace false (Text.strip isspace text) = text.
Proof.
  intros text Hs Hlast Hall. unfold Text.strip.
  rewrite (lstrip_fixed text (single_spaced_head text Hs)).
  rewrite (rstrip_fixed text Hlast).
  destruct text as [|c rest]; [reflexivity|].
  pose proof (single_spaced_head _ Hs) as Hc. cbn beta iota in Hc.
  cbn [Text.sub_whitespace single_spaced] in *. rewrite Hc in *.
  f_equal. apply sub_whitespace_fixed; [exact Hs|].
  intros d Hd. apply Hall. now right.
Qed.

Lemma normalize_shape :
  forall text,
    let t := Text.sub_whitespace isspace false (Text.strip isspace text) in
    single_spaced isspace true t = true
    /\ (t = [] \/ isspace (Text.last_char t) = false)
    /\ (forall c, In c t -> isspace c = true -> c = Text.SPACE).
Proof.
  intro text. cbv zeta.
  destruct (strip_ends text) as [Hhead Hlast].
  split; [|split].
  - destruct (Text.strip isspace text) as [|c rest]; [reflexivity|].
    cbn [Text.sub_whitespace single_spaced]. rewrite Hhead.
    cbn [single_spaced]. rewrite Hhead. apply sub_whitespace_single_spaced.
  - destruct Hlast as [->|Hlast]; [now left|].
    destruct (Text.strip isspace text) as [|c rest] eqn:E; [now left|].
    right. destruct (sub_whitespace_last (c :: rest) false) as [H1 _];
      [discriminate | exact Hlast |].
    now rewrite H1.
  - intros c. apply sub_whitespace_spaces.
Qed.

(** X1.  With the two sentence options off, [_preprocess_output]
    only touches whitespace: the characters that are not whitespace come
    out as they went in, in the same order; no whitespace is left at the
    start or at the end; no whitespace character follows another; and
    every whitespace character that is left is a plain space. *)
Theorem preprocess_output_whitespace :
  forall (text : Text.str) (preview : bool),
    isspace Text.SPACE = true ->
    let out := Text._preprocess_output isspace upper isalnum false false text preview in
    non_space isspace out = non_space isspace text
    /\ single_spaced isspace true out = true
    /\ (out = [] \/ isspace (Text.last_char out) = false)
    /\ (forall c, In c out -> isspace c = true -> c = Text.SPACE).
Proof.
  intros text preview Hsp. cbv zeta.
  assert (E : Text._preprocess_output isspace upper isalnum false false text preview
              = Text.sub_whitespace isspace false (Text.strip isspace text))
    by (unfold Text._preprocess_output; destruct preview; reflexivity).
  rewrite E. split.
  - now rewrite non_space_sub_whitespace, non_space_strip.
  - apply normalize_shape.
Qed.

(** X2.  Without the upper-case option, [_preprocess_output] applied
    to its own result changes nothing: the full stop is added once.  And
    with the full-stop option on, outside a preview, the result never
    ends in a letter or a digit. *)
Theorem preprocess_output_idempotent :
  forall (text : Text.str) (ensure_sentence_ends_with_period preview : bool),
    isspace Text.PERIOD = false ->
    isalnum Text.PERIOD = false ->
    let f t := Text._preprocess_output isspace upper isalnum false
                                       ensure_sentence_ends_with_period t preview in
    f (f text) = f text
    /\ (ensure_sentence_ends_with_period = true -> preview = false ->
        f text = [] \/ isalnum (Text.last_char (f text)) = false).
Proof.
  intros text period preview Hps Hpa. cbv zeta.
  destruct (normalize_shape text) as [Hs [Hlast Hall]].
  unfold Text._preprocess_output.
  set (t := Text.sub_whitespace isspace false (Text.strip isspace text)) in *.
  destruct (negb preview && period) eqn:Emode.
  - apply andb_true_iff in Emode. destruct Emode as [Hprev ->]. rewrite Hprev.
    destruct t as [|c rest] eqn:Et.
    + cbn. split; [reflexivity | intros _ _; now left].
    + rewrite <- Et in *.
      destruct (isalnum (Text.last_char t)) eqn:Ea.
      * assert (Hl : Text.last_char (t ++ [Text.PERIOD]) = Text.PERIOD)
          by (unfold Text.last_char; apply last_last).
        rewrite normalized_fixed.
        -- destruct (t ++ [Text.PERIOD]) eqn:E2;
             [destruct t; discriminate E2|]. rewrite <- E2 in *.
           rewrite Hl, Hpa. split; [reflexivity|]. intros _ _. right. reflexivity.
        -- now apply single_spaced_app.
        -- right. now rewrite Hl.
        -- intros d Hd Hds. apply in_app_or in Hd. destruct Hd as [Hd|[<-|[]]];
             [now apply Hall | congruence].
      * rewrite normalized_fixed by assumption. rewrite Ea.
        split; [now destruct t | intros _ _; now right].
  - assert (E : forall u, (if negb preview
                           then if period
                                then match u with
                                     | [] => u
                                     | _ :: _ =>
                                         if isalnum (Text.last_char u)
                                         then u ++ [Text.PERIOD] else u
                                     end
                                else u
                           else u) = u).
    { intro u. destruct preview, period; try reflexivity; discriminate Emode. }
    rewrite !E. rewrite normalized_fixed by assumption.
    split; [reflexivity|]. intros -> ->. discriminate Emode.
Qed.

End TextFacts.

(** Runs of blanks shrink to one blank, and those at the ends go. *)
Lemma preprocess_output_whitespace_witness :
  let text := Samples.str_of "  hello   wide world  " in
  let out := Text._preprocess_output Samples.isspace Samples.upper Samples.isalnum
                                     false false text false in
  out = Samples.str_of "hello wide world"
  /\ (non_space Samples.isspace out = non_space Samples.isspace text
      /\ single_spaced Samples.isspace true out = true
      /\ (out = [] \/ Samples.isspace (Text.last_char out) = false)
      /\ (forall c, In c out -> Samples.isspace c = true -> c = Text.SPACE)).
Proof.
  intros text out. split; [vm_compute; reflexivity|].
  apply (preprocess_output_whitespace Samples.isspace Samples.upper Samples.isalnum
           text false).
  reflexivity.
Defined.

(** "so  it goes" gets its full stop once. *)
Lemma preprocess_output_idempotent_witness :
  let f t := Text._preprocess_output Samples.isspace Samples.upper Samples.isalnum
                                     false true t false in
  let text := Samples.str_of "so  it goes" in
  f text = Samples.str_of "so it goes."
  /\ (f (f text) = f text
      /\ (true = true -> false = false ->
          f text = [] \/ Samples.isalnum (Text.last_char (f text)) = false)).
Proof.
  intros f text. split; [vm_compute; reflexivity|].
  apply (preprocess_output_idempotent Samples.isspace Samples.upper Samples.isalnum
           text true false); reflexivity.
Defined.

(** ** Looking for the tail of one text in another *)

Lemma str_eqb_eq : forall a b, Text.str_eqb a b = true <-> a = b.
Proof.
  induction a as [|x a IH]; intros [|y b]; cbn [Text.str_eqb];
    try (split; [discriminate | congruence]); [split; reflexivity|].
  rewrite andb_true_iff, N.eqb_eq, IH. split; [intros [-> ->]; reflexivity|].
  intro H. inversion H. split; reflexivity.
Qed.

(** The loop over [range]: it answers at the first index whose window is
    the target. *)
Lemma tail_match_loop_seq :
  forall (target text2 : Text.str) (L : Z) (n s : nat),
    let hit k :=
      Text.str_eqb (slice text2 (Some (len text2 - Z.of_nat k - L))
                          (Some (len text2 - Z.of_nat k))) target in
    let r := Text.tail_match_loop target text2 L (map Z.of_nat (seq s n)) in
    (r = -1 /\ forall k, (s <= k < s + n)%nat -> hit k = false)
    \/ exists k, (s <= k < s + n)%nat
                 /\ r = len text2 - Z.of_nat k
                 /\ hit k = true
                 /\ forall j, (s <= j < k)%nat -> hit j = false.
Proof.
  intros target text2 L. cbv zeta.
  induction n as [|n IH]; intro s.
  - left. split; [reflexivity | intros k Hk; lia].
  - cbn [seq map Text.tail_match_loop].
    destruct (Text.str_eqb _ target) eqn:E.
    + right. exists s. repeat split; [lia | lia | exact E | intros j Hj; lia].
    + destruct (IH (S s)) as [[Hr Hall] | [k [Hk [Hr [Hhit Hbefore]]]]].
      * left. split; [exact Hr|]. intros k Hk.
        destruct (Nat.eq_dec k s) as [->|Hne]; [exact E | apply Hall; lia].
      * right. exists k. repeat split; try assumption; try lia.
        intros j Hj. destruct (Nat.eq_dec j s) as [->|Hne]; [exact E | apply Hbefore; lia].
Qed.

(** X3.  With a [length_of_match] above 0 and not above the length
    of either text, [_find_tail_match_in_text] answers the position in
    [text2] where the last occurrence of the [length_of_match] last
    characters of [text1] ends (not where it starts), and -1 when they
    do not occur. *)
Theorem find_tail_match_last_occurrence :
  forall (text1 text2 : Text.str) (L : Z),
    0 < L -> L <= len text1 -> L <= len text2 ->
    let target := window text1 (len text1) L in
    let r := Text._find_tail_match_in_text text1 text2 L in
    (r = -1 /\ forall q, L <= q <= len text2 -> window text2 q L <> target)
    \/ (L <= r <= len text2
        /\ window text2 r L = target
        /\ forall q, r < q <= len text2 -> window text2 q L <> target).
Proof.
  intros text1 text2 L HL H1 H2. cbv zeta.
  unfold Text._find_tail_match_in_text.
  replace (len text1 <? L) with false by (symmetry; apply Z.ltb_ge; lia).
  replace (len text2 <? L) with false by (symmetry; apply Z.ltb_ge; lia).
  cbn [orb].
  assert (Htarget : slice text1 (Some (- L)) None = window text1 (len text1) L).
  { rewrite slice_keep_last by lia. unfold window, len.
    replace (Z.to_nat (Z.of_nat (length text1) - L))
      with (length text1 - Z.to_nat L)%nat by lia.
    symmetry. apply firstn_all2. rewrite length_skipn. lia. }
  rewrite Htarget.
  assert (Hwin : forall i, 0 <= i <= len text2 - L ->
            slice text2 (Some (len text2 - i - L)) (Some (len text2 - i))
            = window text2 (len text2 - i) L).
  { intros i Hi. rewrite slice_between by lia. unfold window.
    f_equal; f_equal; lia. }
  set (target := window text1 (len text1) L).
  rewrite range_as_seq.
  destruct (tail_match_loop_seq target text2 L (Z.to_nat (len text2 - L + 1)) 0)
    as [[Hr Hall] | [k [Hk [Hr [Hhit Hbefore]]]]].
  - left. split; [exact Hr|]. intros q Hq Heq.
    specialize (Hall (Z.to_nat (len text2 - q)) ltac:(lia)).
    rewrite Hwin in Hall by lia.
    replace (len text2 - Z.of_nat (Z.to_nat (len text2 - q))) with q in Hall by lia.
    apply (proj2 (str_eqb_eq _ _)) in Heq. congruence.
  - right. rewrite Hr. split; [lia|]. split.
    + rewrite Hwin in Hhit by lia. now apply str_eqb_eq.
    + intros q Hq Heq.
      specialize (Hbefore (Z.to_nat (len text2 - q)) ltac:(lia)).
      rewrite Hwin in Hbefore by lia.
      replace (len text2 - Z.of_nat (Z.to_nat (len text2 - q))) with q in Hbefore by lia.
      apply (proj2 (str_eqb_eq _ _)) in Heq. congruence.
Qed.

(** The last two characters of "abcd" stand twice in "xcdycdz"; the
    second time they end at position 6. *)
Lemma find_tail_match_last_occurrence_witness :
  let text1 := Samples.str_of "abcd" in
  let text2 := Samples.str_of "xcdycdz" in
  Text._find_tail_match_in_text text1 text2 2 = 6
  /\ (let target := window text1 (len text1) 2 in
      let r := Text._find_tail_match_in_text text1 text2 2 in
      (r = -1 /\ forall q, 2 <= q <= len text2 -> window text2 q 2 <> target)
      \/ (2 <= r <= len text2
          /\ window text2 r 2 = target
          /\ forall q, r < q <= len text2 -> window text2 q 2 <> target)).
Proof.
  intros text1 text2. split; [vm_compute; reflexivity|].
  apply (find_tail_match_last_occurrence text1 text2 2); [lia | vm_compute | vm_compute];
    discriminate.
Defined.

(** X4.  The edges of [_find_tail_match_in_text]: a text shorter than
    [length_of_match] gives -1; and with a [length_of_match] of 0 the
    whole of [text1] is compared with the empty string, so that the
    answer is the length of [text2] when [text1] is empty and -1
    otherwise. *)
Theorem find_tail_match_edges :
  forall (text1 text2 : Text.str) (length_of_match : Z),
    (if (len text1 <? length_of_match) || (len text2 <? length_of_match)
     then Text._find_tail_match_in_text text1 text2 length_of_match = -1
     else True)
    /\ Text._find_tail_match_in_text text1 text2 0
       = match text1 with [] => len text2 | _ :: _ => -1 end.
Proof.
  intros text1 text2 L. split.
  - unfold Text._find_tail_match_in_text.
    destruct ((len text1 <? L) || (len text2 <? L)); [reflexivity | exact I].
  - unfold Text._find_tail_match_in_text.
    replace (len text1 <? 0) with false by (symmetry; apply Z.ltb_ge; unfold len; lia).
    replace (len text2 <? 0) with false by (symmetry; apply Z.ltb_ge; unfold len; lia).
    cbn [orb]. change (- 0) with 0. rewrite slice_from by lia. cbn [Z.to_nat skipn].
    rewrite Z.sub_0_r, range_as_seq.
    assert (Hwin : forall k, slice text2 (Some (len text2 - Z.of_nat k - 0))
                                   (Some (len text2 - Z.of_nat k)) = []).
    { intro k. unfold slice. rewrite Z.sub_0_r, Z.sub_diag. reflexivity. }
    destruct text1 as [|c text1].
    + replace (Z.to_nat (len text2 + 1)) with (S (length text2)) by (unfold len; lia).
      cbn [seq map Text.tail_match_loop]. rewrite Hwin. cbn. lia.
    + generalize (Z.to_nat (len text2 + 1)) as n. generalize 0%nat as s.
      intros s n. revert s. induction n as [|n IH]; intro s; [reflexivity|].
      cbn [seq map Text.tail_match_loop]. rewrite Hwin. cbn [Text.str_eqb]. apply IH.
Qed.

(* ===================================================================== *)
(** * More of the code: audio on its way to the queue *)
(* ===================================================================== *)

(** ** Feeding audio *)

Lemma feed_loop_spec :
  forall (buf_size : Z) (buffer : bytes) (audio_queue : list bytes),
    0 < buf_size ->
    exists (chunks : list bytes) (rest : bytes),
      Capture.feed_loop buf_size buffer audio_queue = Some (rest, audio_queue ++ chunks)
      /\ Forall (fun c => len c = buf_size) chunks
      /\ concat chunks ++ rest = buffer
      /\ len rest < buf_size.
Proof.
  intros buf_size buffer audio_queue Hpos.
  funelim (Capture.feed_loop buf_size buffer audio_queue).
  - exists [], buffer. rewrite app_nil_r. repeat split; [constructor | lia].
  - destruct (H Hpos) as [chunks [rest [Hloop [Hsizes [Hcat Hrest]]]]].
    exists (slice buffer None (Some buf_size) :: chunks), rest.
    cbv zeta. rewrite Hloop, <- app_assoc. cbn [app].
    split; [reflexivity|]. split; [|split; [|exact Hrest]].
    + constructor; [|exact Hsizes].
      unfold slice, clamp_index, len in *.
      destruct (buf_size <? 0) eqn:E; [apply Z.ltb_lt in E; lia|].
      cbn [Z.to_nat skipn]. rewrite length_firstn. lia.
    + cbn [concat]. rewrite <- app_assoc, Hcat.
      rewrite slice_from by lia.
      unfold slice, clamp_index, len in *.
      destruct (buf_size <? 0) eqn:E; [apply Z.ltb_lt in E; lia|].
      cbn [Z.to_nat skipn]. rewrite Z.min_l by lia. rewrite Z.sub_0_r.
      apply firstn_skipn.
  - lia.
Qed.

Lemma val_of_byte :
  forall x, 0 <= x < 256 -> byte_val (byte_of_Z x) = x.
Proof.
  intros x Hx. unfold byte_val, byte_of_Z.
  rewrite Z.mod_small by lia.
  destruct (Byte.of_N (Z.to_N x)) as [b|] eqn:E.
  - apply Byte.to_of_N in E. rewrite E. lia.
  - apply Byte.of_N_None_iff in E. lia.
Qed.

Lemma int16_of_bytes_of_int16 :
  forall z, -32768 <= z < 32768 ->
    match bytes_of_int16 z with
    | [lo; hi] => int16_of_bytes lo hi = z
    | _ => False
    end.
Proof.
  intros z Hz. unfold bytes_of_int16, int16_of_bytes.
  set (u := z mod 65536).
  assert (Hu : 0 <= u < 65536) by (apply Z.mod_pos_bound; lia).
  assert (H1 : 0 <= u mod 256 < 256) by (apply Z.mod_pos_bound; lia).
  assert (H2 : 0 <= u / 256 < 256)
    by (split; [apply Z.div_pos; lia | apply Z.div_lt_upper_bound; lia]).
  rewrite !val_of_byte by assumption.
  replace (u mod 256 + 256 * (u / 256)) with u
    by (rewrite (Z.div_mod u 256) at 1; lia).
  unfold wrap16. rewrite Z.mod_small by lia.
  destruct (u <? 32768) eqn:E.
  - apply Z.ltb_lt in E. unfold u in *.
    destruct (Z_lt_dec z 0).
    + rewrite <- (Z.mod_add z 1 65536) in E by lia.
      rewrite Z.mod_small in E by lia. lia.
    + apply Z.mod_small. lia.
  - apply Z.ltb_ge in E. unfold u in *.
    destruct (Z_lt_dec z 0).
    + rewrite <- (Z.mod_add z 1 65536) by lia.
      rewrite Z.mod_small by lia. lia.
    + rewrite Z.mod_small in E by lia. lia.
Qed.

Lemma frombuffer_of_tobytes :
  forall samples : list Z,
    Forall (fun z => -32768 <= z < 32768) samples ->
    frombuffer_int16 (tobytes_int16 samples) = Some samples.
Proof.
  intros samples Hrange. induction Hrange as [|z l Hz Hl IH]; [reflexivity|].
  unfold tobytes_int16 in *. cbn [flat_map].
  pose proof (int16_of_bytes_of_int16 z Hz) as Hb.
  destruct (bytes_of_int16 z) as [|lo [|hi [|x rest]]]; try contradiction.
  cbn [app frombuffer_int16]. now rewrite IH, Hb.
Qed.

Lemma same_length_app :
  forall (A : Type) (a b c d : list A),
    a ++ b = c ++ d -> length a = length c -> a = c /\ b = d.
Proof.
  induction a as [|x a IH]; intros b [|y c] d H Hl; try discriminate Hl.
  - now split.
  - cbn [app] in H. inversion H. subst y.
    destruct (IH b c d H2 ltac:(cbn in Hl; lia)) as [-> ->]. now split.
Qed.

(** Cutting a byte string into chunks of one size, with a shorter rest,
    can be done in one way only. *)
Lemma chunking_unique :
  forall (size : Z) (chunks chunks' : list bytes) (rest rest' : bytes),
    0 < size ->
    Forall (fun c => len c = size) chunks ->
    Forall (fun c => len c = size) chunks' ->
    len rest < size -> len rest' < size ->
    concat chunks ++ rest = concat chunks' ++ rest' ->
    chunks = chunks' /\ rest = rest'.
Proof.
  intros size chunks. induction chunks as [|c chunks IH];
    intros chunks' rest rest' Hpos Hs Hs' Hr Hr' Heq.
  - destruct chunks' as [|c' chunks']; [now split|].
    exfalso. inversion Hs' as [|? ? Hc _]. subst.
    cbn [concat app] in Heq. apply (f_equal (@length byte)) in Heq.
    rewrite !length_app in Heq. unfold len in *. lia.
  - inversion Hs as [|? ? Hc Hcs]. subst.
    destruct chunks' as [|c' chunks'].
    + exfalso. cbn [concat app] in Heq. apply (f_equal (@length byte)) in Heq.
      rewrite !length_app in Heq. unfold len in *. lia.
    + inversion Hs' as [|? ? Hc' Hcs']. subst.
      cbn [concat] in Heq. rewrite <- !app_assoc in Heq.
      destruct (same_length_app _ _ _ _ _ Heq ltac:(unfold len in *; lia)) as [-> Htail].
      destruct (IH chunks' rest rest' Hpos Hcs Hcs' Hr Hr' Htail) as [-> ->].
      now split.
Qed.

Lemma int16_through_float :
  forall z, -32768 <= z < 32768 -> int16_of_float32 (float_of_int z) = z.
Proof.
  intros z Hz.
  assert (Hall : all_below 16 (-32768)
                   (fun z => int16_of_float32 (float_of_int z) =? z) = true)
    by (vm_compute; reflexivity).
  apply Z.eqb_eq. apply (all_below_spec _ _ _ Hall). cbn. lia.
Qed.

Section FeedFacts.
Context {WebRtc Silero Detector : Type}.
Variable np_mean_axis1 : list (list float) -> list float.
Variable resample : list float -> Z -> list float.

#[local] Abbreviation Recorder := (@Recorder.Recorder WebRtc Silero Detector).

Lemma feed_audio_bytes :
  forall (chunk : bytes) (original_sample_rate : Z) (buffer : option bytes)
         (r : Recorder),
    Capture.feed_audio np_mean_axis1 resample (Capture.Bytes chunk)
                       original_sample_rate buffer r
    = match Capture.feed_loop (2 * Recorder.buffer_size (Recorder.cfg r))
                              (match buffer with Some b => b | None => [] end ++ chunk)
                              (Recorder.audio_queue r) with
      | Some (rest, audio_queue) =>
          Capture.Returns (rest, Recorder.set_audio_queue audio_queue r)
      | None => Capture.Diverges
      end.
Proof. reflexivity. Qed.

(** X5.  Fed with bytes, [feed_audio] loses nothing and reorders
    nothing: the bytes kept from earlier calls and the new ones go to the
    queue in chunks of exactly [2 * buffer_size] bytes, and what is left,
    less than one chunk, is kept for the next call.  Nothing else of the
    recorder changes. *)
Theorem feed_audio_keeps_every_byte :
  forall (chunk : bytes) (original_sample_rate : Z) (buffer : option bytes)
         (r : Recorder),
    0 < Recorder.buffer_size (Recorder.cfg r) ->
    exists (chunks : list bytes) (rest : bytes),
      Capture.feed_audio np_mean_axis1 resample (Capture.Bytes chunk)
                         original_sample_rate buffer r
      = Capture.Returns
          (rest, Recorder.set_audio_queue (Recorder.audio_queue r ++ chunks) r)
      /\ Forall (fun c => len c = 2 * Recorder.buffer_size (Recorder.cfg r)) chunks
      /\ concat chunks ++ rest
         = match buffer with Some b => b | None => [] end ++ chunk
      /\ len rest < 2 * Recorder.buffer_size (Recorder.cfg r).
Proof.
  intros chunk rate buffer r Hpos. rewrite feed_audio_bytes.
  destruct (feed_loop_spec (2 * Recorder.buffer_size (Recorder.cfg r))
              (match buffer with Some b => b | None => [] end ++ chunk)
              (Recorder.audio_queue r) ltac:(lia))
    as [chunks [rest [Hloop [Hsizes [Hcat Hrest]]]]].
  exists chunks, rest. rewrite Hloop. repeat split; assumption.
Qed.

(** X6.  Feeding two byte strings one after the other is feeding
    them joined: the queue and the bytes kept back are the same. *)
Theorem feed_audio_in_pieces :
  forall (chunk1 chunk2 : bytes) (rate1 rate2 rate : Z) (buffer : option bytes)
         (r : Recorder),
    0 < Recorder.buffer_size (Recorder.cfg r) ->
    Capture.bind (Capture.feed_audio np_mean_axis1 resample (Capture.Bytes chunk1)
                                     rate1 buffer r)
                 (fun fed => Capture.feed_audio np_mean_axis1 resample
                               (Capture.Bytes chunk2) rate2 (Some (fst fed)) (snd fed))
    = Capture.feed_audio np_mean_axis1 resample (Capture.Bytes (chunk1 ++ chunk2))
                         rate buffer r.
Proof.
  intros chunk1 chunk2 rate1 rate2 rate buffer r Hpos.
  set (size := 2 * Recorder.buffer_size (Recorder.cfg r)).
  assert (Hsize : 0 < size) by (unfold size; lia).
  rewrite !feed_audio_bytes. fold size.
  set (kept := match buffer with Some b => b | None => [] end).
  match goal with
  | |- Capture.bind (match Capture.feed_loop ?s ?b ?q with _ => _ end) _ = _ =>
      destruct (feed_loop_spec s b q Hsize) as [chunks1 [rest1 [H1 [Hs1 [Hc1 Hr1]]]]];
      rewrite H1
  end.
  cbn [Capture.bind fst snd]. rewrite feed_audio_bytes.
  match goal with
  | |- match Capture.feed_loop ?s ?b ?q with _ => _ end = _ =>
      change s with size; change q with (Recorder.audio_queue r ++ chunks1);
      destruct (feed_loop_spec size b (Recorder.audio_queue r ++ chunks1) Hsize)
        as [chunks2 [rest2 [H2 [Hs2 [Hc2 Hr2]]]]];
      rewrite H2
  end.
  match goal with
  | |- _ = match Capture.feed_loop ?s ?b ?q with _ => _ end =>
      destruct (feed_loop_spec s b q Hsize) as [chunks [rest [H [Hs [Hc Hr]]]]];
      rewrite H
  end.
  destruct (chunking_unique size (chunks1 ++ chunks2) chunks rest2 rest Hsize) as [<- <-];
    try assumption.
  - apply Forall_app. now split.
  - rewrite concat_app, <- app_assoc, Hc2, app_assoc, Hc1, Hc, app_assoc. reflexivity.
  - now rewrite <- app_assoc.
Qed.

(** X7.  An array of int16 samples at 16 kHz is fed as its bytes
    are: each sample goes to the queue as two bytes, low byte first. *)
Theorem feed_audio_int16_array :
  forall (samples : list Z) (rate : Z) (buffer : option bytes) (r : Recorder),
    Forall (fun z => -32768 <= z < 32768) samples ->
    Capture.feed_audio np_mean_axis1 resample
                       (Capture.Ndarray1 (map float_of_int samples)) 16000 buffer r
    = Capture.feed_audio np_mean_axis1 resample
                         (Capture.Bytes (tobytes_int16 samples)) rate buffer r.
Proof.
  intros samples rate buffer r Hrange.
  unfold Capture.feed_audio, Capture.feed_bytes, Capture.to_rate, Capture.to_mono.
  cbn [Z.eqb Pos.eqb negb Capture.bind].
  replace (astype_int16 (map float_of_int samples)) with samples; [reflexivity|].
  unfold astype_int16. rewrite map_map.
  induction Hrange as [|z l Hz Hl IH]; [reflexivity|].
  cbn [map]. now rewrite <- IH, int16_through_float.
Qed.

Lemma frombuffer_int16_parity :
  forall b : bytes,
    match frombuffer_int16 b with
    | Some samples => Z.even (len b) = true /\ len b = 2 * len samples
    | None => Z.even (len b) = false
    end.
Proof.
  induction b as [|b|lo hi rest IH] using bytes_pair_ind.
  - split; reflexivity.
  - reflexivity.
  - cbn [frombuffer_int16].
    assert (E : len (lo :: hi :: rest) = len rest + 2)
      by (unfold len; cbn [length]; lia).
    rewrite E.
    replace (Z.even (len rest + 2)) with (Z.even (len rest))
      by (rewrite Z.even_add; destruct (Z.even (len rest)); reflexivity).
    destruct (frombuffer_int16 rest) as [l|]; [|exact IH].
    destruct IH as [H1 H2]. split; [exact H1|].
    unfold len in *. cbn [length]. lia.
Qed.

(** X8.  Audio read at the rate that is wanted passes
    [preprocess_audio] untouched when it is a whole number of samples;
    bytes with half a sample at the end make it raise [ValueError]. *)
Theorem preprocess_audio_same_rate :
  forall (chunk : bytes) (rate : Z),
    Capture.preprocess_audio np_mean_axis1 resample (Capture.Bytes chunk) rate rate
    = if Z.even (len chunk) then Capture.Returns chunk
      else Capture.Raises ValueError.
Proof.
  intros chunk rate. unfold Capture.preprocess_audio.
  pose proof (frombuffer_int16_parity chunk) as Hpar.
  destruct (frombuffer_int16 chunk) as [samples|] eqn:E.
  - destruct Hpar as [-> _]. rewrite Z.eqb_refl. cbn [negb].
    now rewrite (tobytes_of_frombuffer _ _ E).
  - now rewrite Hpar.
Qed.

End FeedFacts.

(** The recorder of the defaults queues chunks of 1024 bytes: of 2500
    bytes two chunks go to the queue and 452 bytes are kept. *)
Lemma feed_audio_keeps_every_byte_witness :
  let chunk := repeat x01 2500 in
  exists (chunks : list bytes) (rest : bytes),
    Capture.feed_audio Samples.np_mean_axis1 Samples.resample (Capture.Bytes chunk)
                       16000 None Demo.recorder0
    = Capture.Returns
        (rest, Recorder.set_audio_queue
                 (Recorder.audio_queue Demo.recorder0 ++ chunks) Demo.recorder0)
    /\ Forall (fun c => len c = 2 * 512) chunks
    /\ concat chunks ++ rest = [] ++ chunk
    /\ len rest < 2 * 512.
Proof.
  intro chunk.
  apply (@feed_audio_keeps_every_byte unit nat unit Samples.np_mean_axis1
           Samples.resample chunk 16000 None Demo.recorder0).
  vm_compute. reflexivity.
Defined.

Lemma feed_audio_in_pieces_witness :
  let chunk1 := repeat x01 700 in
  let chunk2 := repeat x02 700 in
  Capture.bind (Capture.feed_audio Samples.np_mean_axis1 Samples.resample
                                   (Capture.Bytes chunk1) 16000 None Demo.recorder0)
               (fun fed => Capture.feed_audio Samples.np_mean_axis1 Samples.resample
                             (Capture.Bytes chunk2) 16000 (Some (fst fed)) (snd fed))
  = Capture.feed_audio Samples.np_mean_axis1 Samples.resample
                       (Capture.Bytes (chunk1 ++ chunk2)) 16000 None Demo.recorder0.
Proof.
  intros chunk1 chunk2.
  apply (@feed_audio_in_pieces unit nat unit Samples.np_mean_axis1 Samples.resample
           chunk1 chunk2 16000 16000 16000 None Demo.recorder0).
  vm_compute. reflexivity.
Defined.

Lemma feed_audio_int16_array_witness :
  let samples := [1; -2; 300; -32768; 32767] in
  Capture.feed_audio Samples.np_mean_axis1 Samples.resample
                     (Capture.Ndarray1 (map float_of_int samples)) 16000 None
                     Demo.recorder0
  = Capture.feed_audio Samples.np_mean_axis1 Samples.resample
                       (Capture.Bytes (tobytes_int16 samples)) 16000 None
                       Demo.recorder0.
Proof.
  intro samples.
  apply (@feed_audio_int16_array unit nat unit Samples.np_mean_axis1 Samples.resample
           samples 16000 None Demo.recorder0).
  repeat constructor; lia.
Defined.

(* ===================================================================== *)
(** * More of the code: the wake-word detectors *)
(* ===================================================================== *)

(** ** The order of floats *)

Ltac float_order :=
  repeat match goal with
         | x : spec_float |- _ => destruct x
         | x : float |- _ => destruct x
         | s : bool |- _ => destruct s
         end;
  cbn in *; try discriminate; try reflexivity;
  repeat match goal with
         | H : context [Z.compare ?a ?b] |- _ =>
             destruct (Z.compare_spec a b); cbn in H; try discriminate
         | |- context [Z.compare ?a ?b] =>
             destruct (Z.compare_spec a b); cbn; try reflexivity
         | H : context [Pos.compare_cont _ ?a ?b] |- _ =>
             change (Pos.compare_cont Eq a b) with (Pos.compare a b) in H;
             destruct (Pos.compare_spec a b); cbn in H; try discriminate
         | H : context [Pos.compare ?a ?b] |- _ =>
             destruct (Pos.compare_spec a b); cbn in H; try discriminate
         | |- context [Pos.compare_cont _ ?a ?b] =>
             change (Pos.compare_cont Eq a b) with (Pos.compare a b);
             destruct (Pos.compare_spec a b); cbn; try reflexivity
         | |- context [Pos.compare ?a ?b] =>
             destruct (Pos.compare_spec a b); cbn; try reflexivity
         end;
  try discriminate; try reflexivity; try lia.

Lemma flt_trans :
  forall a b c : float, flt a b = true -> flt b c = true -> flt a c = true.
Proof. intros a b c. unfold flt, SFltb, SFcompare. intros H1 H2. float_order. Qed.

Lemma fge_flt_trans :
  forall a b c : float, fge b a = true -> flt b c = true -> flt a c = true.
Proof. intros a b c. unfold fge, flt, SFleb, SFltb, SFcompare. intros H1 H2. float_order. Qed.

Lemma flt_false_fge :
  forall a b : float,
    is_nan a = false -> is_nan b = false -> flt a b = false -> fge a b = true.
Proof. intros a b Ha Hb. unfold fge, flt, SFleb, SFltb, SFcompare. intro H. float_order. Qed.

Lemma fge_not_nan :
  forall a b : float, fge a b = true -> is_nan a = false /\ is_nan b = false.
Proof. intros a b. unfold fge, SFleb, SFcompare. intro H. split; float_order. Qed.

Lemma flt_not_nan :
  forall a b : float, flt a b = true -> is_nan a = false /\ is_nan b = false.
Proof. intros a b. unfold flt, SFltb, SFcompare. intro H. split; float_order. Qed.

(** ** The OpenWakeWord detector *)

Section BestScore.
Variable sensitivity : float.

Lemma fires_spec :
  forall scores,
    fires sensitivity scores = true ->
    scores <> []
    /\ fge (last_score scores) sensitivity = true
    /\ fgt (last_score scores) (float_of_int (-1)) = true.
Proof.
  intros [|s scores] H; [discriminate H|]. cbn [fires] in H.
  apply andb_true_iff in H. destruct H. repeat split; [discriminate | assumption..].
Qed.

Lemma nth_snoc_old :
  forall (done : list (list float)) scores j,
    0 <= j < len done ->
    nth (Z.to_nat j) (done ++ [scores]) [] = nth (Z.to_nat j) done [].
Proof. intros done scores j Hj. apply app_nth1. unfold len in Hj. lia. Qed.

Lemma nth_snoc_new :
  forall (done : list (list float)) scores,
    nth (Z.to_nat (len done)) (done ++ [scores]) [] = scores.
Proof.
  intros done scores. unfold len. rewrite Nat2Z.id, app_nth2 by lia.
  now rewrite Nat.sub_diag.
Qed.

Lemma len_snoc :
  forall (A : Type) (l : list A) (x : A), len (l ++ [x]) = len l + 1.
Proof. intros A l x. unfold len. rewrite length_app. cbn [length]. lia. Qed.

Lemma best_so_far_step :
  forall done max_score max_index scores,
    best_so_far sensitivity done max_score max_index ->
    let s := last_score scores in
    let pick := match scores with
                | [] => false
                | _ :: _ => fge s sensitivity && fgt s max_score
                end in
    best_so_far sensitivity (done ++ [scores])
                (if pick then s else max_score)
                (if pick then len done else max_index).
Proof.
  intros done ms mi scores Hinv. cbv zeta.
  assert (Hlen := len_snoc _ done scores).
  assert (Hdone : 0 <= len done) by (unfold len; lia).
  destruct scores as [|x xs] eqn:Es.
  - (* no score yet *)
    destruct Hinv as [[Hmi [Hms Hnone]] | [Hmi [Hms [Hfire Hbest]]]].
    + left. repeat split; try assumption.
      intros sc Hin. apply in_app_or in Hin. destruct Hin as [Hin|[<-|[]]];
        [now apply Hnone | reflexivity].
    + right. rewrite Hlen. split; [lia|].
      rewrite nth_snoc_old by lia. repeat split; try assumption.
      * destruct (Z.eq_dec j (len done)) as [->|Hne].
        -- rewrite nth_snoc_new in H0. discriminate H0.
        -- rewrite nth_snoc_old in * by lia. intro. now apply Hbest; try lia.
      * destruct (Z.eq_dec j (len done)) as [->|Hne].
        -- rewrite nth_snoc_new in H0. discriminate H0.
        -- rewrite nth_snoc_old in * by lia. intro. now apply Hbest; try lia.
  - rewrite <- Es in *. set (s := last_score scores).
    assert (Hfires : fires sensitivity scores
                     = fge s sensitivity && fgt s (float_of_int (-1)))
      by (subst s; rewrite Es; reflexivity).
    destruct (fge s sensitivity && fgt s ms) eqn:Epick.
    + (* the model takes the lead *)
      apply andb_true_iff in Epick. destruct Epick as [Hge Hgt].
      right. rewrite Hlen. split; [lia|].
      rewrite nth_snoc_new. split; [reflexivity|].
      assert (Hs1 : fgt s (float_of_int (-1)) = true).
      { destruct Hinv as [[_ [-> _]] | [Hmi [Hms [Hfire _]]]]; [exact Hgt|].
        apply fires_spec in Hfire. destruct Hfire as [_ [_ Hm1]].
        rewrite <- Hms in Hm1. unfold fgt in *. fold (flt (float_of_int (-1)) ms) in Hm1.
        fold (flt ms s) in Hgt. fold (flt (float_of_int (-1)) s).
        now apply flt_trans with ms. }
      split; [rewrite Hfires, Hge, Hs1; reflexivity|].
      intros j Hj Hfj. split; [|intro; lia]. intros Hlt.
      rewrite nth_snoc_old in * by lia.
      destruct Hinv as [[_ [_ Hnone]] | [Hmi [Hms [Hfire Hbest]]]].
      * (* nothing fired before *)
        rewrite Hnone in Hfj; [discriminate Hfj|]. apply nth_In. unfold len in *. lia.
      * destruct (Hbest j ltac:(lia) Hfj) as [Hbefore Hafter].
        destruct (Z_lt_dec j mi) as [Hjm|Hjm].
        -- apply flt_trans with ms; [now apply Hbefore | exact Hgt].
        -- destruct (Z.eq_dec j mi) as [->|Hne]; [rewrite <- Hms; exact Hgt|].
           specialize (Hafter ltac:(lia)).
           apply fge_flt_trans with ms; [|exact Hgt].
           apply flt_false_fge; [| |exact Hafter].
           ++ apply (flt_not_nan _ _ Hgt).
           ++ apply fires_spec in Hfj. destruct Hfj as [_ [Hg _]].
              apply (fge_not_nan _ _ Hg).
    + (* the lead is kept *)
      destruct Hinv as [[Hmi [Hms Hnone]] | [Hmi [Hms [Hfire Hbest]]]].
      * left. repeat split; try assumption.
        intros sc Hin. apply in_app_or in Hin. destruct Hin as [Hin|[<-|[]]];
          [now apply Hnone|]. rewrite Hfires. rewrite Hms in Epick. exact Epick.
      * right. rewrite Hlen. split; [lia|].
        rewrite nth_snoc_old by lia. repeat split; try assumption.
        -- destruct (Z.eq_dec j (len done)) as [->|Hne]; [intro; lia|].
           rewrite nth_snoc_old in * by lia. intro. now apply Hbest; try lia.
        -- destruct (Z.eq_dec j (len done)) as [->|Hne].
           ++ intros _. rewrite nth_snoc_new in *.
              rewrite Hfires in H0. apply andb_true_iff in H0. destruct H0 as [Hg _].
              fold s. rewrite Hg in Epick. exact Epick.
           ++ rewrite nth_snoc_old in * by lia. intro. now apply Hbest; try lia.
Qed.

Lemma best_score_invariant :
  forall rest done max_score max_index,
    best_so_far sensitivity done max_score max_index ->
    exists max_score',
      best_so_far sensitivity (done ++ rest) max_score'
                  (Detectors.best_score sensitivity rest (len done) max_score max_index).
Proof.
  induction rest as [|scores rest IH]; intros done ms mi Hinv.
  - exists ms. now rewrite app_nil_r.
  - pose proof (best_so_far_step done ms mi scores Hinv) as Hstep. cbv zeta in Hstep.
    cbn [Detectors.best_score].
    replace (done ++ scores :: rest) with ((done ++ [scores]) ++ rest)
      by (rewrite <- app_assoc; reflexivity).
    rewrite <- (len_snoc _ done scores).
    destruct scores as [|x xs]; [now apply IH|].
    fold (last_score (x :: xs)).
    destruct (fge (last_score (x :: xs)) sensitivity && fgt (last_score (x :: xs)) ms);
      now apply IH.
Qed.

End BestScore.

(** X9.  When its model has taken the chunk, the OpenWakeWord
    detector answers -1 if no wake-word model fires (a latest score that
    reaches the sensitivity and is above -1), and otherwise the index of
    the model that fires with the highest latest score, the first of them
    when several share it. *)
Theorem openwakeword_process_picks_best :
  forall (E : Type) (I : Detectors.OpenWakeWordModel E)
         (d : Detectors.OpenWakeWordDetector E) (data : bytes) (pcm : list Z),
    frombuffer_int16 data = Some pcm ->
    pcm <> [] ->
    fst (Detectors.predict (Detectors._model d) pcm) = true ->
    let buffer :=
      Detectors.prediction_buffer (snd (Detectors.predict (Detectors._model d) pcm)) in
    let score j := last_score (nth (Z.to_nat j) buffer []) in
    exists r,
      fst (Detectors.openwakeword_process d data) = Detectors.Index r
      /\ ((r = -1
           /\ forall scores, In scores buffer ->
                             fires (Detectors.sensitivity d) scores = false)
          \/ (0 <= r < len buffer
              /\ fires (Detectors.sensitivity d) (nth (Z.to_nat r) buffer []) = true
              /\ forall j, 0 <= j < len buffer ->
                           fires (Detectors.sensitivity d) (nth (Z.to_nat j) buffer [])
                           = true ->
                           (j < r -> flt (score j) (score r) = true)
                           /\ (r < j -> fgt (score j) (score r) = false))).
Proof.
  intros E I d data pcm Hpcm Hne Hok. cbv zeta.
  unfold Detectors.openwakeword_process. rewrite Hpcm.
  replace (len pcm =? 0) with false
    by (symmetry; apply Z.eqb_neq; unfold len; destruct pcm; [congruence | cbn; lia]).
  destruct (Detectors.predict (Detectors._model d) pcm) as [ok model].
  cbn [fst snd] in *. subst ok. cbn [fst Detectors.sensitivity].
  eexists. split; [reflexivity|].
  destruct (best_score_invariant (Detectors.sensitivity d)
              (Detectors.prediction_buffer model) [] (float_of_int (-1)) (-1))
    as [ms Hinv].
  { left. split; [reflexivity|]. split; [reflexivity|]. intros scores []. }
  cbn [app] in Hinv. change (len (@nil (list float))) with 0 in Hinv.
  destruct Hinv as [[Hr [_ Hnone]] | [Hr [Hms [Hfire Hbest]]]].
  - left. now split.
  - right. split; [exact Hr|]. split; [exact Hfire|].
    intros j Hj Hfj. rewrite <- Hms. now apply Hbest.
Qed.

(** X10.  The Porcupine detector never fails on the length of a
    chunk: a chunk shorter than one frame of the engine is answered -1
    and the engine is not asked; of a longer one the engine is given the
    first [frame_length] samples and nothing else. *)
Theorem porcupine_process_frames :
  forall (E : Type) (I : Detectors.PorcupineEngine E) (engine : E) (data : bytes),
    let n := Detectors.frame_length engine in
    if len data <? n * 2 then
      Detectors.porcupine_process engine data = (Detectors.Index (-1), engine)
    else
      exists pcm,
        frombuffer_int16 (firstn (Z.to_nat (2 * n)) data) = Some pcm
        /\ len pcm = Z.max n 0
        /\ Detectors.porcupine_process engine data
           = match Detectors.engine_process engine pcm with
             | (Some i, engine) => (Detectors.Index i, engine)
             | (None, engine) => (Detectors.OtherError, engine)
             end.
Proof.
  intros E I engine data. cbv zeta.
  unfold Detectors.porcupine_process.
  destruct (len data <? Detectors.frame_length engine * 2) eqn:Eshort; [reflexivity|].
  apply Z.ltb_ge in Eshort.
  unfold Detectors.unpack_from_h.
  set (n := Detectors.frame_length engine) in *.
  replace (len data <? 2 * Z.max n 0) with false
    by (symmetry; apply Z.ltb_ge; unfold len in *; lia).
  assert (Hslice : slice data None (Some (2 * Z.max n 0))
                   = firstn (Z.to_nat (2 * n)) data).
  { unfold slice, clamp_index, len in *.
    destruct (2 * Z.max n 0 <? 0) eqn:E0; [apply Z.ltb_lt in E0; lia|].
    cbn [Z.to_nat skipn]. f_equal. lia. }
  rewrite Hslice.
  pose proof (frombuffer_int16_parity (firstn (Z.to_nat (2 * n)) data)) as Hpar.
  assert (Hlen : len (firstn (Z.to_nat (2 * n)) data) = 2 * Z.max n 0)
    by (unfold len in *; rewrite length_firstn; lia).
  rewrite Hlen in Hpar.
  destruct (frombuffer_int16 (firstn (Z.to_nat (2 * n)) data)) as [pcm|].
  - exists pcm. destruct Hpar as [_ Hp]. split; [reflexivity|]. split; [lia|].
    destruct (Detectors.engine_process engine pcm) as [[i|] e]; reflexivity.
  - rewrite Z.even_mul in Hpar. discriminate Hpar.
Qed.

(** The chunk gives the three wake words the scores 0.3, 0.9 and 0.9;
    with a sensitivity of 0.5 the detector answers 1. *)
Lemma openwakeword_process_picks_best_witness :
  let d := {| Detectors._model := [[]; []; []];
              Detectors.sensitivity := decimal 5 10 |} in
  let data := tobytes_int16 [3; 9; 9] in
  fst (Detectors.openwakeword_process d data) = Detectors.Index 1
  /\ (let buffer :=
        Detectors.prediction_buffer
          (snd (Detectors.predict (Detectors._model d) [3; 9; 9])) in
      let score j := last_score (nth (Z.to_nat j) buffer []) in
      exists r,
        fst (Detectors.openwakeword_process d data) = Detectors.Index r
        /\ ((r = -1
             /\ forall scores, In scores buffer ->
                               fires (Detectors.sensitivity d) scores = false)
            \/ (0 <= r < len buffer
                /\ fires (Detectors.sensitivity d) (nth (Z.to_nat r) buffer []) = true
                /\ forall j, 0 <= j < len buffer ->
                             fires (Detectors.sensitivity d)
                                   (nth (Z.to_nat j) buffer []) = true ->
                             (j < r -> flt (score j) (score r) = true)
                             /\ (r < j -> fgt (score j) (score r) = false)))).
Proof.
  intros d data. split; [vm_compute; reflexivity|].
  apply (openwakeword_process_picks_best (list (list float)) Samples.oww d data
           [3; 9; 9]); [vm_compute; reflexivity | discriminate | reflexivity].
Defined.
(* ===================================================================== *)
(** * More of the code: the calls of a session *)
(* ===================================================================== *)


Section SessionFacts.

Import Recorder.

Context {WebRtc Silero Detector : Type}.
Context {IW : Vad.WebRtcVadModel WebRtc} {IS : Vad.SileroVadModel Silero}
        {ID : WakeWord.IWakeWordDetector Detector}.
Variable resample_poly : list Z -> Z -> Z -> list float.
Variable clock : nat -> float.
Variable _preprocess_output : string -> string.

#[local] Abbreviation World := (@World WebRtc Silero Detector).
#[local] Abbreviation M := (@M WebRtc Silero Detector).

(** A request for one of the five states leaves the recorder in that
    state; besides the state only the spinner can have changed. *)
Lemma set_state_value :
  forall (s : StateMachine.RecorderState) (w : World),
    exists (h : option StateMachine.Halo) (evs : list Event),
      _set_state (StateMachine.value s) w
      = (Val tt,
         mkWorld (set_halo h (set_state (StateMachine.value s) (self w)))
                 (trace w ++ evs) (ticks w))
      /\ sends evs = [].
Proof.
  intros s [r t k]. destruct r.
  unfold _set_state.
  replace (StateMachine.of_value (StateMachine.value s)) with (Some s)
    by (destruct s; reflexivity).
  unfold bind, get, modify, emit, StateMachine.transition_state. cbn.
  destruct (String.eqb state0 (StateMachine.value s)) eqn:E.
  - apply String.eqb_eq in E. subst state0.
    exists halo0, []. split; [|reflexivity]. cbn [trace self ticks].
    rewrite !app_nil_r. reflexivity.
  - destruct s; cbn;
      unfold StateMachine.set_interval, _set_spinner; cbn;
      destruct (spinner cfg0); destruct halo0; cbn;
      do 2 eexists; (split; [unfold set_halo, set_state; cbn; reflexivity|]);
      repeat first
        [ rewrite sends_app | rewrite sends_fire | progress cbn [sends app]
        | match goal with
          | |- context [if ?b then _ else _] => destruct b
          end ];
      reflexivity.
Qed.

(** The receiving loop of [transcribe] when the polls bring as many
    answers as are awaited and none finds the interrupt set: the count
    goes to 0 and the last answer is the one that is used. *)
Lemma transcribe_receive_answers :
  forall (polls : list Poll) (w : World) (audio_copy : option (list float32))
         (start_time : float) (answer : option (string * string)),
    never_interrupted polls = true ->
    transcribe_count (self w) = len (ready_answers polls) ->
    exists (b : bool) (evs : list Event),
      transcribe_receive clock _preprocess_output polls audio_copy start_time answer w
      = transcribe_finish clock _preprocess_output
          (last (map Some (ready_answers polls)) answer) audio_copy start_time
          (mkWorld (set_interrupt_stop_event b (set_transcribe_count 0 (self w)))
                   (trace w ++ evs) (ticks w))
      /\ sends evs = []
      /\ (b = interrupt_stop_event (self w) \/ b = false).
Proof.
  induction polls as [|p polls IH]; intros w audio_copy start_time answer Hni Hcount.
  - cbn [ready_answers] in *. change (len (@nil (string * string))) with 0 in Hcount.
    cbn [transcribe_receive]. unfold bind at 1, get at 1. rewrite Hcount.
    cbn [Z.gtb Z.compare map last].
    exists (interrupt_stop_event (self w)), []. split; [|split; [reflexivity | now left]].
    f_equal. destruct w as [r t k]. cbn [self trace ticks] in *.
    rewrite app_nil_r. f_equal. destruct r. cbn in Hcount. subst. reflexivity.
  - destruct p as [interrupted|status result].
    + (* a poll that times out *)
      cbn [never_interrupted forallb] in Hni. destruct interrupted; [discriminate Hni|].
      cbn [andb] in Hni. fold (never_interrupted polls) in Hni.
      cbn [ready_answers] in *.
      cbn [transcribe_receive]. unfold bind at 1, get at 1.
      destruct (transcribe_count (self w) >? 0) eqn:Epos.
      * unfold bind at 1, log at 1, emit at 1.
        unfold bind at 1, modify at 1. cbn [self trace ticks].
        match goal with
        | |- context [transcribe_receive _ _ polls _ _ _ ?W] =>
            destruct (IH W audio_copy start_time answer Hni) as [b [evs [Hrec [Hevs Hb]]]];
            [exact Hcount|]
        end.
        rewrite Hrec. cbn [self trace ticks].
        exists b. eexists. split; [|split].
        -- f_equal. f_equal. rewrite <- app_assoc. reflexivity.
        -- rewrite sends_app, Hevs. reflexivity.
        -- destruct Hb as [Hb|Hb]; [right; exact Hb | right; exact Hb].
      * (* nothing is awaited: the polls are not looked at *)
        assert (Hzero : ready_answers polls = []).
        { rewrite Z.gtb_ltb in Epos. apply Z.ltb_ge in Epos.
          destruct (ready_answers polls); [reflexivity|].
          unfold len in Hcount. cbn [length] in Hcount. lia. }
        rewrite Hzero in *. change (len (@nil (string * string))) with 0 in Hcount.
        cbn [map last].
        exists (interrupt_stop_event (self w)), [].
        split; [|split; [reflexivity | now left]].
        f_equal. destruct w as [r t k]. cbn [self trace ticks] in *.
        rewrite app_nil_r. f_equal. destruct r. cbn in Hcount. subst. reflexivity.
    + (* an answer *)
      cbn [never_interrupted forallb andb] in Hni. fold (never_interrupted polls) in Hni.
      cbn [ready_answers] in *.
      assert (Hlen : len ((status, result) :: ready_answers polls)
                     = len (ready_answers polls) + 1)
        by (unfold len; cbn [length]; lia).
      rewrite Hlen in Hcount.
      cbn [transcribe_receive]. unfold bind at 1, get at 1.
      replace (transcribe_count (self w) >? 0) with true
        by (symmetry; rewrite Z.gtb_ltb; apply Z.ltb_lt; unfold len in *; lia).
      unfold bind at 1, log at 1, emit at 1.
      unfold bind at 1, modify at 1. cbn [self trace ticks].
      match goal with
      | |- context [transcribe_receive _ _ polls _ _ _ ?W] =>
          destruct (IH W audio_copy start_time (Some (status, result)) Hni)
            as [b [evs [Hrec [Hevs Hb]]]];
          [cbn [self]; destruct w as [r t k]; destruct r; cbn in *; lia|]
      end.
      rewrite Hrec. cbn [self trace ticks].
      exists b. eexists. split; [|split].
      * cbn [map]. f_equal.
        -- generalize (map Some (ready_answers polls)) as l. clear.
           intro l. revert answer. induction l as [|y l IHl]; intro answer; [reflexivity|].
           destruct l as [|z l]; [reflexivity|]. exact (IHl answer).
        -- f_equal;
             first [ rewrite <- app_assoc; reflexivity
                   | destruct w as [r t k]; destruct r; reflexivity ].
      * rewrite sends_app, Hevs. reflexivity.
      * destruct w as [r t k]. destruct r. exact Hb.
Qed.

Lemma last_map_some :
  forall (A : Type) (l : list A) (d : A),
    l <> [] -> last (map Some l) None = Some (last l d).
Proof.
  intros A l d Hne. induction l as [|x l IH]; [congruence|].
  destruct l as [|y l]; [reflexivity|].
  change (last (map Some (x :: y :: l)) None) with (last (map Some (y :: l)) None).
  change (last (x :: y :: l) d) with (last (y :: l) d).
  apply IH. discriminate.
Qed.

(** The end of [transcribe] on an answer of success. *)
Lemma transcribe_finish_success :
  forall (result : string) (a : list float32) (start_time : float) (w : World),
    exists (h : option StateMachine.Halo) (evs : list Event),
      transcribe_finish clock _preprocess_output (Some ("success", result)) (Some a)
                        start_time w
      = (Val (RetStr (if interrupt_stop_event (self w) then ""
                      else _preprocess_output result)),
         mkWorld (set_last_transcription_bytes (Some a)
                    (set_halo h
                       (set_state "inactive"
                          (set_allowed_to_early_transcribe true (self w)))))
                 (trace w ++ evs) (S (ticks w)))
      /\ sends evs = [].
Proof.
  intros result a start_time [r t k].
  unfold transcribe_finish.
  unfold bind at 1, modify at 1. cbn [self trace ticks].
  unfold bind at 1.
  match goal with
  | |- context [_set_state "inactive" ?W] =>
      destruct (set_state_value StateMachine.INACTIVE W) as [h [evs [Heq Hevs]]];
      change (StateMachine.value StateMachine.INACTIVE) with "inactive" in Heq;
      rewrite Heq
  end.
  cbn [String.eqb Ascii.eqb Bool.eqb].
  cbv [bind modify time_time get emit log ret self trace ticks].
  exists h.
  destruct (truthy start_time); [destruct (print_transcription_time _)|];
    rewrite <- ?app_assoc;
    eexists; (split; [reflexivity|]);
    rewrite ?sends_app, Hevs; reflexivity.
Qed.

(** The end of [transcribe] on an answer that is not of success. *)
Lemma transcribe_finish_error :
  forall (status result : string) (audio_copy : option (list float32))
         (start_time : float) (w : World),
    String.eqb status "success" = false ->
    exists (h : option StateMachine.Halo) (evs : list Event),
      transcribe_finish clock _preprocess_output (Some (status, result)) audio_copy
                        start_time w
      = (@Exc Returned (TranscriptionError result),
         mkWorld (set_halo h
                    (set_state "inactive"
                       (set_allowed_to_early_transcribe true (self w))))
                 (trace w ++ evs) (ticks w))
      /\ sends evs = [].
Proof.
  intros status result audio_copy start_time [r t k] Hstatus.
  unfold transcribe_finish.
  unfold bind at 1, modify at 1. cbn [self trace ticks].
  unfold bind at 1.
  match goal with
  | |- context [_set_state "inactive" ?W] =>
      destruct (set_state_value StateMachine.INACTIVE W) as [h [evs [Heq Hevs]]];
      change (StateMachine.value StateMachine.INACTIVE) with "inactive" in Heq;
      rewrite Heq
  end.
  rewrite Hstatus.
  cbv [bind log emit raise self trace ticks].
  exists h. rewrite <- app_assoc. eexists. split; [reflexivity|].
  rewrite sends_app, Hevs. reflexivity.
Qed.

Lemma on_exception_bind_value :
  forall (A B : Type) (m : M A) (k : A -> M B) (handler : PyExn -> M unit)
         (w w' : World) (a : A),
    m w = (Val a, w') ->
    on_exception (bind m k) handler w = on_exception (k a) handler w'.
Proof.
  intros A B m k handler w w' a Hm. unfold on_exception, bind. rewrite Hm. reflexivity.
Qed.

(** The first part of [transcribe] when nothing is awaited: the audio is
    sent, padded, and one answer is awaited. *)
Lemma transcribe_submits :
  forall (polls : list Poll) (w : World) (a : list float32) (n : Z),
    audio (self w) = Some a ->
    transcribe_count (self w) = 0 ->
    int_of_float (fmul (float_of_int (sample_rate (cfg (self w)))) (decimal 1 1)) = Some n ->
    0 <= n ->
    exists (h : option StateMachine.Halo) (evs : list Event),
      transcribe clock _preprocess_output polls w
      = on_exception
          (transcribe_receive clock _preprocess_output polls (Some (padded n a))
                              (clock (ticks w)) None)
          (fun _ => log ERROR "Error during transcription: %s" [])
          (mkWorld (set_transcribe_count 1
                      (set_halo h (set_state "transcribing" (self w))))
                   (trace w ++ evs ++ [EvSend (padded n a) (language (cfg (self w)))])
                   (S (ticks w)))
      /\ sends evs = [].
Proof.
  intros polls w a n Haudio Hcount Hn Hpos.
  unfold transcribe. unfold bind at 1.
  destruct (set_state_value StateMachine.TRANSCRIBING w) as [h [evs [Heq Hevs]]].
  rewrite Heq. unfold bind at 1, get at 1. cbn [self].
  change (transcribe_count (set_halo h (set_state _ (self w))))
    with (transcribe_count (self w)).
  change (audio (set_halo h (set_state _ (self w)))) with (audio (self w)).
  change (cfg (set_halo h (set_state _ (self w)))) with (cfg (self w)).
  rewrite Hcount, Haudio. cbn [Z.eqb].
  exists h, (evs ++ [EvLog DEBUG "Adding transcription request, no early transcription started" []]).
  split; [|rewrite sends_app, Hevs; reflexivity].
  match goal with
  | |- on_exception (bind ?m ?k) ?hd ?W = _ =>
      assert (Hm : m W
                   = (Val (Some (padded n a), clock (ticks w)),
                      mkWorld (set_transcribe_count 1
                                 (set_halo h (set_state "transcribing" (self w))))
                              (trace w
                               ++ (evs ++ [EvLog DEBUG "Adding transcription request, no early transcription started" []])
                               ++ [EvSend (padded n a) (language (cfg (self w)))])
                              (S (ticks w))))
  end.
  { unfold bind at 1. cbn [log emit self trace ticks].
    unfold bind at 1. cbn [time_time self trace ticks].
    erewrite bind_value
      by (apply add_padding_value; [exact Hn | exact Hpos]).
    cbn [bind emit modify ret self trace ticks].
    change (transcribe_count (set_halo h (set_state _ (self w))))
      with (transcribe_count (self w)).
    rewrite Hcount. cbn [Z.add].
    rewrite <- !app_assoc. reflexivity. }
  rewrite (on_exception_bind_value _ _ _ _ _ _ _ _ Hm). reflexivity.
Qed.

(** X11.  When requests made early are still awaited, [transcribe]
    sends nothing; it takes as many answers as are awaited and returns
    the text of the last one (the empty string when the interrupt is
    set).  Afterwards nothing is awaited, the state is inactive and an
    early request is allowed again. *)
Theorem transcribe_awaits_early_answers :
  forall (polls : list Poll) (w : World) (a : list float32) (result : string),
    audio (self w) = Some a ->
    never_interrupted polls = true ->
    0 < transcribe_count (self w) ->
    transcribe_count (self w) = len (ready_answers polls) ->
    last (ready_answers polls) ("", "") = ("success", result) ->
    exists w',
      transcribe clock _preprocess_output polls w
      = (Val (RetStr (if interrupt_stop_event (self w') then ""
                      else _preprocess_output result)), w')
      /\ sends (trace w') = sends (trace w)
      /\ transcribe_count (self w') = 0
      /\ state (self w') = "inactive"
      /\ allowed_to_early_transcribe (self w') = true
      /\ last_transcription_bytes (self w') = Some a.
Proof.
  intros polls w a result Haudio Hni Hpos Hcount Hlast.
  unfold transcribe. unfold bind at 1.
  destruct (set_state_value StateMachine.TRANSCRIBING w) as [h [evs [Heq Hevs]]].
  rewrite Heq. unfold bind at 1, get at 1. cbn [self].
  change (transcribe_count (set_halo h (set_state _ (self w))))
    with (transcribe_count (self w)).
  change (audio (set_halo h (set_state _ (self w)))) with (audio (self w)).
  replace (transcribe_count (self w) =? 0) with false
    by (symmetry; apply Z.eqb_neq; lia).
  rewrite Haudio.
  unfold on_exception. unfold bind at 1, ret at 1. cbn [fst snd].
  match goal with
  | |- context [transcribe_receive _ _ polls _ _ _ ?W] =>
      destruct (transcribe_receive_answers polls W (Some a) fzero None Hni Hcount)
        as [b [evs2 [Hrec [Hevs2 Hb]]]]
  end.
  rewrite Hrec.
  assert (Hne : ready_answers polls <> []).
  { intro E. rewrite E in Hcount. change (len (@nil (string * string))) with 0 in Hcount.
    lia. }
  rewrite (last_map_some _ _ ("", "") Hne), Hlast.
  match goal with
  | |- context [transcribe_finish _ _ _ _ _ ?W] =>
      destruct (transcribe_finish_success result a fzero W) as [h3 [evs3 [Hfin Hevs3]]]
  end.
  rewrite Hfin. cbn [self trace ticks].
  match goal with
  | |- exists w', (_, ?W) = _ /\ _ => exists W
  end.
  cbn [self trace].
  split; [destruct w as [r t k]; destruct r; reflexivity|].
  split; [rewrite !sends_app, Hevs, Hevs2, Hevs3, !app_nil_r; reflexivity|].
  repeat split; reflexivity.
Qed.

(** X12.  When the engine answers the request with a status other
    than success, [transcribe] raises with the engine's message.  The
    audio has been sent, nothing is awaited any more, the state is back
    to inactive and the last transcribed audio is as before. *)
Theorem transcribe_engine_error :
  forall (polls : list Poll) (w : World) (a : list float32) (n : Z)
         (status result : string),
    audio (self w) = Some a ->
    transcribe_count (self w) = 0 ->
    int_of_float (fmul (float_of_int (sample_rate (cfg (self w)))) (decimal 1 1)) = Some n ->
    0 <= n ->
    never_interrupted polls = true ->
    ready_answers polls = [(status, result)] ->
    String.eqb status "success" = false ->
    exists w',
      transcribe clock _preprocess_output polls w
      = (@Exc Returned (TranscriptionError result), w')
      /\ sends (trace w') = sends (trace w) ++ [(padded n a, language (cfg (self w)))]
      /\ transcribe_count (self w') = 0
      /\ state (self w') = "inactive"
      /\ last_transcription_bytes (self w') = last_transcription_bytes (self w).
Proof.
  intros polls w a n status result Haudio Hcount Hn Hpos Hni Hready Hstatus.
  destruct (transcribe_submits polls w a n Haudio Hcount Hn Hpos)
    as [h [evs [Heq Hevs]]].
  rewrite Heq. unfold on_exception.
  match goal with
  | |- context [transcribe_receive _ _ polls ?ac ?st None ?W] =>
      destruct (transcribe_receive_answers polls W ac st None Hni)
        as [b [evs2 [Hrec [Hevs2 Hb]]]];
      [rewrite Hready; reflexivity|]
  end.
  rewrite Hrec, Hready. cbn [map last].
  match goal with
  | |- context [transcribe_finish _ _ _ ?ac ?st ?W] =>
      destruct (transcribe_finish_error status result ac st W Hstatus)
        as [h3 [evs3 [Hfin Hevs3]]]
  end.
  rewrite Hfin. cbn [self trace ticks snd log emit].
  eexists. split; [reflexivity|]. cbn [self trace].
  split.
  - rewrite !sends_app, Hevs, Hevs2, Hevs3. cbn [sends app].
    rewrite !app_nil_r. reflexivity.
  - repeat split; reflexivity.
Qed.

(** The receiving loop of [transcribe] when, before any answer, a poll
    finds the interrupt set. *)
Lemma transcribe_receive_interrupted :
  forall (pre rest : list Poll) (w : World) (audio_copy : option (list float32))
         (start_time : float) (answer : option (string * string)),
    never_interrupted pre = true ->
    ready_answers pre = [] ->
    0 < transcribe_count (self w) ->
    exists (h : option StateMachine.Halo) (evs : list Event),
      transcribe_receive clock _preprocess_output (pre ++ PollTimeout true :: rest)
                         audio_copy start_time answer w
      = (Val (RetStr ""),
         mkWorld (set_halo h
                    (set_state "inactive"
                       (set_was_interrupted true
                          (set_interrupt_stop_event true (self w)))))
                 (trace w ++ evs) (ticks w))
      /\ sends evs = [].
Proof.
  induction pre as [|p pre IH]; intros rest w audio_copy start_time answer Hni Hready Hpos.
  - cbn [app transcribe_receive]. unfold bind at 1, get at 1.
    replace (transcribe_count (self w) >? 0) with true
      by (symmetry; apply Z.gtb_lt; exact Hpos).
    unfold bind at 1. cbn [log emit self trace ticks].
    unfold bind at 1. cbn [modify self trace ticks].
    unfold bind at 1. cbn [modify self trace ticks].
    unfold bind at 1.
    match goal with
    | |- context [_set_state "inactive" ?W] =>
        destruct (set_state_value StateMachine.INACTIVE W) as [h [evs [Heq Hevs]]];
        change (StateMachine.value StateMachine.INACTIVE) with "inactive" in Heq;
        rewrite Heq
    end.
    cbn [ret self trace ticks]. exists h. rewrite <- app_assoc. eexists.
    split; [reflexivity|]. rewrite sends_app, Hevs. reflexivity.
  - destruct p as [[|]|status result]; cbn in Hni, Hready; try discriminate.
    cbn [app transcribe_receive]. unfold bind at 1, get at 1.
    replace (transcribe_count (self w) >? 0) with true
      by (symmetry; apply Z.gtb_lt; exact Hpos).
    unfold bind at 1. cbn [log emit self trace ticks].
    unfold bind at 1. cbn [modify self trace ticks].
    match goal with
    | |- context [transcribe_receive _ _ _ _ _ _ ?W] =>
        destruct (IH rest W audio_copy start_time answer Hni Hready Hpos)
          as [h [evs [Heq Hevs]]]
    end.
    rewrite Heq. cbn [self trace ticks]. exists h. rewrite <- app_assoc. eexists.
    split; [f_equal; f_equal; destruct w as [r t k]; destruct r; reflexivity|].
    rewrite sends_app, Hevs. reflexivity.
Qed.

(** X13.  When a poll finds the interrupt set before the engine has
    answered, [transcribe] returns the empty string at once.  The audio
    has been sent and its answer stays awaited: the count is left at 1. *)
Theorem transcribe_interrupted :
  forall (pre rest : list Poll) (w : World) (a : list float32) (n : Z),
    audio (self w) = Some a ->
    transcribe_count (self w) = 0 ->
    int_of_float (fmul (float_of_int (sample_rate (cfg (self w)))) (decimal 1 1)) = Some n ->
    0 <= n ->
    never_interrupted pre = true ->
    ready_answers pre = [] ->
    exists w',
      transcribe clock _preprocess_output (pre ++ PollTimeout true :: rest) w
      = (Val (RetStr ""), w')
      /\ sends (trace w') = sends (trace w) ++ [(padded n a, language (cfg (self w)))]
      /\ transcribe_count (self w') = 1
      /\ was_interrupted (self w') = true
      /\ state (self w') = "inactive".
Proof.
  intros pre rest w a n Haudio Hcount Hn Hpos Hni Hready.
  destruct (transcribe_submits (pre ++ PollTimeout true :: rest) w a n
                               Haudio Hcount Hn Hpos)
    as [h [evs [Heq Hevs]]].
  rewrite Heq. unfold on_exception.
  match goal with
  | |- context [transcribe_receive _ _ _ ?ac ?st None ?W] =>
      destruct (transcribe_receive_interrupted pre rest W ac st None Hni Hready)
        as [h2 [evs2 [Hrec Hevs2]]];
      [cbn; lia|]
  end.
  rewrite Hrec. cbn [self trace ticks].
  eexists. split; [reflexivity|]. cbn [self trace].
  split.
  - rewrite !sends_app, Hevs, Hevs2. cbn [sends app].
    rewrite !app_nil_r. reflexivity.
  - repeat split; reflexivity.
Qed.

(** Padding what is not an array raises, and changes nothing. *)
Lemma add_padding_none :
  forall (duration : float) (w : World),
    exists e : PyExn,
      _add_padding_to_audio None duration w = (@Exc (list float32) e, w)
      /\ (e = ValueError \/ e = OverflowError).
Proof.
  intros duration [r t k].
  unfold _add_padding_to_audio. unfold bind at 1, get at 1. cbn [self].
  unfold bind at 1.
  destruct (py_int (fmul (float_of_int (sample_rate (cfg r))) duration)
                   (mkWorld r t k)) as [[n|e] w'] eqn:E.
  - assert (w' = mkWorld r t k) as ->.
    { unfold py_int in E.
      destruct (fmul _ _) as [s|s| |s m e]; cbn [lift int_of_float truncate] in E;
        unfold raise, ret in E; try (inversion E; reflexivity);
        try (match type of E with
             | context [match ?o with _ => _ end] => destruct o
             end; inversion E; reflexivity). }
    unfold bind. destruct (zeros n); cbn [lift raise ret];
      eexists; split; try reflexivity; auto.
  - exists e. unfold py_int in E.
    destruct (fmul _ _) as [s|s| |s m e']; cbn [lift int_of_float truncate] in E;
      unfold raise, ret in E; try (inversion E; subst; split; auto; fail);
      try (match type of E with
           | context [match ?o with _ => _ end] => destruct o
           end; inversion E; subst; split; auto).
Qed.

(** X14.  [transcribe] on a recorder that has no audio yet raises;
    nothing is sent, nothing is awaited, and the state stays
    transcribing. *)
Theorem transcribe_without_audio :
  forall (polls : list Poll) (w : World),
    audio (self w) = None ->
    transcribe_count (self w) = 0 ->
    exists (e : PyExn) w',
      transcribe clock _preprocess_output polls w = (@Exc Returned e, w')
      /\ (e = ValueError \/ e = OverflowError)
      /\ sends (trace w') = sends (trace w)
      /\ transcribe_count (self w') = 0
      /\ state (self w') = "transcribing".
Proof.
  intros polls w Haudio Hcount.
  unfold transcribe. unfold bind at 1.
  destruct (set_state_value StateMachine.TRANSCRIBING w) as [h [evs [Heq Hevs]]].
  rewrite Heq. unfold bind at 1, get at 1. cbn [self].
  change (transcribe_count (set_halo h (set_state _ (self w))))
    with (transcribe_count (self w)).
  change (audio (set_halo h (set_state _ (self w)))) with (audio (self w)).
  rewrite Hcount, Haudio. cbn [Z.eqb].
  unfold on_exception.
  unfold bind at 1. unfold bind at 1. cbn [log emit self trace ticks].
  unfold bind at 1. cbn [time_time self trace ticks].
  unfold bind at 1.
  match goal with
  | |- context [_add_padding_to_audio None ?d ?W] =>
      destruct (add_padding_none d W) as [e [Hpad He]]; rewrite Hpad
  end.
  cbn [snd log emit self trace ticks].
  exists e. eexists. split; [reflexivity|]. split; [exact He|].
  cbn [self trace]. rewrite !sends_app, Hevs. cbn [sends app].
  rewrite !app_nil_r. repeat split; first [exact Hcount | reflexivity].
Qed.

(** What the last part of [wait_audio] leaves, field by field. *)
Lemma wait_audio_assemble_value :
  forall (w : World) (samples : list Z) (n_stop n_resume : Z),
    frombuffer_int16
      (join (if len (frames (self w)) =? 0 then last_frames (self w)
             else frames (self w))) = Some samples ->
    int_of_float (fmul (float_of_int (sample_rate (cfg (self w))))
                       (backdate_stop_seconds (self w))) = Some n_stop ->
    int_of_float (fmul (float_of_int (sample_rate (cfg (self w))))
                       (backdate_resume_seconds (self w))) = Some n_resume ->
    0 <= n_stop ->
    exists w',
      wait_audio_assemble w = (Val tt, w')
      /\ audio (self w')
         = Some (normalize (firstn (length samples - Z.to_nat n_stop) samples))
      /\ frames (self w') = frames_to_read_of (normalize samples) n_resume
      /\ sends (trace w') = sends (trace w)
      /\ state (self w') = "inactive"
      /\ backdate_stop_seconds (self w') = fzero
      /\ backdate_resume_seconds (self w') = fzero
      /\ is_recording (self w') = is_recording (self w)
      /\ cfg (self w') = cfg (self w)
      /\ transcribe_count (self w') = transcribe_count (self w)
      /\ interrupt_stop_event (self w') = interrupt_stop_event (self w).
Proof.
  intros w samples n_stop n_resume Hbuf Hstop Hresume Hs.
  unfold wait_audio_assemble. unfold bind at 1, get at 1.
  unfold bind at 1. rewrite (py_int_value _ n_resume w Hresume).
  unfold bind at 1. rewrite Hbuf. cbn [lift ret].
  unfold bind at 1. rewrite (py_int_value _ n_stop w Hstop).
  change (array_div (astype_float32 samples) INT16_MAX_ABS_VALUE)
    with (normalize samples).
  assert (Haudio : exists msg,
            (if n_stop >? 0
             then
               if n_stop <? len (normalize samples)
               then
                 bind (modify (set_audio
                                 (Some (slice (normalize samples) None (Some (- n_stop))))))
                      (fun _ : unit => log DEBUG "Removed samples from end of audio" [])
               else
                 bind (modify (set_audio (Some [])))
                      (fun _ : unit =>
                         log DEBUG "Cleared audio (samples_to_remove >= audio length)" [])
             else
               bind (modify (set_audio (Some (normalize samples))))
                    (fun _ : unit => log DEBUG "No samples removed" [])) w
            = (Val tt,
               mkWorld (set_audio
                          (Some (normalize
                                   (firstn (length samples - Z.to_nat n_stop) samples)))
                          (self w))
                       (trace w ++ [EvLog DEBUG msg []]) (ticks w))).
  { destruct (n_stop >? 0) eqn:E1.
    - rewrite Z.gtb_ltb in E1. apply Z.ltb_lt in E1.
      destruct (n_stop <? len (normalize samples)) eqn:E2.
      + apply Z.ltb_lt in E2. eexists.
        rewrite slice_drop_last by lia.
        rewrite normalize_length. unfold normalize, array_div, astype_float32.
        rewrite !firstn_map. reflexivity.
      + apply Z.ltb_ge in E2. eexists.
        unfold len in E2. rewrite normalize_length in E2.
        replace (length samples - Z.to_nat n_stop)%nat with O by lia.
        reflexivity.
    - rewrite Z.gtb_ltb in E1. apply Z.ltb_ge in E1. eexists.
      replace (Z.to_nat n_stop) with O by lia.
      rewrite Nat.sub_0_r, firstn_all. reflexivity. }
  destruct Haudio as [msg Haudio].
  erewrite bind_value by exact Haudio.
  cbn [bind modify ret self trace ticks].
  match goal with
  | |- context [_set_state _ ?W] =>
      destruct (set_state_value StateMachine.INACTIVE W) as [h [evs [Heq Hevs]]];
      rewrite Heq
  end.
  eexists. split; [reflexivity|].
  cbn [self trace].
  split; [reflexivity|]. split; [reflexivity|].
  split; [rewrite !sends_app, Hevs; cbn [sends app]; rewrite !app_nil_r; reflexivity|].
  repeat split; reflexivity.
Qed.

(** [wait_audio] on a recorder that is not recording and holds frames:
    it waits for nothing. *)
Lemma wait_audio_value :
  forall (waits_start waits_stop : list (World -> World)) (w : World)
         (samples : list Z) (n_stop n_resume : Z),
    is_recording (self w) = false ->
    frames (self w) <> [] ->
    frombuffer_int16 (join (frames (self w))) = Some samples ->
    int_of_float (fmul (float_of_int (sample_rate (cfg (self w))))
                       (backdate_stop_seconds (self w))) = Some n_stop ->
    int_of_float (fmul (float_of_int (sample_rate (cfg (self w))))
                       (backdate_resume_seconds (self w))) = Some n_resume ->
    0 <= n_stop ->
    exists w',
      Session.wait_audio clock waits_start waits_stop w = (Val true, w')
      /\ audio (self w')
         = Some (normalize (firstn (length samples - Z.to_nat n_stop) samples))
      /\ frames (self w') = frames_to_read_of (normalize samples) n_resume
      /\ sends (trace w') = sends (trace w)
      /\ state (self w') = "inactive"
      /\ backdate_stop_seconds (self w') = fzero
      /\ backdate_resume_seconds (self w') = fzero
      /\ is_recording (self w') = false
      /\ cfg (self w') = cfg (self w)
      /\ transcribe_count (self w') = transcribe_count (self w)
      /\ interrupt_stop_event (self w') = interrupt_stop_event (self w).
Proof.
  intros waits_start waits_stop w samples n_stop n_resume
         Hrec Hframes Hbuf Hstop Hresume Hs.
  assert (Hlen : (len (frames (self w)) =? 0) = false).
  { apply Z.eqb_neq. unfold len. destruct (frames (self w)); [congruence|].
    cbn [length]. lia. }
  unfold Session.wait_audio.
  unfold bind at 1. cbn [log emit self trace ticks].
  unfold bind at 1, get at 1. cbn [self].
  assert (Hfirst : exists r1 k1,
             (if SFeqb (listen_start (self w)) fzero
              then bind (time_time clock) (fun now => modify (set_listen_start now))
              else ret tt)
               (mkWorld (self w) (trace w ++ [EvLog INFO "Setting listen time" []])
                        (ticks w))
             = (Val tt,
                mkWorld r1 (trace w ++ [EvLog INFO "Setting listen time" []]) k1)
             /\ is_recording r1 = is_recording (self w)
             /\ frames r1 = frames (self w)
             /\ last_frames r1 = last_frames (self w)
             /\ cfg r1 = cfg (self w)
             /\ backdate_stop_seconds r1 = backdate_stop_seconds (self w)
             /\ backdate_resume_seconds r1 = backdate_resume_seconds (self w)
             /\ transcribe_count r1 = transcribe_count (self w)
             /\ interrupt_stop_event r1 = interrupt_stop_event (self w)).
  { destruct (SFeqb (listen_start (self w)) fzero);
      do 2 eexists; (split; [reflexivity|]); repeat split; reflexivity. }
  destruct Hfirst as [r1 [k1 [Hfirst [H1 [H2 [H3 [H4 [H5 [H6 [H7 H8]]]]]]]]]].
  unfold bind at 1. rewrite Hfirst.
  unfold bind at 1, get at 1. cbn [self].
  rewrite H1, H2, Hrec, Hlen. cbn [negb andb].
  unfold bind at 1, ret at 1.
  unfold bind at 1, get at 1. cbn [self]. rewrite H1, Hrec.
  unfold bind at 1, ret at 1.
  match goal with
  | |- context [bind wait_audio_assemble _ ?W] =>
      destruct (wait_audio_assemble_value W samples n_stop n_resume)
        as [w' [Heq Hall]]
  end.
  - cbn [self]. rewrite H2, Hlen. exact Hbuf.
  - cbn [self]. rewrite H4, H5. exact Hstop.
  - cbn [self]. rewrite H4, H6. exact Hresume.
  - exact Hs.
  - unfold bind at 1. rewrite Heq. unfold ret.
    exists w'. split; [reflexivity|].
    cbn [self trace] in Hall.
    destruct Hall as [A1 [A2 [A3 [A4 [A5 [A6 [A7 [A8 [A9 A10]]]]]]]]].
    rewrite sends_app in A3. cbn [sends] in A3. rewrite app_nil_r in A3.
    repeat split; congruence.
Qed.

(** [int(sample_rate * 0.0)] is 0 as soon as [int(sample_rate * x)] has a
    value for some [x]. *)
Lemma int_part_of_zero :
  forall (rate x : float) (n : Z),
    int_of_float (fmul rate x) = Some n ->
    int_of_float (fmul rate fzero) = Some 0.
Proof.
  intros rate x n H. destruct rate, x; cbn in *; try discriminate; reflexivity.
Qed.

(** X15.  After [stop], when the recorder is not recording and holds
    the recorded frames, [wait_audio] waits for nothing: the audio is the
    recording without its last [n_stop] samples.  The last [n_resume]
    samples are kept as frames, and because of them the next
    [wait_audio] waits for nothing either: its audio is those samples and
    nothing more, and no frame is kept after it. *)
Theorem wait_audio_resumes_from_kept_samples :
  forall (ws1 ws2 ws3 ws4 : list (World -> World)) (w : World)
         (samples : list Z) (n_stop n_resume : Z),
    is_recording (self w) = false ->
    frames (self w) <> [] ->
    frombuffer_int16 (join (frames (self w))) = Some samples ->
    int_of_float (fmul (float_of_int (sample_rate (cfg (self w))))
                       (backdate_stop_seconds (self w))) = Some n_stop ->
    int_of_float (fmul (float_of_int (sample_rate (cfg (self w))))
                       (backdate_resume_seconds (self w))) = Some n_resume ->
    0 <= n_stop -> 0 < n_resume -> samples <> [] ->
    exists w1 w2,
      Session.wait_audio clock ws1 ws2 w = (Val true, w1)
      /\ audio (self w1)
         = Some (normalize (firstn (length samples - Z.to_nat n_stop) samples))
      /\ Session.wait_audio clock ws3 ws4 w1 = (Val true, w2)
      /\ audio (self w2)
         = Some (normalize (skipn (length samples - Z.to_nat n_resume) samples))
      /\ frames (self w2) = [].
Proof.
  intros ws1 ws2 ws3 ws4 w samples n_stop n_resume
         Hrec Hframes Hbuf Hstop Hresume Hs Hr Hne.
  destruct (wait_audio_value ws1 ws2 w samples n_stop n_resume
                             Hrec Hframes Hbuf Hstop Hresume Hs)
    as [w1 [Heq1 [A1 [A2 [A3 [A4 [A5 [A6 [A7 [A8 [A9 A10]]]]]]]]]]].
  pose proof (frombuffer_int16_range _ _ Hbuf) as Hrange.
  destruct (frames_to_read_spec samples n_resume Hrange ltac:(lia))
    as [Hjoin [Hsizes Hfull]].
  set (kept := skipn (length samples - Z.to_nat n_resume) samples) in *.
  assert (Hkept_range : Forall (fun z => -32768 <= z < 32768) kept).
  { pose proof Hrange as Hr2.
    rewrite <- (firstn_skipn (length samples - Z.to_nat n_resume) samples) in Hr2.
    apply Forall_app in Hr2. exact (proj2 Hr2). }
  assert (Hkept_ne : kept <> []).
  { unfold kept. intro E. apply (f_equal (@length Z)) in E.
    rewrite length_skipn in E. cbn [length] in E.
    destruct samples; [congruence|]. cbn [length] in E. lia. }
  assert (Hseed_ne : frames (self w1) <> []).
  { rewrite A2. intro E. rewrite E in Hjoin. cbn in Hjoin.
    symmetry in Hjoin. unfold tobytes_int16 in Hjoin.
    destruct kept as [|z l]; [congruence|].
    cbn [flat_map] in Hjoin.
    pose proof (int16_of_bytes_of_int16 z) as Hb.
    destruct (bytes_of_int16 z); [|discriminate Hjoin].
    apply Hb. inversion Hkept_range; assumption. }
  destruct (wait_audio_value ws3 ws4 w1 kept 0 0) as [w2 [Heq2 [B1 [B2 _]]]].
  - exact A7.
  - exact Hseed_ne.
  - rewrite A2, Hjoin. apply frombuffer_of_tobytes. exact Hkept_range.
  - rewrite A8, A5. exact (int_part_of_zero _ _ _ Hstop).
  - rewrite A8, A6. exact (int_part_of_zero _ _ _ Hstop).
  - lia.
  - exists w1, w2. split; [exact Heq1|]. split; [exact A1|].
    split; [exact Heq2|]. split.
    + rewrite B1. cbn [Z.to_nat]. rewrite Nat.sub_0_r, firstn_all. reflexivity.
    + rewrite B2. reflexivity.
Qed.

(** [transcribe] when nothing is awaited and the engine answers the
    request with success. *)
Lemma transcribe_success_value :
  forall (polls : list Poll) (w : World) (a : list float32) (n : Z) (result : string),
    audio (self w) = Some a ->
    transcribe_count (self w) = 0 ->
    interrupt_stop_event (self w) = false ->
    int_of_float (fmul (float_of_int (sample_rate (cfg (self w)))) (decimal 1 1)) = Some n ->
    0 <= n ->
    never_interrupted polls = true ->
    ready_answers polls = [("success", result)] ->
    exists w',
      transcribe clock _preprocess_output polls w
      = (Val (RetStr (_preprocess_output result)), w')
      /\ sends (trace w') = sends (trace w) ++ [(padded n a, language (cfg (self w)))]
      /\ transcribe_count (self w') = 0
      /\ state (self w') = "inactive"
      /\ last_transcription_bytes (self w') = Some (padded n a)
      /\ frames (self w') = frames (self w).
Proof.
  intros polls w a n result Haudio Hcount Hint Hn Hpos Hni Hready.
  destruct (transcribe_submits polls w a n Haudio Hcount Hn Hpos)
    as [h [evs [Heq Hevs]]].
  rewrite Heq. unfold on_exception.
  match goal with
  | |- context [transcribe_receive _ _ polls ?ac ?st None ?W] =>
      destruct (transcribe_receive_answers polls W ac st None Hni)
        as [b [evs2 [Hrec [Hevs2 Hb]]]];
      [rewrite Hready; reflexivity|]
  end.
  rewrite Hrec, Hready. cbn [map last].
  match goal with
  | |- context [transcribe_finish _ _ _ _ ?st ?W] =>
      destruct (transcribe_finish_success result (padded n a) st W)
        as [h3 [evs3 [Hfin Hevs3]]]
  end.
  rewrite Hfin. cbn [self trace ticks].
  assert (Hb' : b = false).
  { cbn [self] in Hb.
    change (interrupt_stop_event (set_transcribe_count 1 (set_halo h (set_state "transcribing" (self w)))))
      with (interrupt_stop_event (self w)) in Hb.
    rewrite Hint in Hb. destruct Hb; assumption. }
  subst b.
  eexists. split; [reflexivity|]. cbn [self trace].
  split.
  - rewrite !sends_app, Hevs, Hevs2, Hevs3. cbn [sends app].
    rewrite !app_nil_r. reflexivity.
  - repeat split; reflexivity.
Qed.

(** X16.  [text] after [stop]: the recorder is not recording and
    holds the recorded frames.  [text] waits for nothing, sends the
    recording (without its last [n_stop] samples, normalized, with [n]
    zeros before it and after it) to the engine, and gives the processed
    text of the engine's answer: it returns it, or hands it to the
    callback when one is given.  Nothing else is sent. *)
Theorem text_transcribes_the_recording :
  forall (on_transcription_finished : bool)
         (waits_start waits_stop : list (World -> World)) (polls : list Poll)
         (w : World) (samples : list Z) (n_stop n_resume n : Z) (result : string),
    is_recording (self w) = false ->
    frames (self w) <> [] ->
    frombuffer_int16 (join (frames (self w))) = Some samples ->
    int_of_float (fmul (float_of_int (sample_rate (cfg (self w))))
                       (backdate_stop_seconds (self w))) = Some n_stop ->
    int_of_float (fmul (float_of_int (sample_rate (cfg (self w))))
                       (backdate_resume_seconds (self w))) = Some n_resume ->
    0 <= n_stop ->
    transcribe_count (self w) = 0 ->
    int_of_float (fmul (float_of_int (sample_rate (cfg (self w)))) (decimal 1 1)) = Some n ->
    0 <= n ->
    never_interrupted polls = true ->
    ready_answers polls = [("success", result)] ->
    let recording := normalize (firstn (length samples - Z.to_nat n_stop) samples) in
    exists w',
      Session.text clock _preprocess_output false on_transcription_finished
                   waits_start waits_stop polls w
      = (Val (if on_transcription_finished
              then Session.Handed (_preprocess_output result)
              else Session.Text (_preprocess_output result)), w')
      /\ sends (trace w') = sends (trace w) ++ [(padded n recording, language (cfg (self w)))]
      /\ state (self w') = "inactive"
      /\ last_transcription_bytes (self w') = Some (padded n recording)
      /\ frames (self w') = frames_to_read_of (normalize samples) n_resume.
Proof.
  intros cb waits_start waits_stop polls w samples n_stop n_resume n result
         Hrec Hframes Hbuf Hstop Hresume Hs Hcount Hn Hpos Hni Hready recording.
  unfold Session.text.
  unfold bind at 1. cbn [modify self trace ticks].
  unfold bind at 1. cbn [modify self trace ticks].
  unfold bind at 1.
  match goal with
  | |- context [Session.wait_audio _ _ _ ?W] =>
      destruct (wait_audio_value waits_start waits_stop W samples n_stop n_resume)
        as [w1 [Heq1 [A1 [A2 [A3 [A4 [A5 [A6 [A7 [A8 [A9 A10]]]]]]]]]]];
        [exact Hrec | exact Hframes | exact Hbuf | exact Hstop | exact Hresume
        | exact Hs | ]
  end.
  rewrite Heq1. cbn [self trace] in A3, A8, A9, A10.
  unfold bind at 1, get at 1. cbn [self].
  change (interrupt_stop_event
            (set_was_interrupted false (set_interrupt_stop_event false (self w))))
    with false in A10.
  rewrite A10. cbn [orb].
  change (cfg (set_was_interrupted false (set_interrupt_stop_event false (self w))))
    with (cfg (self w)) in A8.
  change (transcribe_count
            (set_was_interrupted false (set_interrupt_stop_event false (self w))))
    with (transcribe_count (self w)) in A9.
  destruct (transcribe_success_value polls w1 recording n result)
    as [w2 [Heq2 [B1 [B2 [B3 [B4 B5]]]]]];
    [exact A1 | congruence | exact A10 | rewrite A8; exact Hn | exact Hpos
    | exact Hni | exact Hready | ].
  unfold bind at 1. rewrite Heq2. unfold ret.
  exists w2. split; [reflexivity|].
  rewrite B1, A3, A8, B3, B4, B5, A2. repeat split; reflexivity.
Qed.

End SessionFacts.

(** Two requests made early are awaited; their answers come with a
    timeout between them, and the second is the one returned. *)
Lemma transcribe_awaits_early_answers_witness :
  let a := normalize [1; -2] in
  let w := Recorder.mkWorld
             (Recorder.set_transcribe_count 2
                (Recorder.set_audio (Some a) Demo.recorder0)) [] 0 in
  let polls := [Recorder.PollReady "success" "first"; Recorder.PollTimeout false;
                Recorder.PollReady "success" "second"] in
  exists w',
    Recorder.transcribe Demo.clock Demo._preprocess_output polls w
    = (Recorder.Val
         (Recorder.RetStr
            (if Recorder.interrupt_stop_event (Recorder.self w') then ""
             else Demo._preprocess_output "second")), w')
    /\ sends (Recorder.trace w') = sends (Recorder.trace w)
    /\ Recorder.transcribe_count (Recorder.self w') = 0
    /\ Recorder.state (Recorder.self w') = "inactive"
    /\ Recorder.allowed_to_early_transcribe (Recorder.self w') = true
    /\ Recorder.last_transcription_bytes (Recorder.self w') = Some a.
Proof.
  intros a w polls.
  apply (@transcribe_awaits_early_answers unit nat unit Demo.clock
           Demo._preprocess_output polls w a "second");
    first [reflexivity | cbn; lia].
Defined.

(** The engine answers the request with an error. *)
Lemma transcribe_engine_error_witness :
  let a := normalize [1; -2] in
  let w := Recorder.mkWorld (Recorder.set_audio (Some a) Demo.recorder0) [] 0 in
  let polls := [Recorder.PollTimeout false; Recorder.PollReady "error" "out of memory"] in
  exists w',
    Recorder.transcribe Demo.clock Demo._preprocess_output polls w
    = (@Recorder.Exc Recorder.Returned (TranscriptionError "out of memory"), w')
    /\ sends (Recorder.trace w') = [(padded 16000 a, "auto")]
    /\ Recorder.transcribe_count (Recorder.self w') = 0
    /\ Recorder.state (Recorder.self w') = "inactive"
    /\ Recorder.last_transcription_bytes (Recorder.self w') = None.
Proof.
  intros a w polls.
  apply (@transcribe_engine_error unit nat unit Demo.clock
           Demo._preprocess_output polls w a 16000 "error" "out of memory");
    first [reflexivity | lia | vm_compute; reflexivity].
Defined.

(** The second poll finds the interrupt set; the answer that would have
    come next is not taken. *)
Lemma transcribe_interrupted_witness :
  let a := normalize [1; -2] in
  let w := Recorder.mkWorld (Recorder.set_audio (Some a) Demo.recorder0) [] 0 in
  exists w',
    Recorder.transcribe Demo.clock Demo._preprocess_output
      ([Recorder.PollTimeout false]
         ++ Recorder.PollTimeout true :: [Recorder.PollReady "success" "late"]) w
    = (Recorder.Val (Recorder.RetStr ""), w')
    /\ sends (Recorder.trace w') = [(padded 16000 a, "auto")]
    /\ Recorder.transcribe_count (Recorder.self w') = 1
    /\ Recorder.was_interrupted (Recorder.self w') = true
    /\ Recorder.state (Recorder.self w') = "inactive".
Proof.
  intros a w.
  apply (@transcribe_interrupted unit nat unit Demo.clock
           Demo._preprocess_output [Recorder.PollTimeout false]
           [Recorder.PollReady "success" "late"] w a 16000);
    first [reflexivity | lia | vm_compute; reflexivity].
Defined.

(** The recorder as the constructor leaves it has no audio. *)
Lemma transcribe_without_audio_witness :
  let w := Recorder.mkWorld Demo.recorder0 [] 0 in
  exists (e : PyExn) w',
    Recorder.transcribe Demo.clock Demo._preprocess_output
      [Recorder.PollReady "success" "hello"] w
    = (@Recorder.Exc Recorder.Returned e, w')
    /\ (e = ValueError \/ e = OverflowError)
    /\ sends (Recorder.trace w') = []
    /\ Recorder.transcribe_count (Recorder.self w') = 0
    /\ Recorder.state (Recorder.self w') = "transcribing".
Proof.
  intros w.
  apply (@transcribe_without_audio unit nat unit Demo.clock
           Demo._preprocess_output [Recorder.PollReady "success" "hello"] w);
    reflexivity.
Defined.

(** Four samples are recorded; [stop] was given 1/8192 s and 1/4096 s:
    the last sample is dropped, and the last three are the audio of the
    next call. *)
Lemma wait_audio_resumes_from_kept_samples_witness :
  let recorded := [x01; x00; x02; x00; x03; x00; x04; x00] in
  let w := Recorder.mkWorld
             (Recorder.set_backdate_resume_seconds (decimal 1 4096)
                (Recorder.set_backdate_stop_seconds (decimal 1 8192)
                   (Recorder.set_frames [recorded] Demo.recorder0))) [] 0 in
  exists w1 w2,
    Session.wait_audio Demo.clock [] [] w = (Recorder.Val true, w1)
    /\ Recorder.audio (Recorder.self w1) = Some (normalize [1; 2; 3])
    /\ Session.wait_audio Demo.clock [] [] w1 = (Recorder.Val true, w2)
    /\ Recorder.audio (Recorder.self w2) = Some (normalize [2; 3; 4])
    /\ Recorder.frames (Recorder.self w2) = [].
Proof.
  intros recorded w.
  apply (@wait_audio_resumes_from_kept_samples unit nat unit Demo.clock
           [] [] [] [] w [1; 2; 3; 4] 1 3);
    first [reflexivity | lia | discriminate | vm_compute; reflexivity].
Defined.

(** The same recording, transcribed: the engine is sent the first three
    samples between two seconds of zeros, and its answer is returned. *)
Lemma text_transcribes_the_recording_witness :
  let recorded := [x01; x00; x02; x00; x03; x00; x04; x00] in
  let w := Recorder.mkWorld
             (Recorder.set_backdate_resume_seconds (decimal 1 4096)
                (Recorder.set_backdate_stop_seconds (decimal 1 8192)
                   (Recorder.set_frames [recorded] Demo.recorder0))) [] 0 in
  let polls := [Recorder.PollTimeout false; Recorder.PollReady "success" "hello"] in
  exists w',
    Session.text Demo.clock Demo._preprocess_output false false [] [] polls w
    = (Recorder.Val (Session.Text "hello"), w')
    /\ sends (Recorder.trace w') = [(padded 16000 (normalize [1; 2; 3]), "auto")]
    /\ Recorder.state (Recorder.self w') = "inactive"
    /\ Recorder.last_transcription_bytes (Recorder.self w')
       = Some (padded 16000 (normalize [1; 2; 3]))
    /\ Recorder.frames (Recorder.self w')
       = Recorder.frames_to_read_of (normalize [1; 2; 3; 4]) 3.
Proof.
  intros recorded w polls.
  apply (@text_transcribes_the_recording unit nat unit Demo.clock
           Demo._preprocess_output false [] [] polls w [1; 2; 3; 4] 1 3 16000 "hello");
    first [reflexivity | lia | discriminate | vm_compute; reflexivity].
Defined.
(* ===================================================================== *)
(** * More of the code: the rounds of the recording worker *)
(* ===================================================================== *)

Section WorkerFacts.

Import Recorder.

Context {WebRtc Silero Detector : Type}.
Context {IW : Vad.WebRtcVadModel WebRtc} {IS : Vad.SileroVadModel Silero}
        {ID : WakeWord.IWakeWordDetector Detector}.
Variable resample_poly : list Z -> Z -> Z -> list float.
Variable clock : nat -> float.

#[local] Abbreviation World := (@World WebRtc Silero Detector).
#[local] Abbreviation M := (@M WebRtc Silero Detector).

(** ** A backlog on the queue *)

Lemma discard_backlog_spec :
  forall (limit : Z) (queue : list bytes) (data : bytes),
    0 <= limit < len queue ->
    discard_backlog limit queue data
    = Some (nth (length queue - Z.to_nat limit - 1) queue [],
            skipn (length queue - Z.to_nat limit) queue).
Proof.
  intros limit queue. induction queue as [|c queue IH]; intros data Hl.
  - unfold len in Hl. cbn [length] in Hl. lia.
  - assert (Hlen : len (c :: queue) = len queue + 1)
      by (unfold len; cbn [length]; lia).
    cbn [discard_backlog].
    replace (len (c :: queue) >? limit) with true
      by (symmetry; apply Z.gtb_lt; lia).
    destruct (Z.eq_dec limit (len queue)) as [E|E].
    + rewrite discard_backlog_within_limit by lia.
      unfold len in E. cbn [length].
      replace (S (length queue) - Z.to_nat limit)%nat with 1%nat by lia.
      reflexivity.
    + rewrite IH by lia. unfold len in *. cbn [length].
      replace (S (length queue) - Z.to_nat limit - 1)%nat
        with (S (length queue - Z.to_nat limit - 1)) by lia.
      replace (S (length queue) - Z.to_nat limit)%nat
        with (S (length queue - Z.to_nat limit)) by lia.
      reflexivity.
Qed.

(** X17.  When the queue holds more chunks than the latency limit
    allows, a round drops the oldest ones: it goes on with the chunk that
    comes right before the last [limit] chunks, and those stay on the
    queue.  Of the chunks of this round only the first was given to
    [on_recorded_chunk] and to the buffer of last words. *)
Theorem backlog_is_discarded :
  forall (w : World) (data : bytes) (queue : list bytes),
    audio_queue (self w) = data :: queue ->
    handle_buffer_overflow (cfg (self w)) = true ->
    0 <= allowed_latency_limit (cfg (self w)) < len queue ->
    let limit := Z.to_nat (allowed_latency_limit (cfg (self w))) in
    exists w',
      worker_get_chunk w
      = (Val (inr (nth (length queue - limit - 1) queue [])), w')
      /\ audio_queue (self w') = skipn (length queue - limit) queue
      /\ last_words_buffer (self w') = dq_append data (last_words_buffer (self w))
      /\ trace w'
         = trace w
           ++ (if on_recorded_chunk (cfg (self w)) then [EvRecordedChunk data] else [])
           ++ [EvLog WARNING
                 "Audio queue size exceeds latency limit. Discarding old audio chunks."
                 []].
Proof.
  intros w data queue Hq Hover Hlimit limit.
  assert (E : (len queue >? allowed_latency_limit (cfg (self w))) = true)
    by (apply Z.gtb_lt; lia).
  unfold worker_get_chunk, bind, get, modify, when, emit, log, ret.
  cbn [self trace ticks]. rewrite Hq.
  cbn [self trace ticks cfg set_audio_queue set_last_words_buffer].
  rewrite Hover, E, (discard_backlog_spec _ _ data Hlimit).
  destruct (on_recorded_chunk (cfg (self w)));
    cbn [self trace ticks];
    eexists; (split; [reflexivity|]); cbn [self trace];
    repeat split; rewrite <- ?app_assoc, ?app_nil_r; reflexivity.
Qed.

(** ** What a round leaves alone *)

Lemma gate_threads_app :
  forall t1 t2, gate_threads (t1 ++ t2) = gate_threads t1 ++ gate_threads t2.
Proof.
  induction t1 as [|e t1 IH]; intro t2; [reflexivity|].
  destruct e; cbn [app gate_threads]; rewrite IH; reflexivity.
Qed.

Lemma gate_threads_fire :
  forall registered cb, gate_threads (StateMachine.fire registered cb) = [].
Proof. intros [|] cb; reflexivity. Qed.


(** The end of a round: what it changes besides the frames. *)
Lemma worker_finish_keeps :
  forall (data : bytes) (L : Locals) (failed : bool) (w : World),
    exists L' w',
      worker_finish clock data L failed w = (Val L', w')
      /\ audio_queue (self w') = audio_queue (self w)
      /\ cfg (self w') = cfg (self w)
      /\ sends (trace w') = sends (trace w)
      /\ webrtc_vad_model (self w') = webrtc_vad_model (self w)
      /\ silero_vad_model (self w') = silero_vad_model (self w)
      /\ start_recording_on_voice_activity (self w')
         = start_recording_on_voice_activity (self w)
      /\ audio_buffer (self w')
         = (if negb (is_recording (self w)) || truthy (speech_end_silence_start (self w))
            then dq_append data (audio_buffer (self w))
            else audio_buffer (self w))
      /\ last_frames (self w') = last_frames (self w)
      /\ stop_recording_event (self w') = stop_recording_event (self w)
      /\ gate_threads (trace w') = gate_threads (trace w)
      /\ speech_end_silence_start (self w') = speech_end_silence_start (self w).
Proof.
  intros data L failed [r t k].
  cbv [worker_finish bind get modify when time_time call emit ret self trace ticks].
  destruct (is_recording r) eqn:Hrec; destruct failed; destruct (was_recording L);
    cbv [negb andb orb];
    destruct (fgt _ (decimal 1 10));
    destruct (truthy (wake_word_detect_time r));
    try destruct (fgt _ (wake_word_timeout _));
    cbv [bind get modify when time_time call emit ret self trace ticks negb andb orb];
    repeat match goal with
           | |- context [if is_recording ?R then _ else _] =>
               change (is_recording R) with (is_recording r); rewrite Hrec
           end;
    cbv [bind get modify when time_time call emit ret self trace ticks negb andb orb];
    destruct (truthy (speech_end_silence_start r)) eqn:Es;
    repeat match goal with
           | |- context [if truthy (speech_end_silence_start ?R) then _ else _] =>
               change (speech_end_silence_start R) with (speech_end_silence_start r);
               rewrite Es
           end;
    cbv [bind get modify when time_time call emit ret self trace ticks negb andb orb];
    do 2 eexists; (split; [reflexivity|]);
    cbv [self trace];
    repeat split;
    rewrite ?sends_app, ?sends_fire, ?gate_threads_app, ?gate_threads_fire, ?app_nil_r;
    reflexivity.
Qed.

(** A round of a recording on which no stop is armed and no wake word
    is to be stripped: the chunk is taken from the queue and added to
    the frames. *)
Lemma recording_round_plain :
  forall (L : Locals) (w : World) (data : bytes) (queue : list bytes),
    audio_queue (self w) = data :: queue ->
    len queue <= allowed_latency_limit (cfg (self w)) ->
    is_recording (self w) = true ->
    wakeword_samples_to_remove L = None ->
    stop_recording_on_voice_deactivity (self w) = false ->
    exists L' w',
      _recording_worker_round resample_poly clock L w = (Val (Next, L'), w')
      /\ frames (self w') = frames (self w) ++ [data]
      /\ audio_queue (self w') = queue
      /\ is_recording (self w') = true
      /\ wakeword_samples_to_remove L' = None
      /\ stop_recording_on_voice_deactivity (self w') = false
      /\ cfg (self w') = cfg (self w)
      /\ sends (trace w') = sends (trace w).
Proof.
  intros L w data queue Hq Hlimit Hrec Hnone Hunarmed.
  destruct (get_chunk_value w data queue Hq Hlimit) as [evs Hget].
  assert (Hevs : sends evs = []).
  { unfold worker_get_chunk, bind, get, modify, when, emit, log, ret in Hget.
    cbn [self trace ticks] in Hget. rewrite Hq in Hget.
    cbn [self trace ticks cfg set_audio_queue set_last_words_buffer] in Hget.
    assert (E : (len queue >? allowed_latency_limit (cfg (self w))) = false)
      by (rewrite Z.gtb_ltb; apply Z.ltb_ge; exact Hlimit).
    rewrite E, (discard_backlog_within_limit _ _ data Hlimit) in Hget.
    destruct (on_recorded_chunk (cfg (self w)));
      destruct (handle_buffer_overflow (cfg (self w)));
      cbn [self trace ticks] in Hget; inversion Hget as [Ht];
      rewrite ?app_nil_r in Ht;
      try (apply app_inv_head in Ht; subst evs; reflexivity);
      try (rewrite <- (app_nil_r (trace w)) in Ht at 1;
           apply app_inv_head in Ht; subst evs; reflexivity). }
  unfold _recording_worker_round.
  rewrite (bind_value _ _ _ _ _ _ _ Hget). cbv beta iota.
  unfold bind at 1.
  match goal with
  | |- context [worker_buffer_message_time clock L ?W] =>
      destruct (buffer_message_time_value clock L W) as [t1 [k1 Htime]]
  end.
  rewrite Htime.
  unfold bind at 1, get at 1. cbn [self].
  change (is_recording (set_audio_queue queue
            (set_last_words_buffer (dq_append data (last_words_buffer (self w)))
               (self w)))) with (is_recording (self w)).
  rewrite Hrec. cbn [negb].
  unfold bind at 1.
  match goal with
  | |- context [worker_recording _ _ data ?L1 ?W] =>
      rewrite (recording_unarmed resample_poly clock data L1 W Hnone Hunarmed)
  end.
  cbv beta iota. cbn [fst snd]. unfold bind at 1.
  match goal with
  | |- context [worker_finish clock data ?L1 false ?W] =>
      destruct (worker_finish_frames clock data L1 false W)
        as [L3 [w3 [Hfin [F3 [R3 [S3 A3]]]]]];
      destruct (worker_finish_keeps data L1 false W)
        as [L3' [w3' [Hfin' [Q3 [C3 [T3 _]]]]]]
  end.
  rewrite Hfin in Hfin'. inversion Hfin'. subst L3' w3'.
  rewrite Hfin. unfold ret.
  exists L3, w3. split; [reflexivity|].
  cbn [self trace] in F3, R3, A3, Q3, C3, T3.
  change (is_recording (set_audio_queue queue
            (set_last_words_buffer (dq_append data (last_words_buffer (self w)))
               (self w)))) with (is_recording (self w)) in *.
  rewrite Hrec in *. cbn [negb andb] in *.
  repeat split.
  - exact F3.
  - exact Q3.
  - exact R3.
  - rewrite S3. exact Hnone.
  - rewrite A3. exact Hunarmed.
  - exact C3.
  - rewrite T3, sends_app, Hevs, app_nil_r. reflexivity.
Qed.

(** A request for a state starts no thread and leaves all but the state
    and the spinner. *)
Lemma set_state_threads :
  forall (s : string) (w : World),
    exists (st : string) (h : option StateMachine.Halo) (evs : list Event),
      _set_state s w
      = (Val tt, mkWorld (set_halo h (set_state st (self w))) (trace w ++ evs) (ticks w))
      /\ sends evs = [] /\ gate_threads evs = [].
Proof.
  intros s [r t k]. destruct r.
  unfold _set_state.
  destruct (StateMachine.of_value s) as [e|] eqn:E.
  - unfold bind, get, modify, emit, StateMachine.transition_state. cbn.
    destruct (String.eqb state0 (StateMachine.value e)) eqn:E2.
    + apply String.eqb_eq in E2. subst state0.
      exists (StateMachine.value e), halo0, []. cbn [trace self ticks].
      rewrite !app_nil_r. repeat split; reflexivity.
    + destruct e; cbn;
        unfold StateMachine.set_interval, _set_spinner; cbn;
        destruct (spinner cfg0); destruct halo0; cbn;
        do 3 eexists; (split; [unfold set_halo, set_state; cbn; reflexivity|]);
        (split;
         repeat first
           [ rewrite sends_app | rewrite sends_fire
           | rewrite gate_threads_app | rewrite gate_threads_fire
           | progress cbn [sends gate_threads app]
           | match goal with
             | |- context [if ?b then _ else _] => destruct b
             end ];
         reflexivity).
  - cbv [bind log emit modify self trace ticks].
    exists s, halo0, [EvLog WARNING "Unknown state '%s', keeping legacy behaviour" [s]].
    repeat split; reflexivity.
Qed.

(** The branch of a recorder that does not record, when nothing waits
    for voice and no wake word is in use: no gate is run and nothing is
    started. *)
Lemma not_recording_idle :
  forall (data : bytes) (L : Locals) (w : World),
    use_wake_words (cfg (self w)) = false ->
    start_recording_on_voice_activity (self w) = false ->
    wakeword_detected (self w) = false ->
    is_recording (self w) = false ->
    exists L' w',
      worker_not_recording resample_poly clock data L w = (Val L', w')
      /\ frames (self w') = frames (self w)
      /\ is_recording (self w') = false
      /\ webrtc_vad_model (self w') = webrtc_vad_model (self w)
      /\ silero_vad_model (self w') = silero_vad_model (self w)
      /\ audio_buffer (self w') = audio_buffer (self w)
      /\ audio_queue (self w') = audio_queue (self w)
      /\ cfg (self w') = cfg (self w)
      /\ sends (trace w') = sends (trace w)
      /\ gate_threads (trace w') = gate_threads (trace w).
Proof.
  intros data L [r t k] Hwake Harmed Hdet Hrec.
  cbn [self trace ticks] in *.
  unfold worker_not_recording.
  cbv [bind get when call emit ret time_time modify self trace ticks andb orb negb].
  rewrite Hwake.
  destruct (truthy (listen_start r));
    destruct (fgt _ (wake_word_activation_delay (cfg r)));
    destruct (delay_was_passed L);
    destruct (truthy (recording_stop_time r));
    cbv [bind get when call emit ret time_time modify self trace ticks andb orb negb].
  all: try match goal with
  | |- context [_set_state ?s ?W] =>
      destruct (set_state_threads s W) as [st [h [evs [Heq [Hs Hg]]]]]; rewrite Heq
  end.
  all: repeat progress
         (cbv [bind get when call emit ret time_time modify self trace ticks
               andb orb negb];
          cbn [start_recording_on_voice_activity wakeword_detected set_halo set_state];
          rewrite ?Harmed, ?Hdet).
  all: do 2 eexists; (split; [reflexivity|]).
  all: cbv [self trace].
  all: repeat split;
       rewrite ?sends_app, ?gate_threads_app, ?Hs, ?Hg, ?app_nil_r;
       first [reflexivity | exact Hrec].
Qed.

(** X18.  A recorder that does not record, on which nothing waits
    for voice and that uses no wake word, runs no voice detection: in a
    round neither gate is called, no thread is started for the
    confirming gate, nothing is recorded or sent.  The chunk goes to the
    pre-roll buffer and nowhere else. *)
Theorem idle_round_runs_no_detection :
  forall (L : Locals) (w : World) (data : bytes) (queue : list bytes),
    audio_queue (self w) = data :: queue ->
    len queue <= allowed_latency_limit (cfg (self w)) ->
    is_recording (self w) = false ->
    use_wake_words (cfg (self w)) = false ->
    start_recording_on_voice_activity (self w) = false ->
    wakeword_detected (self w) = false ->
    exists L' w',
      _recording_worker_round resample_poly clock L w = (Val (Next, L'), w')
      /\ webrtc_vad_model (self w') = webrtc_vad_model (self w)
      /\ silero_vad_model (self w') = silero_vad_model (self w)
      /\ gate_threads (trace w') = gate_threads (trace w)
      /\ is_recording (self w') = false
      /\ frames (self w') = frames (self w)
      /\ sends (trace w') = sends (trace w)
      /\ audio_buffer (self w') = dq_append data (audio_buffer (self w))
      /\ audio_queue (self w') = queue.
Proof.
  intros L w data queue Hq Hlimit Hrec Hwake Harmed Hdet.
  destruct (get_chunk_value w data queue Hq Hlimit) as [evs Hget].
  assert (Hevs : sends evs = [] /\ gate_threads evs = []).
  { unfold worker_get_chunk, bind, get, modify, when, emit, log, ret in Hget.
    cbn [self trace ticks] in Hget. rewrite Hq in Hget.
    cbn [self trace ticks cfg set_audio_queue set_last_words_buffer] in Hget.
    assert (E : (len queue >? allowed_latency_limit (cfg (self w))) = false)
      by (rewrite Z.gtb_ltb; apply Z.ltb_ge; exact Hlimit).
    rewrite E, (discard_backlog_within_limit _ _ data Hlimit) in Hget.
    destruct (on_recorded_chunk (cfg (self w)));
      destruct (handle_buffer_overflow (cfg (self w)));
      cbn [self trace ticks] in Hget; inversion Hget as [Ht];
      rewrite ?app_nil_r in Ht;
      try (apply app_inv_head in Ht; subst evs; split; reflexivity);
      try (rewrite <- (app_nil_r (trace w)) in Ht at 1;
           apply app_inv_head in Ht; subst evs; split; reflexivity). }
  destruct Hevs as [Hevs Hgev].
  unfold _recording_worker_round.
  rewrite (bind_value _ _ _ _ _ _ _ Hget). cbv beta iota.
  unfold bind at 1.
  match goal with
  | |- context [worker_buffer_message_time clock L ?W] =>
      destruct (buffer_message_time_value clock L W) as [t1 [k1 Htime]]
  end.
  rewrite Htime.
  unfold bind at 1, get at 1. cbn [self].
  change (is_recording (set_audio_queue queue
            (set_last_words_buffer (dq_append data (last_words_buffer (self w)))
               (self w)))) with (is_recording (self w)).
  rewrite Hrec. cbn [negb].
  unfold bind at 1. unfold bind at 1.
  match goal with
  | |- context [worker_not_recording _ _ data ?L1 ?W] =>
      destruct (not_recording_idle data L1 W Hwake Harmed Hdet Hrec)
        as [L2 [w2 [Hidle [F2 [R2 [V2 [S2 [B2 [Q2 [C2 [T2 G2]]]]]]]]]]]
  end.
  rewrite Hidle. unfold ret at 1. cbn [fst snd].
  destruct (worker_finish_frames clock data L2 false w2)
    as [L3 [w3 [Hfin [F3 [R3 _]]]]].
  destruct (worker_finish_keeps data L2 false w2)
    as [L3' [w3' [Hfin' [Q3 [C3 [T3 [V3 [S3 [A3 [B3 [_ [_ [G3 _]]]]]]]]]]]]].
  rewrite Hfin in Hfin'. inversion Hfin'. subst L3' w3'.
  unfold bind at 1. rewrite Hfin. unfold ret.
  exists L3, w3. split; [reflexivity|].
  cbn [self trace] in *.
  rewrite R2 in *. cbn [negb andb orb] in *.
  repeat split.
  - rewrite V3, V2. reflexivity.
  - rewrite S3, S2. reflexivity.
  - rewrite G3, G2, gate_threads_app, Hgev, app_nil_r. reflexivity.
  - congruence.
  - rewrite F3, F2. reflexivity.
  - rewrite T3, T2, sends_app, Hevs, app_nil_r. reflexivity.
  - rewrite B3, B2. reflexivity.
  - rewrite Q3, Q2. reflexivity.
Qed.

(** ** The end of a recording on silence *)

(** The branch of a recording on a chunk that the fast gate, asked for
    all frames, does not take for speech, when the silence has lasted
    long enough.  The branch reads the clock for the silence, once more
    for a log line, and then [stop] reads it. *)
Lemma recording_silence_stop :
  forall (data : bytes) (L : Locals) (w : World) (m : WebRtc),
    wakeword_samples_to_remove L = None ->
    stop_recording_on_voice_deactivity (self w) = true ->
    silero_deactivity_detection (cfg (self w)) = false ->
    Vad.webrtc_is_speech resample_poly (webrtc_vad_model (self w)) data
                         (sample_rate (cfg (self w))) true = Some (false, m) ->
    truthy (speech_end_silence_start (self w)) = true ->
    truthy (early_transcription_on_silence (cfg (self w))) = false ->
    fge (fsub (clock (ticks w)) (speech_end_silence_start (self w)))
        (post_speech_silence_duration (cfg (self w))) = true ->
    flt (fsub (clock (ticks w + 2)) (recording_start_time (self w)))
        (min_length_of_recording (cfg (self w))) = false ->
    exists w',
      worker_recording resample_poly clock data L w = (Val (L, false), w')
      /\ is_recording (self w') = false
      /\ frames (self w') = frames (self w) ++ [data]
      /\ last_frames (self w') = frames (self w) ++ [data]
      /\ stop_recording_event (self w') = true
      /\ start_recording_event (self w') = false
      /\ speech_end_silence_start (self w') = fzero
      /\ audio_buffer (self w') = audio_buffer (self w)
      /\ sends (trace w') = sends (trace w).
Proof.
  intros data L [r t k] m Hnone Harmed Hsilero Hgate Hsil Hearly Hlong Hlen.
  cbn [self trace ticks] in *.
  replace (k + 2)%nat with (S (S k)) in Hlen by lia.
  assert (Hz : SFeqb (speech_end_silence_start r) fzero = false).
  { unfold truthy in Hsil. destruct (SFeqb _ _); [discriminate Hsil | reflexivity]. }
  unfold worker_recording. rewrite Hnone.
  cbv [_is_webrtc_speech worker_early_transcription stop].
  repeat progress
    (cbv [bind get when call emit ret time_time modify log lift self trace ticks
          andb orb negb fst snd];
     cbn [cfg speech_end_silence_start recording_start_time is_recording
          stop_recording_on_voice_deactivity webrtc_vad_model frames
          set_is_webrtc_speech_active set_webrtc_vad_model set_frames set_last_frames
          set_backdate_stop_seconds set_backdate_resume_seconds set_is_recording
          set_recording_stop_time set_is_silero_speech_active set_silero_check_time
          set_start_recording_event set_stop_recording_event
          set_last_recording_start_time set_last_recording_stop_time
          set_speech_end_silence_start];
     rewrite ?Harmed, ?Hsilero, ?Hgate, ?Hz, ?Hsil, ?Hearly, ?Hlong, ?Hlen).
  eexists. split; [reflexivity|].
  cbv [self trace].
  repeat split; rewrite ?sends_app, ?sends_fire, ?app_nil_r; reflexivity.
Qed.

(** X19.  Silence ends the recording.  The recorder records and a
    stop on silence is armed; the silence timer runs.  In the round of a
    chunk that the fast gate does not take for speech, the clock is read
    for the buffer message, then for the silence, which has lasted for
    [post_speech_silence_duration], then for a log line, and then by
    [stop], which finds the recording [min_length_of_recording] long.
    Then the round stops the recording: the chunk is the last frame, taken
    once; the stop event is set; the timer is reset; the chunk also goes to
    the pre-roll buffer; nothing is sent. *)
Theorem silence_ends_the_recording :
  forall (L : Locals) (w : World) (data : bytes) (queue : list bytes) (m : WebRtc),
    audio_queue (self w) = data :: queue ->
    len queue <= allowed_latency_limit (cfg (self w)) ->
    is_recording (self w) = true ->
    wakeword_samples_to_remove L = None ->
    stop_recording_on_voice_deactivity (self w) = true ->
    silero_deactivity_detection (cfg (self w)) = false ->
    Vad.webrtc_is_speech resample_poly (webrtc_vad_model (self w)) data
                         (sample_rate (cfg (self w))) true = Some (false, m) ->
    truthy (speech_end_silence_start (self w)) = true ->
    truthy (early_transcription_on_silence (cfg (self w))) = false ->
    fge (fsub (clock (round_reading clock L w 0)) (speech_end_silence_start (self w)))
        (post_speech_silence_duration (cfg (self w))) = true ->
    flt (fsub (clock (round_reading clock L w 2)) (recording_start_time (self w)))
        (min_length_of_recording (cfg (self w))) = false ->
    exists L' w',
      _recording_worker_round resample_poly clock L w = (Val (Next, L'), w')
      /\ is_recording (self w') = false
      /\ frames (self w') = frames (self w) ++ [data]
      /\ last_frames (self w') = frames (self w) ++ [data]
      /\ stop_recording_event (self w') = true
      /\ speech_end_silence_start (self w') = fzero
      /\ audio_buffer (self w') = dq_append data (audio_buffer (self w))
      /\ sends (trace w') = sends (trace w).
Proof.
  intros L w data queue m Hq Hlimit Hrec Hnone Harmed Hsilero Hgate Hsil Hearly
         Hlong Hlen.
  unfold round_reading in *. rewrite Nat.add_0_r in Hlong.
  destruct (get_chunk_value w data queue Hq Hlimit) as [evs Hget].
  assert (Hevs : sends evs = []).
  { unfold worker_get_chunk, bind, get, modify, when, emit, log, ret in Hget.
    cbn [self trace ticks] in Hget. rewrite Hq in Hget.
    cbn [self trace ticks cfg set_audio_queue set_last_words_buffer] in Hget.
    assert (E : (len queue >? allowed_latency_limit (cfg (self w))) = false)
      by (rewrite Z.gtb_ltb; apply Z.ltb_ge; exact Hlimit).
    rewrite E, (discard_backlog_within_limit _ _ data Hlimit) in Hget.
    destruct (on_recorded_chunk (cfg (self w)));
      destruct (handle_buffer_overflow (cfg (self w)));
      cbn [self trace ticks] in Hget; inversion Hget as [Ht];
      rewrite ?app_nil_r in Ht;
      try (apply app_inv_head in Ht; subst evs; reflexivity);
      try (rewrite <- (app_nil_r (trace w)) in Ht at 1;
           apply app_inv_head in Ht; subst evs; reflexivity). }
  unfold _recording_worker_round.
  rewrite (bind_value _ _ _ _ _ _ _ Hget). cbv beta iota.
  unfold bind at 1.
  match goal with
  | |- context [worker_buffer_message_time clock L ?W] =>
      destruct (buffer_message_time_readings clock L W) as [t1 Htime]
  end.
  rewrite Htime.
  unfold bind at 1, get at 1. cbn [self].
  change (is_recording (set_audio_queue queue
            (set_last_words_buffer (dq_append data (last_words_buffer (self w)))
               (self w)))) with (is_recording (self w)).
  rewrite Hrec. cbn [negb].
  unfold bind at 1.
  match goal with
  | |- context [worker_recording _ _ data ?L1 ?W] =>
      pose (L1' := L1); pose (W' := W)
  end.
  pose proof (recording_silence_stop data L1' W' m Hnone Harmed Hsilero Hgate Hsil
                                       Hearly Hlong Hlen) as Hx.
  subst L1' W'.
  destruct Hx as [w2 [Hstop [R2 [F2 [LF2 [E2 [E2' [S2 [B2 T2]]]]]]]]].
  rewrite Hstop. cbv beta iota. cbn [fst snd]. unfold bind at 1.
  match goal with
  | |- context [worker_finish clock data ?L1 false w2] =>
      destruct (worker_finish_frames clock data L1 false w2)
        as [L3 [w3 [Hfin [F3 [R3 _]]]]];
      destruct (worker_finish_keeps data L1 false w2)
        as [L3' [w3' [Hfin' [Q3 [C3 [T3 [V3 [S3 [A3 [B3 [LF3 [E3 [G3 Z3]]]]]]]]]]]]]
  end.
  rewrite Hfin in Hfin'. inversion Hfin'. subst L3' w3'.
  rewrite Hfin. unfold ret.
  exists L3, w3. split; [reflexivity|].
  cbn [self trace ticks] in *.
  rewrite R2 in *. cbn [negb andb orb] in *.
  repeat split.
  - congruence.
  - rewrite F3, F2. reflexivity.
  - rewrite LF3, LF2. reflexivity.
  - congruence.
  - congruence.
  - rewrite B3, B2. reflexivity.
  - rewrite T3, T2, sends_app, Hevs, app_nil_r. reflexivity.
Qed.

(** The rounds that take a queue of chunks into a recording. *)
Lemma rounds_record_queue :
  forall (chunks : list bytes) (L : Locals) (w : World),
    audio_queue (self w) = chunks ->
    len chunks <= allowed_latency_limit (cfg (self w)) + 1 ->
    is_recording (self w) = true ->
    wakeword_samples_to_remove L = None ->
    stop_recording_on_voice_deactivity (self w) = false ->
    exists L' w',
      run_rounds resample_poly clock (length chunks) L w = (L', w')
      /\ frames (self w') = frames (self w) ++ chunks
      /\ audio_queue (self w') = []
      /\ is_recording (self w') = true
      /\ sends (trace w') = sends (trace w).
Proof.
  induction chunks as [|data queue IH]; intros L w Hq Hlimit Hrec Hnone Hunarmed.
  - exists L, w. cbn [run_rounds length]. rewrite app_nil_r.
    repeat split; assumption.
  - assert (Hlen : len (data :: queue) = len queue + 1)
      by (unfold len; cbn [length]; lia).
    destruct (recording_round_plain L w data queue Hq ltac:(lia) Hrec Hnone Hunarmed)
      as [L1 [w1 [Hround [F1 [Q1 [R1 [N1 [A1 [C1 T1]]]]]]]]].
    destruct (IH L1 w1 Q1 ltac:(rewrite C1; lia) R1 N1 A1)
      as [L2 [w2 [Hrest [F2 [Q2 [R2 T2]]]]]].
    exists L2, w2. cbn [run_rounds length]. rewrite Hround.
    split; [exact Hrest|].
    split; [rewrite F2, F1, <- app_assoc; reflexivity|].
    repeat split; congruence.
Qed.

Lemma len_concat_chunks :
  forall (size : Z) (chunks : list bytes),
    Forall (fun c => len c = size) chunks ->
    len (concat chunks) = len chunks * size.
Proof.
  intros size chunks H. induction H as [|c l Hc Hl IH]; [reflexivity|].
  cbn [concat]. unfold len in *. rewrite length_app. cbn [length]. lia.
Qed.

Variable np_mean_axis1 : list (list float) -> list float.
Variable resample : list float -> Z -> list float.

(** X20.  What is fed while the recorder records is recorded.  The
    recorder records, no stop on silence is armed, no wake word is to be
    stripped, and the queue is empty.  Bytes are fed, so few that the
    latency limit is not passed.  Then after as many rounds of the worker
    as chunks were queued, the frames have grown by those chunks: the
    bytes kept from earlier calls and the bytes fed, in order, but for
    the last bytes, less than a chunk, that [feed_audio] keeps back.
    Nothing is sent to the engine. *)
Theorem fed_audio_is_recorded :
  forall (chunk : bytes) (rate : Z) (buffer : option bytes)
         (r : @Recorder WebRtc Silero Detector) (t : list Event) (k : nat)
         (L : Locals),
    let kept := match buffer with Some b => b | None => [] end in
    0 < buffer_size (cfg r) ->
    audio_queue r = [] ->
    len (kept ++ chunk) / (2 * buffer_size (cfg r)) <= allowed_latency_limit (cfg r) + 1 ->
    is_recording r = true ->
    stop_recording_on_voice_deactivity r = false ->
    wakeword_samples_to_remove L = None ->
    exists (chunks : list bytes) (rest : bytes) (r' : Recorder) L' w',
      Capture.feed_audio np_mean_axis1 resample (Capture.Bytes chunk) rate buffer r
      = Capture.Returns (rest, r')
      /\ run_rounds resample_poly clock (length chunks) L (mkWorld r' t k) = (L', w')
      /\ frames (self w') = frames r ++ chunks
      /\ join (frames (self w')) ++ rest = join (frames r) ++ kept ++ chunk
      /\ len rest < 2 * buffer_size (cfg r)
      /\ audio_queue (self w') = []
      /\ sends (trace w') = sends t.
Proof.
  intros chunk rate buffer r t k L kept Hsize Hq Hlimit Hrec Hunarmed Hnone.
  rewrite feed_audio_bytes. fold kept. rewrite Hq.
  assert (Hpos : 0 < 2 * buffer_size (cfg r)) by lia.
  match goal with
  | |- context [Capture.feed_loop ?s ?b ?q] =>
      destruct (feed_loop_spec s b q Hpos)
        as [chunks [rest [Hloop [Hsizes [Hcat Hrest]]]]];
      rewrite Hloop
  end.
  fold kept in Hcat. cbn [app].
  assert (Hcount : len chunks = len (kept ++ chunk) / (2 * buffer_size (cfg r))).
  { apply (Z.div_unique_pos _ _ _ (len rest)).
    - unfold len in *. lia.
    - pose proof (f_equal (@length byte) Hcat) as Hl.
      rewrite length_app in Hl.
      pose proof (len_concat_chunks _ _ Hsizes) as Hc.
      unfold len in *. subst kept.
      transitivity (Z.of_nat (length (concat chunks) + length rest)%nat);
        [apply f_equal; symmetry; exact Hl | rewrite Nat2Z.inj_add, Hc; ring]. }
  destruct (rounds_record_queue chunks L (mkWorld (set_audio_queue chunks r) t k))
    as [L' [w' [Hrun [F [Q [R T]]]]]];
    [reflexivity | cbn [self]; change (cfg (set_audio_queue chunks r)) with (cfg r); lia
    | exact Hrec | exact Hnone | exact Hunarmed |].
  exists chunks, rest, (set_audio_queue chunks r), L', w'.
  split; [reflexivity|]. split; [exact Hrun|].
  cbn [self trace] in F, T.
  change (frames (set_audio_queue chunks r)) with (frames r) in F.
  split; [exact F|]. split.
  - rewrite F. unfold join. rewrite concat_app, <- app_assoc, Hcat. reflexivity.
  - repeat split; assumption.
Qed.

End WorkerFacts.

(** With the defaults, at most 100 chunks may wait.  On a queue of 103
    chunks the round drops the first two and goes on with the third. *)
Lemma backlog_is_discarded_witness :
  let queue := [x01] :: [x02] :: repeat [x03] 100 in
  let w := Recorder.mkWorld (Recorder.set_audio_queue ([x00] :: queue) Demo.recorder0)
                            [] 0 in
  exists w',
    Recorder.worker_get_chunk w = (Recorder.Val (inr [x02]), w')
    /\ Recorder.audio_queue (Recorder.self w') = repeat [x03] 100
    /\ Recorder.last_words_buffer (Recorder.self w')
       = dq_append [x00] (Recorder.last_words_buffer Demo.recorder0)
    /\ Recorder.trace w'
       = [EvLog WARNING
            "Audio queue size exceeds latency limit. Discarding old audio chunks." []].
Proof.
  intros queue w.
  apply (@backlog_is_discarded unit nat unit w [x00] queue);
    first [reflexivity | vm_compute; split; [discriminate | reflexivity]].
Defined.

(** The recorder of the defaults, recording, is fed 2500 bytes: two
    chunks of 1024 bytes are recorded in two rounds and 452 bytes are
    kept back. *)
Lemma fed_audio_is_recorded_witness :
  let r := Recorder.set_is_recording true Demo.recorder0 in
  let chunk := repeat x01 2500 in
  let L := Recorder.mkLocals fzero false false None None in
  exists (chunks : list bytes) (rest : bytes) r' L' w',
    Capture.feed_audio Samples.np_mean_axis1 Samples.resample (Capture.Bytes chunk)
                       16000 None r
    = Capture.Returns (rest, r')
    /\ run_rounds Demo.resample_poly Demo.clock (length chunks) L
                  (Recorder.mkWorld r' [] 0) = (L', w')
    /\ Recorder.frames (Recorder.self w') = Recorder.frames r ++ chunks
    /\ join (Recorder.frames (Recorder.self w')) ++ rest
       = join (Recorder.frames r) ++ [] ++ chunk
    /\ len rest < 2 * Recorder.buffer_size (Recorder.cfg r)
    /\ Recorder.audio_queue (Recorder.self w') = []
    /\ sends (Recorder.trace w') = sends [].
Proof.
  intros r chunk L.
  apply (@fed_audio_is_recorded unit nat unit _ _ _ Demo.resample_poly Demo.clock
           Samples.np_mean_axis1 Samples.resample chunk 16000 None r [] 0%nat L);
    first [reflexivity | vm_compute; reflexivity | vm_compute; discriminate].
Defined.

(** The recorder as the constructor leaves it, with one chunk on the
    queue. *)
Lemma idle_round_runs_no_detection_witness :
  let data := Demo.chunk_of xff 512 in
  let w := Recorder.mkWorld (Recorder.set_audio_queue [data] Demo.recorder0) [] 0 in
  let L := Recorder.mkLocals fzero false false None None in
  exists L' w',
    Recorder._recording_worker_round Demo.resample_poly Demo.clock L w
    = (Recorder.Val (Recorder.Next, L'), w')
    /\ Recorder.webrtc_vad_model (Recorder.self w')
       = Recorder.webrtc_vad_model (Recorder.self w)
    /\ Recorder.silero_vad_model (Recorder.self w')
       = Recorder.silero_vad_model (Recorder.self w)
    /\ gate_threads (Recorder.trace w') = gate_threads (Recorder.trace w)
    /\ Recorder.is_recording (Recorder.self w') = false
    /\ Recorder.frames (Recorder.self w') = Recorder.frames (Recorder.self w)
    /\ sends (Recorder.trace w') = sends (Recorder.trace w)
    /\ Recorder.audio_buffer (Recorder.self w')
       = dq_append data (Recorder.audio_buffer (Recorder.self w))
    /\ Recorder.audio_queue (Recorder.self w') = [].
Proof.
  intros data w L.
  apply (@idle_round_runs_no_detection unit nat unit _ _ _ Demo.resample_poly
           Demo.clock L w data []);
    first [reflexivity | vm_compute; discriminate].
Defined.

(** A recording ended by silence, under a clock that advances with every
    reading.  The recorder of the defaults listens and a recording is
    started by voice; with the stop on silence armed it goes on for
    sixteen chunks of speech and thirteen chunks of silence, the first of
    which starts the silence timer.  Six tenths of a second after that,
    the round of the fourteenth chunk of silence ends the recording. *)
Lemma silence_ends_the_recording_witness :
  let chunk := fun b : byte => Demo.chunk_of b 512 in
  let queued := fun (q : list bytes) (w : @Recorder.World unit nat unit) =>
                  Recorder.mkWorld (Recorder.set_audio_queue q (Recorder.self w))
                                   (Recorder.trace w) (Recorder.ticks w) in
  let rounds := run_rounds Demo.resample_poly Demo.clock in
  let w0 := snd (Recorder.wait_audio_arm Demo.clock
                   (Recorder.mkWorld Demo.recorder0 [] 0)) in
  let s1 := rounds 2%nat (Recorder.mkLocals fzero false false None None)
                   (queued [chunk x01; chunk xff; chunk xfe] w0) in
  let s2 := rounds 1%nat (fst s1)
                   (snd (Recorder._is_silero_speech Demo.resample_poly (chunk xff)
                                                    (snd s1))) in
  let s3 := rounds 16%nat (fst s2)
                   (queued (repeat (chunk xff) 16)
                           (snd (Recorder.wait_audio_arm_stop (snd s2)))) in
  let s4 := rounds 13%nat (fst s3) (queued (repeat (chunk x00) 14) (snd s3)) in
  let w := snd s4 in
  Recorder.speech_end_silence_start (Recorder.self w) = Demo.clock 46
  /\ exists L' w',
      Recorder._recording_worker_round Demo.resample_poly Demo.clock (fst s4) w
      = (Recorder.Val (Recorder.Next, L'), w')
      /\ Recorder.is_recording (Recorder.self w') = false
      /\ Recorder.frames (Recorder.self w')
         = Recorder.frames (Recorder.self w) ++ [chunk x00]
      /\ Recorder.last_frames (Recorder.self w')
         = Recorder.frames (Recorder.self w) ++ [chunk x00]
      /\ Recorder.stop_recording_event (Recorder.self w') = true
      /\ Recorder.speech_end_silence_start (Recorder.self w') = fzero
      /\ Recorder.audio_buffer (Recorder.self w')
         = dq_append (chunk x00) (Recorder.audio_buffer (Recorder.self w))
      /\ sends (Recorder.trace w') = sends (Recorder.trace w).
Proof.
  intros chunk queued rounds w0 s1 s2 s3 s4 w.
  split; [vm_compute; reflexivity|].
  apply (@silence_ends_the_recording unit nat unit _ _ _ Demo.resample_poly
           Demo.clock (fst s4) w (chunk x00) [] tt);
    first [vm_compute; reflexivity | vm_compute; discriminate].
Defined.
(* ===================================================================== *)
(** * More of the code: states and their callbacks *)
(* ===================================================================== *)

Lemma callbacks_of_app :
  forall t1 t2, callbacks_of (t1 ++ t2) = callbacks_of t1 ++ callbacks_of t2.
Proof.
  induction t1 as [|e t1 IH]; intro t2; [reflexivity|].
  destruct e; cbn [app callbacks_of]; rewrite IH; reflexivity.
Qed.

Lemma calls_app :
  forall cb t1 t2, calls cb (t1 ++ t2) = calls cb t1 + calls cb t2.
Proof.
  intros cb t1 t2. unfold calls, len.
  rewrite callbacks_of_app, filter_app, length_app. lia.
Qed.

Lemma last_after_head :
  forall (A : Type) (l : list A) (a d : A), last (a :: l) d = last l a.
Proof.
  intros A l. induction l as [|b l IH]; intros a d; [reflexivity|].
  change (last (a :: b :: l) d) with (last (b :: l) d).
  rewrite (IH b d), (IH b a). reflexivity.
Qed.

Section StateFacts.

Import Recorder.

Context {WebRtc Silero Detector : Type}.

#[local] Abbreviation World := (@World WebRtc Silero Detector).
#[local] Abbreviation M := (@M WebRtc Silero Detector).

Lemma callbacks_of_fire :
  forall registered cb,
    callbacks_of (StateMachine.fire registered cb) = if registered then [cb] else [].
Proof. intros [|] cb; reflexivity. Qed.

(** A request for one of the five states: the state afterwards, and the
    callbacks called. *)
Lemma set_state_callbacks :
  forall (s : StateMachine.RecorderState) (w : World),
    exists (h : option StateMachine.Halo) (evs : list Event),
      _set_state (StateMachine.value s) w
      = (Val tt,
         mkWorld (set_halo h (set_state (StateMachine.value s) (self w)))
                 (trace w ++ evs) (ticks w))
      /\ callbacks_of evs
         = (if String.eqb (state (self w)) (StateMachine.value s) then []
            else leaving_callbacks (state_callbacks (cfg (self w))) (state (self w))
                 ++ entering_callbacks (state_callbacks (cfg (self w))) s).
Proof.
  intros s [r t k]. destruct r.
  unfold _set_state.
  replace (StateMachine.of_value (StateMachine.value s)) with (Some s)
    by (destruct s; reflexivity).
  unfold bind, get, modify, emit, StateMachine.transition_state. cbn.
  destruct (String.eqb state0 (StateMachine.value s)) eqn:E.
  - apply String.eqb_eq in E. subst state0.
    exists halo0, []. split; [|reflexivity]. cbn [trace self ticks].
    rewrite !app_nil_r. reflexivity.
  - unfold leaving_callbacks, entering_callbacks.
    destruct s; cbn;
      unfold StateMachine.set_interval, _set_spinner; cbn;
      destruct (spinner cfg0); destruct halo0; cbn;
      do 2 eexists; (split; [unfold set_halo, set_state; cbn; reflexivity|]);
      destruct (String.eqb state0 "listening");
      destruct (String.eqb state0 "wakeword");
      repeat first [ rewrite callbacks_of_app | rewrite callbacks_of_fire
                   | progress cbn [callbacks_of app] ];
      rewrite ?app_nil_r; reflexivity.
Qed.

(** One request for a state keeps the callbacks of listening and of the
    wake-word state paired. *)
Lemma set_state_paired :
  forall (s : StateMachine.RecorderState) (w : World),
    on_vad_detect_start (cfg (self w)) = true ->
    on_vad_detect_stop (cfg (self w)) = true ->
    on_wakeword_detection_start (cfg (self w)) = true ->
    on_wakeword_detection_end (cfg (self w)) = true ->
    exists w',
      _set_state (StateMachine.value s) w = (Val tt, w')
      /\ cfg (self w') = cfg (self w)
      /\ state (self w') = StateMachine.value s
      /\ owed StateMachine.LISTENING CbVadDetectStart CbVadDetectStop w'
         = owed StateMachine.LISTENING CbVadDetectStart CbVadDetectStop w
      /\ owed StateMachine.WAKEWORD CbWakewordDetectionStart CbWakewordDetectionEnd w'
         = owed StateMachine.WAKEWORD CbWakewordDetectionStart CbWakewordDetectionEnd w.
Proof.
  intros s w H1 H2 H3 H4.
  destruct (set_state_callbacks s w) as [h [evs [Heq Hcb]]].
  eexists. split; [exact Heq|]. cbn [self trace].
  split; [reflexivity|]. split; [reflexivity|].
  unfold owed, in_state. cbn [self trace].
  change (state (set_halo h (set_state (StateMachine.value s) (self w))))
    with (StateMachine.value s).
  rewrite !calls_app.
  assert (Hc : forall cb,
             calls cb evs
             = len (filter (fun c => callback_index c =? callback_index cb)
                           (callbacks_of evs)))
    by reflexivity.
  rewrite !Hc, Hcb. clear Hc.
  unfold leaving_callbacks, entering_callbacks, state_callbacks.
  cbn [StateMachine.on_vad_detect_start StateMachine.on_vad_detect_stop
       StateMachine.on_wakeword_detection_start StateMachine.on_wakeword_detection_end
       StateMachine.on_transcription_start].
  rewrite H1, H2, H3, H4.
  assert (Hl : String.eqb (state (self w)) "listening" = true
               -> state (self w) = "listening") by (apply String.eqb_eq).
  assert (Hw : String.eqb (state (self w)) "wakeword" = true
               -> state (self w) = "wakeword") by (apply String.eqb_eq).
  destruct (String.eqb (state (self w)) (StateMachine.value s)) eqn:E.
  - apply String.eqb_eq in E. rewrite E.
    cbn [callbacks_of filter len length]. split; unfold len; cbn [length]; lia.
  - destruct s; cbn [StateMachine.value] in *;
      destruct (String.eqb (state (self w)) "listening") eqn:El;
      destruct (String.eqb (state (self w)) "wakeword") eqn:Ew;
      try discriminate E;
      try (rewrite (Hl eq_refl) in Ew; discriminate Ew);
      destruct (on_transcription_start (cfg (self w)));
      cbn; split; lia.
Qed.

(** X21.  With callbacks registered for the start and the end of
    listening and of wake-word detection, any sequence of requests for
    recognised states keeps them paired: after it, the start callbacks
    called and the end callbacks called differ by one when the recorder
    has entered the state and is still in it, by one the other way when
    it has left the state it began in, and are equal in number
    otherwise.  The recorder ends in the state asked for last. *)
Theorem state_callbacks_stay_paired :
  forall (states : list StateMachine.RecorderState) (w : World),
    on_vad_detect_start (cfg (self w)) = true ->
    on_vad_detect_stop (cfg (self w)) = true ->
    on_wakeword_detection_start (cfg (self w)) = true ->
    on_wakeword_detection_end (cfg (self w)) = true ->
    exists w',
      requests states w = (Val tt, w')
      /\ state (self w') = last (map StateMachine.value states) (state (self w))
      /\ calls CbVadDetectStart (trace w') - calls CbVadDetectStop (trace w')
         - Z.b2z (in_state StateMachine.LISTENING (self w'))
         = calls CbVadDetectStart (trace w) - calls CbVadDetectStop (trace w)
           - Z.b2z (in_state StateMachine.LISTENING (self w))
      /\ calls CbWakewordDetectionStart (trace w')
         - calls CbWakewordDetectionEnd (trace w')
         - Z.b2z (in_state StateMachine.WAKEWORD (self w'))
         = calls CbWakewordDetectionStart (trace w)
           - calls CbWakewordDetectionEnd (trace w)
           - Z.b2z (in_state StateMachine.WAKEWORD (self w)).
Proof.
  induction states as [|s states IH]; intros w H1 H2 H3 H4.
  - exists w. repeat split; reflexivity.
  - destruct (set_state_paired s w H1 H2 H3 H4) as [w1 [Heq [Hc [Hs [Hl Hw]]]]].
    destruct (IH w1) as [w2 [Heq2 [Hs2 [Hl2 Hw2]]]]; try (rewrite Hc; assumption).
    exists w2. cbn [requests]. unfold bind. rewrite Heq.
    split; [exact Heq2|]. unfold owed in Hl, Hw.
    split; [|split; lia].
    rewrite Hs2, Hs. cbn [map]. symmetry. apply last_after_head.
Qed.

End StateFacts.

(* ===================================================================== *)
(** * More of the code: start, stop and what follows *)
(* ===================================================================== *)

Section FlowFacts.

Import Recorder.

Context {WebRtc Silero Detector : Type}.
Variable clock : nat -> float.

#[local] Abbreviation World := (@World WebRtc Silero Detector).
#[local] Abbreviation M := (@M WebRtc Silero Detector).

(** [start] with frames, when it is not too soon after the last stop. *)
Lemma start_with_frames :
  forall (f : bytes) (fs : list bytes) (w : World),
    flt (fsub (clock (ticks w)) (recording_stop_time (self w)))
        (min_gap_between_recordings (cfg (self w))) = false ->
    exists w',
      start clock (Some (f :: fs)) w = (Val tt, w')
      /\ frames (self w') = f :: fs
      /\ is_recording (self w') = true
      /\ recording_start_time (self w') = clock (S (ticks w))
      /\ ticks w' = S (S (ticks w))
      /\ cfg (self w') = cfg (self w)
      /\ sends (trace w') = sends (trace w)
      /\ start_recording_event (self w') = true
      /\ stop_recording_event (self w') = false.
Proof.
  intros f fs [r t k] Hgap. cbn [self trace ticks] in Hgap.
  unfold start.
  cbv [bind get time_time log emit self trace ticks].
  rewrite Hgap.
  match goal with
  | |- context [_set_state ?s ?W] =>
      destruct (set_state_effect s W) as [st [h [evs [Heq Hevs]]]]; rewrite Heq
  end.
  cbv [bind get modify time_time log call emit ret self trace ticks].
  eexists. split; [reflexivity|].
  cbv [self trace ticks].
  repeat split; rewrite ?sends_app, ?sends_fire, ?Hevs, ?app_nil_r; reflexivity.
Qed.

(** [stop], when the recording has lasted long enough. *)
Lemma stop_value :
  forall (backdate_stop backdate_resume : float) (w : World),
    flt (fsub (clock (ticks w)) (recording_start_time (self w)))
        (min_length_of_recording (cfg (self w))) = false ->
    exists w',
      stop clock backdate_stop backdate_resume w = (Val tt, w')
      /\ is_recording (self w') = false
      /\ frames (self w') = frames (self w)
      /\ last_frames (self w') = frames (self w)
      /\ backdate_stop_seconds (self w') = backdate_stop
      /\ backdate_resume_seconds (self w') = backdate_resume
      /\ cfg (self w') = cfg (self w)
      /\ sends (trace w') = sends (trace w)
      /\ start_recording_event (self w') = false
      /\ stop_recording_event (self w') = true.
Proof.
  intros bs br [r t k] Hlen. cbn [self trace ticks] in Hlen.
  unfold stop.
  cbv [bind get time_time log emit self trace ticks].
  rewrite Hlen.
  cbv [bind get modify time_time log call emit ret self trace ticks].
  eexists. split; [reflexivity|].
  cbv [self trace ticks].
  repeat split; rewrite ?sends_app, ?sends_fire, ?app_nil_r; reflexivity.
Qed.

(** X22.  Frames handed to [start] are what the recorder gives as
    audio.  [start] is called with frames, not too soon after the last
    stop, and [stop] after it, not too soon after the start.  Then
    [wait_audio] waits for nothing: the audio is the samples of those
    frames, normalized, without the last [n_stop]; the last [n_resume]
    are kept as frames; the recorder is inactive and does not record;
    nothing has been sent. *)
Theorem started_frames_become_the_audio :
  forall (f : bytes) (fs : list bytes) (backdate_stop backdate_resume : float)
         (waits_start waits_stop : list (World -> World)) (w : World)
         (samples : list Z) (n_stop n_resume : Z),
    frombuffer_int16 (join (f :: fs)) = Some samples ->
    flt (fsub (clock (ticks w)) (recording_stop_time (self w)))
        (min_gap_between_recordings (cfg (self w))) = false ->
    flt (fsub (clock (S (S (ticks w)))) (clock (S (ticks w))))
        (min_length_of_recording (cfg (self w))) = false ->
    int_of_float (fmul (float_of_int (sample_rate (cfg (self w)))) backdate_stop)
    = Some n_stop ->
    int_of_float (fmul (float_of_int (sample_rate (cfg (self w)))) backdate_resume)
    = Some n_resume ->
    0 <= n_stop ->
    exists w',
      bind (start clock (Some (f :: fs)))
           (fun _ => bind (stop clock backdate_stop backdate_resume)
                          (fun _ => Session.wait_audio clock waits_start waits_stop)) w
      = (Val true, w')
      /\ audio (self w')
         = Some (normalize (firstn (length samples - Z.to_nat n_stop) samples))
      /\ frames (self w') = frames_to_read_of (normalize samples) n_resume
      /\ state (self w') = "inactive"
      /\ is_recording (self w') = false
      /\ sends (trace w') = sends (trace w).
Proof.
  intros f fs bs br ws1 ws2 w samples n_stop n_resume Hbuf Hgap Hlen Hstop Hresume Hs.
  destruct (start_with_frames f fs w Hgap)
    as [w1 [Heq1 [F1 [R1 [T1 [K1 [C1 [S1 _]]]]]]]].
  destruct (stop_value bs br w1) as [w2 [Heq2 [R2 [F2 [L2 [B2 [B2' [C2 [S2 _]]]]]]]]].
  { rewrite K1, T1, C1. exact Hlen. }
  destruct (wait_audio_value clock ws1 ws2 w2 samples n_stop n_resume)
    as [w3 [Heq3 [A1 [A2 [A3 [A4 [A5 [A6 [A7 [A8 [A9 A10]]]]]]]]]]].
  - exact R2.
  - rewrite F2, F1. discriminate.
  - rewrite F2, F1. exact Hbuf.
  - rewrite C2, C1, B2. exact Hstop.
  - rewrite C2, C1, B2'. exact Hresume.
  - exact Hs.
  - exists w3. unfold bind at 1. rewrite Heq1. unfold bind at 1. rewrite Heq2.
    split; [exact Heq3|].
    repeat split; congruence.
Qed.

End FlowFacts.

(** Listening is entered twice and left twice, the wake-word state is
    entered once and not left. *)
Lemma state_callbacks_stay_paired_witness :
  let w := Recorder.mkWorld
             (Recorder.attributes
                (Samples.with_state_callbacks Recorder.default_config) 31 9 tt O
                (@None unit)) [] 0 in
  let states := [StateMachine.LISTENING; StateMachine.RECORDING;
                 StateMachine.LISTENING; StateMachine.LISTENING;
                 StateMachine.TRANSCRIBING; StateMachine.WAKEWORD] in
  exists w',
    requests states w = (Recorder.Val tt, w')
    /\ Recorder.state (Recorder.self w') = "wakeword"
    /\ calls CbVadDetectStart (Recorder.trace w')
       - calls CbVadDetectStop (Recorder.trace w')
       - Z.b2z (in_state StateMachine.LISTENING (Recorder.self w')) = 0
    /\ calls CbWakewordDetectionStart (Recorder.trace w')
       - calls CbWakewordDetectionEnd (Recorder.trace w')
       - Z.b2z (in_state StateMachine.WAKEWORD (Recorder.self w')) = 0.
Proof.
  intros w states.
  apply (@state_callbacks_stay_paired unit nat unit states w); reflexivity.
Defined.

(** Two frames of two samples each are handed to [start]; [stop] is
    given 1/8192 s and 1/4096 s; the clock advances a second per
    reading. *)
Lemma started_frames_become_the_audio_witness :
  let w := Recorder.mkWorld Demo.recorder0 [] 0 in
  exists w',
    Recorder.bind
      (Recorder.start Samples.seconds_clock
                      (Some ([x01; x00; x02; x00] :: [[x03; x00; x04; x00]])))
      (fun _ => Recorder.bind
                  (Recorder.stop Samples.seconds_clock (decimal 1 8192) (decimal 1 4096))
                  (fun _ => Session.wait_audio Samples.seconds_clock [] [])) w
    = (Recorder.Val true, w')
    /\ Recorder.audio (Recorder.self w') = Some (normalize [1; 2; 3])
    /\ Recorder.frames (Recorder.self w')
       = Recorder.frames_to_read_of (normalize [1; 2; 3; 4]) 3
    /\ Recorder.state (Recorder.self w') = "inactive"
    /\ Recorder.is_recording (Recorder.self w') = false
    /\ sends (Recorder.trace w') = [].
Proof.
  intros w.
  apply (@started_frames_become_the_audio unit nat unit Samples.seconds_clock
           [x01; x00; x02; x00] [[x03; x00; x04; x00]] (decimal 1 8192) (decimal 1 4096)
           [] [] w [1; 2; 3; 4] 1 3);
    first [reflexivity | lia | vm_compute; reflexivity].
Defined.
(* ===================================================================== *)
(** * More of the code: the gates as the recorder calls them *)
(* ===================================================================== *)

Section GateFacts.

Import Recorder.

Context {WebRtc Silero Detector : Type}.
Context {IW : Vad.WebRtcVadModel WebRtc} {IS : Vad.SileroVadModel Silero}.
Variable resample_poly : list Z -> Z -> Z -> list float.

#[local] Abbreviation World := (@World WebRtc Silero Detector).
#[local] Abbreviation M := (@M WebRtc Silero Detector).

(** X23.  A chunk with half a sample at its end jams the confirming
    gate.  [_is_silero_speech] raises on it and leaves [silero_working]
    set; and while that flag is set, [_check_voice_activity] starts no
    thread for the confirming gate, whatever the fast gate finds, so
    that the verdict of the confirming gate stays what it was. *)
Theorem odd_chunk_jams_confirming_gate :
  forall (chunk : bytes) (w : World),
    Z.even (len chunk) = false ->
    exists w1,
      _is_silero_speech resample_poly chunk w = (@Exc bool ValueError, w1)
      /\ silero_working (self w1) = true
      /\ is_silero_speech_active (self w1) = is_silero_speech_active (self w)
      /\ forall (data : bytes) (w2 : World),
           silero_working (self w2) = true ->
           let w3 := snd (_check_voice_activity resample_poly data w2) in
           gate_threads (trace w3) = gate_threads (trace w2)
           /\ silero_working (self w3) = true
           /\ is_silero_speech_active (self w3) = is_silero_speech_active (self w2)
           /\ silero_vad_model (self w3) = silero_vad_model (self w2).
Proof.
  intros chunk w Hodd.
  assert (Hbuf : frombuffer_int16 chunk = None).
  { pose proof (frombuffer_int16_parity chunk) as Hp.
    destruct (frombuffer_int16 chunk); [|reflexivity].
    destruct Hp as [Hp _]. congruence. }
  unfold _is_silero_speech.
  unfold bind at 1, get at 1. unfold bind at 1, modify at 1.
  cbn [self trace ticks]. unfold bind at 1.
  unfold Vad.silero_is_speech. rewrite Hbuf. cbn [lift raise].
  eexists. split; [reflexivity|]. cbn [self].
  split; [reflexivity|]. split; [reflexivity|].
  intros data [r2 t2 k2] Hbusy. cbn [self] in Hbusy. cbv zeta.
  unfold _check_voice_activity, _is_webrtc_speech.
  cbv [bind get self trace ticks].
  destruct (Vad.webrtc_is_speech resample_poly (webrtc_vad_model r2) data
                                 (sample_rate (cfg r2)) false) as [[flag m]|];
    cbv [lift raise ret modify self trace ticks fst snd];
    [|repeat split; assumption].
  cbn [is_webrtc_speech_active silero_working set_is_webrtc_speech_active
       set_webrtc_vad_model].
  rewrite Hbusy. destruct flag; cbn [negb snd self trace];
    repeat split; assumption.
Qed.

End GateFacts.

(** A chunk of three bytes; afterwards a chunk that the fast gate takes
    for speech starts no thread. *)
Lemma odd_chunk_jams_confirming_gate_witness :
  let w := Recorder.mkWorld Demo.recorder0 [] 0 in
  let data := Demo.chunk_of xff 512 in
  exists w1,
    Recorder._is_silero_speech Demo.resample_poly [x01; x00; x02] w
    = (@Recorder.Exc bool ValueError, w1)
    /\ Recorder.silero_working (Recorder.self w1) = true
    /\ Recorder.is_silero_speech_active (Recorder.self w1) = false
    /\ let w3 := snd (Recorder._check_voice_activity Demo.resample_poly data w1) in
       Recorder.is_webrtc_speech_active (Recorder.self w3) = true
       /\ gate_threads (Recorder.trace w3) = []
       /\ Recorder.silero_working (Recorder.self w3) = true
       /\ Recorder.is_silero_speech_active (Recorder.self w3) = false.
Proof.
  intros w data.
  destruct (@odd_chunk_jams_confirming_gate unit nat unit _ _ Demo.resample_poly
              [x01; x00; x02] w eq_refl) as [w1 [H1 [H2 [H3 H4]]]].
  exists w1. split; [exact H1|]. split; [exact H2|]. split; [exact H3|].
  destruct (H4 data w1 H2) as [G1 [G2 [G3 _]]].
  inversion H1. subst w1.
  split; [vm_compute; reflexivity|].
  split; [exact G1|]. split; [exact G2|]. exact G3.
Defined.
(* ===================================================================== *)
(** * More of the code: the local recognition of a stream *)
(* ===================================================================== *)

Lemma frombuffer_int16_app :
  forall (a b : bytes) (x y : list Z),
    frombuffer_int16 a = Some x ->
    frombuffer_int16 b = Some y ->
    frombuffer_int16 (a ++ b) = Some (x ++ y).
Proof.
  intros a. induction a as [|c|lo hi rest IH] using bytes_pair_ind;
    intros b x y Ha Hb.
  - inversion Ha. exact Hb.
  - discriminate Ha.
  - cbn [frombuffer_int16] in Ha.
    destruct (frombuffer_int16 rest) as [l|] eqn:E; [|discriminate Ha].
    inversion Ha. subst x.
    change ((lo :: hi :: rest) ++ b) with (lo :: hi :: (rest ++ b)).
    cbn [frombuffer_int16]. rewrite (IH b l y eq_refl Hb). reflexivity.
Qed.

Section LocalAsrFacts.

Import Recorder.

Context {WebRtc Silero Detector : Type}.
Variable clock : nat -> float.
Variable _preprocess_output : string -> string.
Variable strip : string -> string.
Variable _sample_rate : Z.

#[local] Abbreviation World := (@World WebRtc Silero Detector).
#[local] Abbreviation M := (@M WebRtc Silero Detector).

(** The loop over the stream, when every chunk it takes in is a whole
    number of samples: the samples are those of the chunks joined, and
    the clock is read once, at the first chunk. *)
Lemma gather_heard :
  forall (ms : nat -> Z) (audio_stream : list bytes) (buffer : list Z)
         (start : option Z) (w : World),
    Forall (fun c => Z.even (len c) = true) (heard audio_stream) ->
    (forall n, int_of_float (fmul (clock n) (float_of_int 1000)) = Some (ms n)) ->
    exists samples,
      frombuffer_int16 (join (heard audio_stream)) = Some samples
      /\ LocalAsr.gather clock audio_stream buffer start w
         = (Val (buffer ++ samples,
                 match start, heard audio_stream with
                 | Some t, _ => Some t
                 | None, [] => None
                 | None, _ :: _ => Some (ms (ticks w))
                 end),
            mkWorld (self w) (trace w)
                    (match start, heard audio_stream with
                     | None, _ :: _ => S (ticks w)
                     | _, _ => ticks w
                     end)).
Proof.
  intros ms audio_stream.
  induction audio_stream as [|chunk rest IH]; intros buffer start w Heven Hms.
  - exists []. split; [reflexivity|]. cbn [LocalAsr.gather heard].
    rewrite app_nil_r. destruct w, start; reflexivity.
  - cbn [LocalAsr.gather heard] in *.
    destruct (len chunk =? 0) eqn:E0; [apply IH; assumption|].
    destruct (LocalAsr.bytes_eqb chunk LocalAsr.STOP).
    + exists []. split; [reflexivity|]. rewrite app_nil_r.
      destruct w, start; reflexivity.
    + inversion Heven as [|c l Hc Hl]. subst c l.
      pose proof (frombuffer_int16_parity chunk) as Hpar.
      destruct (frombuffer_int16 chunk) as [arr|] eqn:Ea;
        [|rewrite Hc in Hpar; discriminate Hpar].
      destruct Hpar as [_ Hlen].
      assert (Hne : (len arr =? 0) = false).
      { apply Z.eqb_neq. apply Z.eqb_neq in E0. lia. }
      destruct start as [t|].
      * destruct (IH (buffer ++ arr) (Some t) w Hl Hms) as [samples [Hs Hg]].
        exists (arr ++ samples). split.
        { unfold join in *. cbn [concat].
          apply frombuffer_int16_app; assumption. }
        unfold bind at 1, ret at 1. unfold bind at 1.
        cbn [lift ret]. rewrite Hne, Hg, <- app_assoc. reflexivity.
      * destruct (IH (buffer ++ arr) (Some (ms (ticks w)))
                     (mkWorld (self w) (trace w) (S (ticks w))) Hl Hms)
          as [samples [Hs Hg]].
        exists (arr ++ samples). split.
        { unfold join in *. cbn [concat].
          apply frombuffer_int16_app; assumption. }
        unfold bind at 1. unfold LocalAsr.wall_ms.
        unfold bind at 1. unfold bind at 1, time_time at 1.
        rewrite (py_int_value _ _ _ (Hms (ticks w))).
        unfold ret at 1. unfold bind at 1.
        cbn [lift ret]. rewrite Hne, Hg, <- app_assoc. reflexivity.
Qed.

(** X24.  The local recognition of a stream.  Every chunk before the
    stop marker is a whole number of samples, and there is one that is
    not empty; nothing is awaited from the engine and no interrupt is
    set; the engine answers with success.  Then the engine is sent, once,
    the samples of those chunks in order between two paddings of zeros,
    with the values the samples have, not divided by 32768 as the
    recorder does with what it records.  One result is yielded, final,
    with the stripped text of the answer, from the time of the first
    chunk to that time plus the length of the audio; no result is
    yielded when the stripped text is empty. *)
Theorem local_stream_is_transcribed :
  forall (ms : nat -> Z) (audio_stream : list bytes) (polls : list Poll) (w : World)
         (n duration_ms : Z) (result : string),
    Forall (fun c => Z.even (len c) = true) (heard audio_stream) ->
    heard audio_stream <> [] ->
    (forall n, int_of_float (fmul (clock n) (float_of_int 1000)) = Some (ms n)) ->
    _sample_rate <> 0 ->
    int_of_float (fdiv (float_of_int (len (join (heard audio_stream)) / 2 * 1000))
                       (float_of_int _sample_rate)) = Some duration_ms ->
    transcribe_count (self w) = 0 ->
    interrupt_stop_event (self w) = false ->
    int_of_float (fmul (float_of_int (sample_rate (cfg (self w)))) (decimal 1 1)) = Some n ->
    0 <= n ->
    never_interrupted polls = true ->
    ready_answers polls = [("success", result)] ->
    exists (samples : list Z) w',
      frombuffer_int16 (join (heard audio_stream)) = Some samples
      /\ LocalAsr.transcribe_stream clock _preprocess_output strip _sample_rate
                                    audio_stream polls w
         = (LocalAsr.Yielded
              (let text := strip (_preprocess_output result) in
               if String.eqb text "" then []
               else [{| LocalAsr.text := text;
                        LocalAsr.is_final := true;
                        LocalAsr.begin_time := ms (ticks w);
                        LocalAsr.end_time := ms (ticks w) + duration_ms |}]),
            w')
      /\ sends (trace w')
         = sends (trace w)
           ++ [(padded n (astype_float32 samples), language (cfg (self w)))].
Proof.
  intros ms audio_stream polls w n duration_ms result
         Heven Hne Hms Hrate Hdur Hcount Hint Hn Hpos Hni Hready.
  destruct (gather_heard ms audio_stream [] None w Heven Hms) as [samples [Hs Hg]].
  exists samples.
  pose proof (frombuffer_int16_parity (join (heard audio_stream))) as Hpar.
  rewrite Hs in Hpar. destruct Hpar as [_ Hlen].
  assert (Hsamples : (len samples =? 0) = false).
  { apply Z.eqb_neq. intro E. rewrite E in Hlen.
    assert (Hj : join (heard audio_stream) = [])
      by (unfold len in Hlen; destruct (join (heard audio_stream));
          [reflexivity | cbn [length] in Hlen; lia]).
    clear - Hne Hj. induction audio_stream as [|c rest IH];
      [apply Hne; reflexivity|].
    cbn [heard] in *.
    destruct (len c =? 0) eqn:E0; [apply IH; assumption|].
    destruct (LocalAsr.bytes_eqb c LocalAsr.STOP); [apply Hne; reflexivity|].
    unfold join in Hj. cbn [concat] in Hj.
    apply app_eq_nil in Hj. destruct Hj as [Hc _]. subst c. discriminate E0. }
  assert (Hhalf : len (join (heard audio_stream)) / 2 = len samples).
  { rewrite Hlen. rewrite Z.mul_comm. apply Z.div_mul. lia. }
  rewrite Hhalf in Hdur.
  unfold LocalAsr.transcribe_stream. rewrite Hg. cbn [app].
  rewrite Hsamples.
  replace (_sample_rate =? 0) with false by (symmetry; apply Z.eqb_neq; exact Hrate).
  rewrite (py_int_value _ _ _ Hdur).
  destruct (heard audio_stream) as [|c0 l0] eqn:Eh; [congruence|].
  unfold ret at 1.
  unfold bind at 1, modify at 1. cbn [self trace ticks].
  match goal with
  | |- context [transcribe clock _preprocess_output polls ?W] =>
      destruct (transcribe_success_value clock _preprocess_output polls W
                  (astype_float32 samples) n result)
        as [w2 [Heq2 [B1 [B2 [B3 [B4 B5]]]]]];
        [reflexivity | exact Hcount | exact Hint | exact Hn | exact Hpos
        | exact Hni | exact Hready | ]
  end.
  rewrite Heq2. cbv zeta.
  exists w2. split; [exact Hs|].
  split; [|exact B1].
  destruct (String.eqb (strip (_preprocess_output result)) ""); reflexivity.
Qed.

(** X25.  A stream in which nothing comes before the stop marker but
    empty chunks yields nothing: the clock is not read, the recorder is
    not touched and the engine is not called, whatever comes after the
    marker. *)
Theorem local_stream_without_audio :
  forall (audio_stream : list bytes) (polls : list Poll) (w : World),
    heard audio_stream = [] ->
    LocalAsr.transcribe_stream clock _preprocess_output strip _sample_rate
                               audio_stream polls w
    = (LocalAsr.Yielded [], w).
Proof.
  intros audio_stream polls w Hheard.
  assert (Hg : forall buffer start,
             LocalAsr.gather clock audio_stream buffer start w
             = (Val (buffer, start), w)).
  { induction audio_stream as [|c rest IH]; intros buffer start; [reflexivity|].
    cbn [heard LocalAsr.gather] in *.
    destruct (len c =? 0); [apply IH; exact Hheard|].
    destruct (LocalAsr.bytes_eqb c LocalAsr.STOP); [reflexivity | discriminate Hheard]. }
  unfold LocalAsr.transcribe_stream. rewrite Hg. reflexivity.
Qed.

End LocalAsrFacts.

(** A stream of an empty chunk, a chunk of two samples, a chunk of one
    sample, the stop marker and a byte after it, at 1000 samples a
    second; the clock stands at 1000 s. *)
Lemma local_stream_is_transcribed_witness :
  let audio_stream := [[]; [x01; x00; x02; x00]; [x03; x00]; LocalAsr.STOP; [x09]] in
  let polls := [Recorder.PollTimeout false; Recorder.PollReady "success" " hello "] in
  let w := Recorder.mkWorld Demo.recorder0 [] 0 in
  exists (samples : list Z) w',
    frombuffer_int16 (join (heard audio_stream)) = Some samples
    /\ LocalAsr.transcribe_stream Samples.still_clock Demo._preprocess_output
                                  Samples.strip 1000 audio_stream polls w
       = (LocalAsr.Yielded
            [{| LocalAsr.text := "hello";
                LocalAsr.is_final := true;
                LocalAsr.begin_time := 1000000;
                LocalAsr.end_time := 1000003 |}], w')
    /\ sends (Recorder.trace w')
       = [(padded 16000 (astype_float32 samples), "auto")].
Proof.
  intros audio_stream polls w.
  apply (@local_stream_is_transcribed unit nat unit Samples.still_clock
           Demo._preprocess_output Samples.strip 1000 (fun _ => 1000000)
           audio_stream polls w 16000 3 " hello ");
    first [reflexivity | lia | discriminate
          | repeat constructor
          | intro n; vm_compute; reflexivity
          | vm_compute; reflexivity ].
Defined.

(** The stop marker comes first. *)
Lemma local_stream_without_audio_witness :
  let w := Recorder.mkWorld Demo.recorder0 [] 0 in
  LocalAsr.transcribe_stream Demo.clock Demo._preprocess_output Samples.strip 16000
                             [[]; LocalAsr.STOP; [x01; x00]]
                             [Recorder.PollReady "success" "hello"] w
  = (LocalAsr.Yielded [], w).
Proof.
  intros w.
  apply (@local_stream_without_audio unit nat unit Demo.clock Demo._preprocess_output
           Samples.strip 16000).
  reflexivity.
Defined.
(* ===================================================================== *)
(** * More of the code: abort, and the round that hears a wake word *)
(* ===================================================================== *)

Section AbortFacts.

Import Recorder.

Context {WebRtc Silero Detector : Type}.
Variable clock : nat -> float.

#[local] Abbreviation World := (@World WebRtc Silero Detector).
#[local] Abbreviation M := (@M WebRtc Silero Detector).

(** X26.  [abort] on a recorder that does not record, and whose
    interruption has been acknowledged unless it is inactive: it returns
    without waiting, with the interrupt set, the acknowledgement cleared
    and nothing left waiting for voice or for silence.  An inactive
    recorder stays inactive; any other is left in the state
    transcribing.  Nothing is sent. *)
Theorem abort_leaves_transcribing :
  forall (waits : list (World -> World)) (w : World),
    is_recording (self w) = false ->
    (String.eqb (state (self w)) "inactive" = false -> was_interrupted (self w) = true) ->
    exists w',
      Session.abort clock waits w = (Val true, w')
      /\ state (self w')
         = (if String.eqb (state (self w)) "inactive" then "inactive" else "transcribing")
      /\ interrupt_stop_event (self w') = true
      /\ was_interrupted (self w') = false
      /\ start_recording_on_voice_activity (self w') = false
      /\ stop_recording_on_voice_deactivity (self w') = false
      /\ is_recording (self w') = false
      /\ sends (trace w') = sends (trace w).
Proof.
  intros waits [r t k] Hrec Hack. cbn [self trace ticks] in *.
  unfold Session.abort.
  unfold bind at 1, modify at 1. cbn [self trace ticks].
  unfold bind at 1, modify at 1. cbn [self trace ticks].
  unfold bind at 1, modify at 1. cbn [self trace ticks].
  unfold bind at 1, get at 1. cbn [self trace ticks].
  change (state (set_interrupt_stop_event true
                   (set_stop_recording_on_voice_deactivity false
                      (set_start_recording_on_voice_activity false r))))
    with (state r).
  change (StateMachine.value StateMachine.INACTIVE) with "inactive".
  destruct (String.eqb (state r) "inactive") eqn:E; cbn [negb].
  - unfold bind at 1, ret at 1.
    cbv [bind modify get ret self trace ticks].
    cbn [is_recording set_was_interrupted set_interrupt_stop_event
         set_stop_recording_on_voice_deactivity set_start_recording_on_voice_activity].
    rewrite Hrec.
    eexists. split; [reflexivity|]. cbn [self trace].
    apply String.eqb_eq in E.
    repeat split; first [reflexivity | exact E | exact Hrec].
  - specialize (Hack eq_refl).
    unfold bind at 1. unfold bind at 1.
    destruct waits as [|step waits]; cbn [Session.event_wait];
      unfold bind at 1, get at 1; cbn [self trace ticks];
      change (was_interrupted (set_interrupt_stop_event true
                (set_stop_recording_on_voice_deactivity false
                   (set_start_recording_on_voice_activity false r))))
        with (was_interrupted r);
      rewrite Hack; unfold ret at 1;
      unfold bind at 1;
      match goal with
      | |- context [_set_state ?s ?W] =>
          destruct (set_state_value StateMachine.TRANSCRIBING W)
            as [h [evs [Heq Hevs]]];
          rewrite Heq
      end;
      unfold ret at 1;
      cbv [bind modify get ret self trace ticks];
      cbn [is_recording set_was_interrupted set_interrupt_stop_event set_halo
           set_state set_stop_recording_on_voice_deactivity
           set_start_recording_on_voice_activity];
      rewrite Hrec;
      eexists; (split; [reflexivity|]); cbn [self trace];
      repeat split; rewrite ?sends_app, ?Hevs, ?app_nil_r;
      first [reflexivity | exact Hrec].
Qed.

End AbortFacts.

(** A recorder that is listening and has acknowledged an interruption. *)
Lemma abort_leaves_transcribing_witness :
  let w := Recorder.mkWorld
             (Recorder.set_was_interrupted true
                (Recorder.set_state "listening" Demo.recorder0)) [] 0 in
  exists w',
    Session.abort Demo.clock [] w = (Recorder.Val true, w')
    /\ Recorder.state (Recorder.self w') = "transcribing"
    /\ Recorder.interrupt_stop_event (Recorder.self w') = true
    /\ Recorder.was_interrupted (Recorder.self w') = false
    /\ Recorder.start_recording_on_voice_activity (Recorder.self w') = false
    /\ Recorder.stop_recording_on_voice_deactivity (Recorder.self w') = false
    /\ Recorder.is_recording (Recorder.self w') = false
    /\ sends (Recorder.trace w') = [].
Proof.
  intros w.
  apply (@abort_leaves_transcribing unit nat unit Demo.clock [] w);
    [reflexivity | intros _; reflexivity].
Defined.

Section WakeRoundFacts.

Import Recorder.

Context {WebRtc Silero Detector : Type}.
Context {IW : Vad.WebRtcVadModel WebRtc} {IS : Vad.SileroVadModel Silero}
        {ID : WakeWord.IWakeWordDetector Detector}.
Variable resample_poly : list Z -> Z -> Z -> list float.
Variable clock : nat -> float.

#[local] Abbreviation World := (@World WebRtc Silero Detector).
#[local] Abbreviation M := (@M WebRtc Silero Detector).

(** A request for a recognised state sends nothing and does not call
    [on_wakeword_detected]. *)
Lemma set_state_quiet :
  forall (s : StateMachine.RecorderState) (w : World),
    exists (h : option StateMachine.Halo) (evs : list Event),
      _set_state (StateMachine.value s) w
      = (Val tt,
         mkWorld (set_halo h (set_state (StateMachine.value s) (self w)))
                 (trace w ++ evs) (ticks w))
      /\ sends evs = []
      /\ calls CbWakewordDetected evs = 0.
Proof.
  intros s w.
  destruct (set_state_value s w) as [h [evs [Heq Hs]]].
  destruct (set_state_callbacks s w) as [h2 [evs2 [Heq2 Hc]]].
  exists h, evs. split; [exact Heq|]. split; [exact Hs|].
  rewrite Heq in Heq2. inversion Heq2 as [[Hh Ht]].
  apply app_inv_head in Ht. subst evs2.
  unfold calls. rewrite Hc.
  unfold leaving_callbacks, entering_callbacks.
  destruct (String.eqb (state (self w)) (StateMachine.value s)); [reflexivity|].
  destruct (String.eqb (state (self w)) "listening");
    destruct (String.eqb (state (self w)) "wakeword");
    destruct s; cbn;
    repeat match goal with
           | |- context [if ?b then _ else _] => destruct b; cbn
           end; reflexivity.
Qed.

(** The branch of a recorder that does not record, on a chunk in which
    the detector hears a wake word while no voice is active. *)
Lemma not_recording_wakeword :
  forall (data : bytes) (L : Locals) (w : World) (d d' : Detector) (index n : Z)
         (flag : bool) (m : WebRtc),
    use_wake_words (cfg (self w)) = true ->
    truthy (listen_start (self w)) = true ->
    fgt (fsub (clock (ticks w)) (listen_start (self w)))
        (wake_word_activation_delay (cfg (self w))) = true ->
    wakeword_detected (self w) = false ->
    wakeword_detector (self w) = Some d ->
    WakeWord.process d data = (Some index, d') ->
    0 <= index ->
    int_of_float (fmul (float_of_int (sample_rate (cfg (self w))))
                       (wake_word_buffer_duration (cfg (self w)))) = Some n ->
    is_webrtc_speech_active (self w) && is_silero_speech_active (self w) = false ->
    Vad.webrtc_is_speech resample_poly (webrtc_vad_model (self w)) data
                         (sample_rate (cfg (self w))) false = Some (flag, m) ->
    exists L' w',
      worker_not_recording resample_poly clock data L w = (Val L', w')
      /\ ticks w' = (ticks w + 3)%nat
      /\ wakeword_detected (self w') = true
      /\ wake_word_detect_time (self w') = clock (ticks w + 1)
      /\ wakeword_samples_to_remove L' = Some n
      /\ wakeword_detector (self w') = Some d'
      /\ calls CbWakewordDetected (trace w')
         = calls CbWakewordDetected (trace w)
           + Z.b2z (on_wakeword_detected (cfg (self w)))
      /\ is_recording (self w') = is_recording (self w)
      /\ frames (self w') = frames (self w)
      /\ audio_queue (self w') = audio_queue (self w)
      /\ cfg (self w') = cfg (self w)
      /\ sends (trace w') = sends (trace w).
Proof.
  intros data L [r t k] d d' index n flag m
         Hwake Hlisten Hdelay Hdet Hd Hproc Hidx Hn Hvoice Hgate.
  cbn [self trace ticks] in *.
  assert (Hge : (index >=? 0) = true) by (apply Z.geb_le; exact Hidx).
  unfold worker_not_recording.
  cbv [bind get when call emit ret time_time modify].
  cbn [self trace ticks].
  rewrite Hwake, Hlisten. cbv beta iota. cbn [self trace ticks].
  rewrite Hdelay. cbn [andb orb negb].
  rewrite Hdet. cbn [negb andb].
  destruct (delay_was_passed L); destruct (truthy (wake_word_activation_delay (cfg r)));
    destruct (truthy (recording_stop_time r));
    cbn [negb self trace ticks].
  all: try match goal with
  | |- context [_set_state "wakeword" ?W] =>
      destruct (set_state_quiet StateMachine.WAKEWORD W) as [h [evs [Heq [Hs Hc]]]];
      change (StateMachine.value StateMachine.WAKEWORD) with "wakeword" in Heq;
      rewrite Heq
  end.
  all: cbn [self trace ticks].
  all: unfold _process_wakeword;
       cbv [bind get when call emit ret time_time modify log];
       cbn [self trace ticks wakeword_detector set_halo set_state];
       rewrite Hd, Hproc, Hge;
       cbn [self trace ticks cfg set_wakeword_detector set_halo set_state
            set_wake_word_detect_time];
       rewrite (py_int_value _ _ _ Hn);
       cbn [self trace ticks wakeword_detected set_wakeword_detected].
  all: unfold _is_voice_active;
       cbv [bind get ret];
       cbn [self trace ticks is_webrtc_speech_active is_silero_speech_active
            set_wakeword_detected set_wakeword_detector set_halo set_state
            set_wake_word_detect_time];
       rewrite Hvoice.
  all: unfold _check_voice_activity, _is_webrtc_speech;
       cbv [bind get ret modify lift emit];
       cbn [self trace ticks webrtc_vad_model cfg
            set_wakeword_detected set_wakeword_detector set_halo set_state
            set_wake_word_detect_time];
       rewrite Hgate;
       cbn [self trace ticks fst snd is_webrtc_speech_active silero_working
            set_is_webrtc_speech_active set_webrtc_vad_model
            set_wakeword_detected set_wakeword_detector set_halo set_state
            set_wake_word_detect_time].
  all: destruct flag; [destruct (silero_working r)|]; cbn [negb self trace ticks].
  all: do 2 eexists; (split; [reflexivity|]).
  all: cbn [self trace ticks wakeword_samples_to_remove].
  all: replace (k + 3)%nat with (S (S (S k))) by lia;
       replace (k + 1)%nat with (S k) by lia.
  all: repeat split;
       rewrite ?calls_app, ?sends_app, ?sends_fire, ?Hs, ?Hc, ?app_nil_r;
       try reflexivity.
  all: assert (F1 : forall b, calls CbWakewordDetected
                                   (StateMachine.fire b CbWakewordDetected) = Z.b2z b)
         by (intros []; reflexivity);
       assert (F2 : forall b, calls CbWakewordDetected
                                   (StateMachine.fire b CbWakewordTimeout) = 0)
         by (intros []; reflexivity);
       assert (F3 : forall x, calls CbWakewordDetected [EvThreadStart x] = 0)
         by reflexivity;
       rewrite ?F1, ?F2, ?F3; lia.
Qed.

(** The end of a round while the wake-word timeout has not passed: the
    clock is read once, and once more for the timeout when a time of
    detection is set. *)
Lemma worker_finish_wake :
  forall (data : bytes) (L : Locals) (failed : bool) (w : World),
    truthy (wake_word_detect_time (self w))
    && fgt (fsub (clock (ticks w + 1)) (wake_word_detect_time (self w)))
           (wake_word_timeout (cfg (self w))) = false ->
    exists L' w',
      worker_finish clock data L failed w = (Val L', w')
      /\ wakeword_detected (self w') = wakeword_detected (self w)
      /\ wakeword_detector (self w') = wakeword_detector (self w)
      /\ trace w' = trace w.
Proof.
  intros data L failed [r t k0] Hout. cbn [self trace ticks] in *.
  replace (k0 + 1)%nat with (S k0) in Hout by lia.
  cbv [worker_finish bind get modify when time_time call emit ret].
  cbn [self trace ticks].
  destruct (is_recording r) eqn:Hrec; destruct failed; destruct (was_recording L);
    cbn [negb andb orb self trace ticks];
    destruct (fgt _ (decimal 1 10));
    destruct (truthy (wake_word_detect_time r));
    cbn [negb andb orb self trace ticks] in Hout |- *;
    rewrite ?Hout;
    cbn [negb andb orb self trace ticks is_recording speech_end_silence_start
         set_frames set_silero_check_time set_stop_recording_on_voice_deactivity];
    rewrite ?Hrec;
    cbn [negb andb orb self trace ticks];
    try destruct (truthy (speech_end_silence_start r));
    cbn [negb andb orb self trace ticks];
    do 2 eexists; (split; [reflexivity|]); cbn [self trace];
    repeat split; reflexivity.
Qed.

(** X27.  The round that hears a wake word.  The recorder does not
    record and uses wake words; at the first reading of the clock after
    those for the buffer message it has been listening for longer than
    the activation delay; the detector finds a wake word in the chunk,
    which takes two readings, the first being the time of detection; no
    voice is active yet; and at the second reading at the end of the
    round the wake-word timeout has not passed since the detection.
    Then the round marks the wake word as
    detected and calls [on_wakeword_detected] once, when it is
    registered; it notes [int(sample_rate * wake_word_buffer_duration)]
    samples to strip from the recording to come; it keeps the detector
    in its new state.  Nothing is recorded or sent in this round. *)
Theorem wake_word_is_heard :
  forall (L : Locals) (w : World) (data : bytes) (queue : list bytes)
         (d d' : Detector) (index n : Z) (flag : bool) (m : WebRtc),
    audio_queue (self w) = data :: queue ->
    len queue <= allowed_latency_limit (cfg (self w)) ->
    is_recording (self w) = false ->
    use_wake_words (cfg (self w)) = true ->
    truthy (listen_start (self w)) = true ->
    fgt (fsub (clock (round_reading clock L w 0)) (listen_start (self w)))
        (wake_word_activation_delay (cfg (self w))) = true ->
    truthy (clock (round_reading clock L w 1))
    && fgt (fsub (clock (round_reading clock L w 4)) (clock (round_reading clock L w 1)))
           (wake_word_timeout (cfg (self w))) = false ->
    wakeword_detected (self w) = false ->
    wakeword_detector (self w) = Some d ->
    WakeWord.process d data = (Some index, d') ->
    0 <= index ->
    int_of_float (fmul (float_of_int (sample_rate (cfg (self w))))
                       (wake_word_buffer_duration (cfg (self w)))) = Some n ->
    is_webrtc_speech_active (self w) && is_silero_speech_active (self w) = false ->
    Vad.webrtc_is_speech resample_poly (webrtc_vad_model (self w)) data
                         (sample_rate (cfg (self w))) false = Some (flag, m) ->
    exists L' w',
      _recording_worker_round resample_poly clock L w = (Val (Next, L'), w')
      /\ wakeword_detected (self w') = true
      /\ wakeword_samples_to_remove L' = Some n
      /\ wakeword_detector (self w') = Some d'
      /\ calls CbWakewordDetected (trace w')
         = calls CbWakewordDetected (trace w)
           + Z.b2z (on_wakeword_detected (cfg (self w)))
      /\ is_recording (self w') = false
      /\ frames (self w') = frames (self w)
      /\ sends (trace w') = sends (trace w).
Proof.
  intros L w data queue d d' index n flag m Hq Hlimit Hrec Hwake Hlisten Hdelay Hout
         Hdet Hd Hproc Hidx Hn Hvoice Hgate.
  unfold round_reading in *. rewrite Nat.add_0_r in Hdelay.
  destruct (get_chunk_value w data queue Hq Hlimit) as [evs Hget].
  assert (Hevs : sends evs = [] /\ calls CbWakewordDetected evs = 0).
  { unfold worker_get_chunk, bind, get, modify, when, emit, log, ret in Hget.
    cbn [self trace ticks] in Hget. rewrite Hq in Hget.
    cbn [self trace ticks cfg set_audio_queue set_last_words_buffer] in Hget.
    assert (E : (len queue >? allowed_latency_limit (cfg (self w))) = false)
      by (rewrite Z.gtb_ltb; apply Z.ltb_ge; exact Hlimit).
    rewrite E, (discard_backlog_within_limit _ _ data Hlimit) in Hget.
    destruct (on_recorded_chunk (cfg (self w)));
      destruct (handle_buffer_overflow (cfg (self w)));
      cbn [self trace ticks] in Hget; inversion Hget as [Ht];
      rewrite ?app_nil_r in Ht;
      try (apply app_inv_head in Ht; subst evs; split; reflexivity);
      try (rewrite <- (app_nil_r (trace w)) in Ht at 1;
           apply app_inv_head in Ht; subst evs; split; reflexivity). }
  destruct Hevs as [Hevs Hcev].
  unfold _recording_worker_round.
  rewrite (bind_value _ _ _ _ _ _ _ Hget). cbv beta iota.
  unfold bind at 1.
  match goal with
  | |- context [worker_buffer_message_time clock L ?W] =>
      destruct (buffer_message_time_readings clock L W) as [t1 Htime]
  end.
  rewrite Htime.
  unfold bind at 1, get at 1. cbn [self].
  change (is_recording (set_audio_queue queue
            (set_last_words_buffer (dq_append data (last_words_buffer (self w)))
               (self w)))) with (is_recording (self w)).
  rewrite Hrec. cbn [negb].
  unfold bind at 1. unfold bind at 1.
  match goal with
  | |- context [worker_not_recording _ _ data ?L1 ?W] =>
      pose (L1' := L1); pose (W' := W)
  end.
  pose proof (@not_recording_wakeword data L1' W' d d' index n flag m
                Hwake Hlisten Hdelay Hdet Hd Hproc Hidx Hn Hvoice Hgate) as Hx.
  subst L1' W'.
  destruct Hx as [L2 [w2 [Hbranch [K2 [D2 [T2 [N2 [E2 [C2 [R2 [F2 [Q2 [G2 S2]]]]]]]]]]]]].
  rewrite Hbranch. unfold ret at 1. cbn [fst snd].
  destruct (worker_finish_frames clock data L2 false w2)
    as [L3 [w3 [Hfin [F3 [R3 [N3 _]]]]]].
  destruct (worker_finish_wake data L2 false w2) as [L3' [w3' [Hfin' [D3 [E3 T3]]]]].
  { rewrite T2, K2, G2. cbn [self trace ticks cfg set_audio_queue set_last_words_buffer].
    replace (ticks w + buffer_message_readings clock L (ticks w) + 3 + 1)%nat
      with (ticks w + buffer_message_readings clock L (ticks w) + 4)%nat by lia.
    exact Hout. }
  rewrite Hfin in Hfin'. inversion Hfin'. subst L3' w3'.
  unfold bind at 1. rewrite Hfin. unfold ret.
  exists L3, w3. split; [reflexivity|].
  cbn [self trace] in *.
  change (is_recording (set_audio_queue queue
            (set_last_words_buffer (dq_append data (last_words_buffer (self w)))
               (self w)))) with (is_recording (self w)) in *.
  rewrite Hrec in *. rewrite R2 in *. cbn [negb andb] in *.
  repeat split.
  - rewrite D3. exact D2.
  - rewrite N3. exact N2.
  - rewrite E3. exact E2.
  - rewrite T3, C2, calls_app, Hcev.
    cbn [cfg self set_audio_queue set_last_words_buffer]. lia.
  - exact R3.
  - rewrite F3, F2. reflexivity.
  - rewrite T3, S2, sends_app, Hevs, app_nil_r. reflexivity.
Qed.

End WakeRoundFacts.

(** The recorder with the wake word "jarvis" listens, under a clock that
    advances with every reading; a chunk of silence comes in and then a
    chunk that starts with the byte that the detector of the examples
    hears.  At 16 kHz a tenth of a second is 1600 samples. *)
Lemma wake_word_is_heard_witness :
  let data := Demo.chunk_of x77 512 in
  let w0 := snd (Recorder.wait_audio_arm Demo.clock
                   (Recorder.mkWorld Demo.wake_recorder [] 0)) in
  let s1 := run_rounds Demo.resample_poly Demo.clock 1
              (Recorder.mkLocals fzero false false None None)
              (Recorder.mkWorld
                 (Recorder.set_audio_queue [Demo.chunk_of x01 512; data]
                                           (Recorder.self w0))
                 (Recorder.trace w0) (Recorder.ticks w0)) in
  let w := snd s1 in
  Recorder.listen_start (Recorder.self w) = Demo.clock 0
  /\ Recorder.state (Recorder.self w) = "wakeword"
  /\ exists L' w',
      Recorder._recording_worker_round Demo.resample_poly Demo.clock (fst s1) w
      = (Recorder.Val (Recorder.Next, L'), w')
      /\ Recorder.wakeword_detected (Recorder.self w') = true
      /\ Recorder.wakeword_samples_to_remove L' = Some 1600
      /\ Recorder.wakeword_detector (Recorder.self w') = Some tt
      /\ calls CbWakewordDetected (Recorder.trace w')
         = calls CbWakewordDetected (Recorder.trace w)
           + Z.b2z (Recorder.on_wakeword_detected (Recorder.cfg (Recorder.self w)))
      /\ Recorder.is_recording (Recorder.self w') = false
      /\ Recorder.frames (Recorder.self w') = Recorder.frames (Recorder.self w)
      /\ sends (Recorder.trace w') = sends (Recorder.trace w).
Proof.
  intros data w0 s1 w.
  split; [vm_compute; reflexivity|]. split; [vm_compute; reflexivity|].
  apply (@wake_word_is_heard unit nat unit _ _ _ Demo.resample_poly Demo.clock
           (fst s1) w data [] tt tt 0 1600 false tt);
    first [vm_compute; reflexivity | lia | vm_compute; discriminate].
Defined.
